(** * chatbot-support: the RAG core (router, retrieval scoring, prompt
    assembly, conversation window) embedded in Rocq.

    Source files embedded here:
    - [backend/app/core/config.py]          (Settings, the model configuration)
    - [backend/app/core/llm_providers.py]   (the three providers, LLMManager)
    - [backend/app/models/embeddings.py]    (EmbeddingModel, DocumentChunker,
                                             HybridSearch)
    - [backend/app/models/vector_store.py]  (ChromaVectorStore, VectorStoreManager)
    - [backend/app/models/rag_engine.py]    (RAGEngine, ConversationManager,
                                             RAGPipeline)
    - [backend/app/services/chat_service.py]    (ChatService.process_message)
    - [backend/app/services/confluence_sync.py] (ConfluenceSync)
    - [backend/app/api/websocket.py]        (ConnectionManager, the chat handler)
    - [backend/app/api/chat.py]             (send_message)

    Conventions.  A Python call that may raise is a value of [outcome]; a
    [try: ... except Exception: ...] block is [try_except].  Python floats are
    read through the interface [Arith], with two instances: IEEE-754 binary64
    ([spec_float] of the Standard Library, with NaN and infinities), which
    is what the code runs, and exact rationals ([Q], rounding idealised
    away), used only where a statement says so.  Dictionaries whose iteration
    order matters are association lists; the others are [gmap]s.  Python
    lists that are mutated in place live in an explicit store of list
    objects. *)

From Stdlib Require Import ZArith QArith Qround Lia Lqa List Sorted.
From Stdlib Require Import Floats.SpecFloat.
From stdpp Require Import gmap strings list fin_maps pretty.

Local Open Scope string_scope.
Local Open Scope list_scope.

(* ===================================================================== *)
(** * Python prelude                                                      *)
(* ===================================================================== *)

(** An instance of Python's [Exception], carrying [str(e)].  Signals that
    derive from [BaseException] only (task cancellation, interpreter exit)
    are not exceptions in this sense and are outside the model. *)
Inductive exn : Type :=
| Exception (msg : string).

Definition exn_str (e : exn) : string :=
  match e with Exception m => m end.

(** The result of evaluating a Python expression: a value or a raised
    exception. *)
Inductive outcome (A : Type) : Type :=
| Returns (a : A)
| Raises (e : exn).

Arguments Returns {A} a.
Arguments Raises {A} e.

Definition bind_outcome {A B : Type} (c : outcome A) (k : A -> outcome B) : outcome B :=
  match c with
  | Returns a => k a
  | Raises e => Raises e
  end.

(** [try: body  except Exception as e: handler(e)].  The handler is code
    too and may raise in its turn. *)
Definition try_except {A : Type} (body : outcome A) (handler : exn -> outcome A)
    : outcome A :=
  match body with
  | Returns a => Returns a
  | Raises e => handler e
  end.

#[export] Instance outcome_ret : MRet outcome := fun A a => Returns a.
#[export] Instance outcome_bind : MBind outcome := fun A B k c => bind_outcome c k.

(** [lst[i]] for a non-negative index. *)
Definition py_index {A : Type} (l : list A) (i : nat) : outcome A :=
  match l !! i with
  | Some a => Returns a
  | None => Raises (Exception "list index out of range")
  end.

(** [lst[-n:]] for an integer [n >= 0].  Python reads [-0] as [0], so
    [lst[-0:]] is the whole list. *)
Definition py_slice_last {A : Type} (n : nat) (l : list A) : list A :=
  match n with
  | O => l
  | S _ => drop (length l - n) l
  end.

(** [lst[:k]] for an integer [k >= 0]. *)
Definition py_slice_first {A : Type} (k : nat) (l : list A) : list A :=
  take k l.

(** The line feed, Python's ["\n"]. *)
Definition nl : string := String (Ascii.ascii_of_nat 10) EmptyString.

(** [sep.join(parts)] *)
Definition str_join (sep : string) (parts : list string) : string :=
  String.concat sep parts.

(** Truthiness of a string: [bool(s)]. *)
Definition str_truthy (s : string) : bool :=
  match s with
  | EmptyString => false
  | String _ _ => true
  end.

(** Truthiness of a list: [bool(l)]. *)
Definition list_truthy {A : Type} (l : list A) : bool :=
  match l with
  | [] => false
  | _ :: _ => true
  end.

(** ** Float arithmetic *)

(** The operations the sources apply to Python floats.  [f_of_nat] is the
    conversion Python performs when an [int] meets a [float]. *)
Class Arith (F : Type) : Type := {
  f_of_nat : nat -> F;
  f_add : F -> F -> F;
  f_sub : F -> F -> F;
  f_mul : F -> F -> F;
  f_div : F -> F -> F;
  f_ltb : F -> F -> bool;
  f_leb : F -> F -> bool
}.

(** IEEE-754 binary64, the format of Python's [float] and of
    [numpy.float64]. *)
Module Binary64.

Definition prec : Z := 53.
Definition emax : Z := 1024.

Definition float : Type := spec_float.

Definition of_Z (z : Z) : float := binary_normalize prec emax z 0 false.
Definition add : float -> float -> float := SFadd prec emax.
Definition sub : float -> float -> float := SFsub prec emax.
Definition mul : float -> float -> float := SFmul prec emax.
Definition div : float -> float -> float := SFdiv prec emax.
Definition sqrt : float -> float := SFsqrt prec emax.
Definition ltb : float -> float -> bool := SFltb.
Definition leb : float -> float -> bool := SFleb.

Definition nan : float := S754_nan.
Definition zero : float := S754_zero false.

Definition is_nan (x : float) : bool :=
  match x with
  | S754_nan => true
  | _ => false
  end.

(** [x] is [0.0] or [-0.0]. *)
Definition is_zero (x : float) : Prop :=
  match x with
  | S754_zero _ => True
  | _ => False
  end.

(** The float denoted by the decimal literal [n/10^k] (correctly rounded,
    as the Python parser does). *)
Definition lit (n : Z) (k : nat) : float := div (of_Z n) (of_Z (10 ^ Z.of_nat k)).

(** Every value of Python's [float] is a binary64 number: its
    representation is canonical.  [spec_float] also has representations
    that are not (a mantissa with too few or too many digits for its
    exponent); no operation returns one. *)
Definition valid (x : float) : Prop := valid_binary prec emax x = true.

(** The numbers [0 <= x < infinity] in canonical representation: a zero,
    or a positive finite number. *)
Definition finite_nonneg (x : float) : Prop :=
  match x with
  | S754_zero _ => True
  | S754_finite false m e => bounded prec emax m e = true
  | _ => False
  end.

(** The value of such a number as an integer, in units of [2^-2200]:
    every binary64 number, and every exact product of two of them, is a
    whole number of these units. *)
Definition scale : Z := 2200.

Definition value (x : float) : Z :=
  match x with
  | S754_finite false m e => Zpos m * 2 ^ (e + scale)
  | _ => 0
  end.

(** The numbers of the interval [0, 1]. *)
Definition in_unit (x : float) : Prop :=
  finite_nonneg x /\ (value x <= 2 ^ scale)%Z.

End Binary64.

#[export] Instance binary64_arith : Arith Binary64.float := {
  f_of_nat n := Binary64.of_Z (Z.of_nat n);
  f_add := Binary64.add;
  f_sub := Binary64.sub;
  f_mul := Binary64.mul;
  f_div := Binary64.div;
  f_ltb := Binary64.ltb;
  f_leb := Binary64.leb
}.

(** Exact rational arithmetic: floats with rounding idealised away.
    ([Qdiv] by zero is [0]; every division of the sources read through
    this instance is guarded.) *)
#[export] Instance exact_arith : Arith Q := {
  f_of_nat n := inject_Z (Z.of_nat n);
  f_add := Qplus;
  f_sub := Qminus;
  f_mul := Qmult;
  f_div := Qdiv;
  f_ltb x y := negb (Qle_bool y x);
  f_leb := Qle_bool
}.

(* ===================================================================== *)
(** * core/config.py                                                      *)
(* ===================================================================== *)

Module Config.

(** The fields of [Settings] the core reads. *)
Record Settings (F : Type) : Type := {
  default_model : string;
  fallback_models : list string;
  max_tokens : Z;
  temperature : F;
  top_k_results : nat;
  similarity_threshold : F
}.

Arguments default_model {F} _.
Arguments fallback_models {F} _.
Arguments max_tokens {F} _.
Arguments temperature {F} _.
Arguments top_k_results {F} _.
Arguments similarity_threshold {F} _.

(** The class defaults of [Settings]. *)
Definition defaults : Settings Binary64.float := {|
  default_model := "gigachat";
  fallback_models := ["deepseek"; "openai"];
  max_tokens := 4096;
  temperature := Binary64.lit 7 1;
  top_k_results := 5;
  similarity_threshold := Binary64.lit 7 1
|}.

End Config.

(** A chat message: [{"role": ..., "content": ...}]. *)
Record Message : Type := {
  role : string;
  content : string
}.

#[export] Instance Message_eq_dec : EqDecision Message.
Proof. solve_decision. Defined.

(* ===================================================================== *)
(** * core/llm_providers.py                                               *)
(* ===================================================================== *)

Module LLM.

Section Router.

Context {F : Type}.

(** Whatever the providers' calls depend on and change: network, clocks,
    cached access tokens. *)
Variable World : Type.

(** The dictionary a provider's [generate_response] returns.  A key that
    a branch leaves out is [None]. *)
Record LLMResult : Type := {
  content : option string;
  model : string;
  tokens_used : option Z;
  response_time : option F;
  error : option string;
  success : bool
}.

(** [**kwargs] of [generate_response]. *)
Record GenParams : Type := {
  kw_temperature : F;
  kw_max_tokens : Z
}.

(** One [LLMProvider]: its [generate_response], which returns a result
    dictionary or raises, and moves the world on. *)
Definition Provider : Type :=
  list Message -> GenParams -> World -> outcome LLMResult * World.

(** One step of the ghost log: the backend invoked and how its call
    ended. *)
Definition Attempt : Type := (string * outcome LLMResult)%type.

(** [model in self.providers] *)
Definition configured (providers : gmap string Provider) (m : string) : bool :=
  bool_decide (is_Some (providers !! m)).

(** [preferred_model and preferred_model in self.providers] *)
Definition preferred_usable (providers : gmap string Provider)
    (preferred_model : option string) : option string :=
  match preferred_model with
  | Some p => if str_truthy p && configured providers p then Some p else None
  | None => None
  end.

(** [[model for model in settings.fallback_models
      if model in self.providers and model != head]] *)
Definition fallbacks_except (providers : gmap string Provider)
    (fallback_models : list string) (head : string) : list string :=
  List.filter (fun m => configured providers m && negb (String.eqb m head))
    fallback_models.

(** Lines 274-284: [model_order]. *)
Definition model_order (st : Config.Settings F) (providers : gmap string Provider)
    (preferred_model : option string) : list string :=
  match preferred_usable providers preferred_model with
  | Some p => p :: fallbacks_except providers (Config.fallback_models st) p
  | None =>
      Config.default_model st
        :: fallbacks_except providers (Config.fallback_models st) (Config.default_model st)
  end.

(** Lines 307-313: the result returned when the loop falls through. *)
Definition unavailable : LLMResult := {|
  content := Some "Извините, в данный момент сервис недоступен. Попробуйте позже.";
  model := "fallback";
  tokens_used := None;
  response_time := None;
  error := Some "Все модели недоступны";
  success := false
|}.

(** Lines 286-313: the loop over [model_order].  Returns the result, the
    log of the calls made (oldest first) and the world after the last
    call. *)
Fixpoint try_models (providers : gmap string Provider) (messages : list Message)
    (kwargs : GenParams) (order : list string) (w : World)
    : LLMResult * list Attempt * World :=
  match order with
  | [] => (unavailable, [], w)
  | model_name :: rest =>
      match providers !! model_name with
      | None => try_models providers messages kwargs rest w
      | Some provider =>
          match provider messages kwargs w with
          | (Returns result, w') =>
              if success result
              then (result, [(model_name, Returns result)], w')
              else
                let '(r, log, w'') := try_models providers messages kwargs rest w' in
                (r, (model_name, Returns result) :: log, w'')
          | (Raises e, w') =>
              let '(r, log, w'') := try_models providers messages kwargs rest w' in
              (r, (model_name, Raises e) :: log, w'')
          end
      end
  end.

(** [LLMManager.generate_response] *)
Definition generate_response (st : Config.Settings F) (providers : gmap string Provider)
    (messages : list Message) (preferred_model : option string) (kwargs : GenParams)
    (w : World) : LLMResult * list Attempt * World :=
  try_models providers messages kwargs (model_order st providers preferred_model) w.

(** The backends of [model_order] the loop does not skip: the order in
    which backends are attempted. *)
Definition attempt_order (st : Config.Settings F) (providers : gmap string Provider)
    (preferred_model : option string) : list string :=
  List.filter (configured providers) (model_order st providers preferred_model).

(** [invoked providers messages kwargs w log w'] : calling, from world
    [w], the providers named in [log] one after the other gives the
    outcomes recorded in [log] and ends in world [w']. *)
Inductive invoked (providers : gmap string Provider) (messages : list Message)
    (kwargs : GenParams) : World -> list Attempt -> World -> Prop :=
| invoked_nil w : invoked providers messages kwargs w [] w
| invoked_cons w name provider o w' log w'' :
    providers !! name = Some provider ->
    provider messages kwargs w = (o, w') ->
    invoked providers messages kwargs w' log w'' ->
    invoked providers messages kwargs w ((name, o) :: log) w''.

(** An attempt that did not end the loop. *)
Definition failed (a : Attempt) : Prop :=
  match a.2 with
  | Returns r => success r = false
  | Raises _ => True
  end.

(** The attempt order as section 4.4 of the specification words it:
    the preferred backend when usable, then the default backend unless
    already included, then the fallback list without repetitions, each
    only when configured. *)
Fixpoint spec_append_new (providers : gmap string Provider) (acc : list string)
    (names : list string) : list string :=
  match names with
  | [] => acc
  | m :: rest =>
      if configured providers m && negb (bool_decide (m ∈ acc))
      then spec_append_new providers (acc ++ [m]) rest
      else spec_append_new providers acc rest
  end.

Definition spec_attempt_order (st : Config.Settings F) (providers : gmap string Provider)
    (preferred_model : option string) : list string :=
  let start :=
    match preferred_usable providers preferred_model with
    | Some p => [p]
    | None => []
    end in
  spec_append_new providers start
    (Config.default_model st :: Config.fallback_models st).

End Router.

Arguments content {F} _.
Arguments model {F} _.
Arguments tokens_used {F} _.
Arguments response_time {F} _.
Arguments error {F} _.
Arguments success {F} _.
Arguments unavailable {F}.
Arguments failed {F} _.

End LLM.

(* ===================================================================== *)
(** * Concrete configurations used as test inputs                         *)
(* ===================================================================== *)

Module Fixtures.

(** A provider whose endpoint is unreachable: every call raises. *)
Definition provider_down : LLM.Provider (F:=Binary64.float) unit :=
  fun _ _ w => (Raises (Exception "Cannot connect to host"), w).

(** A provider that answers. *)
Definition provider_up (name : string) : LLM.Provider (F:=Binary64.float) unit :=
  fun _ _ w =>
    (Returns {| LLM.content := Some "ok"; LLM.model := name;
                LLM.tokens_used := Some 12%Z;
                LLM.response_time := Some (Binary64.lit 5 1);
                LLM.error := None; LLM.success := true |}, w).

(** API keys set for GigaChat and DeepSeek, none for OpenAI. *)
Definition gigachat_and_deepseek : gmap string (LLM.Provider (F:=Binary64.float) unit) :=
  <["gigachat" := provider_up "gigachat"]> (<["deepseek" := provider_down]> ∅).

(** Only the GigaChat key set (scenario B of the specification). *)
Definition gigachat_only : gmap string (LLM.Provider (F:=Binary64.float) unit) :=
  <["gigachat" := provider_up "gigachat"]> ∅.

End Fixtures.

(* ===================================================================== *)
(** * models/rag_engine.py : ConversationManager                          *)
(* ===================================================================== *)

Module Conversation.

Section Manager.

Context {F : Type}.

(** One entry of a conversation history: [{"role", "content"}] as the
    chat service builds it, with the ["timestamp"] that
    [update_conversation_history] adds. *)
Record Turn : Type := {
  turn_role : string;
  turn_content : string;
  turn_timestamp : option F
}.

(** [ConversationManager]: the attribute set in [__init__]. *)
Record ConversationManager : Type := {
  max_context_length : nat
}.

(** [ConversationManager.__init__] *)
Definition init : ConversationManager := {| max_context_length := 10 |}.

(** [msg.get("role") in ["user", "assistant"]] *)
Definition role_kept (msg : Turn) : bool :=
  bool_decide (turn_role msg ∈ ["user"; "assistant"]).

(** [{"role": msg["role"], "content": msg["content"]}] *)
Definition to_message (msg : Turn) : Message :=
  {| role := turn_role msg; content := turn_content msg |}.

(** Lines 214-231.  The [for] loop appends to [filtered_messages]. *)
Definition _prepare_session_context (self : ConversationManager)
    (conversation_history : option (list Turn)) : list Message :=
  match conversation_history with
  | None => []
  | Some history =>
      if negb (list_truthy history) then []
      else
        let recent_messages := py_slice_last (max_context_length self) history in
        fold_left
          (fun filtered_messages msg =>
             if role_kept msg
             then filtered_messages ++ [to_message msg]
             else filtered_messages)
          recent_messages []
  end.

(** ** The store of list objects *)

(** A Python list is an object: a reference into a store that holds its
    current elements.  Two names may hold the same reference. *)
Definition ref : Type := positive.

Definition list_get (σ : gmap ref (list Turn)) (l : ref) : list Turn :=
  default [] (σ !! l).

(** A new list object. *)
Definition list_alloc (σ : gmap ref (list Turn)) (elems : list Turn)
    : ref * gmap ref (list Turn) :=
  let l := fresh (dom σ) in (l, <[l := elems]> σ).

(** [l.append(x)]: in place. *)
Definition list_append (σ : gmap ref (list Turn)) (l : ref) (x : Turn)
    : gmap ref (list Turn) :=
  <[l := list_get σ l ++ [x]]> σ.

(** Lines 233-256.  [history] is [None] or a reference to the caller's
    list; [now1] and [now2] are the two readings of [time.time()]. *)
Definition update_conversation_history (self : ConversationManager)
    (history : option ref) (user_message assistant_response : string)
    (now1 now2 : F) (σ : gmap ref (list Turn)) : ref * gmap ref (list Turn) :=
  (* updated_history = history.copy() if history else [] *)
  let '(updated_history, σ) :=
    match history with
    | Some h =>
        if list_truthy (list_get σ h) then list_alloc σ (list_get σ h)
        else list_alloc σ []
    | None => list_alloc σ []
    end in
  let σ := list_append σ updated_history
             {| turn_role := "user"; turn_content := user_message;
                turn_timestamp := Some now1 |} in
  let σ := list_append σ updated_history
             {| turn_role := "assistant"; turn_content := assistant_response;
                turn_timestamp := Some now2 |} in
  if Nat.ltb (max_context_length self * 2) (length (list_get σ updated_history))
  then
    (* the slice is a new list object, bound to the local name *)
    list_alloc σ (py_slice_last (max_context_length self * 2)
                    (list_get σ updated_history))
  else (updated_history, σ).

End Manager.

Arguments Turn : clear implicits.

End Conversation.

Module ConversationFixtures.

(** Turn number [i] of a dialogue that the user opens: odd turns are the
    user's, even turns the assistant's. *)
Definition turn (i : nat) : Conversation.Turn Binary64.float :=
  {| Conversation.turn_role := if Nat.odd i then "user" else "assistant";
     Conversation.turn_content := pretty i;
     Conversation.turn_timestamp := None |}.

(** A history of twelve turns (scenario D of the specification). *)
Definition twelve_turns : list (Conversation.Turn Binary64.float) :=
  map turn (seq 1 12).

(** The same history with a stray system turn before the last turn. *)
Definition with_system_turn : list (Conversation.Turn Binary64.float) :=
  map turn (seq 1 11)
  ++ [ {| Conversation.turn_role := "system"; Conversation.turn_content := "notice";
          Conversation.turn_timestamp := None |}; turn 12 ].

(** A store in which the caller's history is list object 1. *)
Definition store : gmap Conversation.ref (list (Conversation.Turn Binary64.float)) :=
  {[ 1%positive := twelve_turns ]}.

End ConversationFixtures.

(* ===================================================================== *)
(** * models/vector_store.py                                              *)
(* ===================================================================== *)

Module VectorStore.

Section Store.

Context {F : Type} `{Arith F}.

(** What [collection.query] returns: one inner list per query
    embedding. *)
Record QueryResult : Type := {
  ids : list (list string);
  documents : list (list string);
  metadatas : list (list (gmap string string));
  distances : list (list F)
}.

(** One entry of [formatted_results]. *)
Record ContextResult : Type := {
  id : string;
  text : string;
  metadata : gmap string string;
  distance : F;
  similarity : F
}.

(** [embedding_model.encode_text] *)
Variable encode_text : string -> outcome (list F).

(** [self.collection.query(query_embeddings, n_results, where)], the
    nearest-neighbour index. *)
Variable collection_query :
  list (list F) -> nat -> option (gmap string string) -> outcome QueryResult.

(** [n_results or settings.top_k_results] *)
Definition n_results_or (n_results : option nat) (top_k : nat) : nat :=
  match n_results with
  | Some (S n) => S n
  | _ => top_k
  end.

(** Lines 108-114: the dictionary built for row [i].  Each subscript may
    raise [IndexError]. *)
Definition format_row (results : QueryResult) (i : nat) : outcome ContextResult :=
  ids0 ← py_index (ids results) 0;
  id_i ← py_index ids0 i;
  documents0 ← py_index (documents results) 0;
  text_i ← py_index documents0 i;
  metadatas0 ← py_index (metadatas results) 0;
  metadata_i ← py_index metadatas0 i;
  distances0 ← py_index (distances results) 0;
  distance_i ← py_index distances0 i;
  distances0' ← py_index (distances results) 0;
  distance_i' ← py_index distances0' i;
  mret {| id := id_i; text := text_i; metadata := metadata_i;
          distance := distance_i;
          similarity := f_sub (f_of_nat 1) distance_i' |}.

(** Lines 105-114: [for i in range(len(results["documents"][0]))]. *)
Fixpoint format_rows (results : QueryResult) (indices : list nat)
    (formatted_results : list ContextResult) : outcome (list ContextResult) :=
  match indices with
  | [] => mret formatted_results
  | i :: rest =>
      row ← format_row results i;
      format_rows results rest (formatted_results ++ [row])
  end.

(** [ChromaVectorStore.search_similar] *)
Definition search_similar (st : Config.Settings F) (query : string)
    (n_results : option nat) (filter_metadata : option (gmap string string))
    : outcome (list ContextResult) :=
  try_except
    (let n_results := n_results_or n_results (Config.top_k_results st) in
     query_embedding ← encode_text query;
     results ← collection_query [query_embedding] n_results filter_metadata;
     match documents results with
     | (_ :: _) as documents0 :: _ =>
         format_rows results (seq 0 (length documents0)) []
     | _ => mret []
     end)
    (fun e => mret []).

(** A result whose similarity is [1 - distance] as computed. *)
Definition derived (r : ContextResult) : Prop :=
  similarity r = f_sub (f_of_nat 1) (distance r).

(** [VectorStoreManager.search_relevant_context] *)
Definition search_relevant_context (st : Config.Settings F) (query : string)
    (filter_metadata : option (gmap string string)) (n_results : option nat)
    : outcome (list ContextResult) :=
  try_except
    (results ← search_similar st query n_results filter_metadata;
     let threshold := Config.similarity_threshold st in
     mret (List.filter (fun result => f_leb threshold (similarity result)) results))
    (fun e => mret []).

(** Row [i] of an index answer, read from the first inner list of each of
    its four fields. *)
Definition row_at (results : QueryResult) (i : nat)
    (r : ContextResult) : Prop :=
  default [] (ids results !! 0) !! i = Some (id r)
  /\ default [] (documents results !! 0) !! i = Some (text r)
  /\ default [] (metadatas results !! 0) !! i = Some (metadata r)
  /\ default [] (distances results !! 0) !! i = Some (distance r)
  /\ similarity r = f_sub (f_of_nat 1) (distance r).

(** The four fields all have a row [i]. *)
Definition row_present (results : QueryResult) (i : nat) : Prop :=
  i < length (default [] (ids results !! 0))
  /\ i < length (default [] (documents results !! 0))
  /\ i < length (default [] (metadatas results !! 0))
  /\ i < length (default [] (distances results !! 0)).

End Store.

Arguments QueryResult : clear implicits.
Arguments ContextResult : clear implicits.

End VectorStore.

(* ===================================================================== *)
(** * models/rag_engine.py : RAGEngine                                    *)
(* ===================================================================== *)

Module RAG.

Section Engine.

Context {F : Type} `{Arith F}.

(** Python's [format(x, ".2f")]. *)
Variable format_2f : F -> string.

(** [vector_store_manager.search_relevant_context(query, filter_metadata,
    n_results)] as the engine sees it: a call that returns or raises. *)
Variable vector_store_search :
  string -> option (gmap string string) -> option nat
  -> outcome (list (VectorStore.ContextResult F)).

(** [llm_manager.generate_response(messages, preferred_model, temperature,
    max_tokens)] as the engine sees it. *)
Variable llm_generate :
  list Message -> option string -> LLM.GenParams (F:=F)
  -> outcome (LLM.LLMResult (F:=F)).

(** [RAGEngine._get_system_prompt] *)
Definition _get_system_prompt : string :=
  "Ты - помощник поддержки разработчиков. Твоя задача - помогать разработчикам решать технические вопросы, связанные с:

1. CI/CD процессами и пайплайнами
2. Разработкой и деплоем приложений
3. Работой с базами данных и API
4. Отладкой и решением проблем
5. Лучшими практиками разработки

Используй предоставленный контекст для формирования точных и полезных ответов. Если в контексте нет информации для ответа, честно скажи об этом и предложи обратиться к команде поддержки.

Отвечай на русском языке, если вопрос задан на русском, и на английском, если вопрос задан на английском.

Форматируй ответы с использованием Markdown для лучшей читаемости кода и команд.".

(** [metadata.get(key)] when it is truthy. *)
Definition truthy_field (metadata : gmap string string) (key : string) : option string :=
  match metadata !! key with
  | Some v => if str_truthy v then Some v else None
  | None => None
  end.

(** Lines 138-153: the lines one result adds to [context_parts]. *)
Definition context_part (i : nat) (result : VectorStore.ContextResult F) : list string :=
  let text := VectorStore.text result in
  let metadata := VectorStore.metadata result in
  let similarity := VectorStore.similarity result in
  let source_info := "" in
  let source_info :=
    match truthy_field metadata "title" with
    | Some title => (source_info +:+ "Источник: " +:+ title)%string
    | None => source_info
    end in
  let source_info :=
    match truthy_field metadata "source_url" with
    | Some url => (source_info +:+ " (" +:+ url +:+ ")")%string
    | None => source_info
    end in
  [("--- Документ " +:+ pretty i +:+ " (сходство: " +:+ format_2f similarity
      +:+ ") ---")%string]
  ++ (if str_truthy source_info then [source_info] else [])
  ++ [(text +:+ nl)%string].

(** [for i, result in enumerate(context_results, 1)] *)
Fixpoint context_parts_from (i : nat) (context_results : list (VectorStore.ContextResult F))
    (context_parts : list string) : list string :=
  match context_results with
  | [] => context_parts
  | result :: rest =>
      context_parts_from (S i) rest (context_parts ++ context_part i result)
  end.

(** [RAGEngine._format_context_for_prompt] *)
Definition _format_context_for_prompt
    (context_results : list (VectorStore.ContextResult F)) : string :=
  if negb (list_truthy context_results) then ""
  else str_join nl (context_parts_from 1 context_results []).

(** [messages.append(x)] on the local list. *)
Definition append (messages : list Message) (x : Message) : list Message :=
  messages ++ [x].

(** [RAGEngine._build_messages] *)
Definition _build_messages (query : string)
    (context_results : list (VectorStore.ContextResult F))
    (session_context : option (list Message)) : list Message :=
  let messages := [] in
  let messages := append messages {| role := "system"; content := _get_system_prompt |} in
  let messages :=
    if list_truthy context_results
    then
      let context_text := _format_context_for_prompt context_results in
      append messages
        {| role := "system";
           content := ("Контекст для ответа:" +:+ nl +:+ nl +:+ context_text +:+ nl +:+ nl
                       +:+ "Используй эту информацию для формирования ответа.")%string |}
    else messages in
  let messages :=
    match session_context with
    | Some ((_ :: _) as history) => messages ++ history
    | _ => messages
    end in
  append messages {| role := "user"; content := query |}.

(** One entry of [context_sources]. *)
Record Source : Type := {
  source_id : string;
  source_title : string;
  source_url : option string;
  source_similarity : F
}.

(** [RAGEngine._format_context_sources] *)
Definition _format_context_sources
    (context_results : list (VectorStore.ContextResult F)) : list Source :=
  fold_left
    (fun sources result =>
       let metadata := VectorStore.metadata result in
       sources ++ [ {| source_id := VectorStore.id result;
                       source_title := default "Неизвестный источник" (metadata !! "title");
                       source_url := metadata !! "source_url";
                       source_similarity := VectorStore.similarity result |} ])
    context_results [].

(** [RAGEngine._format_similarity_scores] *)
Definition _format_similarity_scores
    (context_results : list (VectorStore.ContextResult F)) : list F :=
  map VectorStore.similarity context_results.

(** [RAGEngine._retrieve_context] *)
Definition _retrieve_context (st : Config.Settings F) (query user_role : string)
    : outcome (list (VectorStore.ContextResult F)) :=
  try_except
    (let filter_metadata :=
       if negb (String.eqb user_role "developer")
       then Some ({[ "user_role" := user_role ]} : gmap string string)
       else None in
     context_results ←
       vector_store_search query filter_metadata (Some (Config.top_k_results st));
     mret context_results)
    (fun e => mret []).

(** The dictionary [process_query] returns.  The [except] branch leaves
    out [tokens_used], [context_sources] and [similarity_scores]. *)
Record RAGResult : Type := {
  content : option string;
  model_used : string;
  tokens_used : option Z;
  response_time : F;
  context_sources : option (list Source);
  similarity_scores : option (list F);
  success : bool;
  error : option string
}.

(** Lines 38-69: the body of the [try]. *)
Definition process_query_body (st : Config.Settings F) (query : string)
    (session_context : option (list Message)) (user_role : string)
    (preferred_model : option string) (start_time end_time : F) : outcome RAGResult :=
  context_results ← _retrieve_context st query user_role;
  let messages := _build_messages query context_results session_context in
  llm_response ← llm_generate messages preferred_model
                   {| LLM.kw_temperature := Config.temperature st;
                      LLM.kw_max_tokens := Config.max_tokens st |};
  let response_time := f_sub end_time start_time in
  mret {| content := LLM.content llm_response;
          model_used := LLM.model llm_response;
          tokens_used := Some (default 0%Z (LLM.tokens_used llm_response));
          response_time := response_time;
          context_sources := Some (_format_context_sources context_results);
          similarity_scores := Some (_format_similarity_scores context_results);
          success := LLM.success llm_response;
          error := if negb (LLM.success llm_response)
                   then Some (default "Неизвестная ошибка" (LLM.error llm_response))
                   else None |}.

(** Lines 71-79: the result built by the [except] branch. *)
Definition error_result (e : exn) (start_time end_time : F) : RAGResult :=
  {| content := Some "Извините, произошла ошибка при обработке вашего запроса. Попробуйте позже.";
     model_used := "error";
     tokens_used := None;
     response_time := f_sub end_time start_time;
     context_sources := None;
     similarity_scores := None;
     success := false;
     error := Some (exn_str e) |}.

(** [RAGEngine.process_query].  [start_time] and [end_time] are the
    readings of [time.time()] on entry and when the result is built. *)
Definition process_query (st : Config.Settings F) (query : string)
    (session_context : option (list Message)) (user_role : string)
    (preferred_model : option string) (start_time end_time : F) : outcome RAGResult :=
  try_except
    (process_query_body st query session_context user_role preferred_model
       start_time end_time)
    (fun e => mret (error_result e start_time end_time)).

End Engine.

Arguments RAGResult : clear implicits.
Arguments Source : clear implicits.
Arguments content {F} _.
Arguments model_used {F} _.
Arguments tokens_used {F} _.
Arguments response_time {F} _.
Arguments context_sources {F} _.
Arguments similarity_scores {F} _.
Arguments success {F} _.
Arguments error {F} _.

End RAG.

(* ===================================================================== *)
(** * models/embeddings.py                                                *)
(* ===================================================================== *)

Module Embeddings.

(** ** EmbeddingModel.calculate_similarity, on numpy's float64 *)

Module Numpy.

(** [np.dot(a, b)] for one-dimensional arrays: the sum of the products,
    [0.0] for empty arrays, [ValueError] when the lengths differ.  The
    products are added from left to right; the order BLAS uses is not
    specified, and matters to no statement below. *)
Definition dot (a b : list Binary64.float) : outcome Binary64.float :=
  if Nat.eqb (length a) (length b)
  then
    match zip_with Binary64.mul a b with
    | [] => Returns Binary64.zero
    | p :: ps => Returns (fold_left Binary64.add ps p)
    end
  else Raises (Exception "shapes not aligned").

(** [np.linalg.norm(v)] for a one-dimensional array: [sqrt(dot(v, v))]. *)
Definition linalg_norm (v : list Binary64.float) : Binary64.float :=
  match dot v v with
  | Returns sqnorm => Binary64.sqrt sqnorm
  | Raises _ => Binary64.nan
  end.

(** [v / s]: element-wise IEEE division.  Division by zero raises no
    Python exception: numpy emits a [RuntimeWarning] and stores the IEEE
    result (NaN for 0/0, an infinity otherwise). *)
Definition divide (v : list Binary64.float) (s : Binary64.float) : list Binary64.float :=
  map (fun x => Binary64.div x s) v.

End Numpy.

(** Lines 51-66. *)
Definition calculate_similarity (embedding1 embedding2 : list Binary64.float)
    : outcome Binary64.float :=
  try_except
    (let vec1 := embedding1 in
     let vec2 := embedding2 in
     let vec1_norm := Numpy.divide vec1 (Numpy.linalg_norm vec1) in
     let vec2_norm := Numpy.divide vec2 (Numpy.linalg_norm vec2) in
     similarity ← Numpy.dot vec1_norm vec2_norm;
     mret similarity)
    (fun e => mret Binary64.zero).

(** ** Keys of Python dictionaries: strings and integers *)

Inductive PyKey : Type :=
| KStr (s : string)
| KInt (z : Z).

#[export] Instance PyKey_eq_dec : EqDecision PyKey.
Proof. solve_decision. Defined.

(** An insertion-ordered [dict]: [list(d.values())] lists the values in
    the order in which their keys were first set. *)
Section Dict.

Context {V : Type}.

(** [k in d] *)
Definition dict_mem (k : PyKey) (d : list (PyKey * V)) : bool :=
  existsb (fun kv => bool_decide (kv.1 = k)) d.

(** [d[k] = v] for a key not in [d]. *)
Definition dict_add (k : PyKey) (v : V) (d : list (PyKey * V)) : list (PyKey * V) :=
  d ++ [(k, v)].

(** [d[k][field] = x]: the value under [k] is changed in place. *)
Definition dict_modify (k : PyKey) (f : V -> V) (d : list (PyKey * V))
    : list (PyKey * V) :=
  map (fun kv => if bool_decide (kv.1 = k) then (kv.1, f kv.2) else kv) d.

(** [list(d.values())] *)
Definition dict_values (d : list (PyKey * V)) : list V := map snd d.

End Dict.

Section Search.

Context {F : Type} `{Arith F}.

(** A document: [{"text": ..., "metadata": {...}}], either key possibly
    missing. *)
Record Document : Type := {
  doc_text : option string;
  doc_metadata : option (gmap string PyKey)
}.

(** [self.embedding_model.encode_text] *)
Variable encode_text : string -> outcome (list F).

(** [self.calculate_similarity] *)
Variable similarity_of : list F -> list F -> outcome F.

(** [str.lower] and [str.split()] (split on runs of whitespace). *)
Variable py_lower : string -> string.
Variable py_split : string -> list string.

(** [hash(str(doc))]: fixed by the interpreter's hash seed. *)
Variable hash_str : Document -> Z.

(** [l.sort(key=key, reverse=True)]: descending and stable (entries with
    equal keys keep their order).  Insertion from the right; Python's sort
    gives the same list whenever [<] totally preorders the keys. *)
Fixpoint insert_desc {A : Type} (key : A -> F) (x : A) (sorted : list A) : list A :=
  match sorted with
  | [] => [x]
  | y :: rest =>
      if f_ltb (key x) (key y) then y :: insert_desc key x rest
      else x :: y :: rest
  end.

Definition sort_desc {A : Type} (key : A -> F) (l : list A) : list A :=
  fold_right (insert_desc key) [] l.

(** One entry of [similarities]: [{"index": i, "similarity": s}]. *)
Record Similarity : Type := {
  index : nat;
  similarity : F
}.

(** Lines 73-79: the loop over [enumerate(candidate_embeddings)]. *)
Fixpoint similarities_from (query_embedding : list F) (i : nat)
    (candidates : list (list F)) (similarities : list Similarity)
    : outcome (list Similarity) :=
  match candidates with
  | [] => mret similarities
  | candidate :: rest =>
      s ← similarity_of query_embedding candidate;
      similarities_from query_embedding (S i) rest
        (similarities ++ [ {| index := i; similarity := s |} ])
  end.

(** [EmbeddingModel.find_most_similar] *)
Definition find_most_similar (query_embedding : list F)
    (candidate_embeddings : list (list F)) (top_k : nat) : outcome (list Similarity) :=
  try_except
    (similarities ← similarities_from query_embedding 0 candidate_embeddings [];
     let similarities := sort_desc similarity similarities in
     mret (py_slice_first top_k similarities))
    (fun e => mret []).

(** One entry of [scored_docs]. *)
Record Scored : Type := {
  scored_document : Document;
  scored_keyword_score : F
}.

(** [set(s.split())] *)
Definition word_set (s : string) : gset string := list_to_set (py_split s).

(** Line 172: [len(intersection) / len(query_words) if query_words else 0] *)
Definition keyword_score_of (query_words doc_words : gset string) : F :=
  let intersection := query_words ∩ doc_words in
  if bool_decide (query_words ≠ ∅)
  then f_div (f_of_nat (size intersection)) (f_of_nat (size query_words))
  else f_of_nat 0.

(** [HybridSearch.keyword_search] *)
Definition keyword_search (query : string) (documents : list Document) (top_k : nat)
    : outcome (list Scored) :=
  try_except
    (let query_words := word_set (py_lower query) in
     let scored_docs :=
       fold_left
         (fun scored_docs doc =>
            let text := py_lower (default "" (doc_text doc)) in
            let doc_words := word_set text in
            let score := keyword_score_of query_words doc_words in
            scored_docs ++ [ {| scored_document := doc; scored_keyword_score := score |} ])
         documents [] in
     let scored_docs := sort_desc scored_keyword_score scored_docs in
     mret (py_slice_first top_k scored_docs))
    (fun e => mret []).

(** One value of [combined_scores]. *)
Record Entry : Type := {
  document : Document;
  vector_score : F;
  keyword_score : F;
  combined_score : F
}.

(** [doc.get("metadata", {}).get("id", fallback)] *)
Definition doc_id_or (doc : Document) (fallback : PyKey) : PyKey :=
  match doc_metadata doc with
  | Some metadata => default fallback (metadata !! "id")
  | None => fallback
  end.

(** [doc["metadata"]["id"]] when the document has one. *)
Definition metadata_id (doc : Document) : option PyKey :=
  match doc_metadata doc with
  | Some metadata => metadata !! "id"
  | None => None
  end.

(** Lines 206-219: one turn of the loop over [vector_results]. *)
Definition add_vector_result (documents : list Document)
    (combined_scores : list (PyKey * Entry)) (result : Similarity)
    : outcome (list (PyKey * Entry)) :=
  let doc_index := index result in
  doc ← py_index documents doc_index;
  let doc_id := doc_id_or doc (KInt (Z.of_nat doc_index)) in
  if negb (dict_mem doc_id combined_scores)
  then mret (dict_add doc_id
               {| document := doc; vector_score := similarity result;
                  keyword_score := f_of_nat 0; combined_score := f_of_nat 0 |}
               combined_scores)
  else mret (dict_modify doc_id
               (fun scores =>
                  {| document := document scores; vector_score := similarity result;
                     keyword_score := keyword_score scores;
                     combined_score := combined_score scores |})
               combined_scores).

(** Lines 222-234: one turn of the loop over [keyword_results]. *)
Definition add_keyword_result (combined_scores : list (PyKey * Entry)) (result : Scored)
    : list (PyKey * Entry) :=
  let doc := scored_document result in
  let doc_id := doc_id_or doc (KInt (hash_str doc)) in
  if negb (dict_mem doc_id combined_scores)
  then dict_add doc_id
         {| document := doc; vector_score := f_of_nat 0;
            keyword_score := scored_keyword_score result;
            combined_score := f_of_nat 0 |}
         combined_scores
  else dict_modify doc_id
         (fun scores =>
            {| document := document scores; vector_score := vector_score scores;
               keyword_score := scored_keyword_score result;
               combined_score := combined_score scores |})
         combined_scores.

(** Lines 237-240: [scores["combined_score"] = ...] for every value. *)
Definition set_combined (vector_weight : F) (scores : Entry) : Entry :=
  {| document := document scores; vector_score := vector_score scores;
     keyword_score := keyword_score scores;
     combined_score :=
       f_add (f_mul vector_weight (vector_score scores))
             (f_mul (f_sub (f_of_nat 1) vector_weight) (keyword_score scores)) |}.

(** The identity under which a vector result and a keyword result are
    filed, for documents that carry a metadata id. *)
Definition vector_result_id (documents : list Document) (result : Similarity)
    : option PyKey :=
  match documents !! index result with
  | Some doc => metadata_id doc
  | None => None
  end.

Definition keyword_result_id (result : Scored) : option PyKey :=
  metadata_id (scored_document result).

(** A monadic left fold: a [for] loop whose body may raise. *)
Fixpoint for_each {A B : Type} (body : B -> A -> outcome B) (l : list A) (acc : B)
    : outcome B :=
  match l with
  | [] => mret acc
  | x :: rest => acc' ← body acc x; for_each body rest acc'
  end.

(** Lines 203-240: the merged dictionary, before sorting. *)
Definition merge_scores (documents : list Document) (vector_weight : F)
    (vector_results : list Similarity) (keyword_results : list Scored)
    : outcome (list (PyKey * Entry)) :=
  combined_scores ← for_each (add_vector_result documents) vector_results [];
  let combined_scores := fold_left add_keyword_result keyword_results combined_scores in
  mret (map (fun kv => (kv.1, set_combined vector_weight kv.2)) combined_scores).

(** [HybridSearch.hybrid_search] *)
Definition hybrid_search (query : string) (documents : list Document)
    (vector_weight : F) (top_k : nat) : outcome (list Entry) :=
  try_except
    (query_embedding ← encode_text query;
     doc_embeddings ←
       for_each (fun embeddings doc =>
                   e ← encode_text (default "" (doc_text doc));
                   mret (embeddings ++ [e]))
         documents [];
     vector_results ← find_most_similar query_embedding doc_embeddings (top_k * 2);
     keyword_results ← keyword_search query documents (top_k * 2);
     combined_scores ← merge_scores documents vector_weight vector_results keyword_results;
     let final_results := dict_values combined_scores in
     let final_results := sort_desc combined_score final_results in
     mret (py_slice_first top_k final_results))
    (fun e => mret []).

End Search.

Arguments Document : clear implicits.
Arguments Similarity : clear implicits.
Arguments Scored : clear implicits.
Arguments Entry : clear implicits.
Arguments index {F} _.
Arguments similarity {F} _.
Arguments scored_document {F} _.
Arguments scored_keyword_score {F} _.
Arguments document {F} _.
Arguments vector_score {F} _.
Arguments keyword_score {F} _.
Arguments combined_score {F} _.

End Embeddings.

Module SearchFixtures.

(** [str.lower] on ASCII text. *)
Definition ascii_lower_char (c : Ascii.ascii) : Ascii.ascii :=
  let n := Ascii.nat_of_ascii c in
  if Nat.leb 65 n && Nat.leb n 90 then Ascii.ascii_of_nat (n + 32) else c.

Fixpoint ascii_lower (s : string) : string :=
  match s with
  | EmptyString => EmptyString
  | String c rest => String (ascii_lower_char c) (ascii_lower rest)
  end.

(** ASCII whitespace: tab, line feed, vertical tab, form feed, carriage
    return, space. *)
Definition is_space (c : Ascii.ascii) : bool :=
  let n := Ascii.nat_of_ascii c in
  (Nat.leb 9 n && Nat.leb n 13) || Nat.eqb n 32.

(** [str.split()] on ASCII text; [word] is the word being read. *)
Fixpoint ascii_split_from (s : string) (word : string) : list string :=
  match s with
  | EmptyString => if str_truthy word then [word] else []
  | String c rest =>
      if is_space c
      then (if str_truthy word then [word] else []) ++ ascii_split_from rest ""
      else ascii_split_from rest (word +:+ String c EmptyString)%string
  end.

Definition ascii_split (s : string) : list string := ascii_split_from s "".

(** A stand-in for the sentence encoder: every text gets the vector
    [[3.0, 4.0]]. *)
Definition encode_constant (text : string) : outcome (list Binary64.float) :=
  Returns [Binary64.of_Z 3; Binary64.of_Z 4].

(** A document that carries no metadata, hence no ["id"]. *)
Definition doc_without_id : Embeddings.Document :=
  {| Embeddings.doc_text := Some "SSL setup guide"; Embeddings.doc_metadata := None |}.

(** A document with the metadata id [name]. *)
Definition doc_with_id (name text : string) : Embeddings.Document :=
  {| Embeddings.doc_text := Some text;
     Embeddings.doc_metadata := Some {[ "id" := Embeddings.KStr name ]} |}.

End SearchFixtures.

Module StoreFixtures.

(** An index answering with four rows at distances 0.25, 1.5, -0.5 and
    NaN. *)
Definition four_rows : VectorStore.QueryResult Binary64.float :=
  {| VectorStore.ids := [["d1"; "d2"; "d3"; "d4"]];
     VectorStore.documents := [["one"; "two"; "three"; "four"]];
     VectorStore.metadatas := [[∅; ∅; ∅; ∅]];
     VectorStore.distances :=
       [[Binary64.lit 25 2; Binary64.lit 15 1;
         Binary64.sub Binary64.zero (Binary64.lit 5 1); Binary64.nan]] |}.

Definition collection_query (query_embeddings : list (list Binary64.float))
    (n_results : nat) (where_ : option (gmap string string))
    : outcome (VectorStore.QueryResult Binary64.float) :=
  Returns four_rows.

End StoreFixtures.

(* ===================================================================== *)
(** * models/embeddings.py : DocumentChunker                              *)
(* ===================================================================== *)

Module Chunker.

(** Values stored in chunk metadata: integers and strings. *)
Inductive MetaVal : Type :=
| MInt (z : Z)
| MStr (s : string).

(** [x or default] for an optional integer argument: [None] and [0] are
    falsy. *)
Definition int_or (x : option Z) (default : Z) : Z :=
  match x with
  | Some z => if Z.eqb z 0 then default else z
  | None => default
  end.

(** [DocumentChunker]: the attributes set in [__init__]. *)
Record DocumentChunker : Type := {
  chunk_size : Z;
  chunk_overlap : Z
}.

(** [DocumentChunker.__init__(chunk_size, chunk_overlap)];
    [settings_chunk_size] and [settings_chunk_overlap] are
    [settings.chunk_size] and [settings.chunk_overlap]. *)
Definition init (settings_chunk_size settings_chunk_overlap : Z)
    (chunk_size chunk_overlap : option Z) : DocumentChunker :=
  {| chunk_size := int_or chunk_size settings_chunk_size;
     chunk_overlap := int_or chunk_overlap settings_chunk_overlap |}.

Section Text.

(** A character of a Python string (a code point).  A text is the list
    of its characters, so that [len] is [length]. *)
Context {C : Type}.

(** A slice bound brought into range, as Python does: a negative bound
    counts from the end, and the result is clipped to [0 .. n]. *)
Definition clip (n : Z) (i : Z) : Z :=
  if Z.ltb i 0 then Z.max 0 (i + n) else Z.min i n.

(** [l[start:stop]] for integers of either sign. *)
Definition py_slice (l : list C) (start stop : Z) : list C :=
  let n := Z.of_nat (length l) in
  let lo := clip n start in
  let hi := clip n stop in
  take (Z.to_nat (hi - lo)) (drop (Z.to_nat lo) l).

(** One element of [chunks]: [{"text": ..., "metadata": {...}}]. *)
Record Chunk : Type := {
  text : list C;
  metadata : gmap string MetaVal
}.

(** Truthiness of the optional [metadata] argument. *)
Definition metadata_truthy (metadata : option (gmap string MetaVal)) : bool :=
  match metadata with
  | Some m => negb (bool_decide (m = ∅))
  | None => false
  end.

(** Lines 105-121: the chunk made at position [start]. *)
Definition make_chunk (self : DocumentChunker) (text_ : list C)
    (metadata_ : option (gmap string MetaVal)) (start : Z) : Chunk :=
  let end_ := (start + chunk_size self)%Z in
  let chunk_text := py_slice text_ start end_ in
  let chunk_metadata : gmap string MetaVal :=
    {[ "start_pos" := MInt start;
       "end_pos" := MInt end_;
       "chunk_size" := MInt (Z.of_nat (length chunk_text)) ]} in
  let chunk_metadata :=
    if metadata_truthy metadata_
    then
      (* chunk_metadata.update(metadata): the caller's entries win *)
      default ∅ metadata_ ∪ chunk_metadata
    else chunk_metadata in
  {| text := chunk_text; metadata := chunk_metadata |}.

(** Lines 104-128: the [while] loop, entered with the current [start] and
    [chunks].  [fuel] bounds the number of turns; [None] means the bound
    was reached with the loop still running. *)
Fixpoint chunk_loop (fuel : nat) (self : DocumentChunker) (text_ : list C)
    (metadata_ : option (gmap string MetaVal)) (start : Z) (chunks : list Chunk)
    : option (list Chunk) :=
  if Z.ltb start (Z.of_nat (length text_)) then
    match fuel with
    | O => None
    | S fuel' =>
        let chunks := chunks ++ [make_chunk self text_ metadata_ start] in
        let start := (start + chunk_size self - chunk_overlap self)%Z in
        if Z.leb (Z.of_nat (length text_)) start then Some chunks
        else chunk_loop fuel' self text_ metadata_ start chunks
    end
  else Some chunks.

(** [DocumentChunker.chunk_text].  Nothing in the body raises, so the
    [except] branch is never taken. *)
Definition chunk_text (fuel : nat) (self : DocumentChunker) (text_ : list C)
    (metadata_ : option (gmap string MetaVal)) : option (list Chunk) :=
  chunk_loop fuel self text_ metadata_ 0 [].

(** A document handed to [chunk_documents]: the keys ["content"] and
    ["metadata"] that it reads, and the key ["text"] under which other
    producers store a body. *)
Record SourceDocument : Type := {
  doc_content : option (list C);
  doc_text : option (list C);
  doc_metadata : option (gmap string MetaVal)
}.

(** Lines 138-147: the loop of [chunk_documents]. *)
Fixpoint chunk_documents_loop (fuel : nat) (self : DocumentChunker)
    (documents : list SourceDocument) (all_chunks : list Chunk)
    : option (list Chunk) :=
  match documents with
  | [] => Some all_chunks
  | doc :: rest =>
      let text_ := default [] (doc_content doc) in
      let metadata_ := Some (default ∅ (doc_metadata doc)) in
      match chunk_text fuel self text_ metadata_ with
      | Some chunks =>
          chunk_documents_loop fuel self rest (all_chunks ++ chunks)
      | None => None
      end
  end.

(** [DocumentChunker.chunk_documents] *)
Definition chunk_documents (fuel : nat) (self : DocumentChunker)
    (documents : list SourceDocument) : option (list Chunk) :=
  chunk_documents_loop fuel self documents [].

End Text.

Arguments Chunk : clear implicits.
Arguments SourceDocument : clear implicits.

End Chunker.

Module ChunkerFixtures.

(** [DocumentChunker(chunk_size=10, chunk_overlap=4)] *)
Definition ten_four : Chunker.DocumentChunker :=
  {| Chunker.chunk_size := 10; Chunker.chunk_overlap := 4 |}.

(** A text of 24 characters, and one of 10; a character is its code. *)
Definition text24 : list nat := seq 0 24.
Definition text10 : list nat := seq 0 10.

End ChunkerFixtures.

(* ===================================================================== *)
(** * models/rag_engine.py : process_conversation, RAGPipeline            *)
(* ===================================================================== *)

Module Pipeline.

Section Conversation.

Context {F : Type} `{Arith F}.

Variable format_2f : F -> string.
Variable vector_store_search :
  string -> option (gmap string string) -> option nat
  -> outcome (list (VectorStore.ContextResult F)).
Variable llm_generate :
  list Message -> option string -> LLM.GenParams (F:=F)
  -> outcome (LLM.LLMResult (F:=F)).

(** The dictionary [process_conversation] returns: the dictionary of
    [process_query] with ["session_id"] and ["timestamp"] set, or the
    four-key dictionary of its own [except] branch.  A key that is not set
    is [None]. *)
Record ConversationResponse : Type := {
  content : option string;
  model_used : option string;
  tokens_used : option Z;
  response_time : option F;
  context_sources : option (list (RAG.Source F));
  similarity_scores : option (list F);
  success : bool;
  error : option string;
  session_id : string;
  timestamp : option F
}.

(** [response["session_id"] = session_id; response["timestamp"] = now] *)
Definition stamp (response : RAG.RAGResult F) (session_id_ : string) (now : F)
    : ConversationResponse :=
  {| content := RAG.content response;
     model_used := Some (RAG.model_used response);
     tokens_used := RAG.tokens_used response;
     response_time := Some (RAG.response_time response);
     context_sources := RAG.context_sources response;
     similarity_scores := RAG.similarity_scores response;
     success := RAG.success response;
     error := RAG.error response;
     session_id := session_id_;
     timestamp := Some now |}.

(** Lines 205-212: the result built by the [except] branch. *)
Definition conversation_error (e : exn) (session_id_ : string) : ConversationResponse :=
  {| content := Some "Извините, произошла ошибка при обработке сообщения.";
     model_used := None;
     tokens_used := None;
     response_time := None;
     context_sources := None;
     similarity_scores := None;
     success := false;
     error := Some (exn_str e);
     session_id := session_id_;
     timestamp := None |}.

(** [ConversationManager.process_conversation]; [start_time], [end_time]
    and [now] are the readings of [time.time()]. *)
Definition process_conversation (self : Conversation.ConversationManager)
    (st : Config.Settings F) (user_message session_id_ user_role : string)
    (conversation_history : option (list (Conversation.Turn F)))
    (preferred_model : option string) (start_time end_time now : F)
    : outcome ConversationResponse :=
  try_except
    (let session_context :=
       Conversation._prepare_session_context self conversation_history in
     response ←
       RAG.process_query format_2f vector_store_search llm_generate st user_message
         (Some session_context) user_role preferred_model start_time end_time;
     mret (stamp response session_id_ now))
    (fun e => mret (conversation_error e session_id_)).

(** [RAGPipeline.process_user_query] *)
Definition process_user_query (self : Conversation.ConversationManager)
    (st : Config.Settings F) (query session_id_ user_role : string)
    (conversation_history : option (list (Conversation.Turn F)))
    (preferred_model : option string) (start_time end_time now : F)
    : outcome ConversationResponse :=
  process_conversation self st query session_id_ user_role conversation_history
    preferred_model start_time end_time now.

End Conversation.

Arguments ConversationResponse : clear implicits.
Arguments content {F} _.
Arguments model_used {F} _.
Arguments tokens_used {F} _.
Arguments response_time {F} _.
Arguments context_sources {F} _.
Arguments similarity_scores {F} _.
Arguments success {F} _.
Arguments error {F} _.
Arguments session_id {F} _.
Arguments timestamp {F} _.

End Pipeline.

(** Collaborators for running one conversation turn. *)
Module PipelineFixtures.

(** A vector store with nothing indexed. *)
Definition search_nothing (query : string) (filter_metadata : option (gmap string string))
    (n_results : option nat) : outcome (list (VectorStore.ContextResult Binary64.float)) :=
  Returns [].

(** An LLM manager that reports how many messages it was given. *)
Definition llm_counts (messages : list Message) (preferred_model : option string)
    (kwargs : LLM.GenParams (F:=Binary64.float))
    : outcome (LLM.LLMResult (F:=Binary64.float)) :=
  Returns {| LLM.content := Some (pretty (length messages)); LLM.model := "gigachat";
             LLM.tokens_used := Some 12%Z;
             LLM.response_time := Some (Binary64.lit 5 1);
             LLM.error := None; LLM.success := true |}.

Definition two_decimals (x : Binary64.float) : string := "0.00".

End PipelineFixtures.

(* ===================================================================== *)
(** * core/config.py : the API keys; LLMManager's provider table           *)
(* ===================================================================== *)

Module ModelConfig.

(** The fields of [Settings] that decide which providers exist. *)
Record ApiSettings : Type := {
  gigachat_api_key : option string;
  gigachat_base_url : string;
  gigachat_verify_ssl_cert : bool;
  deepseek_api_key : option string;
  deepseek_base_url : string;
  openai_api_key : option string;
  openai_base_url : string
}.

(** Truthiness of an [Optional[str]]. *)
Definition key_truthy (key : option string) : bool :=
  match key with
  | Some s => str_truthy s
  | None => false
  end.

(** The string a key that passed the truthiness test holds. *)
Definition key_value (key : option string) : string := default "" key.

(** [config.get_available_models], lines 71-84. *)
Definition get_available_models (settings : ApiSettings) : list string :=
  let available_models := [] in
  let available_models :=
    if key_truthy (gigachat_api_key settings)
    then available_models ++ ["gigachat"] else available_models in
  let available_models :=
    if key_truthy (deepseek_api_key settings)
    then available_models ++ ["deepseek"] else available_models in
  let available_models :=
    if key_truthy (openai_api_key settings)
    then available_models ++ ["openai"] else available_models in
  available_models.

(** [config.validate_model_configuration], lines 87-97; the exceptions are
    [ValueError]s. *)
Definition validate_model_configuration (settings : ApiSettings)
    (default_model : string) : outcome bool :=
  let available_models := get_available_models settings in
  if negb (list_truthy available_models)
  then Raises (Exception "Не настроен ни один API ключ для AI моделей")
  else if negb (bool_decide (default_model ∈ available_models))
  then Raises (Exception ("Модель по умолчанию '" +:+ default_model +:+ "' недоступна"))
  else Returns true.

Section Manager.

Context {F : Type}.
Variable World : Type.

(** The three provider classes: what constructing one gives, seen as the
    [generate_response] of the object. *)
Variable GigaChatProvider : string -> string -> bool -> LLM.Provider (F:=F) World.
Variable DeepSeekProvider : string -> string -> LLM.Provider (F:=F) World.
Variable OpenAIProvider : string -> string -> LLM.Provider (F:=F) World.

(** [d[key] = value] on an insertion-ordered dictionary. *)
Fixpoint dict_set {V : Type} (d : list (string * V)) (key : string) (value : V)
    : list (string * V) :=
  match d with
  | [] => [(key, value)]
  | (k, v) :: rest =>
      if String.eqb k key then (k, value) :: rest
      else (k, v) :: dict_set rest key value
  end.

(** [LLMManager.__init__] with [_initialize_providers], lines 245-268:
    [self.providers]. *)
Definition _initialize_providers (settings : ApiSettings)
    : list (string * LLM.Provider (F:=F) World) :=
  let providers := [] in
  let providers :=
    if key_truthy (gigachat_api_key settings)
    then dict_set providers "gigachat"
           (GigaChatProvider (key_value (gigachat_api_key settings))
              (gigachat_base_url settings) (gigachat_verify_ssl_cert settings))
    else providers in
  let providers :=
    if key_truthy (deepseek_api_key settings)
    then dict_set providers "deepseek"
           (DeepSeekProvider (key_value (deepseek_api_key settings))
              (deepseek_base_url settings))
    else providers in
  let providers :=
    if key_truthy (openai_api_key settings)
    then dict_set providers "openai"
           (OpenAIProvider (key_value (openai_api_key settings))
              (openai_base_url settings))
    else providers in
  providers.

(** [LLMManager.get_available_models]: [list(self.providers.keys())]. *)
Definition manager_available_models (providers : list (string * LLM.Provider (F:=F) World))
    : list string :=
  providers.*1.

(** [self.providers] as the router reads it: by key. *)
Definition provider_table (providers : list (string * LLM.Provider (F:=F) World))
    : gmap string (LLM.Provider (F:=F) World) :=
  list_to_map providers.

End Manager.

End ModelConfig.

(* ===================================================================== *)
(** * core/llm_providers.py : the three providers                          *)
(* ===================================================================== *)

Module Providers.

(** A subscript: [v["key"]] or [v[0]]. *)
Inductive Key : Type :=
| KStr (s : string)
| KInt (z : Z).

(** The JSON body of a chat request, in the order the keys are written;
    DeepSeek and OpenAI add ["model"]. *)
Record Payload (F : Type) : Type := {
  p_model : option string;
  p_messages : list Message;
  p_temperature : F;
  p_max_tokens : Z;
  p_stream : bool
}.

Arguments p_model {F} _.
Arguments p_messages {F} _.
Arguments p_temperature {F} _.
Arguments p_max_tokens {F} _.
Arguments p_stream {F} _.

(** One [session.post(url, headers=..., data=..., json=..., ssl=...)]; an
    argument that is not passed is [None]. *)
Record Request (F : Type) : Type := {
  url : string;
  headers : list (string * string);
  data : option (list (string * string));
  json : option (Payload F);
  ssl : option bool
}.

Arguments url {F} _.
Arguments headers {F} _.
Arguments data {F} _.
Arguments json {F} _.
Arguments ssl {F} _.

(** [**kwargs] of a provider's [generate_response]; a key that was not
    passed is [None]. *)
Record Kwargs (F : Type) : Type := {
  kw_temperature : option F;
  kw_max_tokens : option Z
}.

Arguments kw_temperature {F} _.
Arguments kw_max_tokens {F} _.

(** [GigaChatProvider.format_messages], lines 66-74. *)
Definition gigachat_format_messages (messages : list Message) : list Message :=
  fold_left
    (fun formatted_messages msg =>
       formatted_messages ++ [ {| role := role msg; content := content msg |} ])
    messages [].

(** [DeepSeekProvider.format_messages] and [OpenAIProvider.format_messages] *)
Definition standard_format_messages (messages : list Message) : list Message :=
  messages.

(** The attributes [LLMProvider.__init__] sets ([kwargs] is never read). *)
Record LLMProvider : Type := {
  api_key : string;
  base_url : string
}.

Section Http.

Context {F : Type} `{Arith F}.

(** The Python values a response body decodes to, with the operations the
    providers apply to them. *)
Variable Value : Type.
(** [v[key]]: [KeyError], [IndexError] or [TypeError] when it fails. *)
Variable subscript : Value -> Key -> outcome Value.
(** [v.get(key)]: [AttributeError] when [v] is not a dictionary. *)
Variable dict_get : Value -> string -> outcome Value.
(** [bool(v)] *)
Variable truthy : Value -> bool.
(** [f"{v}"] *)
Variable format : Value -> string.

(** The response object: [response.status], [await response.json()],
    [await response.text()]. *)
Record Response : Type := {
  status : Z;
  response_json : outcome Value;
  response_text : outcome string
}.

(** The network, and what [ClientSession().post] does with a request:
    it answers or raises, and the network moves on. *)
Variable Net : Type.
Variable post : Request F -> Net -> outcome Response * Net.

(** The dictionary a provider's [generate_response] returns; a key that a
    branch leaves out is [None]. *)
Record ProviderResult : Type := {
  content : option Value;
  model : string;
  tokens_used : option Value;
  response_time : option F;
  error : option string;
  success : bool
}.

(** The dictionary built by the [except] branch of a provider. *)
Definition failure (name : string) (e : exn) : ProviderResult :=
  {| content := None; model := name; tokens_used := None; response_time := None;
     error := Some (exn_str e); success := false |}.

(** The dictionary returned on status 200:
    [result["choices"][0]["message"]["content"]] is evaluated first, then
    [result["usage"]["total_tokens"]]. *)
Definition completion (name : string) (result : Value) (response_time_ : F)
    : outcome ProviderResult :=
  choices ← subscript result (KStr "choices");
  choice ← subscript choices (KInt 0);
  message ← subscript choice (KStr "message");
  content_ ← subscript message (KStr "content");
  usage ← subscript result (KStr "usage");
  total_tokens ← subscript usage (KStr "total_tokens");
  mret {| content := Some content_; model := name; tokens_used := Some total_tokens;
          response_time := Some response_time_; error := None; success := true |}.

(** The body of [async with session.post(...) as response], written three
    times in the source with the names changed: [label] in the error text,
    [name] in the result. *)
Definition read_response (label name : string) (response : Response)
    (start_time end_time : F) : outcome ProviderResult :=
  if Z.eqb (status response) 200 then
    result ← response_json response;
    let response_time_ := f_sub end_time start_time in
    completion name result response_time_
  else
    error_text ← response_text response;
    Raises (Exception (label +:+ " API error: " +:+ pretty (status response))).

(** [try: ... except Exception as e: return {...}] of a provider. *)
Definition or_failure (name : string) (body : outcome ProviderResult)
    : outcome ProviderResult :=
  try_except body (fun e => mret (failure name e)).

(** The chat payload: [kwargs.get(key, settings.<key>)]. *)
Definition chat_payload (st : Config.Settings F) (model_ : option string)
    (messages : list Message) (kwargs : Kwargs F) : Payload F :=
  {| p_model := model_;
     p_messages := messages;
     p_temperature := default (Config.temperature st) (kw_temperature kwargs);
     p_max_tokens := default (Config.max_tokens st) (kw_max_tokens kwargs);
     p_stream := false |}.

(** ** GigaChatProvider *)

(** The attributes of a [GigaChatProvider]. *)
Record GigaChat : Type := {
  provider : LLMProvider;
  verify_ssl : bool;
  access_token : option Value
}.

(** [GigaChatProvider.__init__], lines 33-36. *)
Definition gigachat_init (api_key_ base_url_ : string) (verify_ssl_ : bool) : GigaChat :=
  {| provider := {| api_key := api_key_; base_url := base_url_ |};
     verify_ssl := verify_ssl_;
     access_token := None |}.

(** [self.access_token = token] *)
Definition set_access_token (self : GigaChat) (token : Value) : GigaChat :=
  {| provider := provider self; verify_ssl := verify_ssl self;
     access_token := Some token |}.

(** [if self.access_token:] with the token it holds. *)
Definition cached_token (self : GigaChat) : option Value :=
  match access_token self with
  | Some token => if truthy token then Some token else None
  | None => None
  end.

(** The request of [_get_access_token]. *)
Definition auth_request (self : GigaChat) : Request F :=
  {| url := base_url (provider self) +:+ "/auth";
     headers := [ ("Authorization", "Bearer " +:+ api_key (provider self));
                  ("Content-Type", "application/x-www-form-urlencoded") ];
     data := Some [ ("scope", "GIGACHAT_API_PERS") ];
     json := None;
     ssl := Some (verify_ssl self) |}.

(** [GigaChatProvider._get_access_token], lines 38-64.  Returns the token
    (or raises), the requests sent, the object and the network
    afterwards. *)
Definition _get_access_token (self : GigaChat) (net : Net)
    : outcome Value * list (Request F) * GigaChat * Net :=
  match cached_token self with
  | Some token => (Returns token, [], self, net)
  | None =>
      match post (auth_request self) net with
      | (Returns response, net') =>
          if Z.eqb (status response) 200 then
            match response_json response with
            | Returns result =>
                match dict_get result "access_token" with
                | Returns token =>
                    (Returns token, [auth_request self],
                     set_access_token self token, net')
                | Raises e => (Raises e, [auth_request self], self, net')
                end
            | Raises e => (Raises e, [auth_request self], self, net')
            end
          else
            (Raises (Exception ("Ошибка получения токена: "
                                +:+ pretty (status response))),
             [auth_request self], self, net')
      | (Raises e, net') => (Raises e, [auth_request self], self, net')
      end
  end.

(** The chat request of [GigaChatProvider.generate_response]. *)
Definition gigachat_chat_request (self : GigaChat) (st : Config.Settings F)
    (token : Value) (messages : list Message) (kwargs : Kwargs F) : Request F :=
  {| url := base_url (provider self) +:+ "/chat/completions";
     headers := [ ("Authorization", "Bearer " +:+ format token);
                  ("Content-Type", "application/json") ];
     data := None;
     json := Some (chat_payload st None (gigachat_format_messages messages) kwargs);
     ssl := Some (verify_ssl self) |}.

(** [GigaChatProvider.generate_response], lines 76-125; [start_time] and
    [end_time] are the readings of [time.time()]. *)
Definition gigachat_generate_response (self : GigaChat) (st : Config.Settings F)
    (messages : list Message) (kwargs : Kwargs F) (start_time end_time : F) (net : Net)
    : outcome ProviderResult * list (Request F) * GigaChat * Net :=
  match _get_access_token self net with
  | (Returns token, sent, self, net) =>
      let request := gigachat_chat_request self st token messages kwargs in
      match post request net with
      | (Returns response, net) =>
          (or_failure "gigachat"
             (read_response "GigaChat" "gigachat" response start_time end_time),
           sent ++ [request], self, net)
      | (Raises e, net) =>
          (or_failure "gigachat" (Raises e), sent ++ [request], self, net)
      end
  | (Raises e, sent, self, net) =>
      (or_failure "gigachat" (Raises e), sent, self, net)
  end.

(** Any number of [generate_response] calls on one GigaChat object, one
    after the other: what each call returned, the requests sent in all, the
    object and the network at the end. *)
Inductive gigachat_calls (st : Config.Settings F)
    : GigaChat -> Net -> list (outcome ProviderResult) -> list (Request F)
      -> GigaChat -> Net -> Prop :=
| gigachat_calls_none self net : gigachat_calls st self net [] [] self net
| gigachat_calls_more self net messages kwargs start_time end_time
    o sent self' net' results sent' self'' net'' :
    gigachat_generate_response self st messages kwargs start_time end_time net
    = (o, sent, self', net') ->
    gigachat_calls st self' net' results sent' self'' net'' ->
    gigachat_calls st self net (o :: results) (sent ++ sent') self'' net''.

(** The two shapes of a provider's result dictionary: the one of the
    status-200 branch and the one of the [except] branch. *)
Definition well_formed (name : string) (r : ProviderResult) : Prop :=
  model r = name
  /\ if success r
     then error r = None /\ is_Some (content r) /\ is_Some (tokens_used r)
          /\ is_Some (response_time r)
     else content r = None /\ tokens_used r = None /\ response_time r = None
          /\ is_Some (error r).

(** ** DeepSeekProvider and OpenAIProvider *)

(** The chat request of the two classes, which differ in the model they
    name. *)
Definition bearer_chat_request (self : LLMProvider) (st : Config.Settings F)
    (api_model : string) (messages : list Message) (kwargs : Kwargs F) : Request F :=
  {| url := base_url self +:+ "/chat/completions";
     headers := [ ("Authorization", "Bearer " +:+ api_key self);
                  ("Content-Type", "application/json") ];
     data := None;
     json := Some (chat_payload st (Some api_model)
                     (standard_format_messages messages) kwargs);
     ssl := None |}.

(** [DeepSeekProvider.generate_response], lines 135-182. *)
Definition deepseek_generate_response (self : LLMProvider) (st : Config.Settings F)
    (messages : list Message) (kwargs : Kwargs F) (start_time end_time : F) (net : Net)
    : outcome ProviderResult * list (Request F) * Net :=
  let request := bearer_chat_request self st "deepseek-chat" messages kwargs in
  match post request net with
  | (Returns response, net) =>
      (or_failure "deepseek"
         (read_response "DeepSeek" "deepseek" response start_time end_time),
       [request], net)
  | (Raises e, net) => (or_failure "deepseek" (Raises e), [request], net)
  end.

(** [OpenAIProvider.generate_response], lines 192-239. *)
Definition openai_generate_response (self : LLMProvider) (st : Config.Settings F)
    (messages : list Message) (kwargs : Kwargs F) (start_time end_time : F) (net : Net)
    : outcome ProviderResult * list (Request F) * Net :=
  let request := bearer_chat_request self st "gpt-3.5-turbo" messages kwargs in
  match post request net with
  | (Returns response, net) =>
      (or_failure "openai"
         (read_response "OpenAI" "openai" response start_time end_time),
       [request], net)
  | (Raises e, net) => (or_failure "openai" (Raises e), [request], net)
  end.

End Http.

Arguments status {Value} _.
Arguments response_json {Value} _.
Arguments response_text {Value} _.
Arguments ProviderResult : clear implicits.
Arguments content {F Value} _.
Arguments model {F Value} _.
Arguments tokens_used {F Value} _.
Arguments response_time {F Value} _.
Arguments error {F Value} _.
Arguments success {F Value} _.
Arguments provider {Value} _.
Arguments verify_ssl {Value} _.
Arguments access_token {Value} _.

End Providers.

(** Settings used as test inputs for the provider table. *)
Module ModelFixtures.

(** Only [GIGACHAT_API_KEY] set; the URLs are the class defaults. *)
Definition gigachat_key_only : ModelConfig.ApiSettings :=
  {| ModelConfig.gigachat_api_key := Some "secret";
     ModelConfig.gigachat_base_url := "https://gigachat.devices.sberbank.ru/api/v1";
     ModelConfig.gigachat_verify_ssl_cert := false;
     ModelConfig.deepseek_api_key := None;
     ModelConfig.deepseek_base_url := "https://api.deepseek.com";
     ModelConfig.openai_api_key := None;
     ModelConfig.openai_base_url := "https://api.openai.com/v1" |}.

(** The class defaults: no key set; the OpenAI key set to the empty
    string, as an empty line of the [.env] file gives. *)
Definition no_keys : ModelConfig.ApiSettings :=
  {| ModelConfig.gigachat_api_key := None;
     ModelConfig.gigachat_base_url := "https://gigachat.devices.sberbank.ru/api/v1";
     ModelConfig.gigachat_verify_ssl_cert := false;
     ModelConfig.deepseek_api_key := None;
     ModelConfig.deepseek_base_url := "https://api.deepseek.com";
     ModelConfig.openai_api_key := Some "";
     ModelConfig.openai_base_url := "https://api.openai.com/v1" |}.

Definition gigachat_class (api_key base_url : string) (verify_ssl : bool)
    : LLM.Provider (F:=Binary64.float) unit :=
  Fixtures.provider_up "gigachat".

Definition deepseek_class (api_key base_url : string)
    : LLM.Provider (F:=Binary64.float) unit :=
  Fixtures.provider_down.

Definition openai_class (api_key base_url : string)
    : LLM.Provider (F:=Binary64.float) unit :=
  Fixtures.provider_up "openai".

End ModelFixtures.

(** A JSON decoder and a network for running the providers. *)
Module ProviderFixtures.

(** What [json.loads] gives: [None], a string, an integer, a list or a
    dictionary. *)
#[warnings="-register-all"] Inductive Json : Type :=
| JNone
| JStr (s : string)
| JInt (z : Z)
| JList (items : list Json)
| JDict (fields : list (string * Json)).

Fixpoint field (fields : list (string * Json)) (key : string) : option Json :=
  match fields with
  | [] => None
  | (k, v) :: rest => if String.eqb k key then Some v else field rest key
  end.

(** [v[key]] with the text of the exception Python raises. *)
Definition subscript (v : Json) (key : Providers.Key) : outcome Json :=
  match v, key with
  | JDict fields, Providers.KStr s =>
      match field fields s with
      | Some x => Returns x
      | None => Raises (Exception ("'" +:+ s +:+ "'"))
      end
  | JDict fields, Providers.KInt z => Raises (Exception (pretty z))
  | JList items, Providers.KInt z =>
      let i := if Z.ltb z 0 then (z + Z.of_nat (length items))%Z else z in
      if Z.ltb i 0 then Raises (Exception "list index out of range")
      else py_index items (Z.to_nat i)
  | JList items, Providers.KStr s =>
      Raises (Exception "list indices must be integers or slices, not str")
  | JStr s, _ => Raises (Exception "string indices must be integers")
  | JInt z, _ => Raises (Exception "'int' object is not subscriptable")
  | JNone, _ => Raises (Exception "'NoneType' object is not subscriptable")
  end.

(** [v.get(key)] *)
Definition dict_get (v : Json) (key : string) : outcome Json :=
  match v with
  | JDict fields => Returns (default JNone (field fields key))
  | JList _ => Raises (Exception "'list' object has no attribute 'get'")
  | JStr _ => Raises (Exception "'str' object has no attribute 'get'")
  | JInt _ => Raises (Exception "'int' object has no attribute 'get'")
  | JNone => Raises (Exception "'NoneType' object has no attribute 'get'")
  end.

(** [bool(v)] *)
Definition truthy (v : Json) : bool :=
  match v with
  | JNone => false
  | JStr s => str_truthy s
  | JInt z => negb (Z.eqb z 0)
  | JList items => list_truthy items
  | JDict fields => list_truthy fields
  end.

(** [f"{v}"] for the values a token can be here. *)
Definition format (v : Json) : string :=
  match v with
  | JNone => "None"
  | JStr s => s
  | JInt z => pretty z
  | JList _ => "[...]"
  | JDict _ => "{...}"
  end.

(** A server whose [/auth] hands out one token and whose
    [/chat/completions] rejects it as expired; the network state counts
    the requests. *)
Definition expired_server (request : Providers.Request Binary64.float) (net : nat)
    : outcome (Providers.Response Json) * nat :=
  if String.eqb (Providers.url request) "https://giga.test/auth"
  then (Returns {| Providers.status := 200;
                   Providers.response_json :=
                     Returns (JDict [("access_token", JStr "t-1")]);
                   Providers.response_text := Returns "{...}" |}, S net)
  else (Returns {| Providers.status := 401;
                   Providers.response_json := Returns (JDict []);
                   Providers.response_text := Returns "Token has expired" |}, S net).

(** A server that refuses every request with status 403. *)
Definition refusing_server (request : Providers.Request Binary64.float) (net : nat)
    : outcome (Providers.Response Json) * nat :=
  (Returns {| Providers.status := 403;
              Providers.response_json := Raises (Exception "not JSON");
              Providers.response_text := Returns "Forbidden" |}, S net).

(** A GigaChat object that has fetched its token. *)
Definition with_token : Providers.GigaChat Json :=
  {| Providers.provider :=
       {| Providers.api_key := "secret"; Providers.base_url := "https://giga.test" |};
     Providers.verify_ssl := false;
     Providers.access_token := Some (JStr "t-1") |}.

Definition no_kwargs : Providers.Kwargs Binary64.float :=
  {| Providers.kw_temperature := None; Providers.kw_max_tokens := None |}.

Definition hello : list Message := [ {| role := "user"; content := "hello" |} ].

End ProviderFixtures.

(** Calls made on the fixtures of [ProviderFixtures]. *)
Module ProviderRuns.

(** One [generate_response] on the object that holds a token, against the
    server that rejects it, from network state [net]. *)
Definition expired_call (net : nat) :=
  Providers.gigachat_generate_response ProviderFixtures.Json
    ProviderFixtures.subscript ProviderFixtures.dict_get ProviderFixtures.truthy
    ProviderFixtures.format nat ProviderFixtures.expired_server
    ProviderFixtures.with_token Config.defaults ProviderFixtures.hello
    ProviderFixtures.no_kwargs Binary64.zero Binary64.zero net.

(** A GigaChat object as [__init__] leaves it. *)
Definition fresh : Providers.GigaChat ProviderFixtures.Json :=
  Providers.gigachat_init ProviderFixtures.Json "secret" "https://giga.test" false.

(** The answer of the refusing server. *)
Definition refusal : Providers.Response ProviderFixtures.Json :=
  {| Providers.status := 403;
     Providers.response_json := Raises (Exception "not JSON");
     Providers.response_text := Returns "Forbidden" |}.

End ProviderRuns.

(* ===================================================================== *)
(** * models/vector_store.py : adding documents                           *)
(* ===================================================================== *)

Module Ingest.

Section Store.

Context {F C : Type}.

(** The state of the Chroma collection and of the UUID generator. *)
Variable Coll : Type.
Variable Rng : Type.

(** [str(uuid.uuid4())] *)
Variable uuid4 : Rng -> string * Rng.
(** [embedding_model.encode_text(text)], which re-raises what the model
    raises. *)
Variable encode_text : list C -> outcome (list F).
(** [self.collection.add(ids=, documents=, metadatas=, embeddings=)] *)
Variable collection_add :
  list string -> list (list C) -> list (gmap string Chunker.MetaVal)
  -> list (list F) -> Coll -> outcome unit * Coll.

(** The four lists [add_documents] fills. *)
Record Batch : Type := {
  ids : list string;
  texts : list (list C);
  metadatas : list (gmap string Chunker.MetaVal);
  embeddings : list (list F)
}.

(** A chunk as the dictionary [{"text": ..., "metadata": ...}] it is. *)
Definition chunk_document (chunk : Chunker.Chunk C) : Chunker.SourceDocument C :=
  {| Chunker.doc_content := None;
     Chunker.doc_text := Some (Chunker.text chunk);
     Chunker.doc_metadata := Some (Chunker.metadata chunk) |}.

(** Lines 55-72: the loop of [add_documents]. *)
Fixpoint add_documents_loop (documents : list (Chunker.SourceDocument C))
    (batch : Batch) (rng : Rng) : outcome Batch * Rng :=
  match documents with
  | [] => (Returns batch, rng)
  | doc :: rest =>
      let '(doc_id, rng) := uuid4 rng in
      let ids_ := ids batch ++ [doc_id] in
      let text := default [] (Chunker.doc_text doc) in
      let texts_ := texts batch ++ [text] in
      (* doc.get("metadata", {}).copy() *)
      let metadata := default ∅ (Chunker.doc_metadata doc) in
      let metadata := <["doc_id" := Chunker.MStr doc_id]> metadata in
      let metadata :=
        <["text_length" := Chunker.MInt (Z.of_nat (length text))]> metadata in
      let metadatas_ := metadatas batch ++ [metadata] in
      match encode_text text with
      | Returns embedding =>
          add_documents_loop rest
            {| ids := ids_; texts := texts_; metadatas := metadatas_;
               embeddings := embeddings batch ++ [embedding] |} rng
      | Raises e => (Raises e, rng)
      end
  end.

(** [ChromaVectorStore.add_documents], lines 44-86.  The [except] branch
    logs and re-raises. *)
Definition add_documents (documents : list (Chunker.SourceDocument C))
    (rng : Rng) (coll : Coll) : outcome (list string) * Rng * Coll :=
  if negb (list_truthy documents) then (Returns [], rng, coll)
  else
    match add_documents_loop documents
            {| ids := []; texts := []; metadatas := []; embeddings := [] |} rng with
    | (Returns batch, rng) =>
        match collection_add (ids batch) (texts batch) (metadatas batch)
                (embeddings batch) coll with
        | (Returns _, coll) => (Returns (ids batch), rng, coll)
        | (Raises e, coll) => (Raises e, rng, coll)
        end
    | (Raises e, rng) => (Raises e, rng, coll)
    end.

(** [VectorStoreManager.add_knowledge_documents], lines 231-245, which
    [RAGPipeline.add_knowledge_documents] calls; [None] when the chunker's
    loop does not end within [fuel] turns. *)
Definition add_knowledge_documents (fuel : nat) (document_chunker : Chunker.DocumentChunker)
    (documents : list (Chunker.SourceDocument C)) (rng : Rng) (coll : Coll)
    : option (outcome (list string) * Rng * Coll) :=
  match Chunker.chunk_documents fuel document_chunker documents with
  | Some chunks => Some (add_documents (map chunk_document chunks) rng coll)
  | None => None
  end.

End Store.

Arguments Batch : clear implicits.
Arguments ids {F C} _.
Arguments texts {F C} _.
Arguments metadatas {F C} _.
Arguments embeddings {F C} _.

End Ingest.

(* ===================================================================== *)
(** * services/confluence_sync.py                                         *)
(* ===================================================================== *)

Module Confluence.

(** A page of the listing: the keys [_sync_space] reads.  [links] is the
    dictionary under ['_links'], reduced to its ['webui'] entry. *)
Record Page : Type := {
  id : option string;
  title : option string;
  links : option (option string);
  created : option string;
  updated : option string
}.

(** [page['id']] *)
Definition page_id (page : Page) : outcome string :=
  match id page with
  | Some i => Returns i
  | None => Raises (Exception "'id'")
  end.

(** The attributes of a [ConfluenceSync]. *)
Record ConfluenceSync : Type := {
  base_url : option string;
  username : option string;
  api_token : option string;
  space_keys : list string
}.

(** The dictionary [sync_all_spaces] returns. *)
Record SyncResult : Type := {
  success : bool;
  error : option string;
  documents_synced : option nat;
  spaces_synced : option nat
}.

Section Sync.

Context {F C : Type}.

Variable Coll : Type.
Variable Rng : Type.
Variable uuid4 : Rng -> string * Rng.
Variable encode_text : list C -> outcome (list F).
Variable collection_add :
  list string -> list (list C) -> list (gmap string Chunker.MetaVal)
  -> list (list F) -> Coll -> outcome unit * Coll.

(** The Confluence server and the two requests made to it. *)
Variable Net : Type.
Variable _get_space_pages : string -> Net -> outcome (list Page) * Net.
Variable _get_page_content : string -> Net -> outcome (option (list C)) * Net.

(** [f"{x}"] for an [Optional[str]]. *)
Definition format_optional (x : option string) : string := default "None" x.

(** Lines 61-72: the document built for a page. *)
Definition page_document (self : ConfluenceSync) (space_key : string) (page : Page)
    (page_id_ : string) (content : list C) : Chunker.SourceDocument C :=
  {| Chunker.doc_content := None;
     Chunker.doc_text := Some content;
     Chunker.doc_metadata :=
       Some (<["updated_at" := Chunker.MStr (default "" (updated page))]>
            (<["created_at" := Chunker.MStr (default "" (created page))]>
            (<["page_id" := Chunker.MStr page_id_]>
            (<["space_key" := Chunker.MStr space_key]>
            (<["source_url" :=
                 Chunker.MStr (format_optional (base_url self) +:+ "/wiki"
                               +:+ default "" (default None (links page)))]>
            (<["source_type" := Chunker.MStr "confluence"]>
            (<["title" := Chunker.MStr (default "" (title page))]> ∅))))))) |}.

(** [if content:] *)
Definition content_truthy (content : option (list C)) : bool :=
  match content with
  | Some text => list_truthy text
  | None => false
  end.

(** Lines 55-77: the loop over the pages.  The handler of the inner
    [try] reads [page['id']] for its log line, so it raises when that is
    what failed. *)
Fixpoint sync_pages (self : ConfluenceSync) (space_key : string) (pages : list Page)
    (documents : list (Chunker.SourceDocument C)) (net : Net)
    : outcome (list (Chunker.SourceDocument C)) * Net :=
  match pages with
  | [] => (Returns documents, net)
  | page :: rest =>
      match page_id page with
      | Returns page_id_ =>
          match _get_page_content page_id_ net with
          | (Returns content, net) =>
              if content_truthy content
              then sync_pages self space_key rest
                     (documents ++ [page_document self space_key page page_id_
                                      (default [] content)]) net
              else sync_pages self space_key rest documents net
          | (Raises e, net) => sync_pages self space_key rest documents net
          end
      | Raises e => (page_id page ≫= fun _ => Raises e, net)
      end
  end.

(** [ConfluenceSync._sync_space], lines 47-84. *)
Definition _sync_space (self : ConfluenceSync) (space_key : string) (net : Net)
    : list (Chunker.SourceDocument C) * Net :=
  match _get_space_pages space_key net with
  | (Returns pages, net) =>
      match sync_pages self space_key pages [] net with
      | (Returns documents, net) => (documents, net)
      | (Raises e, net) => ([], net)
      end
  | (Raises e, net) => ([], net)
  end.

(** Lines 27-30: the loop over the spaces. *)
Fixpoint sync_spaces (self : ConfluenceSync) (keys : list string)
    (all_documents : list (Chunker.SourceDocument C)) (net : Net)
    : list (Chunker.SourceDocument C) * Net :=
  match keys with
  | [] => (all_documents, net)
  | space_key :: rest =>
      let '(space_documents, net) := _sync_space self space_key net in
      sync_spaces self rest (all_documents ++ space_documents) net
  end.

(** [all([self.base_url, self.username, self.api_token])] *)
Definition credentials_set (self : ConfluenceSync) : bool :=
  ModelConfig.key_truthy (base_url self) && ModelConfig.key_truthy (username self)
  && ModelConfig.key_truthy (api_token self).

(** [ConfluenceSync.sync_all_spaces], lines 18-45; [None] when the
    chunker's loop does not end within [fuel] turns. *)
Definition sync_all_spaces (fuel : nat) (document_chunker : Chunker.DocumentChunker)
    (self : ConfluenceSync) (rng : Rng) (coll : Coll) (net : Net)
    : option (SyncResult * Rng * Coll * Net) :=
  if negb (credentials_set self)
  then Some ({| success := false;
                error := Some "Confluence credentials not configured";
                documents_synced := None; spaces_synced := None |}, rng, coll, net)
  else
    let '(all_documents, net) := sync_spaces self (space_keys self) [] net in
    let synced :=
      {| success := true; error := None;
         documents_synced := Some (length all_documents);
         spaces_synced := Some (length (space_keys self)) |} in
    if list_truthy all_documents then
      match Ingest.add_knowledge_documents Coll Rng uuid4 encode_text collection_add
              fuel document_chunker all_documents rng coll with
      | Some (Returns doc_ids, rng, coll) => Some (synced, rng, coll, net)
      | Some (Raises e, rng, coll) =>
          Some ({| success := false; error := Some (exn_str e);
                   documents_synced := None; spaces_synced := None |},
                rng, coll, net)
      | None => None
      end
    else Some (synced, rng, coll, net).

End Sync.

End Confluence.

(** What the loop of [Ingest.add_documents] computes, written with maps. *)
Module IngestSpec.

Section Spec.

Context {C : Type}.
Variable Rng : Type.
Variable uuid4 : Rng -> string * Rng.

(** The next [n] values of [uuid4] and the generator after them. *)
Fixpoint draw (n : nat) (rng : Rng) : list string * Rng :=
  match n with
  | O => ([], rng)
  | S n' =>
      let '(doc_id, rng) := uuid4 rng in
      let '(more, rng) := draw n' rng in
      (doc_id :: more, rng)
  end.

(** The text stored for a document. *)
Definition text_of (doc : Chunker.SourceDocument C) : list C :=
  default [] (Chunker.doc_text doc).

(** The metadata stored for a document that was given [doc_id]. *)
Definition stamped (doc_id : string) (doc : Chunker.SourceDocument C)
    : gmap string Chunker.MetaVal :=
  <["text_length" := Chunker.MInt (Z.of_nat (length (text_of doc)))]>
    (<["doc_id" := Chunker.MStr doc_id]> (default ∅ (Chunker.doc_metadata doc))).

End Spec.

End IngestSpec.

(** A collection, a UUID generator and a Confluence server for running the
    ingestion path. *)
Module IngestFixtures.

(** The generator counts; the collection records the batches of ids it
    was given; every text is encoded to the same vector. *)
Definition uuid4 (rng : nat) : string * nat := ("id-" +:+ pretty rng, S rng).

Definition encode_text (text : list nat) : outcome (list Binary64.float) :=
  Returns [Binary64.zero].

Definition collection_add (ids : list string) (documents : list (list nat))
    (metadatas : list (gmap string Chunker.MetaVal))
    (embeddings : list (list Binary64.float)) (coll : list (list string))
    : outcome unit * list (list string) :=
  (Returns tt, coll ++ [ids]).

(** A chunk-like document that brings its own ["doc_id"], and an empty
    dictionary. *)
Definition with_own_id : Chunker.SourceDocument nat :=
  {| Chunker.doc_content := None;
     Chunker.doc_text := Some [1; 2; 3];
     Chunker.doc_metadata := Some {[ "doc_id" := Chunker.MStr "mine" ]} |}.

Definition empty_dict : Chunker.SourceDocument nat :=
  {| Chunker.doc_content := None; Chunker.doc_text := None;
     Chunker.doc_metadata := None |}.

(** A space with one page, whose body is three characters long. *)
Definition one_page : Confluence.Page :=
  {| Confluence.id := Some "42"; Confluence.title := Some "Deploy";
     Confluence.links := Some (Some "/spaces/DEV/pages/42");
     Confluence.created := None; Confluence.updated := None |}.

Definition _get_space_pages (space_key : string) (net : nat)
    : outcome (list Confluence.Page) * nat :=
  (Returns [one_page], S net).

Definition _get_page_content (page_id : string) (net : nat)
    : outcome (option (list nat)) * nat :=
  (Returns (Some [7; 8; 9]), S net).

Definition configured : Confluence.ConfluenceSync :=
  {| Confluence.base_url := Some "https://wiki.test";
     Confluence.username := Some "bot";
     Confluence.api_token := Some "secret";
     Confluence.space_keys := ["DEV"; "TECH"] |}.

End IngestFixtures.

(* ===================================================================== *)
(** * services/chat_service.py : ChatService.process_message              *)
(* ===================================================================== *)

Module ChatService.

(** The attributes of a [ChatSession] row that [process_message] reads. *)
Record ChatSession : Type := {
  id : Z;
  session_id : string
}.

Section Service.

Context {F : Type} `{Arith F}.

(** The dictionary [process_message] returns; a key that a branch leaves
    out is [None]. *)
Record ServiceResult : Type := {
  result_session_id : option string;
  response : option string;
  model_used : option string;
  context_sources : option (list (RAG.Source F));
  similarity_scores : option (list F);
  response_time : option F;
  error : option string;
  success : bool
}.

(** The database, and the four methods of the service that talk to it
    through SQLAlchemy. *)
Variable DB : Type.
Variable _get_or_create_session : Z -> option string -> DB -> outcome ChatSession * DB.
Variable _get_conversation_history :
  Z -> DB -> outcome (list (Conversation.Turn F)) * DB.
Variable _save_messages :
  Z -> string -> Pipeline.ConversationResponse F -> DB -> outcome unit * DB.
Variable _update_session : Z -> option string -> DB -> outcome unit * DB.

(** [rag_pipeline.process_user_query(query=, session_id=, user_role=,
    conversation_history=, preferred_model=)] *)
Variable process_user_query :
  string -> string -> string -> option (list (Conversation.Turn F)) -> option string
  -> outcome (Pipeline.ConversationResponse F).

(** Sequencing of calls that may raise and that change the database. *)
Definition and_then {A B : Type} (c : DB -> outcome A * DB)
    (k : A -> DB -> outcome B * DB) : DB -> outcome B * DB :=
  fun db =>
    match c db with
    | (Returns a, db') => k a db'
    | (Raises e, db') => (Raises e, db')
    end.

(** Lines 42-50: the dictionary of the [try] branch. *)
Definition answer (session : ChatSession) (r : Pipeline.ConversationResponse F)
    : ServiceResult :=
  {| result_session_id := Some (session_id session);
     response := Pipeline.content r;
     model_used := Pipeline.model_used r;
     context_sources := Some (default [] (Pipeline.context_sources r));
     similarity_scores := Some (default [] (Pipeline.similarity_scores r));
     response_time := Some (default (f_of_nat 0) (Pipeline.response_time r));
     error := None;
     success := Pipeline.success r |}.

(** Lines 54-57: the dictionary of the [except] branch. *)
Definition failed : ServiceResult :=
  {| result_session_id := None; response := None; model_used := None;
     context_sources := None; similarity_scores := None; response_time := None;
     error := Some "Произошла ошибка при обработке сообщения";
     success := false |}.

(** Lines 21-50: the body of the [try]. *)
Definition process_message_body (user_id : Z) (message : string)
    (session_id_ preferred_model : option string) : DB -> outcome ServiceResult * DB :=
  and_then (_get_or_create_session user_id session_id_) (fun session =>
  and_then (_get_conversation_history (id session)) (fun conversation_history =>
  and_then (fun db =>
              (process_user_query message (session_id session) "developer"
                 (Some conversation_history) preferred_model, db)) (fun r =>
  and_then (_save_messages (id session) message r) (fun _ =>
  and_then (_update_session (id session) (Pipeline.model_used r)) (fun _ =>
  fun db => (Returns (answer session r), db)))))).

(** [ChatService.process_message], lines 17-57. *)
Definition process_message (user_id : Z) (message : string)
    (session_id_ preferred_model : option string) (db : DB)
    : outcome ServiceResult * DB :=
  let '(o, db') := process_message_body user_id message session_id_ preferred_model db in
  (try_except o (fun e => mret failed), db').

End Service.

Arguments ServiceResult : clear implicits.
Arguments result_session_id {F} _.
Arguments response {F} _.
Arguments model_used {F} _.
Arguments context_sources {F} _.
Arguments similarity_scores {F} _.
Arguments response_time {F} _.
Arguments error {F} _.
Arguments success {F} _.
Arguments failed {F}.

End ChatService.

(* ===================================================================== *)
(** * api/websocket.py : ConnectionManager and the chat handler           *)
(* ===================================================================== *)

Module WebSocket.

(** The keys of a client message that the handlers read; a key the
    client did not send is [None]. *)
Record MessageData : Type := {
  md_type : option string;
  md_message : option string;
  md_session_id : option string;
  md_preferred_model : option string;
  md_status : option string
}.

Section Dict.

Context {V : Type}.

(** [d.get(key)] / [d[key]] on an insertion-ordered dictionary. *)
Fixpoint dict_get (d : list (string * V)) (key : string) : option V :=
  match d with
  | [] => None
  | (k, v) :: rest => if String.eqb k key then Some v else dict_get rest key
  end.

(** [d[key] = value] *)
Fixpoint dict_set (d : list (string * V)) (key : string) (value : V)
    : list (string * V) :=
  match d with
  | [] => [(key, value)]
  | (k, v) :: rest =>
      if String.eqb k key then (k, value) :: rest
      else (k, v) :: dict_set rest key value
  end.

(** [del d[key]] *)
Definition dict_del (d : list (string * V)) (key : string) : list (string * V) :=
  List.filter (fun entry => negb (String.eqb entry.1 key)) d.

End Dict.

Section Manager.

Context {F : Type} `{Arith F}.

(** The messages the server sends, by their ["type"]. *)
Inductive Outgoing : Type :=
| Connection (message user_id : string) (timestamp : F)
| Error (message : string) (timestamp : F)
| Typing (status : string) (timestamp : F)
| TypingAck (status : string) (timestamp : F)
| ChatResponse (session_id response model_used : option string)
    (context_sources : list (RAG.Source F)) (similarity_scores : list F)
    (response_time : F) (success : bool) (timestamp : F).

(** The sockets and what surrounds them.  The handlers run one at a
    time: no other task changes the manager between two awaits. *)
Variable Socket : Type.
Variable World : Type.
(** [await websocket.accept()] *)
Variable accept : Socket -> World -> outcome unit * World.
(** [await websocket.send_text(payload)] *)
Variable send_text : Socket -> string -> World -> outcome unit * World.
(** [json.dumps(message)] *)
Variable json_dumps : Outgoing -> outcome string.
(** [asyncio.get_event_loop().time()] *)
Variable loop_time : World -> F.
(** [chat_service.process_message(user_id=, message=, session_id=,
    preferred_model=)] *)
Variable process_message :
  Z -> string -> option string -> option string -> World
  -> outcome (ChatService.ServiceResult F) * World.

(** The attributes of a [ConnectionManager]. *)
Record ConnectionManager : Type := {
  active_connections : list (string * Socket);
  user_sessions : gmap string string
}.

(** [ConnectionManager.__init__] *)
Definition init : ConnectionManager :=
  {| active_connections := []; user_sessions := ∅ |}.

(** One call of [send_text]: the user, the message and how the call
    ended. *)
Definition Sent : Type := (string * Outgoing * outcome unit)%type.

(** [ConnectionManager.connect], lines 21-25. *)
Definition connect (self : ConnectionManager) (websocket : Socket) (user_id : string)
    (w : World) : outcome ConnectionManager * World :=
  match accept websocket w with
  | (Returns _, w) =>
      (Returns {| active_connections :=
                    dict_set (active_connections self) user_id websocket;
                  user_sessions := user_sessions self |}, w)
  | (Raises e, w) => (Raises e, w)
  end.

(** [ConnectionManager.disconnect], lines 27-33. *)
Definition disconnect (self : ConnectionManager) (user_id : string) : ConnectionManager :=
  let self :=
    if bool_decide (is_Some (dict_get (active_connections self) user_id))
    then {| active_connections := dict_del (active_connections self) user_id;
            user_sessions := user_sessions self |}
    else self in
  if bool_decide (is_Some (user_sessions self !! user_id))
  then {| active_connections := active_connections self;
          user_sessions := delete user_id (user_sessions self) |}
  else self.

(** [ConnectionManager.send_personal_message], lines 35-42. *)
Definition send_personal_message (self : ConnectionManager) (message : Outgoing)
    (user_id : string) (w : World) : ConnectionManager * list Sent * World :=
  match dict_get (active_connections self) user_id with
  | Some connection =>
      match json_dumps message with
      | Returns payload =>
          match send_text connection payload w with
          | (Returns _, w) => (self, [(user_id, message, Returns tt)], w)
          | (Raises e, w) =>
              (disconnect self user_id, [(user_id, message, Raises e)], w)
          end
      | Raises e => (disconnect self user_id, [], w)
      end
  | None => (self, [], w)
  end.

(** Lines 48-53: the first loop of [broadcast]. *)
Fixpoint broadcast_loop (items : list (string * Socket)) (message : Outgoing)
    (disconnected_users : list string) (log : list Sent) (w : World)
    : list string * list Sent * World :=
  match items with
  | [] => (disconnected_users, log, w)
  | (user_id, connection) :: rest =>
      match json_dumps message with
      | Returns payload =>
          match send_text connection payload w with
          | (Returns _, w) =>
              broadcast_loop rest message disconnected_users
                (log ++ [(user_id, message, Returns tt)]) w
          | (Raises e, w) =>
              broadcast_loop rest message (disconnected_users ++ [user_id])
                (log ++ [(user_id, message, Raises e)]) w
          end
      | Raises e =>
          broadcast_loop rest message (disconnected_users ++ [user_id]) log w
      end
  end.

(** [ConnectionManager.broadcast], lines 44-57. *)
Definition broadcast (self : ConnectionManager) (message : Outgoing) (w : World)
    : ConnectionManager * list Sent * World :=
  let '(disconnected_users, log, w) :=
    broadcast_loop (active_connections self) message [] [] w in
  (fold_left disconnect disconnected_users self, log, w).

(** [if response.get("session_id"):] *)
Definition session_truthy (session_id : option string) : bool :=
  match session_id with
  | Some s => str_truthy s
  | None => false
  end.

(** Lines 184-194: the reply built from the service's dictionary. *)
Definition chat_response (response : ChatService.ServiceResult F) (timestamp : F)
    : Outgoing :=
  ChatResponse (ChatService.result_session_id response)
    (ChatService.response response)
    (ChatService.model_used response)
    (default [] (ChatService.context_sources response))
    (default [] (ChatService.similarity_scores response))
    (default (f_of_nat 0) (ChatService.response_time response))
    (ChatService.success response)
    timestamp.

(** [handle_chat_message], lines 146-206, on the global [manager];
    [user] is [user.id]. *)
Definition handle_chat_message (user : Z) (message_data : MessageData)
    (user_id : string) (manager : ConnectionManager) (w : World)
    : ConnectionManager * list Sent * World :=
  let message := default "" (md_message message_data) in
  let session_id := md_session_id message_data in
  let preferred_model := md_preferred_model message_data in
  if negb (str_truthy message)
  then send_personal_message manager (Error "Пустое сообщение" (loop_time w)) user_id w
  else
    let '(manager, log1, w) :=
      send_personal_message manager (Typing "start" (loop_time w)) user_id w in
    match process_message user message session_id preferred_model w with
    | (Returns response, w) =>
        let '(manager, log2, w) :=
          send_personal_message manager (Typing "stop" (loop_time w)) user_id w in
        let '(manager, log3, w) :=
          send_personal_message manager (chat_response response (loop_time w))
            user_id w in
        let manager :=
          if session_truthy (ChatService.result_session_id response)
          then {| active_connections := active_connections manager;
                  user_sessions :=
                    <[user_id := default "" (ChatService.result_session_id response)]>
                      (user_sessions manager) |}
          else manager in
        (manager, log1 ++ log2 ++ log3, w)
    | (Raises e, w) =>
        let '(manager, log2, w) :=
          send_personal_message manager
            (Error "Ошибка обработки сообщения" (loop_time w)) user_id w in
        (manager, log1 ++ log2, w)
    end.

(** [handle_typing_indicator], lines 209-224. *)
Definition handle_typing_indicator (message_data : MessageData) (user_id : string)
    (manager : ConnectionManager) (w : World) : ConnectionManager * list Sent * World :=
  let status := default "start" (md_status message_data) in
  send_personal_message manager (TypingAck status (loop_time w)) user_id w.

End Manager.

Arguments Outgoing : clear implicits.
Arguments ConnectionManager : clear implicits.
Arguments active_connections {Socket} _.
Arguments user_sessions {Socket} _.
Arguments init {Socket}.
Arguments disconnect {Socket} _ _.

End WebSocket.

(** Reading the log of sends. *)
Module WebSocketLog.

(** The call of [send_text] returned. *)
Definition delivered {M : Type} (sent : string * M * outcome unit) : bool :=
  match sent.2 with
  | Returns _ => true
  | Raises _ => false
  end.

(** The users whose send raised. *)
Definition failed_users {M : Type} (log : list (string * M * outcome unit)) : list string :=
  map (fun sent => sent.1.1) (List.filter (fun sent => negb (delivered sent)) log).

End WebSocketLog.

(** Sockets and a chat service for running the WebSocket handlers. *)
Module WebSocketFixtures.

(** A socket is open or closed; the world counts the calls made. *)
Definition send_text (socket : bool) (payload : string) (w : nat)
    : outcome unit * nat :=
  if socket then (Returns tt, S w) else (Raises (Exception "socket closed"), S w).

Definition json_dumps (message : WebSocket.Outgoing Binary64.float) : outcome string :=
  Returns "{}".

Definition loop_time (w : nat) : Binary64.float := Binary64.of_Z (Z.of_nat w).

(** A chat service that answers in session "s-1". *)
Definition process_message (user_id : Z) (message : string)
    (session_id preferred_model : option string) (w : nat)
    : outcome (ChatService.ServiceResult Binary64.float) * nat :=
  (Returns {| ChatService.result_session_id := Some "s-1";
              ChatService.response := Some "answer";
              ChatService.model_used := Some "gigachat";
              ChatService.context_sources := Some [];
              ChatService.similarity_scores := Some [];
              ChatService.response_time := Some Binary64.zero;
              ChatService.error := None;
              ChatService.success := true |}, S w).

(** Alice on an open socket, Bob on a closed one. *)
Definition two_users : WebSocket.ConnectionManager bool :=
  {| WebSocket.active_connections := [("alice", true); ("bob", false)];
     WebSocket.user_sessions := {[ "bob" := "s-0" ]} |}.

Definition question : WebSocket.MessageData :=
  {| WebSocket.md_type := Some "chat"; WebSocket.md_message := Some "How?";
     WebSocket.md_session_id := None; WebSocket.md_preferred_model := None;
     WebSocket.md_status := None |}.

End WebSocketFixtures.

(* ===================================================================== *)
(** * api/chat.py : POST /api/chat/message                                *)
(* ===================================================================== *)

Module Rest.

(** [ChatMessageRequest] *)
Record ChatMessageRequest : Type := {
  message : string;
  session_id : option string;
  preferred_model : option string
}.

(** What a handler hands back to FastAPI: a body, or an [HTTPException]
    with its status code and detail. *)
Inductive Reply (A : Type) : Type :=
| Ok (body : A)
| HTTPException (status_code : Z) (detail : string).

Arguments Ok {A} body.
Arguments HTTPException {A} status_code detail.

(** What ends the [try] block early: the [HTTPException] the block raises
    itself, or any other exception. *)
Inductive Raised : Type :=
| RaisedHTTP (status_code : Z) (detail : string)
| RaisedOther (e : exn).

Section Message.

Context {F : Type} `{Arith F}.

(** [ChatMessageResponse] *)
Record ChatMessageResponse : Type := {
  response_session_id : string;
  response : string;
  model_used : string;
  context_sources : list (RAG.Source F);
  similarity_scores : list F;
  response_time : F;
  success : bool
}.

Variable World : Type.
(** [chat_service.process_message(user_id=, message=, session_id=,
    preferred_model=)] *)
Variable process_message :
  Z -> string -> option string -> option string -> World
  -> outcome (ChatService.ServiceResult F) * World.
(** The [KeyError] or the pydantic [ValidationError] raised when
    [ChatMessageResponse(...)] is built from a dictionary that lacks a
    field or holds [None] in it. *)
Variable rejected : ChatService.ServiceResult F -> exn.

(** Lines 103-111: [ChatMessageResponse(session_id=response["session_id"],
    ...)]; every field is required and none is optional. *)
Definition build_response (r : ChatService.ServiceResult F)
    : ChatMessageResponse + Raised :=
  match ChatService.result_session_id r, ChatService.response r,
        ChatService.model_used r, ChatService.context_sources r,
        ChatService.similarity_scores r, ChatService.response_time r with
  | Some session_id_, Some response_, Some model_used_, Some context_sources_,
    Some similarity_scores_, Some response_time_ =>
      inl {| response_session_id := session_id_; response := response_;
             model_used := model_used_; context_sources := context_sources_;
             similarity_scores := similarity_scores_;
             response_time := response_time_;
             success := ChatService.success r |}
  | _, _, _, _, _, _ => inr (RaisedOther (rejected r))
  end.

(** Lines 88-111: the body of the [try]. *)
Definition send_message_body (request : ChatMessageRequest) (current_user : Z)
    (w : World) : (ChatMessageResponse + Raised) * World :=
  match process_message current_user (message request) (session_id request)
          (preferred_model request) w with
  | (Returns r, w) =>
      if negb (ChatService.success r)
      then (inr (RaisedHTTP 500
                   (default "Ошибка обработки сообщения" (ChatService.error r))), w)
      else (build_response r, w)
  | (Raises e, w) => (inr (RaisedOther e), w)
  end.

(** [send_message], lines 81-118; [current_user] is [current_user.id].
    [HTTPException] is an [Exception], so the [except] branch catches the
    one raised in the [try] as well. *)
Definition send_message (request : ChatMessageRequest) (current_user : Z) (w : World)
    : Reply ChatMessageResponse * World :=
  match send_message_body request current_user w with
  | (inl body, w) => (Ok body, w)
  | (inr _, w) => (HTTPException 500 "Внутренняя ошибка сервера", w)
  end.

End Message.

Arguments ChatMessageResponse : clear implicits.
Arguments response_session_id {F} _.
Arguments response {F} _.
Arguments model_used {F} _.
Arguments context_sources {F} _.
Arguments similarity_scores {F} _.
Arguments response_time {F} _.
Arguments success {F} _.

End Rest.

(* ===================================================================== *)
(** * models/vector_store.py : update_document                            *)
(* ===================================================================== *)

Module Update.

(** A reference to a dictionary object, and the store of the dictionary
    objects that exist. *)
Definition ref : Type := positive.
Definition Heap : Type := gmap ref (gmap string Chunker.MetaVal).

(** The dictionary behind a reference. *)
Definition dict_at (heap : Heap) (r : ref) : gmap string Chunker.MetaVal :=
  default ∅ (heap !! r).

(** [{}]: a new dictionary object. *)
Definition dict_new (heap : Heap) : ref * Heap :=
  let r := fresh (dom heap) in (r, <[r := ∅]> heap).

(** [d[key] = value] on the object behind [r]. *)
Definition dict_store (heap : Heap) (r : ref) (key : string) (value : Chunker.MetaVal)
    : Heap :=
  <[r := <[key := value]> (dict_at heap r)]> heap.

(** The call returned (it did not raise). *)
Definition returned {A : Type} (o : outcome A) : bool :=
  match o with
  | Returns _ => true
  | Raises _ => false
  end.

Section Document.

Context {F C : Type}.

Variable Coll : Type.
Variable Rng : Type.
Variable uuid4 : Rng -> string * Rng.
Variable encode_text : list C -> outcome (list F).
(** [self.collection.update(ids=, documents=, metadatas=, embeddings=)] *)
Variable collection_update :
  list string -> list (list C) -> list (gmap string Chunker.MetaVal)
  -> list (list F) -> Coll -> outcome unit * Coll.

(** [new_metadata or {}]: the caller's object when it is a non-empty
    dictionary, a new empty one otherwise. *)
Definition metadata_or_new (new_metadata : option ref) (heap : Heap) : ref * Heap :=
  match new_metadata with
  | Some r =>
      if bool_decide (dict_at heap r = ∅) then dict_new heap else (r, heap)
  | None => dict_new heap
  end.

(** [ChromaVectorStore.update_document], lines 146-169.  [new_metadata]
    is the reference the caller passes, if any. *)
Definition update_document (doc_id : string) (new_text : list C)
    (new_metadata : option ref) (rng : Rng) (coll : Coll) (heap : Heap)
    : bool * Rng * Coll * Heap :=
  match encode_text new_text with
  | Returns new_embedding =>
      let '(metadata, heap) := metadata_or_new new_metadata heap in
      let '(stamp, rng) := uuid4 rng in
      let heap := dict_store heap metadata "updated_at" (Chunker.MStr stamp) in
      match collection_update [doc_id] [new_text] [dict_at heap metadata]
              [new_embedding] coll with
      | (Returns _, coll) => (true, rng, coll, heap)
      | (Raises e, coll) => (false, rng, coll, heap)
      end
  | Raises e => (false, rng, coll, heap)
  end.

End Document.

End Update.

(** A store of dictionaries and a collection that refuses updates. *)
Module UpdateFixtures.

(** The caller's metadata dictionary is object 1. *)
Definition callers_metadata : gmap string Chunker.MetaVal :=
  {[ "title" := Chunker.MStr "Deploy" ]}.

Definition heap : Update.Heap := {[ 1%positive := callers_metadata ]}.

Definition collection_update (ids : list string) (documents : list (list nat))
    (metadatas : list (gmap string Chunker.MetaVal))
    (embeddings : list (list Binary64.float)) (coll : list (list string))
    : outcome unit * list (list string) :=
  (Raises (Exception "collection is read-only"), coll).

End UpdateFixtures.

(** What [chunk_documents] makes of one document, written with maps. *)
Module ChunkSpec.

Section Spec.

Context {C : Type}.

(** The text [chunk_documents] reads from a document. *)
Definition content_of (doc : Chunker.SourceDocument C) : list C :=
  default [] (Chunker.doc_content doc).

(** The loop step and the number of chunks of a text of [len]
    characters. *)
Definition step_of (self : Chunker.DocumentChunker) : nat :=
  Z.to_nat (Chunker.chunk_size self - Chunker.chunk_overlap self).

Definition count_of (self : Chunker.DocumentChunker) (len : nat) : nat :=
  (len + step_of self - 1) / step_of self.

(** The chunks of one document, by position. *)
Definition chunks_of (self : Chunker.DocumentChunker) (doc : Chunker.SourceDocument C)
    : list (Chunker.Chunk C) :=
  map (fun i =>
         Chunker.make_chunk self (content_of doc)
           (Some (default ∅ (Chunker.doc_metadata doc)))
           (Z.of_nat (i * step_of self)))
    (seq 0 (count_of self (length (content_of doc)))).

End Spec.

End ChunkSpec.

(** Inputs for the ingestion of documents that have content, and a
    Confluence listing with a page that lacks its id. *)
Module KnowledgeFixtures.

(** A document of 24 characters with a title. *)
Definition article : Chunker.SourceDocument nat :=
  {| Chunker.doc_content := Some ChunkerFixtures.text24;
     Chunker.doc_text := None;
     Chunker.doc_metadata := Some {[ "title" := Chunker.MStr "Deploy" ]} |}.

(** A page as the listing may return it without ['id']. *)
Definition page_without_id : Confluence.Page :=
  {| Confluence.id := None; Confluence.title := Some "Draft";
     Confluence.links := None; Confluence.created := None;
     Confluence.updated := None |}.

Definition listing_with_gap (space_key : string) (net : nat)
    : outcome (list Confluence.Page) * nat :=
  (Returns [IngestFixtures.one_page; page_without_id; IngestFixtures.one_page], S net).

End KnowledgeFixtures.

(* ===================================================================== *)
(** * Theorems                                                            *)
(* ===================================================================== *)

(** Unfolds the monad of [outcome] and [try_except], and nothing else. *)
Ltac outcome_step :=
  cbn [try_except mbind outcome_bind bind_outcome mret outcome_ret].

(** ** The generation router *)

Section RouterFacts.

Context {F : Type} (World : Type).

Implicit Types (providers : gmap string (LLM.Provider (F:=F) World)).
Implicit Types (st : Config.Settings F) (order : list string) (w : World).

Lemma configured_true providers m :
  LLM.configured World providers m = true <-> is_Some (providers !! m).
Proof. unfold LLM.configured. rewrite bool_decide_eq_true. reflexivity. Qed.

Lemma configured_false providers m :
  LLM.configured World providers m = false <-> providers !! m = None.
Proof.
  unfold LLM.configured. rewrite bool_decide_eq_false.
  rewrite eq_None_not_Some. reflexivity.
Qed.

Lemma try_models_spec providers messages kwargs order w :
  let '(r, log, w') := LLM.try_models World providers messages kwargs order w in
  LLM.invoked World providers messages kwargs w log w' /\
  ((exists pre name rest,
      log = pre ++ [(name, Returns r)] /\ LLM.success r = true /\
      Forall LLM.failed pre /\
      List.filter (LLM.configured World providers) order = pre.*1 ++ name :: rest)
   \/ (r = LLM.unavailable /\ Forall LLM.failed log /\
       log.*1 = List.filter (LLM.configured World providers) order)).
Proof.
  revert w. induction order as [|m rest IH]; intros w; simpl.
  - split; [constructor|]. right. auto.
  - destruct (providers !! m) as [prov|] eqn:Hm.
    + assert (Hc : LLM.configured World providers m = true)
        by (apply configured_true; eauto).
      rewrite Hc.
      destruct (prov messages kwargs w) as [[res|e] w1] eqn:Hcall.
      * destruct (LLM.success res) eqn:Hs.
        -- split; [econstructor; eauto; constructor|].
           left. exists [], m, (List.filter (LLM.configured World providers) rest).
           simpl. auto.
        -- specialize (IH w1).
           destruct (LLM.try_models World providers messages kwargs rest w1)
             as [[r log] w2].
           destruct IH as [Hinv Hcase]. split; [econstructor; eauto|].
           destruct Hcase as [(pre & name & rest' & -> & Hok & Hpre & Hord)
                             |(-> & Hall & Hord)].
           ++ left. exists ((m, Returns res) :: pre), name, rest'.
              rewrite fmap_cons, Hord. repeat split; auto.
           ++ right. rewrite fmap_cons, Hord. repeat split; auto.
      * specialize (IH w1).
        destruct (LLM.try_models World providers messages kwargs rest w1)
          as [[r log] w2].
        destruct IH as [Hinv Hcase]. split; [econstructor; eauto|].
        destruct Hcase as [(pre & name & rest' & -> & Hok & Hpre & Hord)
                          |(-> & Hall & Hord)].
        -- left. exists ((m, Raises e) :: pre), name, rest'.
           rewrite fmap_cons, Hord. repeat split; auto.
           constructor; [exact I | assumption].
        -- right. rewrite fmap_cons, Hord. repeat split; auto.
           constructor; [exact I | assumption].
    + assert (Hc : LLM.configured World providers m = false)
        by (apply configured_false; assumption).
      rewrite Hc. apply IH.
Qed.

Lemma preferred_usable_Some providers preferred p :
  LLM.preferred_usable World providers preferred = Some p ->
  preferred = Some p /\ p <> "" /\ LLM.configured World providers p = true.
Proof.
  unfold LLM.preferred_usable. destruct preferred as [q|]; [|discriminate].
  destruct (str_truthy q) eqn:Ht; simpl; [|discriminate].
  destruct (LLM.configured World providers q) eqn:Hc; [|discriminate].
  intros [= <-]. repeat split; auto. intros ->. discriminate.
Qed.

Lemma filter_configured_fallbacks providers fallback head :
  List.filter (LLM.configured World providers)
    (LLM.fallbacks_except World providers fallback head)
  = LLM.fallbacks_except World providers fallback head.
Proof.
  unfold LLM.fallbacks_except. induction fallback as [|m l IH]; simpl; [reflexivity|].
  destruct (LLM.configured World providers m) eqn:Hc; simpl; [|exact IH].
  destruct (String.eqb m head); simpl; [exact IH|].
  rewrite Hc, IH. reflexivity.
Qed.

Lemma in_fallbacks_except providers fallback head m :
  In m (LLM.fallbacks_except World providers fallback head) <->
  In m fallback /\ LLM.configured World providers m = true /\ m <> head.
Proof.
  unfold LLM.fallbacks_except. rewrite filter_In, andb_true_iff, negb_true_iff.
  rewrite String.eqb_neq. tauto.
Qed.

(** C2.  Whatever the attempt order and whatever each provider's call
    does (return a successful result, return a failed one, raise), the
    router's log of calls replays the providers in order along a prefix
    of the attempt order; either its last call returned [success = True],
    every earlier call failed, and that call's result is the router's
    result (so nothing after it was invoked); or every backend of the
    attempt order was invoked and failed (none, when none is configured)
    and the result is the sentinel: the fixed apology, model "fallback",
    [success = False]. *)
Theorem generate_response_first_success st providers messages preferred kwargs w :
  let '(r, log, w') :=
    LLM.generate_response World st providers messages preferred kwargs w in
  LLM.invoked World providers messages kwargs w log w' /\
  log.*1 `prefix_of` LLM.attempt_order World st providers preferred /\
  ((exists pre name,
      log = pre ++ [(name, Returns r)] /\ LLM.success r = true /\
      Forall LLM.failed pre)
   \/ (Forall LLM.failed log /\
       log.*1 = LLM.attempt_order World st providers preferred /\
       r = LLM.unavailable /\
       LLM.content r
         = Some "Извините, в данный момент сервис недоступен. Попробуйте позже." /\
       LLM.model r = "fallback" /\
       LLM.success r = false)).
Proof.
  unfold LLM.generate_response, LLM.attempt_order.
  pose proof (try_models_spec providers messages kwargs
                (LLM.model_order World st providers preferred) w) as H.
  destruct (LLM.try_models World providers messages kwargs
              (LLM.model_order World st providers preferred) w) as [[r log] w'].
  destruct H as [Hinv [(pre & name & rest & Hlog & Hok & Hpre & Hord)
                      |(Hr & Hall & Hord)]].
  - split; [exact Hinv|]. split.
    + rewrite Hord, Hlog, fmap_app. simpl.
      exists rest. rewrite <- app_assoc. reflexivity.
    + left. exists pre, name. auto.
  - split; [exact Hinv|]. split.
    + rewrite Hord. reflexivity.
    + right. subst r. repeat split; auto.
Qed.

(** C1, as the code has it.  The attempt order is led by the preferred
    backend when one is given and configured, and by the default backend
    (when configured) otherwise; after the leader come the configured
    backends of the fallback list other than the leader, in listed order.
    Every backend in it is configured, and the default backend is in it
    exactly when it is configured and no usable preferred backend was
    given, or the preferred backend is the default one, or the fallback
    list names the default. *)
Theorem attempt_order_shape st providers preferred :
  LLM.attempt_order World st providers preferred =
    match LLM.preferred_usable World providers preferred with
    | Some p =>
        p :: List.filter
               (fun m => LLM.configured World providers m && negb (String.eqb m p))
               (Config.fallback_models st)
    | None =>
        (if LLM.configured World providers (Config.default_model st)
         then [Config.default_model st] else [])
        ++ List.filter
             (fun m => LLM.configured World providers m
                       && negb (String.eqb m (Config.default_model st)))
             (Config.fallback_models st)
    end
  /\ Forall (fun m => is_Some (providers !! m))
       (LLM.attempt_order World st providers preferred)
  /\ (In (Config.default_model st) (LLM.attempt_order World st providers preferred) <->
      is_Some (providers !! Config.default_model st) /\
      (LLM.preferred_usable World providers preferred = None \/
       LLM.preferred_usable World providers preferred = Some (Config.default_model st) \/
       In (Config.default_model st) (Config.fallback_models st))).
Proof.
  assert (Hshape :
    LLM.attempt_order World st providers preferred =
    match LLM.preferred_usable World providers preferred with
    | Some p => p :: LLM.fallbacks_except World providers (Config.fallback_models st) p
    | None =>
        (if LLM.configured World providers (Config.default_model st)
         then [Config.default_model st] else [])
        ++ LLM.fallbacks_except World providers (Config.fallback_models st)
             (Config.default_model st)
    end).
  { unfold LLM.attempt_order, LLM.model_order.
    destruct (LLM.preferred_usable World providers preferred) as [p|] eqn:Hp.
    - apply preferred_usable_Some in Hp as (_ & _ & Hc).
      simpl. rewrite Hc, filter_configured_fallbacks. reflexivity.
    - simpl. rewrite filter_configured_fallbacks.
      destruct (LLM.configured World providers (Config.default_model st));
        reflexivity. }
  split; [exact Hshape|]. split.
  - unfold LLM.attempt_order. apply List.Forall_forall. intros m Hm.
    apply filter_In in Hm as [_ Hm]. apply configured_true. exact Hm.
  - rewrite Hshape, <- configured_true.
    destruct (LLM.preferred_usable World providers preferred) as [p|] eqn:Hp.
    + apply preferred_usable_Some in Hp as (_ & _ & Hc).
      simpl. rewrite in_fallbacks_except. split.
      * intros [<-|(Hin & Hd & _)]; auto.
      * intros (Hd & [Hn|[[= ->]|Hin]]); [discriminate|auto|].
        destruct (decide (Config.default_model st = p)) as [->|Hne]; auto.
    + rewrite in_app_iff, in_fallbacks_except. split.
      * intros [Hin|(_ & _ & Hne)]; [|congruence].
        destruct (LLM.configured World providers (Config.default_model st));
          [auto | destruct Hin].
      * intros (Hd & _). rewrite Hd. left. left. reflexivity.
Qed.

End RouterFacts.

(** C1, as claimed, fails on the class defaults of [Settings]
    (default "gigachat", fallbacks "deepseek", "openai") with GigaChat and
    DeepSeek configured and "deepseek" preferred: the preferred backend is
    valid, yet the attempt order is ["deepseek"] alone, without the default
    backend, where the claimed construction gives ["deepseek"; "gigachat"]. *)
Lemma default_backend_left_out :
  is_Some (Fixtures.gigachat_and_deepseek !! "deepseek") /\
  is_Some (Fixtures.gigachat_and_deepseek !! "gigachat") /\
  LLM.attempt_order unit Config.defaults Fixtures.gigachat_and_deepseek (Some "deepseek")
    = ["deepseek"] /\
  ~ In (Config.default_model Config.defaults)
       (LLM.attempt_order unit Config.defaults Fixtures.gigachat_and_deepseek
          (Some "deepseek")) /\
  LLM.spec_attempt_order unit Config.defaults Fixtures.gigachat_and_deepseek
    (Some "deepseek") = ["deepseek"; "gigachat"].
Proof.
  assert (H : LLM.attempt_order unit Config.defaults Fixtures.gigachat_and_deepseek
                (Some "deepseek") = ["deepseek"]) by (vm_compute; reflexivity).
  split; [|split; [|split; [|split]]].
  - vm_compute. eauto.
  - vm_compute. eauto.
  - exact H.
  - rewrite H. simpl. intros [Heq|[]]. discriminate Heq.
  - vm_compute. reflexivity.
Qed.

(** Scenario B of the specification: "deepseek" preferred, only GigaChat
    configured, default "gigachat": the attempt order is ["gigachat"]. *)
Example scenario_B_order :
  LLM.attempt_order unit Config.defaults Fixtures.gigachat_only (Some "deepseek")
    = ["gigachat"].
Proof. vm_compute. reflexivity. Qed.

(** With the class defaults, "deepseek" preferred and unreachable, and
    GigaChat configured and answering, the router calls DeepSeek only and
    returns the sentinel. *)
Example preferred_down_default_up :
  LLM.generate_response unit Config.defaults Fixtures.gigachat_and_deepseek
    [] (Some "deepseek")
    {| LLM.kw_temperature := Binary64.lit 7 1; LLM.kw_max_tokens := 4096 |} tt
  = (LLM.unavailable,
     [("deepseek", Raises (Exception "Cannot connect to host"))], tt).
Proof. vm_compute. reflexivity. Qed.

(** ** The conversation manager *)

Section ConversationFacts.

Context {F : Type}.

Implicit Types (σ : gmap Conversation.ref (list (Conversation.Turn F))).
Implicit Types (self : Conversation.ConversationManager).

Lemma py_slice_last_length {A : Type} (n : nat) (l : list A) :
  0 < n -> length (py_slice_last n l) = Nat.min n (length l).
Proof.
  intros Hn. unfold py_slice_last. destruct n as [|n]; [lia|].
  rewrite length_drop. lia.
Qed.

Lemma py_slice_last_suffix {A : Type} (n : nat) (l : list A) :
  py_slice_last n l `suffix_of` l.
Proof.
  unfold py_slice_last. destruct n as [|n]; [reflexivity|].
  apply suffix_drop.
Qed.

Lemma list_alloc_spec σ elems :
  let '(l, σ') := Conversation.list_alloc σ elems in
  σ !! l = None /\ σ' = <[l := elems]> σ /\ σ ⊆ σ'.
Proof.
  unfold Conversation.list_alloc.
  assert (Hfresh : σ !! fresh (dom σ) = None)
    by (apply not_elem_of_dom, is_fresh).
  split; [exact Hfresh|]. split; [reflexivity|].
  apply insert_subseteq. exact Hfresh.
Qed.

Lemma list_get_insert σ l (xs : list (Conversation.Turn F)) :
  Conversation.list_get (<[l := xs]> σ) l = xs.
Proof. unfold Conversation.list_get. rewrite lookup_insert_eq. reflexivity. Qed.

Lemma list_append_insert σ l (xs : list (Conversation.Turn F)) x :
  Conversation.list_append (<[l := xs]> σ) l x = <[l := xs ++ [x]]> σ.
Proof.
  unfold Conversation.list_append. rewrite list_get_insert.
  apply insert_insert_eq.
Qed.

(** The loop of [_prepare_session_context] is a filter followed by a map. *)
Lemma prepare_loop (msgs : list (Conversation.Turn F)) (acc : list Message) :
  fold_left
    (fun filtered_messages msg =>
       if Conversation.role_kept msg
       then filtered_messages ++ [Conversation.to_message msg]
       else filtered_messages) msgs acc
  = acc ++ map Conversation.to_message (List.filter Conversation.role_kept msgs).
Proof.
  revert acc. induction msgs as [|m l IH]; intros acc; simpl.
  - rewrite app_nil_r. reflexivity.
  - rewrite IH. destruct (Conversation.role_kept m); simpl; [|reflexivity].
    rewrite <- app_assoc. reflexivity.
Qed.

(** What [update_conversation_history] returns and what it does to the
    store, for any [history] argument. *)
Lemma update_conversation_history_spec self history um ar (now1 now2 : F) σ :
  let old := match history with
             | Some h => Conversation.list_get σ h
             | None => []
             end in
  let full := old ++ [ {| Conversation.turn_role := "user";
                          Conversation.turn_content := um;
                          Conversation.turn_timestamp := Some now1 |};
                       {| Conversation.turn_role := "assistant";
                          Conversation.turn_content := ar;
                          Conversation.turn_timestamp := Some now2 |} ] in
  let '(ret, σ') :=
    Conversation.update_conversation_history self history um ar now1 now2 σ in
  σ ⊆ σ' /\ σ !! ret = None /\
  σ' !! ret =
    Some (if Nat.ltb (Conversation.max_context_length self * 2) (length full)
          then py_slice_last (Conversation.max_context_length self * 2) full
          else full).
Proof.
  intros old full. unfold Conversation.update_conversation_history.
  set (u := {| Conversation.turn_role := "user" |}) in *.
  set (a := {| Conversation.turn_role := "assistant" |}) in *.
  assert (Hcopy : exists l,
    (match history with
     | Some h =>
         if list_truthy (Conversation.list_get σ h)
         then Conversation.list_alloc σ (Conversation.list_get σ h)
         else Conversation.list_alloc σ []
     | None => Conversation.list_alloc σ []
     end) = (l, <[l := old]> σ) /\ σ !! l = None).
  { exists (fresh (dom σ)).
    assert (Hfresh : σ !! fresh (dom σ) = None)
      by (apply not_elem_of_dom, is_fresh).
    split; [|exact Hfresh]. subst old.
    destruct history as [h|]; [|reflexivity].
    destruct (Conversation.list_get σ h) eqn:Hh; reflexivity. }
  destruct Hcopy as (l & -> & Hl).
  rewrite !list_append_insert, !list_get_insert.
  rewrite <- app_assoc. simpl. fold full.
  destruct (Nat.ltb (Conversation.max_context_length self * 2) (length full)).
  - pose proof (list_alloc_spec (<[l := full]> σ)
                  (py_slice_last (Conversation.max_context_length self * 2) full))
      as H.
    destruct (Conversation.list_alloc (<[l := full]> σ)
                (py_slice_last (Conversation.max_context_length self * 2) full))
      as [l2 σ2].
    destruct H as (Hl2 & -> & Hsub).
    assert (Hne : l <> l2) by (intros ->; rewrite lookup_insert_eq in Hl2; discriminate).
    rewrite lookup_insert_ne in Hl2 by exact Hne.
    split; [|split].
    + transitivity (<[l := full]> σ); [|exact Hsub].
      apply insert_subseteq. exact Hl.
    + exact Hl2.
    + apply lookup_insert_eq.
  - split; [|split].
    + apply insert_subseteq. exact Hl.
    + exact Hl.
    + apply lookup_insert_eq.
Qed.

Lemma map_filter_sublist (msgs : list (Conversation.Turn F)) :
  map Conversation.to_message (List.filter Conversation.role_kept msgs)
    `sublist_of` map Conversation.to_message msgs.
Proof.
  induction msgs as [|m l IH]; simpl; [constructor|].
  destruct (Conversation.role_kept m); simpl.
  - apply sublist_skip. exact IH.
  - apply sublist_cons. exact IH.
Qed.

Lemma role_kept_true (t : Conversation.Turn F) :
  Conversation.role_kept t = true <->
  Conversation.turn_role t = "user" \/ Conversation.turn_role t = "assistant".
Proof.
  unfold Conversation.role_kept. rewrite bool_decide_eq_true.
  rewrite !elem_of_cons, elem_of_nil. tauto.
Qed.

Lemma role_kept_eqb (t : Conversation.Turn F) :
  Conversation.role_kept t
  = String.eqb (Conversation.turn_role t) "user"
    || String.eqb (Conversation.turn_role t) "assistant".
Proof.
  apply eq_true_iff_eq. rewrite role_kept_true, orb_true_iff, !String.eqb_eq.
  reflexivity.
Qed.

Lemma prepare_session_context_eq self (history : list (Conversation.Turn F)) :
  0 < Conversation.max_context_length self ->
  Conversation._prepare_session_context self (Some history)
  = map Conversation.to_message
      (List.filter Conversation.role_kept
         (drop (length history - Conversation.max_context_length self) history)).
Proof.
  intros Hpos. unfold Conversation._prepare_session_context.
  destruct history as [|t ts]; [reflexivity|].
  cbn [list_truthy negb]. rewrite prepare_loop. simpl app.
  unfold py_slice_last.
  destruct (Conversation.max_context_length self) as [|n]; [lia|reflexivity].
Qed.

(** C8.  With a positive limit (the constructor sets 10): the session
    context is the user and assistant turns among the last [limit] turns
    of the history, as messages with the same role and content and in the
    same order (each message is written out as the role and the content
    of its turn); it has at most [limit] entries and none with another
    role, and it is empty when no history is given.  Updating the history
    returns the old turns followed by the user turn and the assistant
    turn, cut from the front to its last [2 * limit] entries: a suffix of
    that sequence, of length [min (2 * limit) (length + 2)], that ends with
    the two new turns. *)
Theorem history_window_and_update self (history : list (Conversation.Turn F))
    h σ um ar (now1 now2 : F) :
  0 < Conversation.max_context_length self ->
  σ !! h = Some history ->
  let limit := Conversation.max_context_length self in
  let recent := drop (length history - limit) history in
  let window := Conversation._prepare_session_context self (Some history) in
  let u := {| Conversation.turn_role := "user"; Conversation.turn_content := um;
              Conversation.turn_timestamp := Some now1 |} in
  let a := {| Conversation.turn_role := "assistant"; Conversation.turn_content := ar;
              Conversation.turn_timestamp := Some now2 |} in
  (recent `suffix_of` history /\ length recent = Nat.min limit (length history)) /\
  window = map Conversation.to_message (List.filter Conversation.role_kept recent) /\
  window
  = map (fun t => {| role := Conversation.turn_role t;
                     content := Conversation.turn_content t |})
      (List.filter
         (fun t => String.eqb (Conversation.turn_role t) "user"
                   || String.eqb (Conversation.turn_role t) "assistant")
         recent) /\
  window `sublist_of` map Conversation.to_message recent /\
  length window <= limit /\
  Forall (fun m => role m = "user" \/ role m = "assistant") window /\
  Conversation._prepare_session_context (F:=F) self None = [] /\
  let '(ret, σ') :=
    Conversation.update_conversation_history self (Some h) um ar now1 now2 σ in
  exists updated,
    σ' !! ret = Some updated /\
    updated `suffix_of` history ++ [u; a] /\
    [u; a] `suffix_of` updated /\
    length updated = Nat.min (2 * limit) (length history + 2) /\
    length updated <= 2 * limit.
Proof.
  intros Hpos Hh limit recent window u a.
  assert (Hw : window
               = map Conversation.to_message
                   (List.filter Conversation.role_kept recent))
    by (apply prepare_session_context_eq; exact Hpos).
  assert (Hrecent : length recent = Nat.min limit (length history))
    by (subst recent; rewrite length_drop; lia).
  split; [split; [apply suffix_drop | exact Hrecent]|].
  split; [exact Hw|].
  split.
  { rewrite Hw. unfold Conversation.to_message. f_equal.
    apply List.filter_ext. intros t. apply role_kept_eqb. }
  split; [rewrite Hw; apply map_filter_sublist|].
  split.
  { rewrite Hw, length_map.
    pose proof (List.filter_length_le Conversation.role_kept recent). lia. }
  split.
  { rewrite Hw. apply List.Forall_forall. intros m Hm.
    apply in_map_iff in Hm as (t & <- & Ht).
    apply filter_In in Ht as [_ Ht]. apply role_kept_true in Ht. exact Ht. }
  split; [reflexivity|].
  pose proof (update_conversation_history_spec self (Some h) um ar now1 now2 σ)
    as Hspec.
  cbv zeta in Hspec. unfold Conversation.list_get in Hspec.
  rewrite Hh in Hspec. simpl default in Hspec. fold u a in Hspec.
  destruct (Conversation.update_conversation_history self (Some h) um ar now1 now2 σ)
    as [ret σ'].
  destruct Hspec as (_ & _ & Hret).
  assert (Hfull : length (history ++ [u; a]) = length history + 2)
    by (rewrite length_app; reflexivity).
  fold limit in Hret.
  destruct (Nat.ltb (limit * 2) (length (history ++ [u; a]))) eqn:Hlt.
  - apply Nat.ltb_lt in Hlt.
    exists (py_slice_last (limit * 2) (history ++ [u; a])).
    assert (Hlen : length (py_slice_last (limit * 2) (history ++ [u; a]))
                   = Nat.min (limit * 2) (length (history ++ [u; a])))
      by (apply py_slice_last_length; lia).
    split; [exact Hret|]. split; [apply py_slice_last_suffix|].
    split; [|lia].
    unfold py_slice_last. destruct (limit * 2) as [|n] eqn:Hn; [lia|].
    rewrite drop_app_le by lia.
    apply suffix_app_r. reflexivity.
  - apply Nat.ltb_ge in Hlt.
    exists (history ++ [u; a]).
    split; [exact Hret|]. split; [reflexivity|].
    split; [apply suffix_app_r; reflexivity|]. lia.
Qed.

(** C10.  [update_conversation_history] called on a caller's list leaves
    that list object as it was: the returned list is another object, new
    in the store, every list object that existed before the call still
    holds the same elements, and the two appended turns and the cut to
    [2 * limit] are found in the returned object only. *)
Theorem update_conversation_history_keeps_input self h
    (xs : list (Conversation.Turn F)) um ar (now1 now2 : F) σ :
  σ !! h = Some xs ->
  let u := {| Conversation.turn_role := "user"; Conversation.turn_content := um;
              Conversation.turn_timestamp := Some now1 |} in
  let a := {| Conversation.turn_role := "assistant"; Conversation.turn_content := ar;
              Conversation.turn_timestamp := Some now2 |} in
  let '(ret, σ') :=
    Conversation.update_conversation_history self (Some h) um ar now1 now2 σ in
  σ' !! h = Some xs /\
  ret <> h /\
  σ !! ret = None /\
  σ ⊆ σ' /\
  σ' !! ret =
    Some (if Nat.ltb (Conversation.max_context_length self * 2)
               (length (xs ++ [u; a]))
          then py_slice_last (Conversation.max_context_length self * 2)
                 (xs ++ [u; a])
          else xs ++ [u; a]).
Proof.
  intros Hh u a.
  pose proof (update_conversation_history_spec self (Some h) um ar now1 now2 σ)
    as Hspec.
  cbv zeta in Hspec. unfold Conversation.list_get in Hspec.
  rewrite Hh in Hspec. simpl default in Hspec. fold u a in Hspec.
  destruct (Conversation.update_conversation_history self (Some h) um ar now1 now2 σ)
    as [ret σ'].
  destruct Hspec as (Hsub & Hnew & Hret).
  split; [eapply lookup_weaken; eassumption|].
  split; [intros ->; rewrite Hh in Hnew; discriminate|].
  auto.
Qed.

End ConversationFacts.

(** Scenario D of the specification: of a history of twelve turns the
    session context holds the last ten, in order. *)
Example scenario_D_window :
  Conversation._prepare_session_context Conversation.init
    (Some ConversationFixtures.twelve_turns)
  = map (fun i => Conversation.to_message (ConversationFixtures.turn i)) (seq 3 10).
Proof. vm_compute. reflexivity. Qed.

Example window_drops_system_turn :
  Conversation._prepare_session_context Conversation.init
    (Some ConversationFixtures.with_system_turn)
  = map (fun i => Conversation.to_message (ConversationFixtures.turn i))
      (seq 4 8 ++ [12]).
Proof. vm_compute. reflexivity. Qed.

Lemma history_window_and_update_witness :
  0 < Conversation.max_context_length Conversation.init /\
  ConversationFixtures.store !! 1%positive = Some ConversationFixtures.twelve_turns /\
  length (Conversation._prepare_session_context Conversation.init
            (Some ConversationFixtures.twelve_turns)) <= 10.
Proof.
  assert (H1 : 0 < Conversation.max_context_length Conversation.init)
    by (simpl; lia).
  assert (H2 : ConversationFixtures.store !! 1%positive
               = Some ConversationFixtures.twelve_turns) by reflexivity.
  split; [exact H1|]. split; [exact H2|].
  pose proof (history_window_and_update Conversation.init
                ConversationFixtures.twelve_turns 1%positive
                ConversationFixtures.store "q" "r" Binary64.zero Binary64.zero
                H1 H2) as H.
  cbv zeta in H. destruct H as (_ & _ & _ & _ & H & _). exact H.
Defined.

Lemma update_conversation_history_keeps_input_witness :
  ConversationFixtures.store !! 1%positive = Some ConversationFixtures.twelve_turns /\
  (Conversation.update_conversation_history (F:=Binary64.float) Conversation.init (@Some Conversation.ref 1%positive)
     "q" "r" Binary64.zero Binary64.zero ConversationFixtures.store).2 !! 1%positive
  = Some ConversationFixtures.twelve_turns.
Proof.
  assert (H2 : ConversationFixtures.store !! 1%positive
               = Some ConversationFixtures.twelve_turns) by reflexivity.
  split; [exact H2|].
  pose proof (update_conversation_history_keeps_input (F:=Binary64.float) Conversation.init 1%positive
                ConversationFixtures.twelve_turns "q" "r"
                Binary64.zero Binary64.zero ConversationFixtures.store H2) as H.
  cbv zeta in H. revert H.
  generalize (Conversation.update_conversation_history (F:=Binary64.float) Conversation.init
                (@Some Conversation.ref 1%positive) "q" "r" Binary64.zero Binary64.zero
                ConversationFixtures.store).
  intros [ret σ'] (H & _). exact H.
Defined.

(** ** Prompt assembly and the orchestrator *)

Section EngineFacts.

Context {F : Type} `{Arith F}.

Variable format_2f : F -> string.

Lemma context_parts_from_imap (i : nat) (results : list (VectorStore.ContextResult F))
    (acc : list string) :
  RAG.context_parts_from format_2f i results acc
  = acc ++ concat (imap (fun j r => RAG.context_part format_2f (i + j) r) results).
Proof.
  revert i acc. induction results as [|r rs IH]; intros i acc.
  - cbn [RAG.context_parts_from imap concat]. rewrite app_nil_r. reflexivity.
  - cbn [RAG.context_parts_from]. rewrite IH, imap_cons, concat_cons.
    rewrite <- app_assoc, Nat.add_0_r. do 3 f_equal.
    apply imap_ext. intros j x _. unfold compose. f_equal. lia.
Qed.

(** C7.  The message list is: the system message with the fixed
    instructions; then, exactly when the retrieval results are not empty,
    one system message whose text renders the results one after the other,
    numbered from 1; then the history turns as given, in their order;
    then the user message with the query, which is the last message.  A
    missing history counts as an empty one.  The rendering of result
    number [i] is written out: a header line with [i] and the similarity
    to two decimals; a source line with the title and, in parentheses, the
    url, each only when the metadata has a non-empty one, and no source
    line when it has neither; then the text; the lines of all results are
    joined by line feeds. *)
Theorem build_messages_layout (query : string)
    (context_results : list (VectorStore.ContextResult F)) (history : list Message) :
  let instructions := {| role := "system"; content := RAG._get_system_prompt |} in
  let context_message :=
    {| role := "system";
       content := ("Контекст для ответа:" +:+ nl +:+ nl
                   +:+ RAG._format_context_for_prompt format_2f context_results
                   +:+ nl +:+ nl
                   +:+ "Используй эту информацию для формирования ответа.")%string |} in
  let live := {| role := "user"; content := query |} in
  let messages := RAG._build_messages format_2f query context_results (Some history) in
  messages
    = [instructions]
      ++ (if decide (context_results = []) then [] else [context_message])
      ++ history ++ [live]
  /\ last messages = Some live
  /\ head messages = Some instructions
  /\ length messages
     = 2 + (if decide (context_results = []) then 0 else 1) + length history
  /\ RAG._build_messages format_2f query context_results None
     = RAG._build_messages format_2f query context_results (Some [])
  /\ (context_results <> [] ->
      RAG._format_context_for_prompt format_2f context_results
      = str_join nl
          (concat (imap (fun j r => RAG.context_part format_2f (S j) r)
                     context_results)))
  /\ (context_results <> [] ->
      RAG._format_context_for_prompt format_2f context_results
      = str_join nl
          (concat
             (imap
                (fun j r =>
                   let metadata := VectorStore.metadata r in
                   let titled :=
                     match metadata !! "title" with
                     | Some (String c title) =>
                         ("Источник: " +:+ String c title)%string
                     | _ => EmptyString
                     end in
                   let source :=
                     match metadata !! "source_url" with
                     | Some (String c url) =>
                         (titled +:+ " (" +:+ String c url +:+ ")")%string
                     | _ => titled
                     end in
                   [("--- Документ " +:+ pretty (S j) +:+ " (сходство: "
                     +:+ format_2f (VectorStore.similarity r) +:+ ") ---")%string]
                   ++ match source with
                      | EmptyString => []
                      | _ => [source]
                      end
                   ++ [(VectorStore.text r +:+ nl)%string])
                context_results))).
Proof.
  intros instructions context_message live messages.
  assert (Heq : messages
                = [instructions]
                  ++ (if decide (context_results = []) then [] else [context_message])
                  ++ history ++ [live]).
  { subst messages. unfold RAG._build_messages, RAG.append.
    destruct context_results as [|r rs]; destruct history as [|m ms];
      simpl; reflexivity. }
  split; [exact Heq|]. rewrite Heq. split.
  { rewrite !app_assoc. apply last_snoc. }
  split; [reflexivity|]. split.
  { rewrite !length_app. destruct (decide (context_results = [])); simpl; lia. }
  split; [reflexivity|].
  assert (Hparts : context_results <> [] ->
            RAG._format_context_for_prompt format_2f context_results
            = str_join nl
                (concat (imap (fun j r => RAG.context_part format_2f (S j) r)
                           context_results))).
  { intros Hne. unfold RAG._format_context_for_prompt.
    destruct context_results as [|r rs]; [congruence|].
    cbn [list_truthy negb]. rewrite context_parts_from_imap. reflexivity. }
  split; [exact Hparts|].
  intros Hne. rewrite (Hparts Hne). do 2 f_equal.
  apply imap_ext. intros j r _. cbv zeta.
  unfold RAG.context_part, RAG.truthy_field.
  destruct (VectorStore.metadata r !! "title") as [[|c title]|];
    destruct (VectorStore.metadata r !! "source_url") as [[|c' url]|];
    reflexivity.
Qed.

Variable vector_store_search :
  string -> option (gmap string string) -> option nat
  -> outcome (list (VectorStore.ContextResult F)).

Variable llm_generate :
  list Message -> option string -> LLM.GenParams (F:=F)
  -> outcome (LLM.LLMResult (F:=F)).

Lemma retrieve_context_returns (st : Config.Settings F) (query user_role : string) :
  RAG._retrieve_context vector_store_search st query user_role
  = Returns
      (match vector_store_search query
               (if negb (String.eqb user_role "developer")
                then Some ({[ "user_role" := user_role ]} : gmap string string)
                else None)
               (Some (Config.top_k_results st)) with
       | Returns context_results => context_results
       | Raises _ => []
       end).
Proof.
  unfold RAG._retrieve_context.
  destruct (vector_store_search _ _ _); reflexivity.
Qed.

(** C9.  Whatever the vector store and the LLM manager do, return or
    raise, [process_query] returns a result.  A raising vector store is
    absorbed by [_retrieve_context] (no context); an exception that reaches
    the outer [try] (a raising LLM manager) gives the result with
    [success = False], the fixed apology and the exception's text; a
    returning LLM manager gives a result carrying its content, model and
    success flag. *)
Theorem process_query_never_raises (st : Config.Settings F) (query : string)
    (session_context : option (list Message)) (user_role : string)
    (preferred_model : option string) (start_time end_time : F) :
  let context_results :=
    match vector_store_search query
            (if negb (String.eqb user_role "developer")
             then Some ({[ "user_role" := user_role ]} : gmap string string)
             else None)
            (Some (Config.top_k_results st)) with
    | Returns found => found
    | Raises _ => []
    end in
  let messages := RAG._build_messages format_2f query context_results session_context in
  exists r : RAG.RAGResult F,
    RAG.process_query format_2f vector_store_search llm_generate st query
      session_context user_role preferred_model start_time end_time = Returns r
    /\ match llm_generate messages preferred_model
               {| LLM.kw_temperature := Config.temperature st;
                  LLM.kw_max_tokens := Config.max_tokens st |} with
       | Raises e =>
           r = RAG.error_result e start_time end_time
           /\ RAG.success r = false
           /\ RAG.content r
              = Some "Извините, произошла ошибка при обработке вашего запроса. Попробуйте позже."
           /\ RAG.error r = Some (exn_str e)
       | Returns llm_response =>
           RAG.success r = LLM.success llm_response
           /\ RAG.content r = LLM.content llm_response
           /\ RAG.model_used r = LLM.model llm_response
           /\ (LLM.success llm_response = false -> is_Some (RAG.error r))
           /\ RAG.similarity_scores r
              = Some (map VectorStore.similarity context_results)
       end.
Proof.
  intros context_results messages.
  unfold RAG.process_query, RAG.process_query_body.
  rewrite retrieve_context_returns. fold context_results.
  cbn [mbind outcome_bind bind_outcome]. fold messages.
  destruct (llm_generate messages preferred_model _) as [resp|e];
    cbn [try_except mbind outcome_bind bind_outcome mret outcome_ret].
  - eexists. split; [reflexivity|]. simpl. repeat split; auto.
    intros ->. simpl. eauto.
  - eexists. split; [reflexivity|]. repeat split; reflexivity.
Qed.

End EngineFacts.

(** ** Hybrid search *)

Section SearchFacts.

Context {F : Type} `{Arith F}.

Variable encode_text : string -> outcome (list F).
Variable similarity_of : list F -> list F -> outcome F.
Variable py_lower : string -> string.
Variable py_split : string -> list string.
Variable hash_str : Embeddings.Document -> Z.

Lemma try_except_returns {A : Type} (body : outcome A) (a : A) :
  exists r, try_except body (fun _ => mret a) = Returns r
            /\ (body = Returns r \/ r = a).
Proof.
  destruct body as [x|e]; simpl; eauto.
Qed.

Lemma in_insert_desc {A : Type} (key : A -> F) (x y : A) (l : list A) :
  In y (Embeddings.insert_desc key x l) <-> y = x \/ In y l.
Proof.
  induction l as [|z l IH]; simpl; [intuition congruence|].
  destruct (f_ltb (key x) (key z)); simpl; rewrite ?IH; intuition congruence.
Qed.

Lemma in_sort_desc {A : Type} (key : A -> F) (y : A) (l : list A) :
  In y (Embeddings.sort_desc key l) <-> In y l.
Proof.
  unfold Embeddings.sort_desc. induction l as [|x l IH]; simpl; [tauto|].
  rewrite in_insert_desc, IH. intuition congruence.
Qed.

Lemma in_py_slice_first {A : Type} (k : nat) (y : A) (l : list A) :
  In y (py_slice_first k l) -> In y l.
Proof.
  unfold py_slice_first. revert k. induction l as [|x l IH]; intros [|k]; simpl;
    try tauto.
  intros [->|Hin]; [left; reflexivity | right; exact (IH k Hin)].
Qed.

(** Every entry that [merge_scores] returns carries the weighted sum of
    its own two scores. *)
Lemma merge_scores_combined documents (w : F) vector_results keyword_results merged :
  Embeddings.merge_scores hash_str documents w vector_results keyword_results
    = Returns merged ->
  Forall (fun kv =>
            Embeddings.combined_score kv.2
            = f_add (f_mul w (Embeddings.vector_score kv.2))
                    (f_mul (f_sub (f_of_nat 1) w) (Embeddings.keyword_score kv.2)))
    merged.
Proof.
  unfold Embeddings.merge_scores.
  destruct (Embeddings.for_each _ vector_results []) as [cs|e]; outcome_step;
    [|discriminate].
  intros [= <-]. apply List.Forall_forall. intros kv Hin.
  apply in_map_iff in Hin as (kv0 & <- & _). reflexivity.
Qed.

Lemma hybrid_search_returns query documents (w : F) top_k :
  exists results,
    Embeddings.hybrid_search encode_text similarity_of py_lower py_split hash_str
      query documents w top_k = Returns results.
Proof.
  unfold Embeddings.hybrid_search.
  destruct (try_except_returns
              (query_embedding ← encode_text query;
               doc_embeddings ←
                 Embeddings.for_each
                   (fun embeddings doc =>
                      e ← encode_text (default "" (Embeddings.doc_text doc));
                      mret (embeddings ++ [e])) documents [];
               vector_results ←
                 Embeddings.find_most_similar similarity_of query_embedding
                   doc_embeddings (top_k * 2);
               keyword_results ←
                 Embeddings.keyword_search py_lower py_split query documents (top_k * 2);
               combined_scores ←
                 Embeddings.merge_scores hash_str documents w vector_results
                   keyword_results;
               mret (py_slice_first top_k
                       (Embeddings.sort_desc Embeddings.combined_score
                          (Embeddings.dict_values combined_scores)))) [])
    as (r & Hr & _).
  exists r. exact Hr.
Qed.

Lemma hybrid_search_combined query documents (w : F) top_k results :
  Embeddings.hybrid_search encode_text similarity_of py_lower py_split hash_str
    query documents w top_k = Returns results ->
  Forall (fun e =>
            Embeddings.combined_score e
            = f_add (f_mul w (Embeddings.vector_score e))
                    (f_mul (f_sub (f_of_nat 1) w) (Embeddings.keyword_score e)))
    results.
Proof.
  unfold Embeddings.hybrid_search.
  destruct (encode_text query) as [qe|?]; outcome_step;
    [|intros [= <-]; constructor].
  destruct (Embeddings.for_each _ documents []) as [de|?]; outcome_step;
    [|intros [= <-]; constructor].
  destruct (Embeddings.find_most_similar similarity_of qe de (top_k * 2))
    as [vr|?]; outcome_step; [|intros [= <-]; constructor].
  destruct (Embeddings.keyword_search py_lower py_split query documents (top_k * 2))
    as [kr|?]; outcome_step; [|intros [= <-]; constructor].
  destruct (Embeddings.merge_scores hash_str documents w vr kr) as [cs|?] eqn:Hm;
    outcome_step; [|intros [= <-]; constructor].
  intros [= <-]. apply merge_scores_combined in Hm.
  apply List.Forall_forall. intros e He.
  apply in_py_slice_first, in_sort_desc in He.
  unfold Embeddings.dict_values in He. apply in_map_iff in He as (kv & <- & Hkv).
  rewrite List.Forall_forall in Hm. apply Hm. exact Hkv.
Qed.

End SearchFacts.

Example ascii_split_words :
  SearchFixtures.ascii_split (SearchFixtures.ascii_lower "  How to  set up SSL ")
  = ["how"; "to"; "set"; "up"; "ssl"].
Proof. vm_compute. reflexivity. Qed.

(** ** Rounding to nearest in binary64 *)

Section PowerFacts.

Local Open Scope Z_scope.


Lemma pow2_pos (k : Z) : 0 <= k -> 0 < 2 ^ k.
Proof. intros. apply Z.pow_pos_nonneg; lia. Qed.

Lemma pow2_succ (k : Z) : 0 <= k -> 2 ^ (k + 1) = 2 * 2 ^ k.
Proof. intros. rewrite Z.pow_add_r by lia. lia. Qed.

Lemma pow2_split (a b : Z) : 0 <= a -> 0 <= b -> 2 ^ (a + b) = 2 ^ a * 2 ^ b.
Proof. intros. apply Z.pow_add_r; lia. Qed.

Lemma pow2_le (a b : Z) : 0 <= a <= b -> 2 ^ a <= 2 ^ b.
Proof. intros. apply Z.pow_le_mono_r; lia. Qed.

Lemma pow2_lt (a b : Z) : 0 <= a < b -> 2 ^ a < 2 ^ b.
Proof. intros. apply Z.pow_lt_mono_r; lia. Qed.

Lemma pow2_lt_inv (a b : Z) : 0 <= a -> 0 <= b -> 2 ^ a < 2 ^ b -> a < b.
Proof. intros Ha Hb H. apply (Z.pow_lt_mono_r_iff 2); lia. Qed.

Lemma pow2_le_inv (a b : Z) : 0 <= a -> 0 <= b -> 2 ^ a <= 2 ^ b -> a <= b.
Proof. intros Ha Hb H. apply (Z.pow_le_mono_r_iff 2); lia. Qed.

Lemma digits2_bounds (m : positive) :
  2 ^ (Zpos (digits2_pos m) - 1) <= Zpos m < 2 ^ Zpos (digits2_pos m).
Proof.
  induction m as [m IH|m IH|]; cbn [digits2_pos].
  - rewrite Pos2Z.inj_succ. replace (Z.succ (Zpos (digits2_pos m)) - 1) with (Zpos (digits2_pos m) - 1 + 1) by lia.
    unfold Z.succ. rewrite !pow2_succ by lia. lia.
  - rewrite Pos2Z.inj_succ. replace (Z.succ (Zpos (digits2_pos m)) - 1) with (Zpos (digits2_pos m) - 1 + 1) by lia.
    unfold Z.succ. rewrite !pow2_succ by lia. lia.
  - simpl. lia.
Qed.

Lemma iter_pos_nat {A : Type} (f : A -> A) (p : positive) (x : A) :
  SpecFloat.iter_pos f p x = Nat.iter (Pos.to_nat p) f x.
Proof.
  revert x. induction p as [p IH|p IH|]; intros x; cbn [SpecFloat.iter_pos].
  - rewrite !IH, Pos2Nat.inj_xI.
    replace (S (2 * Pos.to_nat p))%nat
      with (Pos.to_nat p + (Pos.to_nat p + 1))%nat by lia.
    rewrite !Nat.iter_add. reflexivity.
  - rewrite !IH, Pos2Nat.inj_xO.
    replace (2 * Pos.to_nat p)%nat with (Pos.to_nat p + Pos.to_nat p)%nat by lia.
    rewrite Nat.iter_add. reflexivity.
  - reflexivity.
Qed.

Lemma shr_1_step (m : Z) (r s : bool) :
  0 <= m ->
  let st := shr_1 {| shr_m := m; shr_r := r; shr_s := s |} in
  0 <= shr_m st /\ m = 2 * shr_m st + Z.b2z (shr_r st) /\ shr_s st = r || s.
Proof.
  intros Hm. destruct m as [|[p|p|]|p]; simpl; try lia; repeat split; try lia; auto.
Qed.

Lemma shr_iter (m0 : Z) (k : nat) :
  0 <= m0 ->
  let st := Nat.iter k shr_1 {| shr_m := m0; shr_r := false; shr_s := false |} in
  exists t,
    0 <= shr_m st
    /\ 2 * m0 = shr_m st * 2 ^ (Z.of_nat k + 1) + Z.b2z (shr_r st) * 2 ^ Z.of_nat k + t
    /\ 0 <= t < 2 ^ Z.of_nat k
    /\ (shr_s st = true <-> 0 < t).
Proof.
  intros Hm. cbv zeta. induction k as [|k IH].
  - exists 0. change (Nat.iter 0 shr_1 ?x) with x.
    cbn [shr_m shr_r shr_s Z.b2z Z.of_nat].
    change (2 ^ (0 + 1)) with 2. change (2 ^ 0) with 1.
    split; [lia|]. split; [lia|]. split; [lia|].
    split; [discriminate|lia].
  - destruct IH as (t & Hpos & Heq & Ht & Hs).
    change (Nat.iter (S k) shr_1 ?x) with (shr_1 (Nat.iter k shr_1 x)).
    destruct (Nat.iter k shr_1 _) as [m r s]. cbn [shr_m shr_r shr_s] in *.
    pose proof (shr_1_step m r s Hpos) as Hstep. cbv zeta in Hstep.
    destruct (shr_1 _) as [m' r' s']. cbn [shr_m shr_r shr_s] in *.
    destruct Hstep as (Hpos' & Hm' & Hs').
    exists (Z.b2z r * 2 ^ Z.of_nat k + t).
    rewrite Nat2Z.inj_succ. unfold Z.succ.
    rewrite (pow2_succ (Z.of_nat k + 1)) by lia.
    rewrite (pow2_succ (Z.of_nat k)) in * by lia.
    pose proof (pow2_pos (Z.of_nat k) ltac:(lia)) as Hp.
    set (P := 2 ^ Z.of_nat k) in *. clearbody P.
    split; [exact Hpos'|]. split; [subst m; lia|].
    split; [destruct r; cbn [Z.b2z]; lia|].
    rewrite Hs'. destruct r, s; cbn [Z.b2z orb]; split; intros H;
      try lia; try reflexivity.
Qed.

(** Shifting [m] right by [p] places: the quotient, and what the two
    flags say about the remainder. *)
Lemma shr_spec (m : Z) (p : positive) :
  0 <= m ->
  let st := SpecFloat.iter_pos shr_1 p {| shr_m := m; shr_r := false; shr_s := false |} in
  let rem := m mod 2 ^ Zpos p in
  shr_m st = m / 2 ^ Zpos p
  /\ (rem = 0 -> shr_r st = false /\ shr_s st = false)
  /\ (2 * rem < 2 ^ Zpos p -> shr_r st = false).
Proof.
  intros Hm st rem. subst st. rewrite iter_pos_nat.
  destruct (shr_iter m (Pos.to_nat p) Hm) as (t & Hpos & Heq & Ht & Hs).
  rewrite positive_nat_Z in *.
  destruct (Nat.iter _ _ _) as [q r s]. cbn [shr_m shr_r shr_s] in *.
  rewrite pow2_succ in Heq by lia.
  pose proof (pow2_pos (Zpos p) ltac:(lia)) as Hp.
  set (P := 2 ^ Zpos p) in *.
  assert (Hdiv : m = q * P + (m - q * P)) by lia.
  assert (Hrange : 0 <= m - q * P < P) by (destruct r; cbn [Z.b2z] in Heq; lia).
  assert (Hq : q = m / P).
  { apply (Z.div_unique m P q (m - q * P)); lia. }
  assert (Hr : rem = m - q * P).
  { subst rem. symmetry. apply (Z.mod_unique m P q (m - q * P)); lia. }
  split; [exact Hq|]. split.
  - intros H0.
    assert (r = false) as -> by (destruct r; cbn [Z.b2z] in Heq; [lia|reflexivity]).
    split; [reflexivity|]. cbn [Z.b2z] in Heq. destruct s; [|reflexivity].
    assert (0 < t) by (apply Hs; reflexivity). lia.
  - intros Hlt. destruct r; [cbn [Z.b2z] in Heq; lia|reflexivity].
Qed.

End PowerFacts.

Section RenormFacts.

Local Open Scope Z_scope.

Local Abbreviation fexp64 x := (Z.max (x - 53) (-1074)).

Lemma fexp_binary64 (x : Z) : fexp Binary64.prec Binary64.emax x = fexp64 x.
Proof. reflexivity. Qed.

Lemma bounded_binary64 (m : positive) (e : Z) :
  bounded Binary64.prec Binary64.emax m e = true
  <-> fexp64 (Zpos (digits2_pos m) + e) = e /\ e <= 971.
Proof.
  unfold bounded, canonical_mantissa. rewrite andb_true_iff, Z.eqb_eq, Z.leb_le.
  rewrite fexp_binary64. reflexivity.
Qed.

(** The second shift of [binary_round_aux]: a rounded mantissa that has
    grown to [2^53] is renormalised; nothing else changes. *)
Lemma round_finish (m1 g : Z) :
  0 <= m1 <= 2 ^ 53 -> -1074 <= g <= 900 ->
  (-1074 < g -> 2 ^ 52 <= m1) ->
  let r :=
    let '(mrs, e) := shr_fexp Binary64.prec Binary64.emax m1 g loc_Exact in
    match shr_m mrs with
    | Z0 => S754_zero false
    | Zpos m => if Z.leb e (Binary64.emax - Binary64.prec)
                then S754_finite false m e else S754_infinity false
    | Zneg _ => S754_nan
    end in
  Binary64.finite_nonneg r /\ Binary64.value r = m1 * 2 ^ (g + Binary64.scale).
Proof.
  intros Hm1 Hg Hnormal. unfold shr_fexp. rewrite fexp_binary64.
  cbn [shr_record_of_loc].
  destruct m1 as [|p1|p1]; [| |lia].
  - cbn [Zdigits2]. unfold shr.
    destruct (fexp64 (0 + g) - g) as [|p|p] eqn:Hn; [| lia |];
      cbn [shr_m]; split; reflexivity.
  - cbn [Zdigits2]. pose proof (digits2_bounds p1) as Hd.
    set (d1 := Zpos (digits2_pos p1)) in *.
    assert (Hd1 : 0 < d1) by (subst d1; lia).
    destruct (Z.eq_dec (Zpos p1) (2 ^ 53)) as [Htop|Hlow].
    + assert (Hp1 : p1 = 9007199254740992%positive) by (injection Htop as ->; reflexivity).
      clear Hd Hd1. subst d1. subst p1.
      change (Zpos (digits2_pos 9007199254740992)) with 54.
      replace (fexp64 (54 + g) - g) with 1 by lia.
      cbn [shr SpecFloat.iter_pos shr_1 shr_m].
      replace (Z.leb (g + 1) (Binary64.emax - Binary64.prec)) with true
        by (symmetry; apply Z.leb_le; unfold Binary64.emax, Binary64.prec; lia).
      split.
      * apply bounded_binary64.
        change (Zpos (digits2_pos 4503599627370496)) with 53. lia.
      * cbn [Binary64.value]. replace (g + 1 + Binary64.scale) with (g + Binary64.scale + 1) by lia.
        rewrite pow2_succ by (unfold Binary64.scale; lia). lia.
    + assert (Hlt : Zpos p1 < 2 ^ 53) by lia.
      assert (Hd53 : d1 <= 53).
      { assert (d1 - 1 < 53); [|lia].
        apply pow2_lt_inv; lia. }
      assert (Hcanon : fexp64 (d1 + g) = g).
      { destruct (Z.eq_dec g (-1074)) as [->|Hg']; [lia|].
        assert (H52 : 2 ^ 52 <= Zpos p1) by (apply Hnormal; lia).
        assert (52 < d1); [|lia].
        apply pow2_lt_inv; lia. }
      rewrite Hcanon, Z.sub_diag. cbn [shr shr_m].
      replace (Z.leb g (Binary64.emax - Binary64.prec)) with true
        by (symmetry; apply Z.leb_le; unfold Binary64.emax, Binary64.prec; lia).
      split; [|reflexivity].
      apply bounded_binary64. fold d1. lia.
Qed.

End RenormFacts.

Section RoundAuxFacts.

Local Open Scope Z_scope.

Local Abbreviation fexp64 x := (Z.max (x - 53) (-1074)).

Lemma round_nearest_even_cases (q : Z) (st : shr_record) :
  shr_m st = q ->
  let m1 := round_nearest_even (shr_m st) (loc_of_shr_record st) in
  (m1 = q \/ m1 = q + 1) /\ (shr_r st = false -> m1 = q).
Proof.
  intros <-. destruct st as [m [|] [|]]; cbn; try destruct (Z.even m); auto.
  all: split; auto; discriminate.
Qed.

(** [binary_round_aux] on an exact positive number [m * 2^e] whose
    exponent is not above the one its magnitude calls for: the result is a
    canonical number [m1 * 2^g], where [g] is that exponent and [m1] is the
    quotient of [m] by [2^(g - e)] or its successor; it is the quotient when
    the division is exact and when the remainder is below one half. *)
Lemma binary_round_aux_spec (m : positive) (e : Z) :
  let d := Zpos (digits2_pos m) in
  let g := fexp64 (d + e) in
  - Binary64.scale <= e -> e <= g -> d + e <= 2 ->
  let r := binary_round_aux Binary64.prec Binary64.emax false (Zpos m) e loc_Exact in
  let q := Zpos m / 2 ^ (g - e) in
  let rem := Zpos m mod 2 ^ (g - e) in
  Binary64.finite_nonneg r
  /\ exists m1,
       Binary64.value r = m1 * 2 ^ (g + Binary64.scale)
       /\ (m1 = q \/ m1 = q + 1)
       /\ (rem = 0 -> m1 = q)
       /\ (2 * rem < 2 ^ (g - e) -> m1 = q).
Proof.
  intros d g He Hg Hmag r q rem.
  pose proof (digits2_bounds m) as Hd. fold d in Hd.
  assert (Hd0 : 0 < d) by (subst d; lia).
  pose proof (pow2_pos (g - e) ltac:(lia)) as HP.
  assert (Hdiv : Zpos m = 2 ^ (g - e) * q + rem) by (apply Z.div_mod; lia).
  assert (Hrem : 0 <= rem < 2 ^ (g - e)) by (apply Z.mod_pos_bound; lia).
  assert (Hq0 : 0 <= q) by (apply Z.div_pos; lia).
  (* the size of the quotient *)
  assert (Hq53 : q + 1 <= 2 ^ 53).
  { destruct (Z_le_gt_dec (g - e) d) as [Hn|Hn].
    - assert (Hq : q < 2 ^ (d - (g - e))).
      { assert (H2d : 2 ^ d = 2 ^ (d - (g - e)) * 2 ^ (g - e))
          by (rewrite <- pow2_split by lia; f_equal; lia).
        nia. }
      assert (2 ^ (d - (g - e)) <= 2 ^ 53) by (apply pow2_le; lia).
      lia.
    - assert (Hsmall : Zpos m < 2 ^ (g - e)).
      { assert (2 ^ d <= 2 ^ (g - e)) by (apply pow2_le; lia). lia. }
      assert (q = 0) by (subst q; apply Z.div_small; lia).
      assert (1 < 2 ^ 53) by reflexivity. lia. }
  assert (Hq52 : -1074 < g -> 2 ^ 52 <= q).
  { intros Hnormal. assert (Hge : g - e = d - 53) by lia.
    assert (H2d : 2 ^ (d - 1) = 2 ^ 52 * 2 ^ (g - e))
      by (rewrite <- pow2_split by lia; f_equal; lia).
    nia. }
  assert (Hqdef : q = Zpos m / 2 ^ (g - e)) by reflexivity.
  assert (Hremdef : rem = Zpos m mod 2 ^ (g - e)) by reflexivity.
  clearbody q rem.
  assert (Hfirst : shr_fexp Binary64.prec Binary64.emax (Zpos m) e loc_Exact
                   = shr {| shr_m := Zpos m; shr_r := false; shr_s := false |} e (g - e))
    by reflexivity.
  subst r. unfold binary_round_aux. rewrite Hfirst. clear Hfirst. unfold shr.
  destruct (g - e) as [|p|p] eqn:Hn; [| |lia].
  - (* no shift *)
    cbn [shr_m loc_of_shr_record round_nearest_even].
    assert (Hqm : q = Zpos m) by (rewrite Hqdef, Z.pow_0_r, Z.div_1_r; reflexivity).
    assert (Heg : e = g) by lia.
    pose proof (round_finish (Zpos m) e ltac:(lia) ltac:(lia) ltac:(intros; rewrite <- Hqm; apply Hq52; lia))
      as Hfin.
    cbv zeta in Hfin.
    destruct (shr_fexp Binary64.prec Binary64.emax (Zpos m) e loc_Exact) as [mrs e''].
    cbv beta iota.
    destruct Hfin as [Hnn Hval]. split; [exact Hnn|].
    exists (Zpos m). rewrite <- Heg. split; [exact Hval|].
    rewrite Hqm. auto.
  - (* a shift by [p] places *)
    rewrite <- Hn in *.
    pose proof (shr_spec (Zpos m) p ltac:(lia)) as Hshr. cbv zeta in Hshr.
    rewrite <- Hn, <- Hqdef, <- Hremdef in Hshr.
    replace (e + (g - e)) with g by lia.
    destruct (SpecFloat.iter_pos shr_1 p _) as [sm sr ss] eqn:Hst.
    destruct Hshr as (Hsm & Hexact & Hhalf).
    pose proof (round_nearest_even_cases q {| shr_m := sm; shr_r := sr; shr_s := ss |} Hsm)
      as Hrne. cbv zeta in Hrne.
    set (m1 := round_nearest_even _ _) in *.
    destruct Hrne as (Hm1 & Hdown).
    pose proof (round_finish m1 g ltac:(lia) ltac:(lia) ltac:(intros Hnormal; specialize (Hq52 Hnormal); lia))
      as Hfin.
    cbv zeta in Hfin.
    destruct (shr_fexp Binary64.prec Binary64.emax m1 g loc_Exact) as [mrs e''].
    cbv beta iota.
    destruct Hfin as [Hnn Hval]. split; [exact Hnn|].
    exists m1. split; [exact Hval|]. split; [exact Hm1|]. split.
    + intros H0. apply Hdown. apply Hexact. exact H0.
    + intros Hlt. apply Hdown. apply Hhalf. exact Hlt.
Qed.

End RoundAuxFacts.

Section RoundValueFacts.

Local Open Scope Z_scope.

Local Abbreviation fexp64 x := (Z.max (x - 53) (-1074)).

Lemma digits2_unique (m : positive) (k : Z) :
  2 ^ (k - 1) <= Zpos m < 2 ^ k -> 0 < k -> Zpos (digits2_pos m) = k.
Proof.
  intros Hk Hpos. pose proof (digits2_bounds m) as Hd.
  assert (Zpos (digits2_pos m) - 1 < k) by (apply pow2_lt_inv; lia).
  assert (k - 1 < Zpos (digits2_pos m)) by (apply pow2_lt_inv; lia).
  lia.
Qed.

(** The same at the level of values: the exact value [X] is between two
    neighbouring multiples [Q * G] and [(Q + 1) * G] of the unit [G] in the
    last place, and the result is one of them; it is [X] when [X] is such a
    multiple, and the lower one when [X] is below the midpoint. *)
Lemma binary_round_aux_value (m : positive) (e : Z) :
  let d := Zpos (digits2_pos m) in
  let g := fexp64 (d + e) in
  - Binary64.scale <= e -> e <= g -> d + e <= 2 ->
  let r := binary_round_aux Binary64.prec Binary64.emax false (Zpos m) e loc_Exact in
  let X := Zpos m * 2 ^ (e + Binary64.scale) in
  let G := 2 ^ (g + Binary64.scale) in
  Binary64.finite_nonneg r
  /\ exists Q R,
       X = Q * G + R /\ 0 <= R < G /\ 0 <= Q
       /\ (Binary64.value r = Q * G \/ Binary64.value r = (Q + 1) * G)
       /\ (R = 0 -> Binary64.value r = Q * G)
       /\ (2 * R < G -> Binary64.value r = Q * G).
Proof.
  intros d g He Hg Hmag r X G.
  destruct (binary_round_aux_spec m e He Hg Hmag) as (Hnn & m1 & Hval & Hm1 & Hexact & Hhalf).
  fold d g r in Hnn, Hval, Hm1, Hexact, Hhalf. fold G in Hval.
  split; [exact Hnn|].
  set (q := Zpos m / 2 ^ (g - e)) in *. set (rem := Zpos m mod 2 ^ (g - e)) in *.
  pose proof (pow2_pos (g - e) ltac:(lia)) as HP.
  pose proof (pow2_pos (e + Binary64.scale) ltac:(lia)) as HE.
  assert (Hdiv : Zpos m = 2 ^ (g - e) * q + rem) by (apply Z.div_mod; lia).
  assert (Hrem : 0 <= rem < 2 ^ (g - e)) by (apply Z.mod_pos_bound; lia).
  assert (Hq0 : 0 <= q) by (apply Z.div_pos; lia).
  assert (HG : G = 2 ^ (g - e) * 2 ^ (e + Binary64.scale)).
  { subst G. rewrite <- pow2_split by lia. f_equal; lia. }
  clearbody q rem. clearbody G.
  set (P := 2 ^ (g - e)) in *. set (E := 2 ^ (e + Binary64.scale)) in *. clearbody P E.
  exists q, (rem * E). subst X.
  split; [rewrite Hdiv, HG; ring|].
  split; [nia|]. split; [exact Hq0|].
  split; [destruct Hm1 as [->| ->]; [left|right]; exact Hval|].
  split.
  - intros H0. rewrite Hval, Hexact; [reflexivity|nia].
  - intros Hlt. rewrite Hval, Hhalf; [reflexivity|nia].
Qed.

Lemma pos_iter_xO (m p : positive) : Zpos (Pos.iter xO m p) = Zpos m * 2 ^ Zpos p.
Proof.
  induction p as [|p IH] using Pos.peano_ind.
  - change (Pos.iter xO m 1) with (xO m). rewrite Pos2Z.inj_xO.
    change (2 ^ 1) with 2. lia.
  - rewrite Pos.iter_succ, Pos2Z.inj_xO, IH, Pos2Z.inj_succ. unfold Z.succ.
    rewrite pow2_succ by lia. ring.
Qed.

(** [shl_align] to a lower exponent keeps the value. *)
Lemma shl_align_fst (m : positive) (e e' : Z) :
  e' <= e -> Zpos (fst (shl_align m e e')) = Zpos m * 2 ^ (e - e').
Proof.
  intros Hle. unfold shl_align.
  destruct (e' - e) as [|p|p] eqn:Hd; [|lia|]; cbn [fst].
  - replace (e - e') with 0 by lia. rewrite Z.pow_0_r. lia.
  - rewrite pos_iter_xO. f_equal. f_equal. lia.
Qed.

(** [binary_round] on a positive number [m * 2^e] of magnitude at most 2:
    again the result is a neighbour of the exact value among the multiples
    of the unit in the last place. *)
Lemma binary_round_value (m : positive) (e : Z) :
  let d := Zpos (digits2_pos m) in
  let g := fexp64 (d + e) in
  - Binary64.scale <= e -> d + e <= 2 ->
  let r := binary_round Binary64.prec Binary64.emax false m e in
  let X := Zpos m * 2 ^ (e + Binary64.scale) in
  let G := 2 ^ (g + Binary64.scale) in
  Binary64.finite_nonneg r
  /\ exists Q R,
       X = Q * G + R /\ 0 <= R < G /\ 0 <= Q
       /\ (Binary64.value r = Q * G \/ Binary64.value r = (Q + 1) * G)
       /\ (R = 0 -> Binary64.value r = Q * G)
       /\ (2 * R < G -> Binary64.value r = Q * G).
Proof.
  intros d g He Hmag r X G. subst r. unfold binary_round.
  rewrite fexp_binary64. fold d g.
  pose proof (digits2_bounds m) as Hd. fold d in Hd.
  assert (Hd0 : 0 < d) by (subst d; lia).
  destruct (Z_le_gt_dec e g) as [Hle|Hgt].
  - (* nothing to align *)
    assert (Halign : shl_align m e g = (m, e)).
    { unfold shl_align. destruct (g - e) eqn:Hn; try reflexivity. lia. }
    rewrite Halign.
    exact (binary_round_aux_value m e He Hle Hmag).
  - (* the mantissa is shifted left: the number is representable *)
    assert (Halign : exists mz, shl_align m e g = (mz, g)
                                /\ Zpos mz = Zpos m * 2 ^ (e - g)).
    { pose proof (shl_align_fst m e g ltac:(lia)) as Hfst.
      unfold shl_align in *. destruct (g - e) as [|p|p] eqn:Hn; try lia.
      eexists. split; [reflexivity|]. exact Hfst. }
    destruct Halign as (mz & -> & Hmz).
    assert (Hg : -1074 <= g) by lia.
    assert (Hdz : Zpos (digits2_pos mz) = d + (e - g)).
    { apply digits2_unique; [|lia]. rewrite Hmz.
      replace (d + (e - g) - 1) with (d - 1 + (e - g)) by lia.
      rewrite !pow2_split by lia.
      pose proof (pow2_pos (e - g) ltac:(lia)). nia. }
    pose proof (binary_round_aux_value mz g) as Haux. cbv zeta in Haux.
    rewrite Hdz in Haux. replace (d + (e - g) + g) with (d + e) in Haux by lia.
    fold g in Haux.
    destruct Haux as (Hnn & Q & R & HX & HR & HQ & Hval & Hexact & Hhalf);
      try (unfold Binary64.scale; lia).
    split; [exact Hnn|]. exists Q, R. fold G in HX, HR, Hval, Hexact, Hhalf.
    split; [|auto].
    rewrite <- HX. subst X G.
    rewrite Hmz, <- Z.mul_assoc, <- pow2_split by (unfold Binary64.scale; lia).
    do 2 f_equal; lia.
Qed.

(** Three consequences.  Rounding does not cross a multiple of the unit
    in the last place; it moves the value by less than that unit. *)
Lemma rounded_below (X G Q R v T : Z) :
  X = Q * G + R -> 0 <= R < G ->
  (v = Q * G \/ v = (Q + 1) * G) -> (R = 0 -> v = Q * G) ->
  X <= T * G -> v <= T * G.
Proof.
  intros HX HR Hv Hexact HT.
  destruct (Z.eq_dec R 0) as [H0|H0]; [rewrite Hexact by exact H0; nia|].
  assert (Q < T) by nia. destruct Hv as [->| ->]; nia.
Qed.

Lemma rounded_near (X G Q R v : Z) :
  X = Q * G + R -> 0 <= R < G ->
  (v = Q * G \/ v = (Q + 1) * G) -> (R = 0 -> v = Q * G) ->
  v < X + G.
Proof.
  intros HX HR Hv Hexact.
  destruct (Z.eq_dec R 0) as [H0|H0]; [rewrite Hexact by exact H0; nia|].
  destruct Hv as [->| ->]; nia.
Qed.

End RoundValueFacts.

Section UnitIntervalFacts.

Local Open Scope Z_scope.

Local Abbreviation fexp64 x := (Z.max (x - 53) (-1074)).
Local Abbreviation U := (2 ^ Binary64.scale).

Lemma one_binary64 : Binary64.of_Z 1 = S754_finite false 4503599627370496 (-52).
Proof. vm_compute. reflexivity. Qed.

Lemma zero_binary64 : Binary64.of_Z 0 = S754_zero false.
Proof. reflexivity. Qed.

(** What a canonical positive number of value at most 1 looks like. *)
Lemma in_unit_finite (m : positive) (e : Z) :
  Binary64.in_unit (S754_finite false m e) ->
  let d := Zpos (digits2_pos m) in
  fexp64 (d + e) = e /\ -1074 <= e /\ 0 < d <= 53 /\ d + e <= 1
  /\ Zpos m * 2 ^ (e + Binary64.scale) <= U
  /\ 2 ^ (d - 1) <= Zpos m < 2 ^ d.
Proof.
  intros [Hb Hv] d. cbn [Binary64.finite_nonneg] in Hb. apply bounded_binary64 in Hb.
  fold d in Hb. destruct Hb as [Hc He]. cbn [Binary64.value] in Hv.
  pose proof (digits2_bounds m) as Hd. fold d in Hd.
  assert (Hd0 : 0 < d) by (subst d; lia).
  split; [exact Hc|]. split; [lia|]. split; [lia|].
  split; [|split; [exact Hv|exact Hd]].
  assert (He0 : 0 <= e + Binary64.scale) by (unfold Binary64.scale; lia).
  assert (Hlow : 2 ^ (d - 1 + (e + Binary64.scale)) <= U).
  { rewrite pow2_split by lia. pose proof (pow2_pos (e + Binary64.scale) He0). nia. }
  apply pow2_le_inv in Hlow; unfold Binary64.scale in *; lia.
Qed.

Lemma pow2_shift_le (x y a b k : Z) :
  0 <= a -> 0 <= b -> 0 <= a + k -> 0 <= b + k ->
  x * 2 ^ a <= y * 2 ^ b -> x * 2 ^ (a + k) <= y * 2 ^ (b + k).
Proof.
  intros Ha Hb Hak Hbk Hle. destruct (Z_le_gt_dec 0 k) as [Hk|Hk].
  - rewrite !pow2_split by lia. pose proof (pow2_pos k Hk). nia.
  - replace a with (a + k + - k) in Hle by lia.
    replace b with (b + k + - k) in Hle by lia.
    rewrite (pow2_split (a + k) (- k)), (pow2_split (b + k) (- k)) in Hle by lia.
    pose proof (pow2_pos (- k) ltac:(lia)) as HK.
    set (K := 2 ^ (- k)) in *. clearbody K.
    set (A := 2 ^ (a + k)) in *. set (B := 2 ^ (b + k)) in *. clearbody A B.
    apply (Z.mul_le_mono_pos_r _ _ K); [exact HK|]. lia.
Qed.

Lemma digits2_mul (mx my : positive) :
  let dx := Zpos (digits2_pos mx) in
  let dy := Zpos (digits2_pos my) in
  let D := Zpos (digits2_pos (mx * my)) in
  dx + dy - 1 <= D <= dx + dy.
Proof.
  intros dx dy D.
  pose proof (digits2_bounds mx) as Hx. pose proof (digits2_bounds my) as Hy.
  pose proof (digits2_bounds (mx * my)) as HD. fold dx in Hx. fold dy in Hy. fold D in HD.
  assert (Hdx : 0 < dx) by (subst dx; lia).
  assert (Hdy : 0 < dy) by (subst dy; lia).
  assert (HD0 : 0 < D) by (subst D; lia).
  rewrite Pos2Z.inj_mul in HD. clearbody dx dy D.
  split.
  - assert (dx - 1 + (dy - 1) < D); [|lia]. apply pow2_lt_inv; try lia.
    rewrite pow2_split by lia.
    set (A := 2 ^ (dx - 1)) in *. set (B := 2 ^ (dy - 1)) in *.
    assert (0 < A) by (apply pow2_pos; lia). assert (0 < B) by (apply pow2_pos; lia).
    clearbody A B. nia.
  - assert (D - 1 < dx + dy); [|lia]. apply pow2_lt_inv; try lia.
    rewrite (pow2_split dx dy) by lia.
    set (A := 2 ^ dx) in *. set (B := 2 ^ dy) in *. clearbody A B. nia.
Qed.

(** A positive number times a number at most 1. *)
Lemma digits2_mul_unit (mx my : positive) (ey : Z) :
  Zpos my * 2 ^ (ey + Binary64.scale) <= U -> - Binary64.scale <= ey <= 0 ->
  Zpos (digits2_pos (mx * my)) + ey <= Zpos (digits2_pos mx).
Proof.
  intros Hvy Hey.
  assert (Hscale : Binary64.scale = 2200) by reflexivity.
  pose proof (digits2_bounds mx) as Hx.
  pose proof (digits2_bounds (mx * my)) as HD.
  set (dx := Zpos (digits2_pos mx)) in *. set (D := Zpos (digits2_pos (mx * my))) in *.
  assert (Hdx : 0 < dx) by (subst dx; lia).
  assert (HD0 : 0 < D) by (subst D; lia).
  rewrite Pos2Z.inj_mul in HD. clearbody dx D.
  assert (Hmy : Zpos my <= 2 ^ (- ey)).
  { pose proof (pow2_shift_le (Zpos my) 1 (ey + Binary64.scale) Binary64.scale (- (ey + Binary64.scale))) as Hs.
    replace (ey + Binary64.scale + - (ey + Binary64.scale)) with 0 in Hs by lia.
    replace (Binary64.scale + - (ey + Binary64.scale)) with (- ey) in Hs by lia.
    rewrite Z.pow_0_r in Hs. clear Hx HD. lia. }
  assert (D - 1 < dx + - ey); [|lia]. apply pow2_lt_inv; try lia.
  rewrite (pow2_split dx (- ey)) by lia.
  pose proof (pow2_pos (- ey) ltac:(lia)).
  set (A := 2 ^ dx) in *. set (B := 2 ^ (- ey)) in *. set (C := 2 ^ (D - 1)) in *.
  clear Hvy. clearbody A B C. nia.
Qed.

Lemma scaled_product_le (mx my ex ey : Z) :
  0 <= mx -> - 1074 <= ex -> - 1074 <= ey ->
  my * 2 ^ (ey + Binary64.scale) <= U ->
  mx * my * 2 ^ (ex + ey + Binary64.scale) <= mx * 2 ^ (ex + Binary64.scale).
Proof.
  intros Hmx Hex Hey Hvy.
  assert (Hscale : Binary64.scale = 2200) by reflexivity.
  pose proof (pow2_shift_le my 1 (ey + Binary64.scale) Binary64.scale ex) as Hs.
  replace (ey + Binary64.scale + ex) with (ex + ey + Binary64.scale) in Hs by lia.
  replace (Binary64.scale + ex) with (ex + Binary64.scale) in Hs by lia.
  assert (Hs' : my * 2 ^ (ex + ey + Binary64.scale) <= 1 * 2 ^ (ex + Binary64.scale))
    by (apply Hs; lia).
  set (A := 2 ^ (ex + ey + Binary64.scale)) in *. set (B := 2 ^ (ex + Binary64.scale)) in *.
  clear Hs Hvy. clearbody A B. nia.
Qed.

(** The product of two numbers of [0, 1] is a number of [0, 1], and not
    above the first factor. *)
Lemma mul_in_unit (x y : Binary64.float) :
  Binary64.in_unit x -> Binary64.in_unit y ->
  Binary64.in_unit (Binary64.mul x y) /\ Binary64.value (Binary64.mul x y) <= Binary64.value x.
Proof.
  intros Hx Hy.
  assert (Hscale : Binary64.scale = 2200) by reflexivity.
  assert (HU : 0 < U) by (apply pow2_pos; lia).
  destruct x as [sx| | |[|] mx ex]; try (exfalso; exact (proj1 Hx));
    destruct y as [sy| | |[|] my ey]; try (exfalso; exact (proj1 Hy)).
  - unfold Binary64.mul, Binary64.in_unit. cbn [SFmul Binary64.value Binary64.finite_nonneg]. lia.
  - unfold Binary64.mul, Binary64.in_unit. cbn [SFmul Binary64.value Binary64.finite_nonneg]. lia.
  - unfold Binary64.mul, Binary64.in_unit. cbn [SFmul Binary64.value Binary64.finite_nonneg].
    destruct Hx as [_ Hx]. cbn [Binary64.value] in Hx.
    assert (0 <= Zpos mx * 2 ^ (ex + Binary64.scale))
      by (apply Z.mul_nonneg_nonneg; [lia|apply Z.pow_nonneg; lia]).
    lia.
  - pose proof (in_unit_finite mx ex Hx) as Fx. pose proof (in_unit_finite my ey Hy) as Fy.
    cbv zeta in Fx, Fy.
    pose proof (digits2_mul mx my) as HD. cbv zeta in HD.
    pose proof (digits2_mul_unit mx my ey) as H3.
    set (dx := Zpos (digits2_pos mx)) in *. set (dy := Zpos (digits2_pos my)) in *.
    set (D := Zpos (digits2_pos (mx * my))) in *.
    destruct Fx as (Hcx & Hex & Hdx & Hmagx & Hvx & _).
    destruct Fy as (Hcy & Hey & Hdy & Hmagy & Hvy & _).
    specialize (H3 Hvy ltac:(lia)).
    unfold Binary64.mul, SFmul. cbn [xorb].
    pose proof (binary_round_aux_value (mx * my) (ex + ey)) as Hround.
    cbv zeta in Hround. fold D in Hround.
    set (g := fexp64 (D + (ex + ey))) in *.
    assert (Hg : ex + ey <= g /\ g <= ex) by (clear - Hcx Hcy HD H3 Hdx Hdy Hex Hey; lia).
    destruct Hround as (Hnn & Q & R & HX & HR & HQ & Hval & Hexact & _);
      [clear - Hscale Hex Hey; lia | lia | clear - HD Hmagx Hmagy; lia |].
    set (r := binary_round_aux _ _ _ _ _ _) in *. clearbody r.
    assert (Hle : Binary64.value r <= Binary64.value (S754_finite false mx ex)).
    { cbn [Binary64.value].
      assert (HT : Zpos mx * 2 ^ (ex + Binary64.scale)
                   = (Zpos mx * 2 ^ (ex - g)) * 2 ^ (g + Binary64.scale)).
      { rewrite <- Z.mul_assoc, <- pow2_split by (clear - Hg Hscale Hex Hey; lia).
        do 2 f_equal. clear. lia. }
      rewrite HT.
      apply (rounded_below _ _ Q R _ _ HX HR Hval Hexact).
      rewrite <- HT. rewrite Pos2Z.inj_mul.
      apply scaled_product_le; [lia|exact Hex|exact Hey|exact Hvy]. }
    split; [|exact Hle]. split; [exact Hnn|].
    cbn [Binary64.value] in Hle. clear - Hle Hvx. lia.
Qed.

Lemma one_in_unit : Binary64.in_unit (S754_finite false 4503599627370496 (-52)).
Proof.
  split; [reflexivity|]. cbn [Binary64.value]. change 4503599627370496 with (2 ^ 52).
  rewrite <- pow2_split by (unfold Binary64.scale; lia).
  replace (52 + (-52 + Binary64.scale)) with Binary64.scale by lia. lia.
Qed.

Lemma one_value : Binary64.value (S754_finite false 4503599627370496 (-52)) = U.
Proof.
  cbn [Binary64.value]. change 4503599627370496 with (2 ^ 52).
  rewrite <- pow2_split by (unfold Binary64.scale; lia).
  f_equal; lia.
Qed.

(** The magnitude of a positive number below a power of two. *)
Lemma digits2_below (z : positive) (e k : Z) :
  - Binary64.scale <= e -> 0 <= k + Binary64.scale ->
  Zpos z * 2 ^ (e + Binary64.scale) < 2 ^ (k + Binary64.scale) ->
  Zpos (digits2_pos z) + e <= k.
Proof.
  intros He Hk Hlt. pose proof (digits2_bounds z) as Hd.
  set (d := Zpos (digits2_pos z)) in *.
  assert (Hd0 : 0 < d) by (subst d; lia). clearbody d.
  assert (d - 1 + (e + Binary64.scale) < k + Binary64.scale); [|lia].
  apply pow2_lt_inv; try lia. rewrite (pow2_split (d - 1) (e + Binary64.scale)) by lia.
  pose proof (pow2_pos (e + Binary64.scale) ltac:(lia)).
  set (A := 2 ^ (d - 1)) in *. set (E := 2 ^ (e + Binary64.scale)) in *.
  set (K := 2 ^ (k + Binary64.scale)) in *. clearbody A E K. nia.
Qed.

Lemma digits2_above (z : positive) (e k : Z) :
  - Binary64.scale <= e -> 0 <= k + Binary64.scale ->
  2 ^ (k + Binary64.scale) <= Zpos z * 2 ^ (e + Binary64.scale) ->
  k < Zpos (digits2_pos z) + e.
Proof.
  intros He Hk Hlt. pose proof (digits2_bounds z) as Hd.
  set (d := Zpos (digits2_pos z)) in *.
  assert (Hd0 : 0 < d) by (subst d; lia). clearbody d.
  assert (k + Binary64.scale < d + (e + Binary64.scale)); [|lia].
  apply pow2_lt_inv; try lia. rewrite (pow2_split d (e + Binary64.scale)) by lia.
  pose proof (pow2_pos (e + Binary64.scale) ltac:(lia)).
  set (A := 2 ^ d) in *. set (E := 2 ^ (e + Binary64.scale)) in *.
  set (K := 2 ^ (k + Binary64.scale)) in *. clearbody A E K. nia.
Qed.

(** The value of a mantissa aligned to a lower exponent. *)
Lemma aligned_value (m : positive) (e ez : Z) :
  - Binary64.scale <= ez <= e ->
  Zpos (fst (shl_align m e ez)) * 2 ^ (ez + Binary64.scale) = Zpos m * 2 ^ (e + Binary64.scale).
Proof.
  intros He. rewrite shl_align_fst by lia.
  rewrite <- Z.mul_assoc, <- pow2_split by lia. do 2 f_equal; lia.
Qed.

(** [1 - w] for [w] in [0, 1]: a number of [0, 1] that exceeds the exact
    difference by less than [2^-53]. *)
Lemma sub_one_in_unit (w : Binary64.float) :
  Binary64.in_unit w ->
  let u := Binary64.sub (Binary64.of_Z 1) w in
  Binary64.in_unit u /\ Binary64.value u + Binary64.value w < U + 2 ^ (Binary64.scale - 53).
Proof.
  intros Hw u. subst u. rewrite one_binary64.
  assert (Hscale : Binary64.scale = 2200) by reflexivity.
  assert (HU : 0 < U) by (apply pow2_pos; lia).
  assert (Heps : 0 < 2 ^ (Binary64.scale - 53)) by (apply pow2_pos; lia).
  destruct w as [sw| | |[|] mw ew]; try (exfalso; exact (proj1 Hw)).
  - unfold Binary64.sub. cbn [SFsub]. split; [exact one_in_unit|].
    rewrite one_value. cbn [Binary64.value]. lia.
  - pose proof (in_unit_finite mw ew Hw) as Fw. cbv zeta in Fw.
    destruct Fw as (_ & Hew & _ & _ & Hvw & _).
    unfold Binary64.sub, SFsub. cbn [cond_Zopp].
    set (ez := Z.min (-52) ew).
    assert (Hez : - Binary64.scale <= ez /\ ez <= -52 /\ ez <= ew) by (subst ez; lia).
    pose proof (aligned_value 4503599627370496 (-52) ez ltac:(lia)) as H1.
    pose proof (aligned_value mw ew ez ltac:(lia)) as Hmw.
    fold (Binary64.value (S754_finite false 4503599627370496 (-52))) in H1.
    rewrite one_value in H1.
    set (p1 := fst (shl_align 4503599627370496 (-52) ez)) in *.
    set (p2 := fst (shl_align mw ew ez)) in *. clearbody p1 p2.
    pose proof (pow2_pos (ez + Binary64.scale) ltac:(lia)) as HE.
    cbn [Binary64.value].
    assert (Hvw0 : 0 < Zpos mw * 2 ^ (ew + Binary64.scale)).
    { apply Z.mul_pos_pos; [lia|]. apply pow2_pos. lia. }
    destruct (Zpos p1 - Zpos p2) as [|z|z] eqn:HZ.
    + cbn [binary_normalize]. split; [split; [exact I|cbn [Binary64.value]; lia]|].
      cbn [Binary64.value]. assert (Zpos p1 = Zpos p2) by lia.
      set (E := 2 ^ (ez + Binary64.scale)) in *. clearbody E. nia.
    + cbn [binary_normalize].
      assert (HX : Zpos z * 2 ^ (ez + Binary64.scale) = U - Zpos mw * 2 ^ (ew + Binary64.scale)).
      { rewrite <- HZ, Z.mul_sub_distr_r, H1, Hmw. reflexivity. }
      assert (Hmag : Zpos (digits2_pos z) + ez <= 0).
      { apply digits2_below; [lia|lia|]. rewrite Z.add_0_l. lia. }
      pose proof (binary_round_value z ez) as Hround. cbv zeta in Hround.
      set (g := fexp64 (Zpos (digits2_pos z) + ez)) in *.
      assert (Hg : -1074 <= g <= -53) by (subst g; lia).
      destruct Hround as (Hnn & Q & R & HQR & HR & HQ & Hval & Hexact & _); [lia|lia|].
      set (r := binary_round _ _ _ _ _) in *. clearbody r.
      rewrite HX in HQR.
      assert (HG : 2 ^ (g + Binary64.scale) <= 2 ^ (Binary64.scale - 53)) by (apply pow2_le; lia).
      assert (HUG : U = 2 ^ (- g) * 2 ^ (g + Binary64.scale)).
      { rewrite <- pow2_split by lia. f_equal; lia. }
      assert (Hle : Binary64.value r <= 2 ^ (- g) * 2 ^ (g + Binary64.scale)).
      { apply (rounded_below _ _ Q R _ _ HQR HR Hval Hexact). rewrite <- HUG. lia. }
      pose proof (rounded_near _ _ Q R _ HQR HR Hval Hexact) as Hnear.
      split; [split; [exact Hnn|rewrite HUG; exact Hle]|]. lia.
    + exfalso. assert (Zpos p1 * 2 ^ (ez + Binary64.scale) < Zpos p2 * 2 ^ (ez + Binary64.scale)).
      { apply Z.mul_lt_mono_pos_r; lia. }
      lia.
Qed.

(** The sum of two numbers of [0, 1] whose exact sum is below
    [1 + 2^-53] is a number of [0, 1]: a sum above 1 is rounded down
    to 1. *)
Lemma add_in_unit (a b : Binary64.float) :
  Binary64.in_unit a -> Binary64.in_unit b ->
  Binary64.value a + Binary64.value b < U + 2 ^ (Binary64.scale - 53) ->
  Binary64.in_unit (Binary64.add a b).
Proof.
  intros Ha Hb Hsum.
  assert (Hscale : Binary64.scale = 2200) by reflexivity.
  assert (HU : 0 < U) by (apply pow2_pos; lia).
  destruct a as [sa| | |[|] ma ea]; try (exfalso; exact (proj1 Ha));
    destruct b as [sb| | |[|] mb eb]; try (exfalso; exact (proj1 Hb)).
  - unfold Binary64.add. destruct sa, sb; cbn [SFadd]; split; try exact I;
      cbn [Binary64.value]; lia.
  - exact Hb.
  - exact Ha.
  - pose proof (in_unit_finite ma ea Ha) as Fa. pose proof (in_unit_finite mb eb Hb) as Fb.
    cbv zeta in Fa, Fb.
    destruct Fa as (_ & Hea & _ & _ & Hva & _).
    destruct Fb as (_ & Heb & _ & _ & Hvb & _).
    cbn [Binary64.value] in Hsum.
    unfold Binary64.add, SFadd. cbn [cond_Zopp].
    set (ez := Z.min ea eb).
    assert (Hez : - Binary64.scale <= ez /\ ez <= ea /\ ez <= eb) by (subst ez; lia).
    pose proof (aligned_value ma ea ez ltac:(lia)) as Hma.
    pose proof (aligned_value mb eb ez ltac:(lia)) as Hmb.
    set (p1 := fst (shl_align ma ea ez)) in *.
    set (p2 := fst (shl_align mb eb ez)) in *. clearbody p1 p2.
    change (Zpos p1 + Zpos p2) with (Zpos (p1 + p2)). cbn [binary_normalize].
    assert (HX : Zpos (p1 + p2) * 2 ^ (ez + Binary64.scale)
                 = Zpos ma * 2 ^ (ea + Binary64.scale) + Zpos mb * 2 ^ (eb + Binary64.scale)).
    { rewrite Pos2Z.inj_add, Z.mul_add_distr_r, Hma, Hmb. reflexivity. }
    set (X := Zpos (p1 + p2) * 2 ^ (ez + Binary64.scale)) in *.
    assert (Heps : 2 * 2 ^ (Binary64.scale - 53) = 2 ^ (Binary64.scale - 52)).
    { replace (Binary64.scale - 52) with (Binary64.scale - 53 + 1) by lia. rewrite pow2_succ by lia.
      reflexivity. }
    assert (H52 : U = 2 ^ 52 * 2 ^ (Binary64.scale - 52)).
    { rewrite <- pow2_split by lia. f_equal; lia. }
    assert (Hmag : Zpos (digits2_pos (p1 + p2)) + ez <= 1).
    { apply digits2_below; [lia|lia|]. fold X.
      replace (1 + Binary64.scale) with (Binary64.scale + 1) by lia. rewrite pow2_succ by lia.
      assert (0 < 2 ^ (Binary64.scale - 52)) by (apply pow2_pos; lia).
      assert (2 ^ (Binary64.scale - 52) <= U) by (apply pow2_le; lia).
      lia. }
    pose proof (binary_round_value (p1 + p2) ez) as Hround. cbv zeta in Hround.
    fold X in Hround.
    set (g := fexp64 (Zpos (digits2_pos (p1 + p2)) + ez)) in *.
    destruct Hround as (Hnn & Q & R & HQR & HR & HQ & Hval & Hexact & Hhalf); [lia|lia|].
    set (r := binary_round _ _ _ _ _) in *. clearbody r.
    split; [exact Hnn|].
    assert (Hmag1 : U < X -> 0 < Zpos (digits2_pos (p1 + p2)) + ez).
    { intros Hgt. apply digits2_above; [lia|lia|]. fold X. rewrite Z.add_0_l. lia. }
    set (d := Zpos (digits2_pos (p1 + p2))) in *.
    assert (Hgdef : g = fexp64 (d + ez)) by reflexivity.
    clearbody g d. clearbody X.
    clear Ha Hb Hma Hmb Hva Hvb Hea Heb p1 p2.
    destruct (Z_le_gt_dec X U) as [Hle|Hgt].
    + assert (Hg : -1074 <= g <= -52) by (clear - Hgdef Hmag; lia).
      assert (HUG : U = 2 ^ (- g) * 2 ^ (g + Binary64.scale)).
      { rewrite <- pow2_split by (clear - Hg Hscale; lia). f_equal; lia. }
      rewrite HUG. apply (rounded_below _ _ Q R _ _ HQR HR Hval Hexact).
      rewrite <- HUG. exact Hle.
    + specialize (Hmag1 ltac:(lia)).
      assert (Hg : g = -52) by (clear - Hgdef Hmag Hmag1; lia).
      replace (g + Binary64.scale) with (Binary64.scale - 52) in * by (clear - Hg; lia).
      set (G := 2 ^ (Binary64.scale - 52)) in *.
      assert (HG : 0 < G) by (apply pow2_pos; lia).
      set (C := 2 ^ 52) in *.
      assert (HQC : Q = C).
      { rewrite <- HX in Hsum. clear - HQR HR Hgt Hsum H52 Heps HG. clearbody G C.
        destruct (Z_lt_le_dec Q C) as [Hlt|Hge]; [exfalso; nia|].
        destruct (Z_le_gt_dec Q C) as [Hle'|Hgt']; [lia|exfalso; nia]. }
      rewrite Hhalf; [subst Q; lia|].
      rewrite <- HX in Hsum. clear - HQR HQC H52 Hsum Heps. clearbody G C. nia.
Qed.

End UnitIntervalFacts.

Section UnitOrderFacts.

Local Open Scope Z_scope.

Local Abbreviation fexp64 x := (Z.max (x - 53) (-1074)).
Local Abbreviation U := (2 ^ Binary64.scale).

Lemma compare_cont_le (m c : positive) :
  match Pos.compare_cont Eq m c with Lt | Eq => true | Gt => false end = true
  <-> Zpos m <= Zpos c.
Proof.
  change (Pos.compare_cont Eq m c) with (Pos.compare m c).
  destruct (Pos.compare_spec m c) as [H|H|H]; split; intros H'; try reflexivity;
    try discriminate; lia.
Qed.

(** A binary64 number between 0 and 1, as [<=] of the floats has it, is a
    number of [0, 1], and conversely. *)
Lemma in_unit_of_leb (x : Binary64.float) :
  Binary64.valid x ->
  Binary64.leb (Binary64.of_Z 0) x = true ->
  Binary64.leb x (Binary64.of_Z 1) = true ->
  Binary64.in_unit x.
Proof.
  rewrite one_binary64, zero_binary64. unfold Binary64.valid, Binary64.leb, SFleb.
  assert (Hscale : Binary64.scale = 2200) by reflexivity.
  assert (HU : 0 < U) by (apply pow2_pos; lia).
  destruct x as [s|[|]| |[|] m e]; cbn [valid_binary SFcompare]; try discriminate.
  - intros _ _ _. split; [exact I|cbn [Binary64.value]; lia].
  - intros Hb _ Hle. split; [exact Hb|]. cbn [Binary64.value].
    apply bounded_binary64 in Hb. destruct Hb as [Hc _].
    pose proof (digits2_bounds m) as Hd. set (d := Zpos (digits2_pos m)) in *.
    assert (Hd0 : 0 < d) by (subst d; lia). clearbody d.
    destruct (Z.compare_spec e (-52)) as [He|He|He]; [| |discriminate].
    + subst e. apply compare_cont_le in Hle.
      rewrite <- (one_value). cbn [Binary64.value].
      apply Z.mul_le_mono_nonneg_r; [apply Z.pow_nonneg; lia|exact Hle].
    + assert (Hm : Zpos m < 2 ^ 53).
      { assert (2 ^ d <= 2 ^ 53) by (apply pow2_le; lia). lia. }
      assert (Hp : 2 ^ (e + Binary64.scale) <= 2 ^ (Binary64.scale - 53)) by (apply pow2_le; lia).
      assert (H53 : U = 2 ^ 53 * 2 ^ (Binary64.scale - 53)).
      { rewrite <- pow2_split by lia. f_equal; lia. }
      assert (0 < 2 ^ (e + Binary64.scale)) by (apply pow2_pos; lia).
      rewrite H53. clear - Hm Hp H. 
      set (A := 2 ^ (e + Binary64.scale)) in *. set (B := 2 ^ (Binary64.scale - 53)) in *.
      set (C := 2 ^ 53) in *. clearbody A B C. nia.
Qed.

Lemma leb_of_in_unit (x : Binary64.float) :
  Binary64.in_unit x ->
  Binary64.leb (Binary64.of_Z 0) x = true /\ Binary64.leb x (Binary64.of_Z 1) = true.
Proof.
  rewrite one_binary64, zero_binary64. unfold Binary64.leb, SFleb.
  assert (Hscale : Binary64.scale = 2200) by reflexivity.
  intros Hx.
  destruct x as [s| | |[|] m e]; try (exfalso; exact (proj1 Hx)).
  - split; reflexivity.
  - split; [reflexivity|]. cbn [SFcompare].
    pose proof (in_unit_finite m e Hx) as Fx. cbv zeta in Fx.
    set (d := Zpos (digits2_pos m)) in *.
    destruct Fx as (Hc & He & Hd & Hmag & Hv & Hb).
    destruct (Z.compare_spec e (-52)) as [He52|He52|He52]; [|reflexivity|lia].
    subst e. apply compare_cont_le.
    rewrite <- one_value in Hv. cbn [Binary64.value] in Hv.
    apply Z.mul_le_mono_pos_r in Hv; [exact Hv|]. apply pow2_pos. lia.
Qed.

(** The weighted sum of two numbers of [0, 1] with a weight of [0, 1],
    computed in binary64 as the code writes it, is a number of [0, 1]. *)
Lemma combined_in_unit (w v k : Binary64.float) :
  Binary64.in_unit w -> Binary64.in_unit v -> Binary64.in_unit k ->
  Binary64.in_unit
    (Binary64.add (Binary64.mul w v)
       (Binary64.mul (Binary64.sub (Binary64.of_Z 1) w) k)).
Proof.
  intros Hw Hv Hk.
  destruct (mul_in_unit w v Hw Hv) as [Ha Hale].
  destruct (sub_one_in_unit w Hw) as [Hu Hsum].
  destruct (mul_in_unit _ k Hu Hk) as [Hb Hble].
  apply add_in_unit; [exact Ha|exact Hb|]. lia.
Qed.

End UnitOrderFacts.

(** C6.  For a weight [w] in [0,1], [hybrid_search] returns, and every
    entry it returns has [combined_score] equal to
    [w * vector_score + (1 - w) * keyword_score] of that same entry, as
    binary64 computes it: each product, the difference and the sum rounded
    to nearest.  When both of the entry's scores lie in [0,1], so does its
    combined score: no rounding takes it above 1. *)
Theorem combined_score_convex
    (encode_text : string -> outcome (list Binary64.float))
    (py_lower : string -> string) (py_split : string -> list string)
    (hash_str : Embeddings.Document -> Z)
    (query : string) (documents : list Embeddings.Document)
    (w : Binary64.float) (top_k : nat) :
  Binary64.valid w ->
  Binary64.leb (Binary64.of_Z 0) w = true ->
  Binary64.leb w (Binary64.of_Z 1) = true ->
  exists results,
    Embeddings.hybrid_search encode_text Embeddings.calculate_similarity py_lower
      py_split hash_str query documents w top_k = Returns results
    /\ Forall
         (fun e =>
            let v := Embeddings.vector_score e in
            let k := Embeddings.keyword_score e in
            Embeddings.combined_score e
            = Binary64.add (Binary64.mul w v)
                (Binary64.mul (Binary64.sub (Binary64.of_Z 1) w) k)
            /\ (Binary64.valid v ->
                Binary64.leb (Binary64.of_Z 0) v = true ->
                Binary64.leb v (Binary64.of_Z 1) = true ->
                Binary64.valid k ->
                Binary64.leb (Binary64.of_Z 0) k = true ->
                Binary64.leb k (Binary64.of_Z 1) = true ->
                Binary64.leb (Binary64.of_Z 0) (Embeddings.combined_score e) = true
                /\ Binary64.leb (Embeddings.combined_score e) (Binary64.of_Z 1) = true))
         results.
Proof.
  intros Hvalid Hw0 Hw1.
  pose proof (in_unit_of_leb w Hvalid Hw0 Hw1) as Hw.
  destruct (hybrid_search_returns encode_text Embeddings.calculate_similarity
              py_lower py_split hash_str query documents w top_k) as [results Hr].
  exists results. split; [exact Hr|].
  apply hybrid_search_combined in Hr.
  eapply List.Forall_impl; [|exact Hr]. intros e He. cbv zeta.
  change (Embeddings.combined_score e
          = Binary64.add (Binary64.mul w (Embeddings.vector_score e))
              (Binary64.mul (Binary64.sub (Binary64.of_Z 1) w)
                 (Embeddings.keyword_score e))) in He.
  split; [exact He|]. intros Hvv Hv0 Hv1 Hvk Hk0 Hk1. rewrite He.
  apply leb_of_in_unit, combined_in_unit;
    [exact Hw | apply in_unit_of_leb | apply in_unit_of_leb]; assumption.
Qed.

Lemma combined_score_convex_witness :
  let w := Binary64.lit 7 1 in
  let documents := [SearchFixtures.doc_with_id "a" "SSL setup guide";
                    SearchFixtures.doc_with_id "b" "Deploy pipeline"] in
  Binary64.valid w
  /\ Binary64.leb (Binary64.of_Z 0) w = true
  /\ Binary64.leb w (Binary64.of_Z 1) = true
  /\ exists results,
       Embeddings.hybrid_search SearchFixtures.encode_constant
         Embeddings.calculate_similarity SearchFixtures.ascii_lower
         SearchFixtures.ascii_split (fun _ => 0%Z) "ssl setup" documents w 5
       = Returns results
       /\ length results = 2
       /\ Forall
            (fun e =>
               Binary64.leb (Binary64.of_Z 0) (Embeddings.combined_score e) = true
               /\ Binary64.leb (Embeddings.combined_score e) (Binary64.of_Z 1) = true)
            results.
Proof.
  intros w documents.
  assert (Hvalid : Binary64.valid w) by (vm_compute; reflexivity).
  assert (Hw0 : Binary64.leb (Binary64.of_Z 0) w = true) by (vm_compute; reflexivity).
  assert (Hw1 : Binary64.leb w (Binary64.of_Z 1) = true) by (vm_compute; reflexivity).
  split; [exact Hvalid|]. split; [exact Hw0|]. split; [exact Hw1|].
  destruct (combined_score_convex SearchFixtures.encode_constant
              SearchFixtures.ascii_lower SearchFixtures.ascii_split (fun _ => 0%Z)
              "ssl setup" documents w 5 Hvalid Hw0 Hw1) as (results & Hrun & Hall).
  exists results. split; [exact Hrun|].
  assert (Hval : Embeddings.hybrid_search SearchFixtures.encode_constant
                   Embeddings.calculate_similarity SearchFixtures.ascii_lower
                   SearchFixtures.ascii_split (fun _ => 0%Z) "ssl setup" documents w 5
                 = Returns results) by exact Hrun.
  vm_compute in Hval. injection Hval as <-.
  split; [reflexivity|].
  repeat match goal with
         | H : Forall _ (_ :: _) |- _ => apply List.Forall_cons_iff in H as [? H]
         end.
  repeat constructor;
    match goal with
    | H : _ /\ (_ -> _) |- _ /\ _ =>
        apply (proj2 H); vm_compute; reflexivity
    end.
Defined.

(** Scenario A of the specification, with the arithmetic read over exact
    rationals: vector scores 0.9, 0.6, 0.3, keyword scores 0.2, 0.5, 0.1
    and weight 0.7 combine to 0.69, 0.57, 0.24. *)
Example scenario_A_combined :
  let a := SearchFixtures.doc_with_id "a" "first" in
  let b := SearchFixtures.doc_with_id "b" "second" in
  let c := SearchFixtures.doc_with_id "c" "third" in
  (merged ←
     Embeddings.merge_scores (fun _ => 0%Z) [a; b; c] (7 # 10)
       [ {| Embeddings.index := 0; Embeddings.similarity := 9 # 10 |};
         {| Embeddings.index := 1; Embeddings.similarity := 6 # 10 |};
         {| Embeddings.index := 2; Embeddings.similarity := 3 # 10 |} ]
       [ {| Embeddings.scored_document := b; Embeddings.scored_keyword_score := 5 # 10 |};
         {| Embeddings.scored_document := a; Embeddings.scored_keyword_score := 2 # 10 |};
         {| Embeddings.scored_document := c; Embeddings.scored_keyword_score := 1 # 10 |} ];
   mret (map (fun kv => Qred (Embeddings.combined_score kv.2)) merged))
  = Returns [69 # 100; 57 # 100; 6 # 25].
Proof. vm_compute. reflexivity. Qed.

(** The same scenario as binary64 computes it: the decimal figures of the
    specification are the exact values; the first two combined scores are
    the floats next above 0.69 and 0.57, the third is the float 0.24.  All
    three lie in [0, 1]. *)
Example scenario_A_binary64 :
  let a := SearchFixtures.doc_with_id "a" "first" in
  let b := SearchFixtures.doc_with_id "b" "second" in
  let c := SearchFixtures.doc_with_id "c" "third" in
  (merged ←
     Embeddings.merge_scores (fun _ => 0%Z) [a; b; c] (Binary64.lit 7 1)
       [ {| Embeddings.index := 0; Embeddings.similarity := Binary64.lit 9 1 |};
         {| Embeddings.index := 1; Embeddings.similarity := Binary64.lit 6 1 |};
         {| Embeddings.index := 2; Embeddings.similarity := Binary64.lit 3 1 |} ]
       [ {| Embeddings.scored_document := b;
            Embeddings.scored_keyword_score := Binary64.lit 5 1 |};
         {| Embeddings.scored_document := a;
            Embeddings.scored_keyword_score := Binary64.lit 2 1 |};
         {| Embeddings.scored_document := c;
            Embeddings.scored_keyword_score := Binary64.lit 1 1 |} ];
   mret (map (fun kv => Embeddings.combined_score kv.2) merged))
  = Returns [S754_finite false 6214967485771285 (-53);
             S754_finite false 5134103575202366 (-53);
             Binary64.lit 24 2]
  /\ Binary64.lit 69 2 = S754_finite false 6214967485771284 (-53)
  /\ Binary64.lit 57 2 = S754_finite false 5134103575202365 (-53).
Proof. vm_compute. auto. Qed.

(** Evaluates a closed call in the goal. *)
Ltac eval_call t :=
  let v := eval vm_compute in t in
  let E := fresh "E" in
  assert (E : t = v) by (vm_compute; reflexivity);
  rewrite E; clear E.

Lemma dict_mem_singleton_ne {V : Type} (k k' : Embeddings.PyKey) (v : V) :
  k <> k' -> Embeddings.dict_mem k' [(k, v)] = false.
Proof.
  intros Hne. unfold Embeddings.dict_mem. simpl.
  rewrite bool_decide_eq_false_2 by exact Hne. reflexivity.
Qed.

(** C5 at a failing input.  One document without a metadata id, which
    both searches find: the vector loop files it under its index [0], the
    keyword loop under [hash(str(doc))]; unless the hash happens to be 0
    the two keys differ and the one document comes back as two entries, the
    first with keyword score 0, the second with vector score 0. *)
Theorem hybrid_search_duplicates_document (hash_str : Embeddings.Document -> Z) :
  hash_str SearchFixtures.doc_without_id <> 0%Z ->
  Embeddings.hybrid_search SearchFixtures.encode_constant
    Embeddings.calculate_similarity SearchFixtures.ascii_lower
    SearchFixtures.ascii_split hash_str "ssl" [SearchFixtures.doc_without_id]
    (Binary64.lit 7 1) 5
  = Returns
      [ {| Embeddings.document := SearchFixtures.doc_without_id;
           Embeddings.vector_score := Binary64.of_Z 1;
           Embeddings.keyword_score := Binary64.of_Z 0;
           Embeddings.combined_score := Binary64.lit 7 1 |};
        {| Embeddings.document := SearchFixtures.doc_without_id;
           Embeddings.vector_score := Binary64.of_Z 0;
           Embeddings.keyword_score := Binary64.of_Z 1;
           Embeddings.combined_score :=
             Binary64.sub (Binary64.of_Z 1) (Binary64.lit 7 1) |} ].
Proof.
  intros Hh. unfold Embeddings.hybrid_search.
  change (SearchFixtures.encode_constant "ssl")
    with (Returns [Binary64.of_Z 3; Binary64.of_Z 4]).
  outcome_step. cbn [Embeddings.for_each].
  change (SearchFixtures.encode_constant _)
    with (Returns [Binary64.of_Z 3; Binary64.of_Z 4]).
  outcome_step. cbn [app].
  match goal with |- context [Embeddings.find_most_similar ?a ?b ?c ?d] =>
    eval_call (Embeddings.find_most_similar a b c d) end.
  outcome_step.
  match goal with |- context [Embeddings.keyword_search ?a ?b ?c ?d ?e] =>
    eval_call (Embeddings.keyword_search (F:=Binary64.float) a b c d e) end.
  outcome_step.
  unfold Embeddings.merge_scores. cbn [Embeddings.for_each].
  unfold Embeddings.add_vector_result.
  cbn -[Binary64.lit f_add f_mul f_sub f_of_nat f_ltb Embeddings.add_keyword_result].
  unfold Embeddings.add_keyword_result.
  cbn [Embeddings.scored_document Embeddings.doc_id_or Embeddings.doc_metadata].
  change {| Embeddings.doc_text := Some "SSL setup guide";
            Embeddings.doc_metadata := None |}
    with SearchFixtures.doc_without_id.
  rewrite dict_mem_singleton_ne by (intros [= Heq]; apply Hh; symmetry; exact Heq).
  cbn [negb]. vm_compute. reflexivity.
Qed.

Lemma hybrid_search_duplicates_document_witness :
  (fun _ : Embeddings.Document => 7%Z) SearchFixtures.doc_without_id <> 0%Z /\
  length
    (match Embeddings.hybrid_search SearchFixtures.encode_constant
             Embeddings.calculate_similarity SearchFixtures.ascii_lower
             SearchFixtures.ascii_split (fun _ => 7%Z) "ssl"
             [SearchFixtures.doc_without_id] (Binary64.lit 7 1) 5 with
     | Returns results => results
     | Raises _ => []
     end) = 2.
Proof.
  assert (Hh : (fun _ : Embeddings.Document => 7%Z) SearchFixtures.doc_without_id
               <> 0%Z) by (simpl; lia).
  split; [exact Hh|].
  rewrite (hybrid_search_duplicates_document (fun _ => 7%Z) Hh). reflexivity.
Defined.

(** ** Retrieval scores *)

Section ScoreFacts.

Context {F : Type} `{Arith F}.

Variable py_lower : string -> string.
Variable py_split : string -> list string.

Lemma scored_docs_loop (query_words : gset string)
    (documents : list Embeddings.Document) (acc : list (Embeddings.Scored F)) :
  fold_left
    (fun scored_docs doc =>
       scored_docs
       ++ [ {| Embeddings.scored_document := doc;
               Embeddings.scored_keyword_score :=
                 Embeddings.keyword_score_of query_words
                   (Embeddings.word_set py_split
                      (py_lower (default "" (Embeddings.doc_text doc)))) |} ])
    documents acc
  = acc
    ++ map (fun doc =>
              {| Embeddings.scored_document := doc;
                 Embeddings.scored_keyword_score :=
                   Embeddings.keyword_score_of query_words
                     (Embeddings.word_set py_split
                        (py_lower (default "" (Embeddings.doc_text doc)))) |})
         documents.
Proof.
  revert acc. induction documents as [|d ds IH]; intros acc; simpl.
  - rewrite app_nil_r. reflexivity.
  - rewrite IH, <- app_assoc. reflexivity.
Qed.

(** First half of C3: a query without words scores 0 against every
    document, and no division takes place. *)
Lemma keyword_score_empty_query (query : string)
    (documents : list Embeddings.Document) (top_k : nat) :
  Embeddings.word_set py_split (py_lower query) = ∅ ->
  exists results,
    Embeddings.keyword_search py_lower py_split query documents top_k
      = Returns results
    /\ Forall (fun s => Embeddings.scored_keyword_score s = f_of_nat 0) results
    /\ (forall doc_words, Embeddings.keyword_score_of (F:=F) ∅ doc_words = f_of_nat 0).
Proof.
  intros Hq. unfold Embeddings.keyword_search. outcome_step.
  eexists. split; [reflexivity|]. split.
  - apply List.Forall_forall. intros s Hs.
    apply in_py_slice_first, in_sort_desc in Hs.
    rewrite scored_docs_loop in Hs. simpl in Hs.
    apply in_map_iff in Hs as (doc & <- & _). simpl.
    rewrite Hq. unfold Embeddings.keyword_score_of.
    rewrite bool_decide_eq_false_2; [reflexivity|]. intros Hne. apply Hne. reflexivity.
  - intros doc_words. unfold Embeddings.keyword_score_of.
    rewrite bool_decide_eq_false_2; [reflexivity|]. intros Hne. apply Hne. reflexivity.
Qed.

End ScoreFacts.

Lemma fold_add_nan (ps : list Binary64.float) :
  fold_left Binary64.add ps Binary64.nan = Binary64.nan.
Proof. induction ps as [|p ps IH]; simpl; [reflexivity | exact IH]. Qed.

Lemma fold_add_zeros (ps : list Binary64.float) (z : Binary64.float) :
  Binary64.is_zero z -> Forall Binary64.is_zero ps -> Binary64.is_zero (fold_left Binary64.add ps z).
Proof.
  revert z. induction ps as [|p ps IH]; intros z Hz Hps; simpl; [exact Hz|].
  apply Forall_cons in Hps as [Hp Hps]. apply IH; [|exact Hps].
  destruct z as [sz| | |]; try contradiction.
  destruct p as [sp| | |]; try contradiction.
  destruct sz, sp; exact I.
Qed.

Lemma norm_of_zeros (v : list Binary64.float) :
  Forall Binary64.is_zero v -> Binary64.is_zero (Embeddings.Numpy.linalg_norm v).
Proof.
  intros Hv. unfold Embeddings.Numpy.linalg_norm, Embeddings.Numpy.dot.
  rewrite Nat.eqb_refl.
  assert (Hprod : Forall Binary64.is_zero (zip_with Binary64.mul v v)).
  { induction Hv as [|x l Hx Hl IH]; simpl; constructor; [|exact IH].
    destruct x; try contradiction. exact I. }
  destruct (zip_with Binary64.mul v v) as [|p ps]; [exact I|].
  apply Forall_cons in Hprod as [Hp Hps].
  pose proof (fold_add_zeros ps p Hp Hps) as Hsum.
  destruct (fold_left Binary64.add ps p); try contradiction. exact I.
Qed.

(** Second half of C3, in general: the cosine similarity of a non-empty
    all-zero vector with any vector of the same length is NaN, returned
    through the [try] branch; the [except] branch with its 0.0 is not
    taken. *)
Lemma zero_vector_similarity_nan (embedding1 embedding2 : list Binary64.float) :
  embedding1 <> [] -> Forall Binary64.is_zero embedding1 ->
  length embedding1 = length embedding2 ->
  Embeddings.calculate_similarity embedding1 embedding2 = Returns Binary64.nan.
Proof.
  intros Hne Hz Hlen. unfold Embeddings.calculate_similarity. cbv zeta.
  pose proof (norm_of_zeros embedding1 Hz) as Hn.
  destruct (Embeddings.Numpy.linalg_norm embedding1) as [sn| | |]; try contradiction.
  unfold Embeddings.Numpy.dot, Embeddings.Numpy.divide.
  rewrite !length_map, Hlen, Nat.eqb_refl.
  destruct embedding1 as [|x xs]; [congruence|].
  destruct embedding2 as [|y ys]; [discriminate|].
  apply Forall_cons in Hz as [Hx _].
  destruct x; try contradiction. simpl.
  rewrite fold_add_nan. reflexivity.
Qed.

(** C3 at a failing input: the zero vector [[0.0]] against [[1.0]].  Its
    norm is 0.0, [0.0 / 0.0] is NaN, and the similarity returned is NaN,
    not 0; the same for [[0.0, 0.0]] against [[3.0, 4.0]]. *)
Theorem calculate_similarity_zero_norm :
  Embeddings.Numpy.linalg_norm [Binary64.zero] = Binary64.zero /\
  Embeddings.calculate_similarity [Binary64.zero] [Binary64.of_Z 1]
    = Returns Binary64.nan /\
  Embeddings.calculate_similarity [Binary64.zero; Binary64.zero]
    [Binary64.of_Z 3; Binary64.of_Z 4] = Returns Binary64.nan /\
  Embeddings.calculate_similarity [Binary64.zero] [Binary64.of_Z 1]
    <> Returns Binary64.zero.
Proof.
  split; [vm_compute; reflexivity|].
  split; [vm_compute; reflexivity|].
  split; [vm_compute; reflexivity|].
  vm_compute. discriminate.
Qed.

(** ** The vector store *)

Section StoreFacts.

Context {F : Type} `{Arith F}.

Variable encode_text : string -> outcome (list F).
Variable collection_query :
  list (list F) -> nat -> option (gmap string string)
  -> outcome (VectorStore.QueryResult F).

Lemma format_row_derived (results : VectorStore.QueryResult F) (i : nat) r :
  VectorStore.format_row results i = Returns r -> VectorStore.derived r.
Proof.
  unfold VectorStore.format_row.
  destruct (py_index (VectorStore.ids results) 0) as [ids0|]; outcome_step;
    [|discriminate].
  destruct (py_index ids0 i); outcome_step; [|discriminate].
  destruct (py_index (VectorStore.documents results) 0) as [docs0|]; outcome_step;
    [|discriminate].
  destruct (py_index docs0 i); outcome_step; [|discriminate].
  destruct (py_index (VectorStore.metadatas results) 0) as [metas0|]; outcome_step;
    [|discriminate].
  destruct (py_index metas0 i); outcome_step; [|discriminate].
  destruct (py_index (VectorStore.distances results) 0) as [dists0|]; outcome_step;
    [|discriminate].
  destruct (py_index dists0 i); outcome_step; [|discriminate].
  intros [= <-]. reflexivity.
Qed.

Lemma format_rows_derived (results : VectorStore.QueryResult F) (indices : list nat)
    acc out :
  Forall VectorStore.derived acc ->
  VectorStore.format_rows results indices acc = Returns out ->
  Forall VectorStore.derived out.
Proof.
  revert acc. induction indices as [|i rest IH]; intros acc Hacc; simpl.
  - intros [= <-]. exact Hacc.
  - destruct (VectorStore.format_row results i) as [row|] eqn:Hrow; outcome_step;
      [|discriminate].
    apply IH. apply Forall_app. split; [exact Hacc|].
    constructor; [|constructor]. eapply format_row_derived. exact Hrow.
Qed.

Lemma search_similar_derived (st : Config.Settings F) (query : string)
    (n_results : option nat) (filter_metadata : option (gmap string string)) :
  exists results,
    VectorStore.search_similar encode_text collection_query st query n_results
      filter_metadata = Returns results
    /\ Forall VectorStore.derived results.
Proof.
  unfold VectorStore.search_similar. cbv zeta.
  destruct (encode_text query) as [qe|]; outcome_step;
    [|exists []; split; [reflexivity|constructor]].
  destruct (collection_query [qe] _ filter_metadata) as [results|]; outcome_step;
    [|exists []; split; [reflexivity|constructor]].
  destruct (VectorStore.documents results) as [|[|d ds] rest];
    try (exists []; split; [reflexivity|constructor]).
  destruct (VectorStore.format_rows results (seq 0 (length (d :: ds))) [])
    as [out|] eqn:Hrows.
  - exists out. split; [reflexivity|].
    eapply format_rows_derived; [|exact Hrows]. constructor.
  - exists []. split; [reflexivity|constructor].
Qed.

Lemma py_index_nested {A : Type} (ll : list (list A)) (i : nat) :
  match (l0 ← py_index ll 0; py_index l0 i) with
  | Returns x => default [] (ll !! 0) !! i = Some x
  | Raises _ => length (default [] (ll !! 0)) <= i
  end.
Proof.
  unfold py_index. destruct (ll !! 0) as [l0|] eqn:H0; outcome_step; simpl.
  - destruct (l0 !! i) as [x|] eqn:Hi; [reflexivity|].
    apply lookup_ge_None. exact Hi.
  - lia.
Qed.

Lemma format_row_cases (results : VectorStore.QueryResult F) (i : nat) :
  match VectorStore.format_row results i with
  | Returns r => VectorStore.row_at results i r
  | Raises _ => ~ VectorStore.row_present results i
  end.
Proof.
  unfold VectorStore.format_row, VectorStore.row_at, VectorStore.row_present.
  pose proof (py_index_nested (VectorStore.ids results) i) as Hids.
  pose proof (py_index_nested (VectorStore.documents results) i) as Hdocs.
  pose proof (py_index_nested (VectorStore.metadatas results) i) as Hmetas.
  pose proof (py_index_nested (VectorStore.distances results) i) as Hdists.
  revert Hids Hdocs Hmetas Hdists. unfold py_index.
  destruct (VectorStore.ids results !! 0) as [ids0|]; outcome_step; simpl;
    [|intros; lia].
  destruct (ids0 !! i); outcome_step; [|intros; lia].
  destruct (VectorStore.documents results !! 0) as [docs0|]; outcome_step; simpl;
    [|intros; lia].
  destruct (docs0 !! i); outcome_step; [|intros; lia].
  destruct (VectorStore.metadatas results !! 0) as [metas0|]; outcome_step; simpl;
    [|intros; lia].
  destruct (metas0 !! i); outcome_step; [|intros; lia].
  destruct (VectorStore.distances results !! 0) as [dists0|]; outcome_step; simpl;
    [|intros; lia].
  destruct (dists0 !! i); outcome_step; [|intros; lia].
  intros. simpl. auto.
Qed.

Lemma format_rows_cases (results : VectorStore.QueryResult F) (indices : list nat)
    (acc : list (VectorStore.ContextResult F)) :
  match VectorStore.format_rows results indices acc with
  | Returns out =>
      exists rows, out = acc ++ rows /\ Forall2 (VectorStore.row_at results) indices rows
  | Raises _ => exists i, In i indices /\ ~ VectorStore.row_present results i
  end.
Proof.
  revert acc. induction indices as [|i rest IH]; intros acc;
    cbn [VectorStore.format_rows]; outcome_step.
  - exists []. rewrite app_nil_r. split; [reflexivity | constructor].
  - pose proof (format_row_cases results i) as Hrow.
    destruct (VectorStore.format_row results i) as [row|e]; outcome_step.
    + specialize (IH (acc ++ [row])).
      destruct (VectorStore.format_rows results rest (acc ++ [row])) as [out|e].
      * destruct IH as (rows & -> & Hrows). exists (row :: rows).
        rewrite <- app_assoc. split; [reflexivity|]. constructor; assumption.
      * destruct IH as (j & Hj & Hbad). exists j. split; [right; exact Hj | exact Hbad].
    + exists i. split; [left; reflexivity | exact Hrow].
Qed.

Lemma search_similar_answer (st : Config.Settings F) (query : string)
    (n_results : option nat) (filter_metadata : option (gmap string string)) :
  exists results,
    VectorStore.search_similar encode_text collection_query st query n_results
      filter_metadata = Returns results
    /\ Forall VectorStore.derived results
    /\ match (query_embedding ← encode_text query;
              collection_query [query_embedding]
                (VectorStore.n_results_or n_results (Config.top_k_results st))
                filter_metadata) with
       | Returns answer =>
           match VectorStore.documents answer with
           | (d :: ds) :: _ =>
               Forall2 (VectorStore.row_at answer) (seq 0 (length (d :: ds))) results
               \/ (results = []
                   /\ exists i, i < length (d :: ds)
                                /\ ~ VectorStore.row_present answer i)
           | _ => results = []
           end
       | Raises _ => results = []
       end.
Proof.
  unfold VectorStore.search_similar. cbv zeta.
  destruct (encode_text query) as [qe|]; outcome_step;
    [|exists []; split; [reflexivity|split; [constructor|reflexivity]]].
  destruct (collection_query [qe] _ filter_metadata) as [answer|]; outcome_step;
    [|exists []; split; [reflexivity|split; [constructor|reflexivity]]].
  destruct (VectorStore.documents answer) as [|[|d ds] rest];
    try (exists []; split; [reflexivity|split; [constructor|reflexivity]]).
  pose proof (format_rows_cases answer (seq 0 (length (d :: ds))) []) as Hcases.
  destruct (VectorStore.format_rows answer (seq 0 (length (d :: ds))) [])
    as [out|] eqn:Hrows; outcome_step.
  - exists out. split; [reflexivity|]. split.
    + eapply format_rows_derived; [|exact Hrows]. constructor.
    + left. destruct Hcases as (rows & -> & Hall). exact Hall.
  - exists []. split; [reflexivity|]. split; [constructor|].
    right. split; [reflexivity|].
    destruct Hcases as (i & Hi & Hbad). exists i. split; [|exact Hbad].
    apply in_seq in Hi. lia.
Qed.

End StoreFacts.

Lemma leb_not_nan (threshold x : Binary64.float) :
  Binary64.leb threshold x = true -> Binary64.is_nan x = false.
Proof.
  unfold Binary64.leb, SFleb. destruct x; try reflexivity.
  destruct threshold; simpl; discriminate.
Qed.

(** C4, as the code has it.  Nothing is clamped.  [search_similar]
    returns.  When the index answers with a non-empty list of documents
    whose ids, metadatas and distances have an entry for every document,
    the results are the rows of that answer, in order: result [i] carries
    the id, text, metadata and distance of row [i], and as similarity
    [1 - distance] as computed, whatever its value.  In every other case
    (the encoder or the index raised, the answer has no documents, or a
    row is missing) the result is the empty list.
    [search_relevant_context] returns exactly those results, in order,
    whose similarity is at least the configured threshold, so a lower
    similarity is dropped, not replaced by 0; in binary64 a NaN similarity
    fails the comparison and is dropped as well. *)
Theorem similarity_is_derived_and_filtered :
  (forall (F : Type) (A : Arith F)
          (encode_text : string -> outcome (list F))
          (collection_query :
             list (list F) -> nat -> option (gmap string string)
             -> outcome (VectorStore.QueryResult F))
          (st : Config.Settings F) (query : string)
          (filter_metadata : option (gmap string string)) (n_results : option nat),
      exists results,
        VectorStore.search_similar encode_text collection_query st query n_results
          filter_metadata = Returns results
        /\ Forall (fun r => VectorStore.similarity r
                            = f_sub (f_of_nat 1) (VectorStore.distance r)) results
        /\ VectorStore.search_relevant_context encode_text collection_query st query
             filter_metadata n_results
           = Returns (List.filter
                        (fun r => f_leb (Config.similarity_threshold st)
                                    (VectorStore.similarity r)) results)
        /\ match (query_embedding ← encode_text query;
                  collection_query [query_embedding]
                    (VectorStore.n_results_or n_results (Config.top_k_results st))
                    filter_metadata) with
           | Returns answer =>
               match VectorStore.documents answer with
               | (d :: ds) :: _ =>
                   (length results = length (d :: ds)
                    /\ forall i r,
                         results !! i = Some r ->
                         default [] (VectorStore.ids answer !! 0) !! i
                         = Some (VectorStore.id r)
                         /\ default [] (VectorStore.documents answer !! 0) !! i
                            = Some (VectorStore.text r)
                         /\ default [] (VectorStore.metadatas answer !! 0) !! i
                            = Some (VectorStore.metadata r)
                         /\ default [] (VectorStore.distances answer !! 0) !! i
                            = Some (VectorStore.distance r)
                         /\ VectorStore.similarity r
                            = f_sub (f_of_nat 1) (VectorStore.distance r))
                   \/ (results = []
                       /\ exists i, i < length (d :: ds)
                                    /\ ~ VectorStore.row_present answer i)
               | _ => results = []
               end
           | Raises _ => results = []
           end)
  /\ (forall threshold x : Binary64.float,
        f_leb threshold x = true -> Binary64.is_nan x = false).
Proof.
  split.
  - intros F A encode_text collection_query st query filter_metadata n_results.
    destruct (search_similar_answer encode_text collection_query st query
                n_results filter_metadata) as (results & Hs & Hd & Hrows).
    exists results. split; [exact Hs|]. split; [exact Hd|].
    split; [unfold VectorStore.search_relevant_context; rewrite Hs; reflexivity|].
    destruct (query_embedding ← encode_text query;
              collection_query [query_embedding]
                (VectorStore.n_results_or n_results (Config.top_k_results st))
                filter_metadata) as [answer|e]; [|exact Hrows].
    destruct (VectorStore.documents answer) as [|[|d ds] rest] eqn:Hdocs;
      try exact Hrows.
    destruct Hrows as [Hrows|Hnone]; [left|right; exact Hnone].
    split.
    + apply Forall2_length in Hrows. rewrite length_seq in Hrows. lia.
    + intros i r Hi.
      destruct (Forall2_lookup_r _ _ _ _ _ Hrows Hi) as (j & Hj & Hrow).
      apply lookup_seq in Hj as [-> _]. simpl in Hrow.
      unfold VectorStore.row_at in Hrow. rewrite Hdocs in Hrow. exact Hrow.
  - intros threshold x. apply leb_not_nan.
Qed.

(** C4, as claimed, fails.  With index distances 0.25, 1.5, -0.5 and NaN
    the similarities that [search_similar] returns are 0.75, -0.5, 1.5 and
    NaN: the negative one and the NaN are passed on, not clamped to 0.
    With the default threshold 0.7 [search_relevant_context] returns those
    at 0.75 and 1.5, the second outside [0,1].  And the cosine similarity
    of [[1.0]] and [[-1.0]] is returned as -1.0. *)
Lemma scores_are_not_clamped :
  (rs ← VectorStore.search_similar SearchFixtures.encode_constant
          StoreFixtures.collection_query Config.defaults "ssl" None None;
   mret (map VectorStore.similarity rs))
  = Returns [Binary64.lit 75 2;
             Binary64.sub Binary64.zero (Binary64.lit 5 1);
             Binary64.lit 15 1;
             Binary64.nan]
  /\ (rs ← VectorStore.search_relevant_context SearchFixtures.encode_constant
             StoreFixtures.collection_query Config.defaults "ssl" None None;
      mret (map VectorStore.similarity rs))
     = Returns [Binary64.lit 75 2; Binary64.lit 15 1]
  /\ Binary64.leb (Binary64.lit 15 1) (Binary64.of_Z 1) = false
  /\ Binary64.leb Binary64.zero (Binary64.sub Binary64.zero (Binary64.lit 5 1)) = false
  /\ Embeddings.calculate_similarity [Binary64.of_Z 1]
       [Binary64.sub Binary64.zero (Binary64.of_Z 1)]
     = Returns (Binary64.sub Binary64.zero (Binary64.of_Z 1)).
Proof.
  split; [vm_compute; reflexivity|].
  split; [vm_compute; reflexivity|].
  split; [vm_compute; reflexivity|].
  split; vm_compute; reflexivity.
Qed.

(** ** Merging by identity, for documents that carry an id *)

Section DictFacts.

Context {V : Type}.

Implicit Types (d : list (Embeddings.PyKey * V)) (k : Embeddings.PyKey).

Lemma dict_mem_true k d :
  Embeddings.dict_mem k d = true <-> In k (map fst d).
Proof.
  unfold Embeddings.dict_mem. rewrite existsb_exists, in_map_iff. split.
  - intros (kv & Hin & Hk). apply bool_decide_eq_true in Hk. eauto.
  - intros (kv & Hk & Hin). exists kv. rewrite bool_decide_eq_true. auto.
Qed.

Lemma dict_mem_false k d :
  Embeddings.dict_mem k d = false <-> ~ In k (map fst d).
Proof.
  rewrite <- dict_mem_true. destruct (Embeddings.dict_mem k d); split;
    intros; try congruence; tauto.
Qed.

Lemma keys_dict_add k (v : V) d :
  map fst (Embeddings.dict_add k v d) = map fst d ++ [k].
Proof. unfold Embeddings.dict_add. rewrite map_app. reflexivity. Qed.

Lemma keys_dict_modify k (f : V -> V) d :
  map fst (Embeddings.dict_modify k f d) = map fst d.
Proof.
  unfold Embeddings.dict_modify. rewrite map_map. apply map_ext.
  intros kv. destruct (bool_decide (kv.1 = k)); reflexivity.
Qed.

Lemma in_dict_modify k (f : V -> V) d k' v' :
  In (k', v') (Embeddings.dict_modify k f d) ->
  (k' <> k /\ In (k', v') d) \/ (k' = k /\ exists v, In (k, v) d /\ v' = f v).
Proof.
  unfold Embeddings.dict_modify. rewrite in_map_iff.
  intros ([k0 v0] & Heq & Hin). simpl in Heq.
  destruct (bool_decide (k0 = k)) eqn:Hk.
  - apply bool_decide_eq_true in Hk. subst k0. injection Heq as <- <-.
    right. eauto.
  - apply bool_decide_eq_false in Hk. injection Heq as <- <-. left. auto.
Qed.

Lemma NoDup_snoc (l : list Embeddings.PyKey) k :
  List.NoDup l -> ~ In k l -> List.NoDup (l ++ [k]).
Proof.
  intros Hl Hk. induction Hl as [|x l Hx Hl IH]; simpl.
  - constructor; [intros []|constructor].
  - constructor.
    + rewrite in_app_iff. simpl. intros [Hin|[->|[]]]; [tauto|].
      apply Hk. left. reflexivity.
    + apply IH. intros Hin. apply Hk. right. exact Hin.
Qed.

End DictFacts.

Section MergeFacts.

Context {F : Type} `{Arith F}.

Variable hash_str : Embeddings.Document -> Z.

Implicit Types (cs : list (Embeddings.PyKey * Embeddings.Entry F)).

Lemma doc_id_or_metadata_id (doc : Embeddings.Document) k fallback :
  Embeddings.metadata_id doc = Some k -> Embeddings.doc_id_or doc fallback = k.
Proof.
  unfold Embeddings.metadata_id, Embeddings.doc_id_or.
  destruct (Embeddings.doc_metadata doc) as [m|]; [|discriminate].
  intros ->. reflexivity.
Qed.

(** One turn of the vector loop, for a result whose document has id [k]:
    a new entry under [k] with keyword score 0, or the entry under [k]
    with its vector score replaced. *)
Lemma add_vector_result_id documents cs (r : Embeddings.Similarity F) k :
  Embeddings.vector_result_id documents r = Some k ->
  exists cs',
    Embeddings.add_vector_result documents cs r = Returns cs'
    /\ (~ In k (map fst cs) -> map fst cs' = map fst cs ++ [k])
    /\ (In k (map fst cs) -> map fst cs' = map fst cs)
    /\ (Forall (fun kv => Embeddings.keyword_score kv.2 = f_of_nat 0) cs ->
        Forall (fun kv => Embeddings.keyword_score kv.2 = f_of_nat 0) cs').
Proof.
  unfold Embeddings.vector_result_id, Embeddings.add_vector_result, py_index.
  destruct (documents !! Embeddings.index r) as [doc|]; [|discriminate].
  intros Hid. outcome_step.
  rewrite (doc_id_or_metadata_id doc k _ Hid).
  destruct (Embeddings.dict_mem k cs) eqn:Hmem; cbn [negb].
  - apply dict_mem_true in Hmem. eexists. split; [reflexivity|].
    rewrite keys_dict_modify. split; [tauto|]. split; [reflexivity|].
    intros Hzero. rewrite List.Forall_forall in *. intros [k' e'] Hin.
    apply in_dict_modify in Hin as [[_ Hin]|[-> (e & Hin & ->)]].
    + exact (Hzero _ Hin).
    + exact (Hzero _ Hin).
  - apply dict_mem_false in Hmem. eexists. split; [reflexivity|].
    rewrite keys_dict_add. split; [reflexivity|]. split; [tauto|].
    intros Hzero. unfold Embeddings.dict_add. apply Forall_app. split; [exact Hzero|].
    constructor; [reflexivity|constructor].
Qed.

Lemma vector_loop_by_identity documents (rs : list (Embeddings.Similarity F)) cs :
  Forall (fun r => is_Some (Embeddings.vector_result_id documents r)) rs ->
  List.NoDup (map fst cs) ->
  Forall (fun kv => Embeddings.keyword_score kv.2 = f_of_nat 0) cs ->
  exists cs',
    Embeddings.for_each (Embeddings.add_vector_result documents) rs cs = Returns cs'
    /\ List.NoDup (map fst cs')
    /\ (forall k, In k (map fst cs') <->
                  In k (map fst cs)
                  \/ In (Some k) (map (Embeddings.vector_result_id documents) rs))
    /\ Forall (fun kv => Embeddings.keyword_score kv.2 = f_of_nat 0) cs'.
Proof.
  intros Hrs. revert cs. induction Hrs as [|r rs [k Hk] Hrs IH]; intros cs Hnd Hzero.
  - exists cs. simpl. repeat split; auto. intros [?|[]]; assumption.
  - cbn [Embeddings.for_each].
    destruct (add_vector_result_id documents cs r k Hk)
      as (cs1 & Hstep & Hnew & Hold & Hzero1).
    rewrite Hstep. outcome_step.
    assert (Hkeys1 : forall k', In k' (map fst cs1) <-> In k' (map fst cs) \/ k' = k).
    { intros k'. destruct (in_dec Embeddings.PyKey_eq_dec k (map fst cs)) as [Hin|Hout].
      - rewrite (Hold Hin). split; [auto|]. intros [?| ->]; assumption.
      - rewrite (Hnew Hout), in_app_iff. simpl. intuition congruence. }
    assert (Hnd1 : List.NoDup (map fst cs1)).
    { destruct (in_dec Embeddings.PyKey_eq_dec k (map fst cs)) as [Hin|Hout].
      - rewrite (Hold Hin). exact Hnd.
      - rewrite (Hnew Hout). apply NoDup_snoc; assumption. }
    destruct (IH cs1 Hnd1 (Hzero1 Hzero)) as (cs' & Hloop & Hnd' & Hkeys' & Hzero').
    exists cs'. split; [exact Hloop|]. split; [exact Hnd'|]. split; [|exact Hzero'].
    intros k'. rewrite Hkeys', Hkeys1. simpl. rewrite Hk.
    split.
    + intros [[Hin | ->] | Hin]; auto.
    + intros [Hin | [Heq | Hin]]; auto. injection Heq as ->. auto.
Qed.

(** One turn of the keyword loop, for a result whose document has id
    [k]: a new entry under [k] with vector score 0, or the entry under [k]
    with its keyword score replaced; entries under other keys are left
    alone. *)
Lemma add_keyword_result_id cs (s : Embeddings.Scored F) k :
  Embeddings.keyword_result_id s = Some k ->
  (~ In k (map fst cs) ->
   map fst (Embeddings.add_keyword_result hash_str cs s) = map fst cs ++ [k])
  /\ (In k (map fst cs) ->
      map fst (Embeddings.add_keyword_result hash_str cs s) = map fst cs)
  /\ (forall k' e', In (k', e') (Embeddings.add_keyword_result hash_str cs s) ->
        k' = k \/ In (k', e') cs)
  /\ (forall k' e', In (k', e') (Embeddings.add_keyword_result hash_str cs s) ->
        Embeddings.vector_score e' = f_of_nat 0
        \/ exists e, In (k', e) cs
                     /\ Embeddings.vector_score e' = Embeddings.vector_score e).
Proof.
  unfold Embeddings.keyword_result_id, Embeddings.add_keyword_result.
  intros Hid. rewrite (doc_id_or_metadata_id _ k _ Hid).
  destruct (Embeddings.dict_mem k cs) eqn:Hmem; cbn [negb].
  - apply dict_mem_true in Hmem. rewrite keys_dict_modify.
    split; [tauto|]. split; [reflexivity|]. split.
    + intros k' e' Hin.
      apply in_dict_modify in Hin as [[_ Hin]|[-> _]]; [right; exact Hin | left; reflexivity].
    + intros k' e' Hin.
      apply in_dict_modify in Hin as [[_ Hin]|[-> (e & Hin & ->)]];
        right; eexists; split; try eassumption; reflexivity.
  - apply dict_mem_false in Hmem. rewrite keys_dict_add.
    split; [reflexivity|]. split; [tauto|].
    unfold Embeddings.dict_add. split.
    + intros k' e' Hin. apply in_app_iff in Hin as [Hin|[Heq|[]]];
        [right; exact Hin | injection Heq as <- _; left; reflexivity].
    + intros k' e' Hin. apply in_app_iff in Hin as [Hin|[Heq|[]]].
      * right. exists e'. split; [exact Hin | reflexivity].
      * injection Heq as _ <-. left. reflexivity.
Qed.

Lemma keyword_loop_by_identity (ks : list (Embeddings.Scored F)) cs :
  Forall (fun s => is_Some (Embeddings.keyword_result_id s)) ks ->
  List.NoDup (map fst cs) ->
  let cs' := fold_left (Embeddings.add_keyword_result hash_str) ks cs in
  List.NoDup (map fst cs')
  /\ (forall k, In k (map fst cs') <->
                In k (map fst cs) \/ In (Some k) (map Embeddings.keyword_result_id ks))
  /\ (forall B : Embeddings.PyKey -> Prop,
        (forall k, In (Some k) (map Embeddings.keyword_result_id ks) -> ~ B k) ->
        (forall k e, In (k, e) cs -> B k -> Embeddings.keyword_score e = f_of_nat 0) ->
        forall k e, In (k, e) cs' -> B k -> Embeddings.keyword_score e = f_of_nat 0)
  /\ (forall A : Embeddings.PyKey -> Prop,
        (forall k e, In (k, e) cs -> A k -> Embeddings.vector_score e = f_of_nat 0) ->
        forall k e, In (k, e) cs' -> A k -> Embeddings.vector_score e = f_of_nat 0).
Proof.
  intros Hks. revert cs. induction Hks as [|s ks [k Hk] Hks IH]; intros cs Hnd.
  - simpl. split; [exact Hnd|]. split; [intros k; tauto|]. split; auto.
  - cbn [fold_left].
    destruct (add_keyword_result_id cs s k Hk) as (Hnew & Hold & Hother & Hvec).
    set (cs1 := Embeddings.add_keyword_result hash_str cs s) in *.
    assert (Hkeys1 : forall k', In k' (map fst cs1) <-> In k' (map fst cs) \/ k' = k).
    { intros k'. destruct (in_dec Embeddings.PyKey_eq_dec k (map fst cs)) as [Hin|Hout].
      - rewrite (Hold Hin). split; [auto|]. intros [?| ->]; assumption.
      - rewrite (Hnew Hout), in_app_iff. simpl. intuition congruence. }
    assert (Hnd1 : List.NoDup (map fst cs1)).
    { destruct (in_dec Embeddings.PyKey_eq_dec k (map fst cs)) as [Hin|Hout].
      - rewrite (Hold Hin). exact Hnd.
      - rewrite (Hnew Hout). apply NoDup_snoc; assumption. }
    destruct (IH cs1 Hnd1) as (Hnd' & Hkeys' & Hkw' & Hvs').
    split; [exact Hnd'|]. split; [|split].
    + intros k'. rewrite Hkeys', Hkeys1. simpl. rewrite Hk. split.
      * intros [[Hin | ->] | Hin]; auto.
      * intros [Hin | [Heq | Hin]]; auto. injection Heq as ->. auto.
    + intros B HB Hcs. apply Hkw'.
      * intros k' Hin. apply HB. simpl. right. exact Hin.
      * intros k' e' Hin HBk. destruct (Hother k' e' Hin) as [-> | Hin0].
        -- exfalso. apply (HB k); [simpl; left; exact Hk | exact HBk].
        -- exact (Hcs k' e' Hin0 HBk).
    + intros A Hcs. apply Hvs'.
      intros k' e' Hin HAk. destruct (Hvec k' e' Hin) as [Hz | (e & Hin0 & ->)].
      * exact Hz.
      * exact (Hcs k' e Hin0 HAk).
Qed.

(** X10.  For documents that carry a metadata id the merge is by identity:
    the merged dictionary holds exactly one entry for each id found by the
    vector search or by the keyword search, an entry whose id the keyword
    search did not find has keyword score 0, and an entry whose id the
    vector search did not find has vector score 0. *)
Lemma merge_scores_by_identity documents (w : F)
    (vector_results : list (Embeddings.Similarity F))
    (keyword_results : list (Embeddings.Scored F)) :
  Forall (fun r => is_Some (Embeddings.vector_result_id documents r)) vector_results ->
  Forall (fun s => is_Some (Embeddings.keyword_result_id s)) keyword_results ->
  exists merged,
    Embeddings.merge_scores hash_str documents w vector_results keyword_results
      = Returns merged
    /\ List.NoDup (map fst merged)
    /\ (forall k, In k (map fst merged) <->
                  In (Some k) (map (Embeddings.vector_result_id documents) vector_results)
                  \/ In (Some k) (map Embeddings.keyword_result_id keyword_results))
    /\ (forall k e, In (k, e) merged ->
          ~ In (Some k) (map Embeddings.keyword_result_id keyword_results) ->
          Embeddings.keyword_score e = f_of_nat 0)
    /\ (forall k e, In (k, e) merged ->
          ~ In (Some k) (map (Embeddings.vector_result_id documents) vector_results) ->
          Embeddings.vector_score e = f_of_nat 0).
Proof.
  intros Hv Hk. unfold Embeddings.merge_scores.
  destruct (vector_loop_by_identity documents vector_results [] Hv)
    as (cs1 & Hloop & Hnd1 & Hkeys1 & Hzero1); [constructor | constructor |].
  rewrite Hloop. outcome_step.
  destruct (keyword_loop_by_identity keyword_results cs1 Hk Hnd1)
    as (Hnd2 & Hkeys2 & Hkw2 & Hvs2).
  set (cs2 := fold_left (Embeddings.add_keyword_result hash_str) keyword_results cs1) in *.
  assert (Hfst : map fst (map (fun kv => (kv.1, Embeddings.set_combined w kv.2)) cs2)
                 = map fst cs2)
    by (rewrite map_map; reflexivity).
  eexists. split; [reflexivity|]. rewrite Hfst.
  split; [exact Hnd2|]. split; [|split].
  - intros k. rewrite Hkeys2, Hkeys1. simpl. tauto.
  - intros k e Hin Hout. apply in_map_iff in Hin as ([k0 e0] & Heq & Hin).
    simpl in Heq. injection Heq as -> <-. simpl.
    apply (Hkw2 (fun k => ~ In (Some k) (map Embeddings.keyword_result_id keyword_results)))
      with (k := k); auto.
    intros k' e' Hin' _. rewrite List.Forall_forall in Hzero1.
    exact (Hzero1 (k', e') Hin').
  - intros k e Hin Hout. apply in_map_iff in Hin as ([k0 e0] & Heq & Hin).
    simpl in Heq. injection Heq as -> <-. simpl.
    apply (Hvs2 (fun k => ~ In (Some k)
                             (map (Embeddings.vector_result_id documents) vector_results)))
      with (k := k); auto.
    intros k' e' Hin' Hout'. exfalso. apply Hout'.
    assert (Hk' : In k' (map fst cs1)) by (apply in_map_iff; exists (k', e'); auto).
    apply Hkeys1 in Hk' as [[]|Hk']. exact Hk'.
Qed.

End MergeFacts.

(** ** The document chunker *)

Section ChunkerFacts.

Context {C : Type}.

Implicit Types (self : Chunker.DocumentChunker) (text : list C).
Implicit Types (metadata : option (gmap string Chunker.MetaVal)).

Local Open Scope Z_scope.

Lemma py_slice_window text (start size : Z) :
  0 <= start -> 0 <= size ->
  Chunker.py_slice text start (start + size)
  = take (Z.to_nat size) (drop (Z.to_nat start) text).
Proof.
  intros Hs Hz. unfold Chunker.py_slice, Chunker.clip.
  destruct (Z.ltb_spec start 0) as [?|_]; [lia|].
  destruct (Z.ltb_spec (start + size) 0) as [?|_]; [lia|].
  destruct (Z_le_gt_dec (Z.of_nat (length text)) start) as [Hge|Hlt].
  - rewrite !drop_ge by lia. rewrite !take_nil. reflexivity.
  - rewrite (Z.min_l start) by lia.
    destruct (Z_le_gt_dec (start + size) (Z.of_nat (length text))) as [Hin|Hout].
    + rewrite Z.min_l by lia. f_equal. lia.
    + rewrite Z.min_r by lia.
      rewrite !take_ge; [reflexivity | |]; rewrite length_drop; lia.
Qed.

(** The number of chunk positions [0, step, 2*step, ...] below [len]. *)
Lemma position_below_iff (len step k : Z) :
  0 < step -> 0 <= len -> 0 <= k ->
  (k * step < len <-> k < (len + step - 1) / step).
Proof.
  intros Hstep Hlen Hk.
  pose proof (Z.div_mod (len + step - 1) step ltac:(lia)) as Hdm.
  pose proof (Z.mod_pos_bound (len + step - 1) step Hstep) as Hmod.
  split; intros H; nia.
Qed.

Lemma chunk_loop_positions fuel self text metadata (k : nat) acc :
  let step := Chunker.chunk_size self - Chunker.chunk_overlap self in
  let n := Z.to_nat ((Z.of_nat (length text) + step - 1) / step) in
  0 < step ->
  Z.of_nat (length text) - Z.of_nat k * step <= Z.of_nat fuel ->
  Chunker.chunk_loop fuel self text metadata (Z.of_nat k * step) acc
  = Some (acc ++ map (fun i => Chunker.make_chunk self text metadata
                                 (Z.of_nat i * step))
                   (seq k (n - k))).
Proof.
  intros step n Hstep. revert k acc.
  assert (Hn : forall k : nat,
             Z.of_nat k * step < Z.of_nat (length text) <-> (k < n)%nat).
  { intros k. rewrite (position_below_iff _ step) by lia. subst n. split; intros H.
    - apply Nat2Z.inj_lt. rewrite Z2Nat.id; [exact H|].
      apply Z.div_pos; lia.
    - apply Nat2Z.inj_lt in H. rewrite Z2Nat.id in H; [exact H|].
      apply Z.div_pos; lia. }
  induction fuel as [|fuel IH]; intros k acc Hfuel.
  - cbn [Chunker.chunk_loop].
    destruct (Z.ltb_spec (Z.of_nat k * step) (Z.of_nat (length text))) as [Hlt|Hge];
      [lia|].
    assert (Hk : (n - k = 0)%nat) by (pose proof (Hn k); lia).
    rewrite Hk. simpl. rewrite app_nil_r. reflexivity.
  - cbn [Chunker.chunk_loop].
    destruct (Z.ltb_spec (Z.of_nat k * step) (Z.of_nat (length text))) as [Hlt|Hge].
    + assert (Hk : (k < n)%nat) by (apply Hn; exact Hlt).
      replace (Z.of_nat k * step + Chunker.chunk_size self
               - Chunker.chunk_overlap self)
        with (Z.of_nat (S k) * step) by (subst step; lia).
      destruct (Z.leb_spec (Z.of_nat (length text)) (Z.of_nat (S k) * step))
        as [Hdone|Hmore].
      * assert (Hlast : (n - k = 1)%nat) by (pose proof (Hn (S k)); lia).
        rewrite Hlast. reflexivity.
      * rewrite IH by lia.
        replace (n - k)%nat with (S (n - S k)) by (pose proof (Hn (S k)); lia).
        cbn [seq map]. rewrite <- app_assoc. reflexivity.
    + assert (Hk : (n - k = 0)%nat) by (pose proof (Hn k); lia).
      rewrite Hk. simpl. rewrite app_nil_r. reflexivity.
Qed.

Lemma concat_windows (l : list C) (s n : nat) :
  concat (map (fun i => take s (drop (i * s) l)) (seq 0 n)) = take (n * s) l.
Proof.
  induction n as [|n IH]; [reflexivity|].
  rewrite seq_S, map_app, concat_app, IH. simpl. rewrite app_nil_r.
  replace (s + n * s)%nat with (n * s + s)%nat by lia.
  apply take_take_drop.
Qed.

Lemma chunk_count_nat (len step : nat) :
  (0 < step)%nat ->
  Z.to_nat ((Z.of_nat len + Z.of_nat step - 1) / Z.of_nat step)
  = ((len + step - 1) / step)%nat.
Proof.
  intros Hstep.
  replace (Z.of_nat len + Z.of_nat step - 1) with (Z.of_nat (len + step - 1)) by lia.
  rewrite <- Nat2Z.inj_div. apply Nat2Z.id.
Qed.

Lemma chunk_text_spec fuel self text metadata :
  let step := Z.to_nat (Chunker.chunk_size self - Chunker.chunk_overlap self) in
  0 <= Chunker.chunk_overlap self < Chunker.chunk_size self ->
  (length text <= fuel)%nat ->
  Chunker.chunk_text fuel self text metadata
  = Some (map (fun i => Chunker.make_chunk self text metadata
                          (Z.of_nat (i * step)))
            (seq 0 ((length text + step - 1) / step))).
Proof.
  intros step Hcfg Hfuel. unfold Chunker.chunk_text.
  pose proof (chunk_loop_positions fuel self text metadata 0 []) as H.
  cbv zeta in H. rewrite Z.mul_0_l in H. rewrite H by lia. clear H.
  replace (Chunker.chunk_size self - Chunker.chunk_overlap self)
    with (Z.of_nat step) by (subst step; lia).
  rewrite chunk_count_nat by (subst step; lia).
  rewrite Nat.sub_0_r. cbn [app]. f_equal. apply map_ext.
  intros i. f_equal. lia.
Qed.

(** X1.  With [0 <= chunk_overlap < chunk_size], [chunk_text] returns
    (a number of loop turns equal to the length of the text is enough).
    It makes one chunk for each position [0, step, 2*step, ...] below the
    length of the text, [step = chunk_size - chunk_overlap]: that is
    [ceil(len / step)] chunks, none for the empty text.  Chunk number [k]
    holds the [chunk_size] characters from position [k * step] on (fewer at
    the end of the text), is never empty, and records [start_pos = k*step]. *)
Theorem chunk_text_windows fuel self text :
  let size := Z.to_nat (Chunker.chunk_size self) in
  let step := Z.to_nat (Chunker.chunk_size self - Chunker.chunk_overlap self) in
  0 <= Chunker.chunk_overlap self < Chunker.chunk_size self ->
  (length text <= fuel)%nat ->
  exists chunks,
    Chunker.chunk_text fuel self text None = Some chunks
    /\ length chunks = ((length text + step - 1) / step)%nat
    /\ (text = [] -> chunks = [])
    /\ forall (k : nat) c, chunks !! k = Some c ->
         Chunker.text c = take size (drop (k * step) text)
         /\ (0 < length (Chunker.text c) <= size)%nat
         /\ (k * step < length text)%nat
         /\ Chunker.metadata c !! "start_pos" = Some (Chunker.MInt (Z.of_nat (k * step)))
         /\ Chunker.metadata c !! "chunk_size"
            = Some (Chunker.MInt (Z.of_nat (length (Chunker.text c)))).
Proof.
  intros size step Hcfg Hfuel.
  rewrite chunk_text_spec by assumption. fold step.
  set (n := ((length text + step - 1) / step)%nat).
  eexists. split; [reflexivity|].
  split; [rewrite length_map, length_seq; reflexivity|].
  assert (Hstep : (0 < step)%nat) by (subst step; lia).
  split.
  { intros ->. subst n. simpl. rewrite Nat.div_small by lia. reflexivity. }
  intros k c Hk.
  rewrite list_lookup_fmap in Hk.
  destruct (seq 0 n !! k) as [i|] eqn:Hi; [|discriminate].
  apply lookup_seq in Hi as [-> Hlt]. simpl in Hk. injection Hk as <-.
  assert (Hpos : (k * step < length text)%nat).
  { subst n.
    pose proof (Nat.div_mod_eq (length text + step - 1) step) as Hdm.
    pose proof (Nat.mod_upper_bound (length text + step - 1) step ltac:(lia)) as Hm.
    nia. }
  cbn [Chunker.make_chunk Chunker.text Chunker.metadata Chunker.metadata_truthy].
  rewrite py_slice_window by lia. rewrite Nat2Z.id. fold size.
  split; [reflexivity|]. split.
  { rewrite length_take, length_drop. subst size. lia. }
  split; [exact Hpos|]. split.
  - rewrite lookup_insert_eq. reflexivity.
  - rewrite lookup_insert_ne by discriminate.
    rewrite lookup_insert_ne by discriminate.
    rewrite lookup_singleton_eq. reflexivity.
Qed.

(** X2.  With [0 <= chunk_overlap < chunk_size], cutting the overlap off
    each chunk (keeping its first [step = chunk_size - chunk_overlap]
    characters) and concatenating gives the text back: the chunks cover the
    whole text, in order. *)
Theorem chunk_text_round_trip fuel self text metadata :
  let step := Z.to_nat (Chunker.chunk_size self - Chunker.chunk_overlap self) in
  0 <= Chunker.chunk_overlap self < Chunker.chunk_size self ->
  (length text <= fuel)%nat ->
  exists chunks,
    Chunker.chunk_text fuel self text metadata = Some chunks
    /\ concat (map (fun c => take step (Chunker.text c)) chunks) = text.
Proof.
  intros step Hcfg Hfuel.
  rewrite chunk_text_spec by assumption. fold step.
  eexists. split; [reflexivity|].
  assert (Hstep : (0 < step)%nat) by (subst step; lia).
  rewrite map_map.
  erewrite map_ext.
  - rewrite concat_windows. apply take_ge.
    pose proof (Nat.div_mod_eq (length text + step - 1) step) as Hdm.
    pose proof (Nat.mod_upper_bound (length text + step - 1) step ltac:(lia)) as Hm.
    rewrite (Nat.mul_comm _ step). lia.
  - intros i. cbn [Chunker.make_chunk Chunker.text].
    rewrite py_slice_window by lia. rewrite Nat2Z.id.
    rewrite take_take. f_equal. subst step. lia.
Qed.

Lemma chunk_loop_stuck fuel self text metadata (start : Z) acc :
  Chunker.chunk_size self - Chunker.chunk_overlap self <= 0 ->
  text <> [] -> start <= 0 ->
  Chunker.chunk_loop fuel self text metadata start acc = None.
Proof.
  intros Hstep Hne. assert (Hlen : 0 < Z.of_nat (length text))
    by (destruct text; [congruence | simpl; lia]).
  revert start acc. induction fuel as [|fuel IH]; intros start acc Hstart;
    cbn [Chunker.chunk_loop].
  - destruct (Z.ltb_spec start (Z.of_nat (length text))); [reflexivity | lia].
  - destruct (Z.ltb_spec start (Z.of_nat (length text))); [|lia].
    destruct (Z.leb_spec (Z.of_nat (length text))
                (start + Chunker.chunk_size self - Chunker.chunk_overlap self));
      [lia|].
    apply IH. lia.
Qed.

(** X3.  When [chunk_overlap >= chunk_size], [chunk_text] does not return
    for any non-empty text: the position never moves forward, the exit test
    [start >= len(text)] stays false, and however many turns are allowed the
    loop is still running (appending a chunk each turn). *)
Theorem chunk_text_never_returns self text metadata :
  Chunker.chunk_size self <= Chunker.chunk_overlap self ->
  text <> [] ->
  forall fuel, Chunker.chunk_text fuel self text metadata = None.
Proof.
  intros Hcfg Hne fuel. unfold Chunker.chunk_text.
  apply chunk_loop_stuck; [lia | exact Hne | lia].
Qed.

(** X4.  A chunker cannot be built without overlap: [chunk_overlap=0] is
    falsy, so [__init__] takes [settings.chunk_overlap] instead.  If the
    requested [chunk_size] is not larger than that setting, the chunker so
    built never returns from [chunk_text] on a non-empty text. *)
Theorem chunker_zero_overlap_replaced (settings_chunk_size settings_chunk_overlap size : Z)
    text metadata :
  size <> 0 -> size <= settings_chunk_overlap -> text <> [] ->
  let self := Chunker.init settings_chunk_size settings_chunk_overlap
                (Some size) (Some 0) in
  Chunker.chunk_size self = size
  /\ Chunker.chunk_overlap self = settings_chunk_overlap
  /\ forall fuel, Chunker.chunk_text fuel self text metadata = None.
Proof.
  intros Hsize Hle Hne self.
  assert (Hs : Chunker.chunk_size self = size).
  { subst self. cbn. destruct (Z.eqb_spec size 0); [contradiction | reflexivity]. }
  assert (Ho : Chunker.chunk_overlap self = settings_chunk_overlap) by reflexivity.
  split; [exact Hs|]. split; [exact Ho|].
  intros fuel. unfold Chunker.chunk_text.
  apply chunk_loop_stuck; [lia | exact Hne | lia].
Qed.

(** X5.  The last chunk can repeat text already indexed.  With
    [0 <= chunk_overlap < chunk_size], when at least two chunks are made and
    no more than [chunk_overlap] characters remain at the last position, the
    last chunk is a suffix of the chunk before it. *)
Theorem chunk_text_last_chunk_redundant fuel self text (n : nat) :
  let step := Z.to_nat (Chunker.chunk_size self - Chunker.chunk_overlap self) in
  0 <= Chunker.chunk_overlap self < Chunker.chunk_size self ->
  (length text <= fuel)%nat ->
  ((length text + step - 1) / step = S (S n))%nat ->
  Z.of_nat (length text - S n * step) <= Chunker.chunk_overlap self ->
  exists chunks previous last_,
    Chunker.chunk_text fuel self text None = Some chunks
    /\ chunks !! n = Some previous
    /\ chunks !! S n = Some last_
    /\ length chunks = S (S n)
    /\ Chunker.text last_ `suffix_of` Chunker.text previous.
Proof.
  intros step Hcfg Hfuel Hcount Htail.
  rewrite chunk_text_spec by assumption. fold step. rewrite Hcount.
  eexists _, (Chunker.make_chunk self text None (Z.of_nat (n * step))),
    (Chunker.make_chunk self text None (Z.of_nat (S n * step))).
  split; [reflexivity|].
  assert (Hlook : forall k, (k < S (S n))%nat ->
            map (fun i => Chunker.make_chunk self text None (Z.of_nat (i * step)))
              (seq 0 (S (S n))) !! k
            = Some (Chunker.make_chunk self text None (Z.of_nat (k * step)))).
  { intros k Hk. rewrite list_lookup_fmap, lookup_seq_lt by lia. reflexivity. }
  split; [apply Hlook; lia|]. split; [apply Hlook; lia|].
  split; [rewrite length_map, length_seq; reflexivity|].
  cbn [Chunker.make_chunk Chunker.text].
  rewrite !py_slice_window by lia. rewrite !Nat2Z.id.
  assert (Hstep : (0 < step)%nat) by (subst step; lia).
  assert (Hlen : (S n * step < length text)%nat).
  { pose proof (Nat.div_mod_eq (length text + step - 1) step) as Hdm.
    rewrite Hcount in Hdm.
    pose proof (Nat.mod_upper_bound (length text + step - 1) step ltac:(lia)) as Hm.
    nia. }
  rewrite !take_ge by (rewrite length_drop; subst step; nia).
  exists (take step (drop (n * step) text)).
  replace (S n * step)%nat with (n * step + step)%nat by lia.
  rewrite <- drop_drop. symmetry. apply take_drop.
Qed.

End ChunkerFacts.

Example chunk_text_run :
  option_map (map Chunker.text)
    (Chunker.chunk_text 24 ChunkerFixtures.ten_four ChunkerFixtures.text24 None)
  = Some [seq 0 10; seq 6 10; seq 12 10; seq 18 6].
Proof. vm_compute. reflexivity. Qed.

Lemma chunk_text_windows_witness :
  (0 <= Chunker.chunk_overlap ChunkerFixtures.ten_four
   < Chunker.chunk_size ChunkerFixtures.ten_four)%Z
  /\ length ChunkerFixtures.text24 <= 24
  /\ exists chunks,
       Chunker.chunk_text 24 ChunkerFixtures.ten_four ChunkerFixtures.text24 None
       = Some chunks
       /\ length chunks = 4.
Proof.
  assert (H1 : (0 <= Chunker.chunk_overlap ChunkerFixtures.ten_four
                < Chunker.chunk_size ChunkerFixtures.ten_four)%Z) by (simpl; lia).
  assert (H2 : length ChunkerFixtures.text24 <= 24) by (simpl; lia).
  split; [exact H1|]. split; [exact H2|].
  destruct (chunk_text_windows 24 ChunkerFixtures.ten_four ChunkerFixtures.text24 H1 H2)
    as (chunks & Hrun & Hlen & _).
  exists chunks. split; [exact Hrun|]. rewrite Hlen. reflexivity.
Defined.

Lemma chunk_text_round_trip_witness :
  (0 <= Chunker.chunk_overlap ChunkerFixtures.ten_four
   < Chunker.chunk_size ChunkerFixtures.ten_four)%Z
  /\ length ChunkerFixtures.text24 <= 24
  /\ exists chunks,
       Chunker.chunk_text 24 ChunkerFixtures.ten_four ChunkerFixtures.text24 None
       = Some chunks
       /\ concat (map (fun c => take 6 (Chunker.text c)) chunks)
          = ChunkerFixtures.text24.
Proof.
  assert (H1 : (0 <= Chunker.chunk_overlap ChunkerFixtures.ten_four
                < Chunker.chunk_size ChunkerFixtures.ten_four)%Z) by (simpl; lia).
  assert (H2 : length ChunkerFixtures.text24 <= 24) by (simpl; lia).
  split; [exact H1|]. split; [exact H2|].
  exact (chunk_text_round_trip 24 ChunkerFixtures.ten_four ChunkerFixtures.text24
           None H1 H2).
Defined.

Lemma chunk_text_never_returns_witness :
  (Chunker.chunk_size {| Chunker.chunk_size := 100; Chunker.chunk_overlap := 200 |}
   <= Chunker.chunk_overlap {| Chunker.chunk_size := 100; Chunker.chunk_overlap := 200 |})%Z
  /\ ChunkerFixtures.text10 <> []
  /\ forall fuel,
       Chunker.chunk_text fuel
         {| Chunker.chunk_size := 100; Chunker.chunk_overlap := 200 |}
         ChunkerFixtures.text10 None = None.
Proof.
  assert (H1 : (Chunker.chunk_size
                  {| Chunker.chunk_size := 100; Chunker.chunk_overlap := 200 |}
                <= Chunker.chunk_overlap
                     {| Chunker.chunk_size := 100; Chunker.chunk_overlap := 200 |})%Z)
    by (simpl; lia).
  assert (H2 : ChunkerFixtures.text10 <> []) by discriminate.
  split; [exact H1|]. split; [exact H2|].
  exact (chunk_text_never_returns _ ChunkerFixtures.text10 None H1 H2).
Defined.

Lemma chunker_zero_overlap_replaced_witness :
  (100 <> 0)%Z /\ (100 <= 200)%Z /\ ChunkerFixtures.text10 <> []
  /\ Chunker.chunk_overlap (Chunker.init 1000 200 (Some 100%Z) (Some 0%Z)) = 200%Z
  /\ forall fuel,
       Chunker.chunk_text fuel (Chunker.init 1000 200 (Some 100%Z) (Some 0%Z))
         ChunkerFixtures.text10 None = None.
Proof.
  assert (H1 : (100 <> 0)%Z) by lia.
  assert (H2 : (100 <= 200)%Z) by lia.
  assert (H3 : ChunkerFixtures.text10 <> []) by discriminate.
  split; [exact H1|]. split; [exact H2|]. split; [exact H3|].
  destruct (chunker_zero_overlap_replaced 1000 200 100 ChunkerFixtures.text10 None
              H1 H2 H3) as (_ & Ho & Hloop).
  split; [exact Ho | exact Hloop].
Defined.

Lemma chunk_text_last_chunk_redundant_witness :
  (0 <= Chunker.chunk_overlap ChunkerFixtures.ten_four
   < Chunker.chunk_size ChunkerFixtures.ten_four)%Z
  /\ length ChunkerFixtures.text10 <= 10
  /\ exists chunks previous last_,
       Chunker.chunk_text 10 ChunkerFixtures.ten_four ChunkerFixtures.text10 None
       = Some chunks
       /\ chunks !! 0 = Some previous
       /\ chunks !! 1 = Some last_
       /\ length chunks = 2
       /\ Chunker.text last_ `suffix_of` Chunker.text previous.
Proof.
  assert (H1 : (0 <= Chunker.chunk_overlap ChunkerFixtures.ten_four
                < Chunker.chunk_size ChunkerFixtures.ten_four)%Z) by (simpl; lia).
  assert (H2 : length ChunkerFixtures.text10 <= 10) by (simpl; lia).
  split; [exact H1|]. split; [exact H2|].
  apply (chunk_text_last_chunk_redundant 10 ChunkerFixtures.ten_four
           ChunkerFixtures.text10 0 H1 H2).
  - reflexivity.
  - simpl. lia.
Defined.

(** ** Ranking, with scores read over exact rationals *)

Section RankingFacts.

Context {A : Type}.

Variable key : A -> Q.

Lemma ltb_exact_true (x y : Q) : f_ltb x y = true <-> (x < y)%Q.
Proof.
  cbn. rewrite negb_true_iff. split.
  - intros Hb. apply Qnot_le_lt. intros Hle.
    apply Qle_bool_iff in Hle. congruence.
  - intros Hlt. destruct (Qle_bool y x) eqn:Hb; [|reflexivity].
    apply Qle_bool_iff in Hb. exfalso. exact (Qlt_not_le _ _ Hlt Hb).
Qed.

Lemma ltb_exact_false (x y : Q) : f_ltb x y = false <-> (y <= x)%Q.
Proof.
  cbn. rewrite negb_false_iff. apply Qle_bool_iff.
Qed.

Lemma Forall_insert_desc (P : A -> Prop) x l :
  P x -> Forall P l -> Forall P (Embeddings.insert_desc key x l).
Proof.
  intros Hx Hl. apply List.Forall_forall. intros y Hy.
  apply in_insert_desc in Hy as [->|Hy]; [exact Hx|].
  rewrite List.Forall_forall in Hl. exact (Hl y Hy).
Qed.

Lemma insert_desc_sorted x l :
  StronglySorted (fun a b => (key b <= key a)%Q) l ->
  StronglySorted (fun a b => (key b <= key a)%Q) (Embeddings.insert_desc key x l).
Proof.
  induction 1 as [|y l Hl IH Hy]; cbn [Embeddings.insert_desc].
  - constructor; constructor.
  - destruct (f_ltb (key x) (key y)) eqn:Hlt.
    + apply ltb_exact_true in Hlt. constructor; [exact IH|].
      apply Forall_insert_desc; [apply Qlt_le_weak; exact Hlt | exact Hy].
    + apply ltb_exact_false in Hlt. constructor; [constructor; assumption|].
      constructor; [exact Hlt|].
      eapply List.Forall_impl; [|exact Hy]. intros b Hb. simpl in Hb.
      eapply Qle_trans; eassumption.
Qed.

Lemma sort_desc_sorted l :
  StronglySorted (fun a b => (key b <= key a)%Q) (Embeddings.sort_desc key l).
Proof.
  unfold Embeddings.sort_desc. induction l as [|x l IH]; simpl.
  - constructor.
  - apply insert_desc_sorted. exact IH.
Qed.

Lemma insert_desc_perm x l : Embeddings.insert_desc key x l ≡ₚ x :: l.
Proof.
  induction l as [|y l IH]; cbn [Embeddings.insert_desc]; [reflexivity|].
  destruct (f_ltb (key x) (key y)); [|reflexivity].
  rewrite IH. apply Permutation_swap.
Qed.

Lemma sort_desc_perm l : Embeddings.sort_desc key l ≡ₚ l.
Proof.
  unfold Embeddings.sort_desc. induction l as [|x l IH]; simpl; [reflexivity|].
  rewrite insert_desc_perm, IH. reflexivity.
Qed.

(** The first [k] of a descending list are its best [k]: whatever is left
    out scores no higher than whatever is kept. *)
Lemma take_sorted_best (k : nat) (l : list A) :
  StronglySorted (fun a b => (key b <= key a)%Q) l ->
  forall kept left_out,
    In kept (take k l) -> In left_out (drop k l) -> (key left_out <= key kept)%Q.
Proof.
  intros Hs. revert k. induction Hs as [|x l Hl IH Hx]; intros k kept left_out.
  - rewrite take_nil. intros [].
  - destruct k as [|k]; [intros []|]. simpl.
    intros [<-|Hk] Hd.
    + rewrite List.Forall_forall in Hx. apply Hx.
      rewrite <- (take_drop k l). apply in_or_app. right. exact Hd.
    + eapply IH; eassumption.
Qed.

Lemma take_sorted (k : nat) (l : list A) :
  StronglySorted (fun a b => (key b <= key a)%Q) l ->
  StronglySorted (fun a b => (key b <= key a)%Q) (take k l).
Proof.
  intros Hs. revert k. induction Hs as [|x l Hl IH Hx]; intros [|k]; simpl;
    try constructor.
  - apply IH.
  - apply List.Forall_forall. intros y Hy. rewrite List.Forall_forall in Hx.
    apply Hx. eapply in_py_slice_first. exact Hy.
Qed.

End RankingFacts.

(** ** The order of binary64 numbers *)

Section FloatOrderFacts.

Implicit Types x y z : Binary64.float.

Lemma SFcompare_opp x y : SFcompare y x = option_map CompOpp (SFcompare x y).
Proof.
  destruct x as [| [] | | [] m1 e1], y as [| [] | | [] m2 e2]; simpl; try reflexivity;
    rewrite (Z.compare_antisym e1 e2); destruct (e1 ?= e2)%Z; simpl; try reflexivity;
    change (Pos.compare_cont Eq ?a ?b) with (Pos.compare a b);
    rewrite (Pos.compare_antisym m1 m2); destruct (m1 ?= m2)%positive; reflexivity.
Qed.

Lemma SFcompare_not_nan x y :
  Binary64.is_nan x = false -> Binary64.is_nan y = false ->
  exists c, SFcompare x y = Some c.
Proof. destruct x, y; simpl; try discriminate; eauto. Qed.

Lemma ltb_leb x y : Binary64.ltb x y = true -> Binary64.leb x y = true.
Proof.
  unfold Binary64.ltb, Binary64.leb, SFltb, SFleb.
  destruct (SFcompare x y) as [[]|]; congruence.
Qed.

Lemma ltb_false_leb x y :
  Binary64.is_nan x = false -> Binary64.is_nan y = false ->
  Binary64.ltb x y = false -> Binary64.leb y x = true.
Proof.
  intros Hx Hy. unfold Binary64.ltb, Binary64.leb, SFltb, SFleb.
  rewrite (SFcompare_opp x y).
  destruct (SFcompare_not_nan x y Hx Hy) as [c ->]. destruct c; simpl; congruence.
Qed.

Lemma leb_trans x y z :
  Binary64.leb x y = true -> Binary64.leb y z = true -> Binary64.leb x z = true.
Proof.
  unfold Binary64.leb, SFleb.
  destruct x as [| [] | | [] m1 e1], y as [| [] | | [] m2 e2],
           z as [| [] | | [] m3 e3]; simpl; try congruence;
    change (Pos.compare_cont Eq ?a ?b) with (Pos.compare a b);
    destruct (Z.compare_spec e1 e2), (Z.compare_spec e2 e3), (Z.compare_spec e1 e3);
    try lia; simpl; try congruence;
    destruct (Pos.compare_spec m1 m2), (Pos.compare_spec m2 m3),
             (Pos.compare_spec m1 m3); try lia; simpl; congruence.
Qed.

End FloatOrderFacts.

(** ** Sorting by a binary64 key *)

Section FloatRankingFacts.

Context {A : Type}.

Variable key : A -> Binary64.float.

Local Abbreviation no_nan := (fun a : A => Binary64.is_nan (key a) = false).
Local Abbreviation desc := (fun a b : A => Binary64.leb (key b) (key a) = true).

Lemma insert_desc_sorted_float x l :
  no_nan x -> Forall no_nan l ->
  StronglySorted desc l -> StronglySorted desc (Embeddings.insert_desc key x l).
Proof.
  intros Hx Hl Hs. induction Hs as [|y l Hs IH Hy]; cbn [Embeddings.insert_desc].
  - constructor; constructor.
  - apply List.Forall_cons_iff in Hl as [Hny Hl].
    destruct (f_ltb (key x) (key y)) eqn:Hlt.
    + constructor; [exact (IH Hl)|].
      apply List.Forall_forall. intros b Hb.
      apply in_insert_desc in Hb as [->|Hb].
      * apply ltb_leb. exact Hlt.
      * rewrite List.Forall_forall in Hy. exact (Hy b Hb).
    + apply ltb_false_leb in Hlt; [|exact Hx|exact Hny].
      constructor; [constructor; assumption|].
      constructor; [exact Hlt|].
      eapply List.Forall_impl; [|exact Hy]. intros b Hb. simpl in Hb.
      eapply leb_trans; eassumption.
Qed.

Lemma sort_desc_sorted_float l :
  Forall no_nan l -> StronglySorted desc (Embeddings.sort_desc key l).
Proof.
  unfold Embeddings.sort_desc. induction l as [|x l IH]; simpl; intros Hl.
  - constructor.
  - apply List.Forall_cons_iff in Hl as [Hx Hl].
    apply insert_desc_sorted_float; [exact Hx| |exact (IH Hl)].
    apply List.Forall_forall. intros b Hb. apply in_sort_desc in Hb.
    rewrite List.Forall_forall in Hl. exact (Hl b Hb).
Qed.

Lemma insert_desc_perm_float x l : Embeddings.insert_desc key x l ≡ₚ x :: l.
Proof.
  induction l as [|y l IH]; cbn [Embeddings.insert_desc]; [reflexivity|].
  destruct (f_ltb (key x) (key y)); [|reflexivity].
  rewrite IH. apply Permutation_swap.
Qed.

Lemma sort_desc_perm_float l : Embeddings.sort_desc key l ≡ₚ l.
Proof.
  unfold Embeddings.sort_desc. induction l as [|x l IH]; simpl; [reflexivity|].
  rewrite insert_desc_perm_float, IH. reflexivity.
Qed.

End FloatRankingFacts.

Section PrefixFacts.

Context {A : Type}.

Variable R : A -> A -> Prop.

(** The first [k] of a sorted list come before whatever is left out. *)
Lemma take_sorted_before (k : nat) (l : list A) :
  StronglySorted R l ->
  forall kept left_out, In kept (take k l) -> In left_out (drop k l) -> R kept left_out.
Proof.
  intros Hs. revert k. induction Hs as [|x l Hl IH Hx]; intros k kept left_out.
  - rewrite take_nil. intros [].
  - destruct k as [|k]; [intros []|]. simpl.
    intros [<-|Hk] Hd.
    + rewrite List.Forall_forall in Hx. apply Hx.
      rewrite <- (take_drop k l). apply in_or_app. right. exact Hd.
    + eapply IH; eassumption.
Qed.

Lemma take_sorted_prefix (k : nat) (l : list A) :
  StronglySorted R l -> StronglySorted R (take k l).
Proof.
  intros Hs. revert k. induction Hs as [|x l Hl IH Hx]; intros [|k]; simpl;
    try constructor.
  - apply IH.
  - apply List.Forall_forall. intros y Hy. rewrite List.Forall_forall in Hx.
    apply Hx. eapply in_py_slice_first. exact Hy.
Qed.

End PrefixFacts.

Section TopKFacts.

Lemma calculate_similarity_returns (a b : list Binary64.float) :
  exists s, Embeddings.calculate_similarity a b = Returns s.
Proof.
  unfold Embeddings.calculate_similarity. cbv zeta.
  destruct (Embeddings.Numpy.dot _ _) as [s|e]; outcome_step; eauto.
Qed.

(** The number [calculate_similarity] returns. *)
Local Abbreviation sim a b :=
  (match Embeddings.calculate_similarity a b with
   | Returns s => s
   | Raises _ => Binary64.zero
   end).

Lemma calculate_similarity_sim (a b : list Binary64.float) :
  Embeddings.calculate_similarity a b = Returns (sim a b).
Proof.
  destruct (calculate_similarity_returns a b) as [s Hs]. rewrite Hs. reflexivity.
Qed.

Lemma similarities_from_imap (query : list Binary64.float) (i : nat)
    (candidates : list (list Binary64.float))
    (acc : list (Embeddings.Similarity Binary64.float)) :
  Embeddings.similarities_from Embeddings.calculate_similarity query i candidates acc
  = Returns
      (acc ++ imap (fun j c => {| Embeddings.index := i + j;
                                  Embeddings.similarity := sim query c |})
                candidates).
Proof.
  revert i acc. induction candidates as [|c cs IH]; intros i acc;
    cbn [Embeddings.similarities_from]; outcome_step.
  - rewrite app_nil_r. reflexivity.
  - rewrite (calculate_similarity_sim query c). outcome_step.
    rewrite IH, imap_cons, <- app_assoc, Nat.add_0_r. do 3 f_equal.
    apply imap_ext. intros j x _. unfold compose. f_equal. lia.
Qed.

Lemma imap_indices (query : list Binary64.float)
    (candidates : list (list Binary64.float)) :
  map Embeddings.index
    (imap (fun j c => {| Embeddings.index := 0 + j;
                         Embeddings.similarity := sim query c |}) candidates)
  = seq 0 (length candidates).
Proof.
  change (map Embeddings.index ?l) with (Embeddings.index <$> l).
  rewrite fmap_imap. unfold compose. cbn [Embeddings.index].
  generalize 0. induction candidates as [|c cs IH]; intros n; [reflexivity|].
  rewrite imap_cons. cbn [length seq]. rewrite Nat.add_0_r. f_equal.
  rewrite <- (IH (S n)). apply imap_ext. intros j x _. unfold compose. lia.
Qed.

(** X6.  [find_most_similar], with the cosine similarity of
    [calculate_similarity] in binary64, returns [min(top_k, n)] entries for
    [n] candidates, no candidate index twice, each entry with the
    similarity that [calculate_similarity] returns for the query and the
    candidate at its index.  When none of these similarities is NaN (a
    vector of norm zero gives NaN), the entries are in non-increasing order
    of similarity, and no candidate that is left out is more similar to the
    query than one that is returned. *)
Theorem find_most_similar_top_k (query : list Binary64.float)
    (candidates : list (list Binary64.float)) (top_k : nat) :
  exists results,
    Embeddings.find_most_similar Embeddings.calculate_similarity query candidates top_k
      = Returns results
    /\ length results = Nat.min top_k (length candidates)
    /\ NoDup (map Embeddings.index results)
    /\ Forall (fun r => exists c, candidates !! Embeddings.index r = Some c
                                  /\ Embeddings.calculate_similarity query c
                                     = Returns (Embeddings.similarity r)) results
    /\ (Forall (fun c => forall s, Embeddings.calculate_similarity query c = Returns s ->
                                   Binary64.is_nan s = false) candidates ->
        StronglySorted
          (fun a b => Binary64.leb (Embeddings.similarity b) (Embeddings.similarity a)
                      = true) results
        /\ forall (i : nat) c s r,
             candidates !! i = Some c ->
             Embeddings.calculate_similarity query c = Returns s ->
             ~ In i (map Embeddings.index results) ->
             In r results ->
             Binary64.leb s (Embeddings.similarity r) = true).
Proof.
  unfold Embeddings.find_most_similar.
  rewrite similarities_from_imap. outcome_step. cbn [app].
  set (all := imap (fun j c => {| Embeddings.index := 0 + j;
                                  Embeddings.similarity := sim query c |})
                candidates).
  set (sorted := Embeddings.sort_desc Embeddings.similarity all).
  assert (Hperm : sorted ≡ₚ all) by apply sort_desc_perm_float.
  assert (Hall : forall r, In r all <->
            exists i c, candidates !! i = Some c
                        /\ r = {| Embeddings.index := i;
                                  Embeddings.similarity := sim query c |}).
  { intros r. subst all. rewrite <- list_elem_of_In, elem_of_lookup_imap.
    split; intros (i & c & H1 & H2); exists i, c; simpl in *; auto. }
  exists (py_slice_first top_k sorted). split; [reflexivity|].
  unfold py_slice_first. split.
  { rewrite length_take, Hperm. subst all. rewrite length_imap. lia. }
  split.
  { change (map Embeddings.index ?l) with (Embeddings.index <$> l).
    rewrite fmap_take.
    apply (sublist_NoDup _ (Embeddings.index <$> sorted)); [|apply sublist_take].
    rewrite Hperm. change (Embeddings.index <$> all) with (map Embeddings.index all).
    subst all. rewrite imap_indices. apply NoDup_seq. }
  split.
  { apply List.Forall_forall. intros r Hr.
    apply in_py_slice_first in Hr. rewrite <- list_elem_of_In, Hperm, list_elem_of_In in Hr.
    apply Hall in Hr as (i & c & Hc & ->). exists c. split; [exact Hc|].
    apply calculate_similarity_sim. }
  intros Hnan.
  assert (Hsorted : StronglySorted
            (fun a b => Binary64.leb (Embeddings.similarity b) (Embeddings.similarity a)
                        = true) sorted).
  { apply sort_desc_sorted_float. apply List.Forall_forall. intros r Hr.
    apply Hall in Hr as (i & c & Hc & ->). cbn [Embeddings.similarity].
    rewrite List.Forall_forall in Hnan. apply (Hnan c).
    - apply list_elem_of_In. eapply list_elem_of_lookup_2. exact Hc.
    - apply calculate_similarity_sim. }
  split; [apply take_sorted_prefix; exact Hsorted|].
  intros i c s r Hc Hs Hout Hr.
  assert (Hsim : s = sim query c) by (rewrite Hs; reflexivity).
  rewrite Hsim.
  change (sim query c)
    with (Embeddings.similarity {| Embeddings.index := i;
                                   Embeddings.similarity := sim query c |}).
  apply (take_sorted_before _ top_k sorted Hsorted); [exact Hr|].
  assert (Hin : In {| Embeddings.index := i; Embeddings.similarity := sim query c |}
                  sorted).
  { rewrite <- list_elem_of_In, Hperm, list_elem_of_In. apply Hall. eauto. }
  rewrite <- (take_drop top_k sorted) in Hin. apply in_app_or in Hin as [Hin|Hin];
    [|exact Hin].
  exfalso. apply Hout. apply in_map_iff. eexists. split; [|exact Hin]. reflexivity.
Qed.

End TopKFacts.

Lemma find_most_similar_top_k_witness :
  let query := [Binary64.of_Z 3; Binary64.of_Z 4] in
  let candidates :=
    [[Binary64.of_Z 1; Binary64.of_Z 0]; [Binary64.of_Z 3; Binary64.of_Z 4];
     [Binary64.of_Z 4; Binary64.of_Z 3]] in
  Forall (fun c => forall s, Embeddings.calculate_similarity query c = Returns s ->
                             Binary64.is_nan s = false) candidates
  /\ exists results,
       Embeddings.find_most_similar Embeddings.calculate_similarity query candidates 2
         = Returns results
       /\ map Embeddings.index results = [1; 2]
       /\ StronglySorted
            (fun a b => Binary64.leb (Embeddings.similarity b) (Embeddings.similarity a)
                        = true) results.
Proof.
  intros query candidates.
  assert (Hnan : Forall (fun c => forall s,
                           Embeddings.calculate_similarity query c = Returns s ->
                           Binary64.is_nan s = false) candidates).
  { repeat constructor; intros s Hs; vm_compute in Hs; injection Hs as <-;
      reflexivity. }
  split; [exact Hnan|].
  destruct (find_most_similar_top_k query candidates 2)
    as (results & Hrun & _ & _ & _ & Hsorted).
  exists results. split; [exact Hrun|]. split; [|apply Hsorted; exact Hnan].
  assert (Hval : Embeddings.find_most_similar Embeddings.calculate_similarity query
                   candidates 2
                 = Returns results) by exact Hrun.
  vm_compute in Hval. injection Hval as <-. reflexivity.
Defined.

(** With a candidate of norm zero the order is lost: its similarity is NaN,
    no comparison with NaN holds, and the NaN entry is returned ahead of the
    exact match. *)
Example find_most_similar_nan_first :
  (rs ← Embeddings.find_most_similar Embeddings.calculate_similarity
          [Binary64.of_Z 1] [[Binary64.zero]; [Binary64.of_Z 1]] 1;
   mret (map (fun r => (Embeddings.index r, Embeddings.similarity r)) rs))
  = Returns [(0, Binary64.nan)].
Proof. vm_compute. reflexivity. Qed.

Section KeywordFacts.

Variable py_lower : string -> string.
Variable py_split : string -> list string.

Lemma ratio_exact (a b : nat) :
  (a <= b)%nat -> (0 < b)%nat ->
  let r := f_div (f_of_nat a) (f_of_nat b) : Q in
  (0 <= r <= 1)%Q /\ (r == 1 <-> a = b)%Q /\ (r == 0 <-> a = 0%nat)%Q.
Proof.
  intros Hab Hb. cbn.
  destruct (Z.of_nat b) as [|p|p] eqn:Hp; try lia.
  unfold Qdiv, Qinv, Qmult, Qle, Qeq, inject_Z. simpl.
  rewrite !Z.mul_1_r. repeat split; try lia.
Qed.

(** X7.  [keyword_search] (scores read over exact rationals) returns
    [min(top_k, n)] entries for [n] documents, each for one of the
    documents, in non-increasing order of score.  Every score lies in
    [0,1]; for a query with at least one word the score is 1 exactly when
    every query word occurs in the document's text, and 0 exactly when
    none does. *)
Theorem keyword_search_scores (query : string) (documents : list Embeddings.Document)
    (top_k : nat) :
  let query_words := Embeddings.word_set py_split (py_lower query) in
  let words_of (doc : Embeddings.Document) :=
    Embeddings.word_set py_split (py_lower (default "" (Embeddings.doc_text doc))) in
  exists results : list (Embeddings.Scored Q),
    Embeddings.keyword_search py_lower py_split query documents top_k = Returns results
    /\ length results = Nat.min top_k (length documents)
    /\ StronglySorted
         (fun a b => (Embeddings.scored_keyword_score b
                      <= Embeddings.scored_keyword_score a)%Q) results
    /\ Forall
         (fun s =>
            In (Embeddings.scored_document s) documents
            /\ (0 <= Embeddings.scored_keyword_score s <= 1)%Q
            /\ (query_words <> ∅ ->
                (Embeddings.scored_keyword_score s == 1
                 <-> query_words ⊆ words_of (Embeddings.scored_document s))%Q
                /\ (Embeddings.scored_keyword_score s == 0
                    <-> query_words ∩ words_of (Embeddings.scored_document s) = ∅)%Q))
         results.
Proof.
  intros query_words words_of.
  unfold Embeddings.keyword_search. outcome_step. cbv zeta.
  rewrite scored_docs_loop. cbn [app]. fold query_words.
  set (scored := map _ documents).
  eexists. split; [reflexivity|]. unfold py_slice_first. split.
  { rewrite length_take, (sort_desc_perm Embeddings.scored_keyword_score scored).
    subst scored. rewrite length_map. lia. }
  split; [apply take_sorted, sort_desc_sorted|].
  apply List.Forall_forall. intros s Hs.
  apply in_py_slice_first, in_sort_desc in Hs. subst scored.
  apply in_map_iff in Hs as (doc & <- & Hdoc). cbn [Embeddings.scored_document
    Embeddings.scored_keyword_score]. fold (words_of doc).
  split; [exact Hdoc|].
  unfold Embeddings.keyword_score_of.
  destruct (decide (query_words = ∅)) as [Hempty|Hne].
  - rewrite bool_decide_eq_false_2 by (intros Hc; apply Hc; exact Hempty).
    split; [cbn; unfold Qle; simpl; lia | contradiction].
  - rewrite bool_decide_eq_true_2 by exact Hne.
    assert (Hsub : query_words ∩ words_of doc ⊆ query_words)
      by apply intersection_subseteq_l.
    assert (Hle : size (query_words ∩ words_of doc) <= size query_words)
      by (apply subseteq_size; exact Hsub).
    assert (Hpos : 0 < size query_words).
    { destruct (size query_words) eqn:Hz; [|lia].
      apply size_empty_iff in Hz. exfalso. apply Hne.
      apply leibniz_equiv. exact Hz. }
    destruct (ratio_exact _ _ Hle Hpos) as (Hrange & Hone & Hzero).
    split; [exact Hrange|]. intros _. split.
    + rewrite Hone. split.
      * intros Heq. assert (Hq : query_words ∩ words_of doc ≡ query_words)
          by (apply set_subseteq_size_equiv; [exact Hsub | lia]).
        intros x Hx. apply Hq in Hx.
        apply elem_of_intersection in Hx as [_ Hx]. exact Hx.
      * intros Hall. f_equal. apply leibniz_equiv. intros x.
        rewrite elem_of_intersection. split; [tauto|].
        intros Hx. split; [exact Hx | apply Hall; exact Hx].
    + rewrite Hzero. rewrite size_empty_iff. split; intros Hx.
      * apply leibniz_equiv. exact Hx.
      * rewrite Hx. reflexivity.
Qed.

End KeywordFacts.

Section HybridRankFacts.

Variable encode_text : string -> outcome (list Binary64.float).
Variable py_lower : string -> string.
Variable py_split : string -> list string.
Variable hash_str : Embeddings.Document -> Z.

Lemma encode_documents_raises (documents : list Embeddings.Document)
    (acc : list (list Binary64.float)) doc e :
  In doc documents ->
  encode_text (default "" (Embeddings.doc_text doc)) = Raises e ->
  exists e',
    Embeddings.for_each
      (fun embeddings doc =>
         v ← encode_text (default "" (Embeddings.doc_text doc));
         mret (embeddings ++ [v])) documents acc = Raises e'.
Proof.
  intros Hin Hraise. revert acc.
  induction documents as [|d ds IH]; intros acc; [destruct Hin|].
  cbn [Embeddings.for_each].
  destruct (encode_text (default "" (Embeddings.doc_text d))) as [v|e0] eqn:Hd;
    outcome_step; [|eauto].
  destruct Hin as [->|Hin]; [congruence|]. apply IH. exact Hin.
Qed.

(** X8.  [hybrid_search], with the cosine similarity of
    [calculate_similarity] in binary64, returns at most [top_k] entries.
    When the encoder raises, for the query or for the text of any one
    document, the result is the empty list: the keyword scores alone are
    not used.  When every step returns and no combined score of the merged
    dictionary is NaN, the result is the first [top_k] of its entries
    sorted by combined score, in non-increasing order of combined score. *)
Theorem hybrid_search_ranked (query : string) (documents : list Embeddings.Document)
    (w : Binary64.float) (top_k : nat) :
  exists results,
    Embeddings.hybrid_search encode_text Embeddings.calculate_similarity py_lower
      py_split hash_str query documents w top_k = Returns results
    /\ length results <= top_k
    /\ ((exists e, encode_text query = Raises e)
        \/ (exists doc e, In doc documents
                          /\ encode_text (default "" (Embeddings.doc_text doc))
                             = Raises e)
        -> results = [])
    /\ (forall query_embedding doc_embeddings vector_results keyword_results merged,
          encode_text query = Returns query_embedding ->
          Embeddings.for_each
            (fun embeddings doc =>
               v ← encode_text (default "" (Embeddings.doc_text doc));
               mret (embeddings ++ [v])) documents [] = Returns doc_embeddings ->
          Embeddings.find_most_similar Embeddings.calculate_similarity query_embedding
            doc_embeddings (top_k * 2) = Returns vector_results ->
          Embeddings.keyword_search py_lower py_split query documents (top_k * 2)
            = Returns keyword_results ->
          Embeddings.merge_scores hash_str documents w vector_results keyword_results
            = Returns merged ->
          Forall (fun kv => Binary64.is_nan (Embeddings.combined_score kv.2) = false)
            merged ->
          results
          = py_slice_first top_k
              (Embeddings.sort_desc Embeddings.combined_score (map snd merged))
          /\ StronglySorted
               (fun a b => Binary64.leb (Embeddings.combined_score b)
                             (Embeddings.combined_score a) = true)
               results).
Proof.
  unfold Embeddings.hybrid_search.
  destruct (encode_text query) as [qe|e0] eqn:Hq; outcome_step.
  2:{ exists []. split; [reflexivity|]. split; [simpl; lia|].
      split; [reflexivity|]. discriminate. }
  destruct (Embeddings.for_each _ documents []) as [de|e1] eqn:Hd; outcome_step.
  2:{ exists []. split; [reflexivity|]. split; [simpl; lia|].
      split; [reflexivity|]. discriminate. }
  destruct (Embeddings.find_most_similar Embeddings.calculate_similarity qe de
              (top_k * 2)) as [vr|e2] eqn:Hv; outcome_step.
  2:{ exists []. split; [reflexivity|]. split; [simpl; lia|].
      split; [reflexivity|]. intros ? ? ? ? ? [= <-] [= <-] H3. congruence. }
  destruct (Embeddings.keyword_search py_lower py_split query documents (top_k * 2))
    as [kr|e3] eqn:Hk; outcome_step.
  2:{ exists []. split; [reflexivity|]. split; [simpl; lia|].
      split; [reflexivity|]. discriminate. }
  destruct (Embeddings.merge_scores hash_str documents w vr kr) as [cs|e4] eqn:Hm;
    outcome_step.
  2:{ exists []. split; [reflexivity|]. split; [simpl; lia|].
      split; [reflexivity|]. intros ? ? ? ? ? [= <-] [= <-] H3 H4 H5.
      assert (vector_results = vr) as -> by congruence.
      assert (keyword_results = kr) as -> by congruence. congruence. }
  eexists. split; [reflexivity|]. unfold py_slice_first. split.
  { rewrite length_take. lia. }
  split.
  { intros [(e & He) | (doc & e & Hin & He)]; [discriminate|].
    destruct (encode_documents_raises documents [] doc e Hin He) as (e' & He').
    rewrite He' in Hd. discriminate. }
  intros ? ? ? ? merged [= <-] [= <-] H3 H4 H5 Hnan.
  assert (vector_results = vr) as -> by congruence.
  assert (keyword_results = kr) as -> by congruence.
  assert (merged = cs) as -> by congruence.
  split; [reflexivity|].
  apply take_sorted_prefix. unfold Embeddings.dict_values.
  apply sort_desc_sorted_float.
  apply List.Forall_forall. intros entry Hentry.
  apply in_map_iff in Hentry as (kv & <- & Hkv).
  rewrite List.Forall_forall in Hnan. exact (Hnan kv Hkv).
Qed.

End HybridRankFacts.

Lemma hybrid_search_ranked_witness :
  let documents := [SearchFixtures.doc_with_id "a" "ssl setup guide";
                    SearchFixtures.doc_with_id "b" "release notes"] in
  exists results,
    Embeddings.hybrid_search SearchFixtures.encode_constant
      Embeddings.calculate_similarity SearchFixtures.ascii_lower
      SearchFixtures.ascii_split (fun _ => 0%Z) "SSL guide" documents
      (Binary64.lit 7 1) 2 = Returns results
    /\ length results = 2
    /\ StronglySorted
         (fun a b => Binary64.leb (Embeddings.combined_score b)
                       (Embeddings.combined_score a) = true)
         results.
Proof.
  intros documents.
  destruct (hybrid_search_ranked SearchFixtures.encode_constant
              SearchFixtures.ascii_lower SearchFixtures.ascii_split (fun _ => 0%Z)
              "SSL guide" documents (Binary64.lit 7 1) 2)
    as (results & Hrun & _ & _ & Hsorted).
  exists results. split; [exact Hrun|].
  edestruct Hsorted as [Hres Hs].
  - reflexivity.
  - reflexivity.
  - vm_compute. reflexivity.
  - vm_compute. reflexivity.
  - vm_compute. reflexivity.
  - repeat constructor.
  - split; [|exact Hs]. rewrite Hres. vm_compute. reflexivity.
Defined.

Lemma merge_scores_by_identity_witness :
  let a := SearchFixtures.doc_with_id "a" "first" in
  let b := SearchFixtures.doc_with_id "b" "second" in
  let vector_results :=
    [ {| Embeddings.index := 0; Embeddings.similarity := 9 # 10 |} ] in
  let keyword_results :=
    [ {| Embeddings.scored_document := b; Embeddings.scored_keyword_score := 1 # 2 |} ] in
  Forall (fun r => is_Some (Embeddings.vector_result_id [a; b] r)) vector_results
  /\ Forall (fun s => is_Some (Embeddings.keyword_result_id s)) keyword_results
  /\ exists merged,
       Embeddings.merge_scores (fun _ => 0%Z) [a; b] (7 # 10) vector_results
         keyword_results = Returns merged
       /\ List.NoDup (map fst merged).
Proof.
  intros a b vector_results keyword_results.
  assert (H1 : Forall (fun r => is_Some (Embeddings.vector_result_id [a; b] r))
                 vector_results).
  { constructor; [|constructor]. vm_compute. eauto. }
  assert (H2 : Forall (fun s => is_Some (Embeddings.keyword_result_id (F:=Q) s))
                 keyword_results).
  { constructor; [|constructor]. vm_compute. eauto. }
  split; [exact H1|]. split; [exact H2|].
  destruct (merge_scores_by_identity (fun _ => 0%Z) [a; b] (7 # 10) vector_results
              keyword_results H1 H2) as (merged & Hm & Hnd & _).
  exists merged. split; [exact Hm | exact Hnd].
Defined.

(** ** Rows of an index answer *)

Section RowFacts.

Context {F : Type} `{Arith F}.

Variable encode_text : string -> outcome (list F).
Variable collection_query :
  list (list F) -> nat -> option (gmap string string)
  -> outcome (VectorStore.QueryResult F).

(** X9.  [search_similar] turns the first row group of the index answer
    into results, all or nothing.  When the index answers with a non-empty
    list of documents: if its ids, metadatas and distances have an entry
    for every document, there is one result per document, in order,
    carrying that row's id, text, metadata and distance and the similarity
    [1 - distance]; if one of them is shorter than the document list, the
    [IndexError] is swallowed and the result is the empty list, the readable
    rows included. *)
Theorem search_similar_rows (st : Config.Settings F) (query : string)
    (n_results : option nat) (filter_metadata : option (gmap string string))
    (query_embedding : list F) (results : VectorStore.QueryResult F)
    (d : string) (ds : list string) (rest : list (list string)) :
  encode_text query = Returns query_embedding ->
  collection_query [query_embedding]
    (VectorStore.n_results_or n_results (Config.top_k_results st)) filter_metadata
    = Returns results ->
  VectorStore.documents results = (d :: ds) :: rest ->
  exists out,
    VectorStore.search_similar encode_text collection_query st query n_results
      filter_metadata = Returns out
    /\ ((forall i, i < length (d :: ds) -> VectorStore.row_present results i) ->
        length out = length (d :: ds)
        /\ forall i r, out !! i = Some r -> VectorStore.row_at results i r)
    /\ ((exists i, i < length (d :: ds) /\ ~ VectorStore.row_present results i) -> out = []).
Proof.
  intros Henc Hquery Hdocs. unfold VectorStore.search_similar. cbv zeta.
  rewrite Henc. outcome_step. rewrite Hquery. outcome_step. rewrite Hdocs.
  pose proof (format_rows_cases results (seq 0 (length (d :: ds))) []) as Hrows.
  destruct (VectorStore.format_rows results (seq 0 (length (d :: ds))) [])
    as [out|e]; outcome_step.
  - destruct Hrows as (rows & -> & Hrows). cbn [app].
    exists rows. split; [reflexivity|]. split.
    + intros _. split.
      * apply Forall2_length in Hrows. rewrite length_seq in Hrows. lia.
      * intros i r Hi.
        destruct (Forall2_lookup_r _ _ _ _ _ Hrows Hi) as (j & Hj & Hrow).
        apply lookup_seq in Hj as [-> _]. exact Hrow.
    + intros (i & Hi & Hbad). exfalso.
      destruct (Forall2_lookup_l _ _ _ i i Hrows) as (r & _ & Hrow).
      { apply lookup_seq. split; [reflexivity | exact Hi]. }
      apply Hbad. destruct Hrow as (H1 & H2 & H3 & H4 & _).
      unfold VectorStore.row_present. repeat split; eapply lookup_lt_Some; eassumption.
  - exists []. split; [reflexivity|]. split; [|reflexivity].
    intros Hall. destruct Hrows as (i & Hi & Hbad). exfalso. apply Hbad, Hall.
    apply in_seq in Hi. lia.
Qed.

End RowFacts.

Lemma search_similar_rows_witness :
  SearchFixtures.encode_constant "ssl" = Returns [Binary64.of_Z 3; Binary64.of_Z 4]
  /\ StoreFixtures.collection_query [[Binary64.of_Z 3; Binary64.of_Z 4]]
       (VectorStore.n_results_or None (Config.top_k_results Config.defaults)) None
     = Returns StoreFixtures.four_rows
  /\ VectorStore.documents StoreFixtures.four_rows
     = ("one" :: ["two"; "three"; "four"]) :: []
  /\ exists out,
       VectorStore.search_similar SearchFixtures.encode_constant
         StoreFixtures.collection_query Config.defaults "ssl" None None = Returns out
       /\ length out = 4.
Proof.
  assert (H1 : SearchFixtures.encode_constant "ssl"
               = Returns [Binary64.of_Z 3; Binary64.of_Z 4]) by reflexivity.
  assert (H2 : StoreFixtures.collection_query [[Binary64.of_Z 3; Binary64.of_Z 4]]
                 (VectorStore.n_results_or None (Config.top_k_results Config.defaults))
                 None = Returns StoreFixtures.four_rows) by reflexivity.
  assert (H3 : VectorStore.documents StoreFixtures.four_rows
               = ("one" :: ["two"; "three"; "four"]) :: []) by reflexivity.
  split; [exact H1|]. split; [exact H2|]. split; [exact H3|].
  destruct (search_similar_rows SearchFixtures.encode_constant
              StoreFixtures.collection_query Config.defaults "ssl" None None
              _ _ _ _ _ H1 H2 H3) as (out & Hrun & Hall & _).
  exists out. split; [exact Hrun|]. apply Hall.
  intros i Hi. unfold VectorStore.row_present. simpl in *. lia.
Defined.

(** ** Sources, scores and the conversation turn *)

Section PipelineFacts.

Context {F : Type} `{Arith F}.

Variable format_2f : F -> string.
Variable vector_store_search :
  string -> option (gmap string string) -> option nat
  -> outcome (list (VectorStore.ContextResult F)).
Variable llm_generate :
  list Message -> option string -> LLM.GenParams (F:=F)
  -> outcome (LLM.LLMResult (F:=F)).

Lemma format_context_sources_map (results : list (VectorStore.ContextResult F))
    (acc : list (RAG.Source F)) :
  fold_left
    (fun sources result =>
       let metadata := VectorStore.metadata result in
       sources ++ [ {| RAG.source_id := VectorStore.id result;
                       RAG.source_title :=
                         default "Неизвестный источник" (metadata !! "title");
                       RAG.source_url := metadata !! "source_url";
                       RAG.source_similarity := VectorStore.similarity result |} ])
    results acc
  = acc ++ map (fun result =>
                  {| RAG.source_id := VectorStore.id result;
                     RAG.source_title :=
                       default "Неизвестный источник"
                         (VectorStore.metadata result !! "title");
                     RAG.source_url := VectorStore.metadata result !! "source_url";
                     RAG.source_similarity := VectorStore.similarity result |})
             results.
Proof.
  revert acc. induction results as [|r rs IH]; intros acc; simpl.
  - rewrite app_nil_r. reflexivity.
  - rewrite IH, <- app_assoc. reflexivity.
Qed.

(** X11.  The sources and the scores of a result go together.  Let the
    retrieved results be what the vector store returned for the query (none
    when it raised).  [process_query] returns a result.  When the LLM
    manager returned, the result carries [context_sources] and
    [similarity_scores]: one source per retrieved result, in the order of
    retrieval, with the id, the similarity and the url of that result and its
    title (or the fixed "unknown source" title when the metadata has none),
    and the similarities of the retrieved results in the same order, so
    that the [i]-th score is the similarity of the [i]-th source.  When the
    LLM manager raised, the exception reached the outer handler: the result
    carries neither list and has [success = False]. *)
Theorem sources_and_scores_aligned (st : Config.Settings F) (query : string)
    (session_context : option (list Message)) (user_role : string)
    (preferred_model : option string) (start_time end_time : F) :
  let context_results :=
    match vector_store_search query
            (if negb (String.eqb user_role "developer")
             then Some ({[ "user_role" := user_role ]} : gmap string string)
             else None)
            (Some (Config.top_k_results st)) with
    | Returns found => found
    | Raises _ => []
    end in
  let generated :=
    llm_generate (RAG._build_messages format_2f query context_results session_context)
      preferred_model
      {| LLM.kw_temperature := Config.temperature st;
         LLM.kw_max_tokens := Config.max_tokens st |} in
  exists r : RAG.RAGResult F,
    RAG.process_query format_2f vector_store_search llm_generate st query
      session_context user_role preferred_model start_time end_time = Returns r
    /\ match generated with
       | Returns _ =>
           RAG.context_sources r
           = Some (map (fun result =>
                          {| RAG.source_id := VectorStore.id result;
                             RAG.source_title :=
                               default "Неизвестный источник"
                                 (VectorStore.metadata result !! "title");
                             RAG.source_url :=
                               VectorStore.metadata result !! "source_url";
                             RAG.source_similarity := VectorStore.similarity result |})
                     context_results)
           /\ RAG.similarity_scores r
              = Some (map VectorStore.similarity context_results)
       | Raises _ =>
           RAG.context_sources r = None /\ RAG.similarity_scores r = None
           /\ RAG.success r = false /\ RAG.model_used r = "error"
       end
    /\ match RAG.context_sources r, RAG.similarity_scores r with
       | Some sources, Some scores =>
           length sources = length scores
           /\ Forall2 (fun source score => RAG.source_similarity source = score)
                sources scores
       | None, None => RAG.success r = false /\ RAG.model_used r = "error"
       | _, _ => False
       end.
Proof.
  intros context_results generated.
  unfold RAG.process_query, RAG.process_query_body.
  rewrite retrieve_context_returns. outcome_step.
  fold context_results. fold generated.
  destruct generated as [resp|e]; outcome_step.
  - eexists. split; [reflexivity|]. cbn [RAG.context_sources RAG.similarity_scores].
    unfold RAG._format_context_sources, RAG._format_similarity_scores.
    rewrite format_context_sources_map. cbn [app].
    split; [split; reflexivity|].
    split; [rewrite !length_map; reflexivity|].
    induction context_results as [|c cs IH]; simpl; constructor; auto.
  - eexists. split; [reflexivity|]. cbn. auto.
Qed.

(** X12.  One conversation turn, end to end.  With a positive window
    limit, [process_conversation] returns a response for the given session
    id, and the message list it hands to the LLM manager is: the system
    instructions, the context message when something was retrieved, the
    user and assistant turns among the last [limit] turns of the history in
    their order, and the user's message last, at most [limit + 3] messages.
    The response has the LLM manager's content and success flag, or, when
    the LLM manager raises, [success = False] and the apology of
    [process_query]. *)
Theorem process_conversation_turn (self : Conversation.ConversationManager)
    (st : Config.Settings F) (user_message session_id user_role : string)
    (history : list (Conversation.Turn F)) (preferred_model : option string)
    (start_time end_time now : F) :
  0 < Conversation.max_context_length self ->
  let limit := Conversation.max_context_length self in
  let context_results :=
    match vector_store_search user_message
            (if negb (String.eqb user_role "developer")
             then Some ({[ "user_role" := user_role ]} : gmap string string)
             else None)
            (Some (Config.top_k_results st)) with
    | Returns found => found
    | Raises _ => []
    end in
  let window :=
    map Conversation.to_message
      (List.filter Conversation.role_kept (drop (length history - limit) history)) in
  let messages :=
    [ {| role := "system"; content := RAG._get_system_prompt |} ]
    ++ (if decide (context_results = []) then []
        else [ {| role := "system";
                  content :=
                    ("Контекст для ответа:" +:+ nl +:+ nl
                     +:+ RAG._format_context_for_prompt format_2f context_results
                     +:+ nl +:+ nl
                     +:+ "Используй эту информацию для формирования ответа.")%string |} ])
    ++ window ++ [ {| role := "user"; content := user_message |} ] in
  length messages <= limit + 3
  /\ exists r : Pipeline.ConversationResponse F,
       Pipeline.process_conversation format_2f vector_store_search llm_generate
         self st user_message session_id user_role (Some history) preferred_model
         start_time end_time now = Returns r
       /\ Pipeline.session_id r = session_id
       /\ match llm_generate messages preferred_model
                  {| LLM.kw_temperature := Config.temperature st;
                     LLM.kw_max_tokens := Config.max_tokens st |} with
          | Returns llm_response =>
              Pipeline.success r = LLM.success llm_response
              /\ Pipeline.content r = LLM.content llm_response
              /\ Pipeline.model_used r = Some (LLM.model llm_response)
          | Raises e =>
              Pipeline.success r = false
              /\ Pipeline.content r
                 = Some "Извините, произошла ошибка при обработке вашего запроса. Попробуйте позже."
              /\ Pipeline.error r = Some (exn_str e)
          end.
Proof.
  intros Hpos limit context_results window messages.
  assert (Hwin : Conversation._prepare_session_context self (Some history) = window)
    by (apply prepare_session_context_eq; exact Hpos).
  assert (Hlen : length window <= limit).
  { subst window. rewrite length_map.
    pose proof (List.filter_length_le Conversation.role_kept
                  (drop (length history - limit) history)) as Hf.
    rewrite length_drop in Hf. lia. }
  split.
  { subst messages. rewrite !length_app.
    destruct (decide (context_results = [])); simpl; lia. }
  assert (Hmsgs : RAG._build_messages format_2f user_message context_results
                    (Some window) = messages).
  { subst messages. unfold RAG._build_messages, RAG.append.
    destruct context_results as [|c cs]; destruct window as [|m ms];
      simpl; reflexivity. }
  unfold Pipeline.process_conversation, RAG.process_query, RAG.process_query_body.
  cbv zeta. rewrite Hwin, retrieve_context_returns. outcome_step.
  fold context_results. rewrite Hmsgs.
  destruct (llm_generate messages preferred_model _) as [resp|e]; outcome_step.
  - eexists. split; [reflexivity|]. repeat split; reflexivity.
  - eexists. split; [reflexivity|]. repeat split; reflexivity.
Qed.

(** X13.  A stored turn is seen by the next one.  With a window limit of
    at least 2, the history returned by [update_conversation_history]
    yields a session context that ends with the user message and the
    assistant response just stored, in that order, and has at most [limit]
    messages. *)
Theorem updated_history_window self (history : list (Conversation.Turn F)) h σ
    (user_message assistant_response : string) (now1 now2 : F) :
  2 <= Conversation.max_context_length self ->
  σ !! h = Some history ->
  let '(ret, σ') :=
    Conversation.update_conversation_history self (Some h) user_message
      assistant_response now1 now2 σ in
  exists updated earlier,
    σ' !! ret = Some updated
    /\ Conversation._prepare_session_context self (Some updated)
       = earlier ++ [ {| role := "user"; content := user_message |};
                      {| role := "assistant"; content := assistant_response |} ]
    /\ length (Conversation._prepare_session_context self (Some updated))
       <= Conversation.max_context_length self.
Proof.
  intros Hlimit Hh.
  pose proof (update_conversation_history_spec self (Some h) user_message
                assistant_response now1 now2 σ) as Hspec.
  cbv zeta in Hspec. unfold Conversation.list_get in Hspec.
  rewrite Hh in Hspec. simpl default in Hspec.
  destruct (Conversation.update_conversation_history self (Some h) user_message
              assistant_response now1 now2 σ) as [ret σ'].
  destruct Hspec as (_ & _ & Hret).
  set (u := {| Conversation.turn_role := "user";
               Conversation.turn_content := user_message;
               Conversation.turn_timestamp := Some now1 |}) in *.
  set (a := {| Conversation.turn_role := "assistant";
               Conversation.turn_content := assistant_response;
               Conversation.turn_timestamp := Some now2 |}) in *.
  set (limit := Conversation.max_context_length self) in *.
  assert (Hshape : exists pre,
            (if Nat.ltb (limit * 2) (length (history ++ [u; a]))
             then py_slice_last (limit * 2) (history ++ [u; a])
             else history ++ [u; a]) = pre ++ [u; a]).
  { destruct (Nat.ltb (limit * 2) (length (history ++ [u; a]))) eqn:Hlt;
      [|exists history; reflexivity].
    unfold py_slice_last. destruct (limit * 2) as [|n] eqn:Hn; [lia|].
    rewrite length_app. cbn [length].
    rewrite drop_app_le by lia. eexists. reflexivity. }
  destruct Hshape as (pre & Hshape). rewrite Hshape in Hret.
  exists (pre ++ [u; a]).
  assert (Hwin : Conversation._prepare_session_context self (Some (pre ++ [u; a]))
                 = map Conversation.to_message
                     (List.filter Conversation.role_kept
                        (drop (length (pre ++ [u; a]) - limit) (pre ++ [u; a]))))
    by (apply prepare_session_context_eq; lia).
  rewrite Hwin. rewrite length_app. cbn [length].
  rewrite drop_app_le by lia. rewrite List.filter_app, map_app.
  eexists. split; [exact Hret|]. split; [reflexivity|].
  rewrite <- map_app, <- List.filter_app, length_map.
  pose proof (List.filter_length_le Conversation.role_kept
                (drop (length pre + 2 - limit) pre ++ [u; a])) as Hf.
  rewrite length_app, length_drop in Hf. cbn [length] in Hf. lia.
Qed.

End PipelineFacts.

Lemma process_conversation_turn_witness :
  0 < Conversation.max_context_length Conversation.init
  /\ exists r,
       Pipeline.process_conversation PipelineFixtures.two_decimals
         PipelineFixtures.search_nothing PipelineFixtures.llm_counts
         Conversation.init Config.defaults "q" "s1" "developer"
         (Some ConversationFixtures.with_system_turn) None
         Binary64.zero Binary64.zero Binary64.zero = Returns r
       /\ Pipeline.session_id r = "s1".
Proof.
  assert (H1 : 0 < Conversation.max_context_length Conversation.init)
    by (simpl; lia).
  split; [exact H1|].
  pose proof (process_conversation_turn PipelineFixtures.two_decimals
                PipelineFixtures.search_nothing PipelineFixtures.llm_counts
                Conversation.init Config.defaults "q" "s1" "developer"
                ConversationFixtures.with_system_turn None
                Binary64.zero Binary64.zero Binary64.zero H1) as H.
  cbv zeta in H. destruct H as (_ & r & Hr & Hs & _).
  exists r. split; [exact Hr | exact Hs].
Defined.

Lemma updated_history_window_witness :
  2 <= Conversation.max_context_length Conversation.init
  /\ ConversationFixtures.store !! 1%positive = Some ConversationFixtures.twelve_turns
  /\ let '(ret, σ') :=
       Conversation.update_conversation_history (F:=Binary64.float) Conversation.init
         (@Some Conversation.ref 1%positive) "q" "r" Binary64.zero Binary64.zero
         ConversationFixtures.store in
     exists updated,
       σ' !! ret = Some updated
       /\ length (Conversation._prepare_session_context Conversation.init (Some updated))
          <= 10.
Proof.
  assert (H1 : 2 <= Conversation.max_context_length Conversation.init)
    by (simpl; lia).
  assert (H2 : ConversationFixtures.store !! 1%positive
               = Some ConversationFixtures.twelve_turns) by reflexivity.
  split; [exact H1|]. split; [exact H2|].
  pose proof (updated_history_window (F:=Binary64.float) Conversation.init
                ConversationFixtures.twelve_turns 1%positive
                ConversationFixtures.store "q" "r" Binary64.zero Binary64.zero
                H1 H2) as H.
  revert H.
  generalize (Conversation.update_conversation_history (F:=Binary64.float)
                Conversation.init (@Some Conversation.ref 1%positive) "q" "r"
                Binary64.zero Binary64.zero ConversationFixtures.store).
  intros [ret σ'] (updated & earlier & Hu & _ & Hlen).
  exists updated. split; [exact Hu | exact Hlen].
Defined.

(** ** The provider table and the configured keys *)

Section ModelFacts.

Context {F : Type} (World : Type).

Variable GigaChatProvider : string -> string -> bool -> LLM.Provider (F:=F) World.
Variable DeepSeekProvider : string -> string -> LLM.Provider (F:=F) World.
Variable OpenAIProvider : string -> string -> LLM.Provider (F:=F) World.

Local Abbreviation initialize :=
  (ModelConfig._initialize_providers World GigaChatProvider DeepSeekProvider
     OpenAIProvider).

Lemma configured_provider_table (providers : list (string * LLM.Provider (F:=F) World))
    (m : string) :
  LLM.configured World (ModelConfig.provider_table World providers) m = true
  <-> m ∈ providers.*1.
Proof.
  rewrite configured_true. unfold ModelConfig.provider_table.
  rewrite <- not_eq_None_Some, <- not_elem_of_list_to_map.
  destruct (decide (m ∈ providers.*1)); tauto.
Qed.

Lemma initialize_keys (settings : ModelConfig.ApiSettings) :
  (initialize settings).*1 = ModelConfig.get_available_models settings.
Proof.
  unfold ModelConfig._initialize_providers, ModelConfig.get_available_models.
  destruct (ModelConfig.key_truthy (ModelConfig.gigachat_api_key settings));
    destruct (ModelConfig.key_truthy (ModelConfig.deepseek_api_key settings));
    destruct (ModelConfig.key_truthy (ModelConfig.openai_api_key settings));
    reflexivity.
Qed.

Lemma validated_default_configured (settings : ModelConfig.ApiSettings)
    (st : Config.Settings F) :
  ModelConfig.validate_model_configuration settings (Config.default_model st)
  = Returns true ->
  LLM.configured World (ModelConfig.provider_table World (initialize settings))
    (Config.default_model st) = true.
Proof.
  unfold ModelConfig.validate_model_configuration. intros Hv.
  destruct (negb (list_truthy (ModelConfig.get_available_models settings)));
    [discriminate|].
  destruct (bool_decide (Config.default_model st
                         ∈ ModelConfig.get_available_models settings)) eqn:Hin;
    [|discriminate].
  apply bool_decide_eq_true in Hin.
  apply configured_provider_table. rewrite initialize_keys. exact Hin.
Qed.

(** X14.  The two lists of available models agree.  The names
    [LLMManager.get_available_models] reports after [__init__] are the
    names [config.get_available_models] computes from the same settings, in
    the same order and without repetition: a sublist of gigachat, deepseek,
    openai, one name per non-empty API key.  These are the backends the
    router treats as configured. *)
Theorem available_models_agree (settings : ModelConfig.ApiSettings) :
  let providers := initialize settings in
  ModelConfig.manager_available_models World providers
  = ModelConfig.get_available_models settings
  /\ ModelConfig.get_available_models settings
     = List.filter
         (fun m => ModelConfig.key_truthy
                     (if String.eqb m "gigachat"
                      then ModelConfig.gigachat_api_key settings
                      else if String.eqb m "deepseek"
                      then ModelConfig.deepseek_api_key settings
                      else ModelConfig.openai_api_key settings))
         ["gigachat"; "deepseek"; "openai"]
  /\ forall m : string,
       LLM.configured World (ModelConfig.provider_table World providers) m = true
       <-> m ∈ ModelConfig.get_available_models settings.
Proof.
  intros providers. split; [apply initialize_keys|]. split.
  - unfold ModelConfig.get_available_models.
    destruct (ModelConfig.key_truthy (ModelConfig.gigachat_api_key settings)) eqn:Hg;
      destruct (ModelConfig.key_truthy (ModelConfig.deepseek_api_key settings)) eqn:Hd;
      destruct (ModelConfig.key_truthy (ModelConfig.openai_api_key settings)) eqn:Ho;
      cbn [List.filter String.eqb Ascii.eqb Bool.eqb]; rewrite ?Hg, ?Hd, ?Ho;
      reflexivity.
  - intros m. subst providers.
    rewrite configured_provider_table, initialize_keys. reflexivity.
Qed.

(** X15.  A validated configuration makes the router call a provider.
    When [validate_model_configuration] returns (it then returns [True]),
    [LLMManager.generate_response] over the provider table of the same
    settings calls at least one provider, and the first one it calls is
    the preferred model when that one is configured and the default model
    otherwise. *)
Theorem validated_default_is_tried_first (settings : ModelConfig.ApiSettings)
    (st : Config.Settings F) (messages : list Message)
    (preferred_model : option string) (kwargs : LLM.GenParams (F:=F)) (w : World) :
  ModelConfig.validate_model_configuration settings (Config.default_model st)
  = Returns true ->
  let providers := ModelConfig.provider_table World (initialize settings) in
  let first :=
    match LLM.preferred_usable World providers preferred_model with
    | Some p => p
    | None => Config.default_model st
    end in
  exists o rest,
    (LLM.generate_response World st providers messages preferred_model kwargs w).1.2
    = (first, o) :: rest.
Proof.
  intros Hv providers first.
  assert (Hfirst : LLM.configured World providers first = true).
  { subst first.
    destruct (LLM.preferred_usable World providers preferred_model) as [p|] eqn:Hp.
    - apply preferred_usable_Some in Hp. tauto.
    - apply validated_default_configured. exact Hv. }
  apply configured_true in Hfirst. destruct Hfirst as [prov Hprov].
  unfold LLM.generate_response, LLM.model_order. fold providers.
  assert (Horder : exists tail,
            match LLM.preferred_usable World providers preferred_model with
            | Some p => p :: LLM.fallbacks_except World providers
                               (Config.fallback_models st) p
            | None => Config.default_model st
                        :: LLM.fallbacks_except World providers
                             (Config.fallback_models st) (Config.default_model st)
            end = first :: tail).
  { subst first.
    destruct (LLM.preferred_usable World providers preferred_model); eauto. }
  destruct Horder as [tail ->]. cbn [LLM.try_models].
  unfold LLM.Provider in Hprov |- *. rewrite Hprov.
  destruct (prov messages kwargs w) as [[res|e] w1].
  - destruct (LLM.success res).
    + cbn. eauto.
    + destruct (LLM.try_models World providers messages kwargs tail w1) as [[r log] w2].
      cbn. eauto.
  - destruct (LLM.try_models World providers messages kwargs tail w1) as [[r log] w2].
    cbn. eauto.
Qed.

Lemma try_models_none_configured
    (providers : gmap string (LLM.Provider (F:=F) World)) messages kwargs order w :
  Forall (fun m => providers !! m = None) order ->
  LLM.try_models World providers messages kwargs order w = (LLM.unavailable, [], w).
Proof.
  induction 1 as [|m rest Hm _ IH]; simpl; [reflexivity|].
  unfold LLM.Provider in Hm |- *. rewrite Hm. exact IH.
Qed.

(** X16.  Without API keys the router calls nothing.  When none of the
    three API keys is set, [validate_model_configuration] raises the
    no-key [ValueError], and [LLMManager.generate_response] over the
    provider table of the same settings, whatever the preferred model, the
    default model and the fallback list are, makes no provider call, leaves
    the world as it was and returns the sentinel result (model "fallback",
    [success = False]). *)
Theorem no_keys_no_calls (settings : ModelConfig.ApiSettings)
    (st : Config.Settings F) (messages : list Message)
    (preferred_model : option string) (kwargs : LLM.GenParams (F:=F)) (w : World) :
  ModelConfig.key_truthy (ModelConfig.gigachat_api_key settings) = false ->
  ModelConfig.key_truthy (ModelConfig.deepseek_api_key settings) = false ->
  ModelConfig.key_truthy (ModelConfig.openai_api_key settings) = false ->
  ModelConfig.validate_model_configuration settings (Config.default_model st)
  = Raises (Exception "Не настроен ни один API ключ для AI моделей")
  /\ LLM.generate_response World st
       (ModelConfig.provider_table World (initialize settings))
       messages preferred_model kwargs w
     = (LLM.unavailable, [], w).
Proof.
  intros Hg Hd Ho. split.
  - unfold ModelConfig.validate_model_configuration, ModelConfig.get_available_models.
    rewrite Hg, Hd, Ho. reflexivity.
  - unfold LLM.generate_response. apply try_models_none_configured.
    apply Forall_forall. intros m _.
    unfold ModelConfig._initialize_providers. rewrite Hg, Hd, Ho. reflexivity.
Qed.

End ModelFacts.

Example available_models_gigachat_only :
  ModelConfig.manager_available_models unit
    (ModelConfig._initialize_providers unit ModelFixtures.gigachat_class
       ModelFixtures.deepseek_class ModelFixtures.openai_class
       ModelFixtures.gigachat_key_only)
  = ["gigachat"].
Proof. reflexivity. Qed.

Lemma validated_default_is_tried_first_witness :
  ModelConfig.validate_model_configuration ModelFixtures.gigachat_key_only
    (Config.default_model Config.defaults) = Returns true
  /\ exists o rest,
       (LLM.generate_response unit Config.defaults
          (ModelConfig.provider_table unit
             (ModelConfig._initialize_providers unit ModelFixtures.gigachat_class
                ModelFixtures.deepseek_class ModelFixtures.openai_class
                ModelFixtures.gigachat_key_only))
          [] (Some "openai")
          {| LLM.kw_temperature := Binary64.zero; LLM.kw_max_tokens := 16 |} tt).1.2
       = ("gigachat", o) :: rest.
Proof.
  assert (H1 : ModelConfig.validate_model_configuration ModelFixtures.gigachat_key_only
                 (Config.default_model Config.defaults) = Returns true)
    by (vm_compute; reflexivity).
  split; [exact H1|].
  exact (validated_default_is_tried_first unit ModelFixtures.gigachat_class
           ModelFixtures.deepseek_class ModelFixtures.openai_class
           ModelFixtures.gigachat_key_only Config.defaults [] (Some "openai")
           {| LLM.kw_temperature := Binary64.zero; LLM.kw_max_tokens := 16 |} tt H1).
Defined.

Lemma no_keys_no_calls_witness :
  ModelConfig.key_truthy (ModelConfig.gigachat_api_key ModelFixtures.no_keys) = false
  /\ ModelConfig.key_truthy (ModelConfig.deepseek_api_key ModelFixtures.no_keys) = false
  /\ ModelConfig.key_truthy (ModelConfig.openai_api_key ModelFixtures.no_keys) = false
  /\ LLM.generate_response unit Config.defaults
       (ModelConfig.provider_table unit
          (ModelConfig._initialize_providers unit ModelFixtures.gigachat_class
             ModelFixtures.deepseek_class ModelFixtures.openai_class
             ModelFixtures.no_keys))
       [] (Some "gigachat")
       {| LLM.kw_temperature := Binary64.zero; LLM.kw_max_tokens := 16 |} tt
     = (LLM.unavailable, [], tt).
Proof.
  assert (H1 : ModelConfig.key_truthy
                 (ModelConfig.gigachat_api_key ModelFixtures.no_keys) = false)
    by reflexivity.
  assert (H2 : ModelConfig.key_truthy
                 (ModelConfig.deepseek_api_key ModelFixtures.no_keys) = false)
    by reflexivity.
  assert (H3 : ModelConfig.key_truthy
                 (ModelConfig.openai_api_key ModelFixtures.no_keys) = false)
    by reflexivity.
  split; [exact H1|]. split; [exact H2|]. split; [exact H3|].
  exact (proj2 (no_keys_no_calls unit ModelFixtures.gigachat_class
                  ModelFixtures.deepseek_class ModelFixtures.openai_class
                  ModelFixtures.no_keys Config.defaults [] (Some "gigachat")
                  {| LLM.kw_temperature := Binary64.zero; LLM.kw_max_tokens := 16 |}
                  tt H1 H2 H3)).
Defined.

(** ** The providers *)

Section ProviderFacts.

Context {F : Type} `{Arith F}.

Variable Value : Type.
Variable subscript : Value -> Providers.Key -> outcome Value.
Variable dict_get : Value -> string -> outcome Value.
Variable truthy : Value -> bool.
Variable format : Value -> string.
Variable Net : Type.
Variable post : Providers.Request F -> Net -> outcome (Providers.Response Value) * Net.

Local Abbreviation gigachat_generate_response :=
  (Providers.gigachat_generate_response Value subscript dict_get truthy format Net post).
Local Abbreviation gigachat_calls :=
  (Providers.gigachat_calls Value subscript dict_get truthy format Net post).
Local Abbreviation deepseek_generate_response :=
  (Providers.deepseek_generate_response Value subscript Net post).
Local Abbreviation openai_generate_response :=
  (Providers.openai_generate_response Value subscript Net post).

Lemma gigachat_cached_call (self : Providers.GigaChat Value) (token : Value)
    (st : Config.Settings F) messages kwargs (start_time end_time : F) (net : Net) :
  Providers.cached_token Value truthy self = Some token ->
  exists o net',
    gigachat_generate_response self st messages kwargs start_time end_time net
    = (o, [Providers.gigachat_chat_request Value format self st token messages kwargs],
       self, net').
Proof.
  intros Hc. unfold Providers.gigachat_generate_response, Providers._get_access_token.
  rewrite Hc. cbn [app].
  destruct (post _ net) as [[response|e] net1]; eauto.
Qed.

(** X17.  A cached GigaChat token is never renewed.  Once the object
    holds a truthy access token, any number of [generate_response] calls,
    whatever the server answers to them (an expired-token status
    included), leave the object as it is and send exactly one request per
    call, each to [<base_url>/chat/completions] with that same token as the
    bearer; no request goes to [<base_url>/auth]. *)
Theorem gigachat_token_never_renewed (st : Config.Settings F)
    (self : Providers.GigaChat Value) (token : Value) (net : Net)
    (results : list (outcome (Providers.ProviderResult F Value)))
    (sent : list (Providers.Request F)) (self' : Providers.GigaChat Value) (net' : Net) :
  Providers.cached_token Value truthy self = Some token ->
  gigachat_calls st self net results sent self' net' ->
  self' = self
  /\ length sent = length results
  /\ Forall (fun request =>
               Providers.url request
               = Providers.base_url (Providers.provider self) +:+ "/chat/completions"
               /\ Providers.headers request
                  = [ ("Authorization", "Bearer " +:+ format token);
                      ("Content-Type", "application/json") ]
               /\ request <> Providers.auth_request Value self)
       sent.
Proof.
  intros Hc Hcalls. induction Hcalls as
    [self net
    |self net messages kwargs start_time end_time o sent self1 net1
       results sent' self2 net2 Hcall Hrest IH].
  - repeat split; constructor.
  - destruct (gigachat_cached_call self token st messages kwargs start_time end_time
                net Hc) as (o' & net'' & Heq).
    rewrite Heq in Hcall. injection Hcall as <- <- <- <-.
    destruct (IH Hc) as (-> & Hlen & Hall).
    split; [reflexivity|]. split; [cbn; rewrite Hlen; reflexivity|].
    cbn [app]. constructor; [|exact Hall].
    split; [reflexivity|]. split; [reflexivity|].
    intros Heq'. apply (f_equal Providers.data) in Heq'. discriminate.
Qed.

(** X18.  A refused authentication stops the call.  When the object holds
    no truthy token and [<base_url>/auth] answers with a status other than
    200, [generate_response] sends that one request and no chat request,
    returns the failure dictionary whose error is the token error with the
    status, and stores nothing, so that the next call authenticates
    again. *)
Theorem gigachat_auth_refused (st : Config.Settings F)
    (self : Providers.GigaChat Value) messages kwargs (start_time end_time : F)
    (net net1 : Net) (response : Providers.Response Value) :
  Providers.cached_token Value truthy self = None ->
  post (Providers.auth_request Value self) net = (Returns response, net1) ->
  Providers.status response <> 200%Z ->
  gigachat_generate_response self st messages kwargs start_time end_time net
  = (Returns
       {| Providers.content := None; Providers.model := "gigachat";
          Providers.tokens_used := None; Providers.response_time := None;
          Providers.error :=
            Some ("Ошибка получения токена: " +:+ pretty (Providers.status response));
          Providers.success := false |},
     [Providers.auth_request Value self], self, net1)
  /\ Providers.cached_token Value truthy self = None.
Proof.
  intros Hc Hpost Hstatus. split; [|exact Hc].
  unfold Providers.gigachat_generate_response, Providers._get_access_token.
  rewrite Hc, Hpost.
  destruct (Z.eqb_spec (Providers.status response) 200) as [E|_]; [contradiction|].
  reflexivity.
Qed.

Lemma read_response_well_formed (label name : string)
    (response : Providers.Response Value) (start_time end_time : F) :
  exists r,
    Providers.or_failure Value name
      (Providers.read_response Value subscript label name response start_time end_time)
    = Returns r
    /\ Providers.well_formed Value name r
    /\ (Providers.success r = true -> Providers.status response = 200%Z)
    /\ (Providers.status response <> 200%Z ->
        forall text, Providers.response_text response = Returns text ->
        Providers.error r
        = Some (label +:+ " API error: " +:+ pretty (Providers.status response))).
Proof.
  unfold Providers.or_failure, Providers.read_response, Providers.completion.
  destruct (Z.eqb_spec (Providers.status response) 200) as [E|E].
  - destruct (Providers.response_json response) as [result|e]; outcome_step.
    2:{ eexists. split; [reflexivity|]. unfold Providers.well_formed. cbn.
        split; [eauto 10|]. split; [discriminate|contradiction]. }
    repeat match goal with
           | |- context [subscript ?v ?k] =>
               destruct (subscript v k); outcome_step
           end;
      (eexists; split; [reflexivity|]; unfold Providers.well_formed; cbn;
       split; [eauto 10|]; split; [auto; discriminate|contradiction]).
  - destruct (Providers.response_text response) as [text|e]; outcome_step.
    + eexists. split; [reflexivity|]. unfold Providers.well_formed. cbn.
      split; [eauto 10|]. split; [discriminate|]. reflexivity.
    + eexists. split; [reflexivity|]. unfold Providers.well_formed. cbn.
      split; [eauto 10|]. split; [discriminate|]. intros _ text [=].
Qed.

Lemma failure_well_formed (name : string) (e : exn) :
  Providers.well_formed Value name (Providers.failure (F:=F) Value name e).
Proof. unfold Providers.well_formed. cbn. eauto 10. Qed.


End ProviderFacts.

Example expired_token_is_sent_again :
  ProviderRuns.expired_call 0
  = (Returns {| Providers.content := None; Providers.model := "gigachat";
                Providers.tokens_used := None; Providers.response_time := None;
                Providers.error := Some "GigaChat API error: 401";
                Providers.success := false |},
     [ {| Providers.url := "https://giga.test/chat/completions";
          Providers.headers := [ ("Authorization", "Bearer t-1");
                                 ("Content-Type", "application/json") ];
          Providers.data := None;
          Providers.json :=
            Some {| Providers.p_model := None;
                    Providers.p_messages := ProviderFixtures.hello;
                    Providers.p_temperature := Binary64.lit 7 1;
                    Providers.p_max_tokens := 4096;
                    Providers.p_stream := false |};
          Providers.ssl := Some false |} ],
     ProviderFixtures.with_token, 1).
Proof. vm_compute. reflexivity. Qed.

Example expired_token_two_calls :
  Providers.gigachat_calls ProviderFixtures.Json ProviderFixtures.subscript
    ProviderFixtures.dict_get ProviderFixtures.truthy ProviderFixtures.format nat
    ProviderFixtures.expired_server Config.defaults ProviderFixtures.with_token 0
    [ (ProviderRuns.expired_call 0).1.1.1; (ProviderRuns.expired_call 1).1.1.1 ]
    ((ProviderRuns.expired_call 0).1.1.2 ++ (ProviderRuns.expired_call 1).1.1.2 ++ [])
    ProviderFixtures.with_token 2.
Proof.
  eapply (Providers.gigachat_calls_more _ _ _ _ _ _ _ _ _ 0
            ProviderFixtures.hello ProviderFixtures.no_kwargs Binary64.zero Binary64.zero
            _ _ ProviderFixtures.with_token 1).
  { vm_compute. reflexivity. }
  eapply (Providers.gigachat_calls_more _ _ _ _ _ _ _ _ _ 1
            ProviderFixtures.hello ProviderFixtures.no_kwargs Binary64.zero Binary64.zero
            _ _ ProviderFixtures.with_token 2).
  { vm_compute. reflexivity. }
  apply Providers.gigachat_calls_none.
Defined.

Lemma gigachat_token_never_renewed_witness :
  Providers.cached_token ProviderFixtures.Json ProviderFixtures.truthy
    ProviderFixtures.with_token = Some (ProviderFixtures.JStr "t-1")
  /\ length ((ProviderRuns.expired_call 0).1.1.2
             ++ (ProviderRuns.expired_call 1).1.1.2 ++ []) = 2.
Proof.
  assert (H1 : Providers.cached_token ProviderFixtures.Json ProviderFixtures.truthy
                 ProviderFixtures.with_token = Some (ProviderFixtures.JStr "t-1"))
    by reflexivity.
  split; [exact H1|].
  exact (proj1 (proj2
           (gigachat_token_never_renewed ProviderFixtures.Json
              ProviderFixtures.subscript ProviderFixtures.dict_get
              ProviderFixtures.truthy ProviderFixtures.format nat
              ProviderFixtures.expired_server Config.defaults
              ProviderFixtures.with_token (ProviderFixtures.JStr "t-1") 0 _ _ _ _
              H1 expired_token_two_calls))).
Defined.

Lemma gigachat_auth_refused_witness :
  Providers.cached_token ProviderFixtures.Json ProviderFixtures.truthy
    ProviderRuns.fresh = None
  /\ ProviderFixtures.refusing_server
       (Providers.auth_request ProviderFixtures.Json ProviderRuns.fresh) 0
     = (Returns ProviderRuns.refusal, 1)
  /\ Providers.status ProviderRuns.refusal <> 200%Z
  /\ (Providers.gigachat_generate_response ProviderFixtures.Json
        ProviderFixtures.subscript ProviderFixtures.dict_get ProviderFixtures.truthy
        ProviderFixtures.format nat ProviderFixtures.refusing_server
        ProviderRuns.fresh Config.defaults ProviderFixtures.hello
        ProviderFixtures.no_kwargs Binary64.zero Binary64.zero 0).1.1.2
     = [Providers.auth_request ProviderFixtures.Json ProviderRuns.fresh].
Proof.
  assert (H1 : Providers.cached_token ProviderFixtures.Json ProviderFixtures.truthy
                 ProviderRuns.fresh = None) by reflexivity.
  assert (H2 : ProviderFixtures.refusing_server
                 (Providers.auth_request ProviderFixtures.Json ProviderRuns.fresh) 0
               = (Returns ProviderRuns.refusal, 1)) by reflexivity.
  assert (H3 : Providers.status ProviderRuns.refusal <> 200%Z)
    by (simpl; lia).
  split; [exact H1|]. split; [exact H2|]. split; [exact H3|].
  rewrite (proj1 (gigachat_auth_refused ProviderFixtures.Json
                    ProviderFixtures.subscript ProviderFixtures.dict_get
                    ProviderFixtures.truthy ProviderFixtures.format nat
                    ProviderFixtures.refusing_server Config.defaults
                    ProviderRuns.fresh ProviderFixtures.hello
                    ProviderFixtures.no_kwargs Binary64.zero Binary64.zero 0 1
                    ProviderRuns.refusal H1 H2 H3)).
  reflexivity.
Defined.

(** ** Adding documents to the collection *)

Section IngestFacts.

Context {F C : Type}.

Variable Coll : Type.
Variable Rng : Type.
Variable uuid4 : Rng -> string * Rng.
Variable encode_text : list C -> outcome (list F).
Variable collection_add :
  list string -> list (list C) -> list (gmap string Chunker.MetaVal)
  -> list (list F) -> Coll -> outcome unit * Coll.

Local Abbreviation add_documents :=
  (Ingest.add_documents Coll Rng uuid4 encode_text collection_add).
Local Abbreviation add_documents_loop :=
  (Ingest.add_documents_loop Rng uuid4 encode_text).
Local Abbreviation add_knowledge_documents :=
  (Ingest.add_knowledge_documents Coll Rng uuid4 encode_text collection_add).

Lemma add_documents_loop_maps (documents : list (Chunker.SourceDocument C))
    (vectors : list (list F)) (batch : Ingest.Batch F C) (rng : Rng) :
  Forall2 (fun doc vector => encode_text (IngestSpec.text_of doc) = Returns vector)
    documents vectors ->
  add_documents_loop documents batch rng
  = (Returns
       {| Ingest.ids :=
            Ingest.ids batch ++ (IngestSpec.draw Rng uuid4 (length documents) rng).1;
          Ingest.texts := Ingest.texts batch ++ map IngestSpec.text_of documents;
          Ingest.metadatas :=
            Ingest.metadatas batch
            ++ zip_with IngestSpec.stamped
                 (IngestSpec.draw Rng uuid4 (length documents) rng).1 documents;
          Ingest.embeddings := Ingest.embeddings batch ++ vectors |},
     (IngestSpec.draw Rng uuid4 (length documents) rng).2).
Proof.
  intros Hall. revert batch rng.
  induction Hall as [|doc vector documents vectors Hdoc _ IH]; intros batch rng.
  - cbn. rewrite !app_nil_r. destruct batch; reflexivity.
  - cbn [Ingest.add_documents_loop length IngestSpec.draw].
    destruct (uuid4 rng) as [doc_id rng1].
    fold (IngestSpec.text_of doc). rewrite Hdoc. rewrite IH.
    cbn [Ingest.ids Ingest.texts Ingest.metadatas Ingest.embeddings].
    destruct (IngestSpec.draw Rng uuid4 (length documents) rng1) as [more rng2].
    cbn [fst snd map zip_with]. rewrite <- !app_assoc. reflexivity.
Qed.

Lemma draw_length (n : nat) (rng : Rng) :
  length (IngestSpec.draw Rng uuid4 n rng).1 = n.
Proof.
  revert rng. induction n as [|n IH]; intros rng; cbn; [reflexivity|].
  destruct (uuid4 rng) as [doc_id rng1]. specialize (IH rng1).
  destruct (IngestSpec.draw Rng uuid4 n rng1) as [more rng2]. cbn in *.
  rewrite IH. reflexivity.
Qed.

(** X20.  What [add_documents] hands to the collection.  For a non-empty
    list of documents whose texts the embedding model encodes,
    [add_documents] draws one UUID per document, calls [collection.add]
    once with four lists as long as the input (the ids, the texts, the
    metadata and the vectors, document by document), and returns those ids
    when the collection accepts them, or raises what the collection raised.
    The metadata stored for a document is the document's own with [doc_id]
    set to its id and [text_length] to the length of its text, whatever the
    document had under these two keys. *)
Theorem add_documents_batch (documents : list (Chunker.SourceDocument C))
    (vectors : list (list F)) (rng : Rng) (coll : Coll) :
  documents <> [] ->
  Forall2 (fun doc vector => encode_text (IngestSpec.text_of doc) = Returns vector)
    documents vectors ->
  let doc_ids := (IngestSpec.draw Rng uuid4 (length documents) rng).1 in
  let metadatas := zip_with IngestSpec.stamped doc_ids documents in
  let added :=
    collection_add doc_ids (map IngestSpec.text_of documents) metadatas vectors coll in
  add_documents documents rng coll
  = (match added.1 with
     | Returns _ => Returns doc_ids
     | Raises e => Raises e
     end,
     (IngestSpec.draw Rng uuid4 (length documents) rng).2, added.2)
  /\ length doc_ids = length documents
  /\ length metadatas = length documents
  /\ length vectors = length documents
  /\ forall (i : nat) (metadata : gmap string Chunker.MetaVal),
       metadatas !! i = Some metadata ->
       exists doc_id doc,
         doc_ids !! i = Some doc_id /\ documents !! i = Some doc
         /\ metadata !! "doc_id" = Some (Chunker.MStr doc_id)
         /\ metadata !! "text_length"
            = Some (Chunker.MInt (Z.of_nat (length (IngestSpec.text_of doc))))
         /\ forall key : string,
              key <> "doc_id" -> key <> "text_length" ->
              metadata !! key = default ∅ (Chunker.doc_metadata doc) !! key.
Proof.
  intros Hne Hall doc_ids metadatas added.
  assert (Hids : length doc_ids = length documents) by apply draw_length.
  split; [|split; [exact Hids|split; [|split]]].
  - unfold Ingest.add_documents.
    destruct documents as [|doc rest]; [contradiction|]. cbn [list_truthy negb].
    rewrite (add_documents_loop_maps _ vectors) by exact Hall.
    cbn [Ingest.ids Ingest.texts Ingest.metadatas Ingest.embeddings app].
    fold doc_ids. fold metadatas. fold added.
    destruct added as [[u|e] coll1]; reflexivity.
  - subst metadatas. rewrite length_zip_with. lia.
  - symmetry. eapply Forall2_length. exact Hall.
  - intros i metadata Hi. subst metadatas.
    apply lookup_zip_with_Some in Hi.
    destruct Hi as (doc_id & doc & -> & Hid & Hdoc).
    exists doc_id, doc. split; [exact Hid|]. split; [exact Hdoc|].
    unfold IngestSpec.stamped. split; [|split].
    + rewrite lookup_insert_ne by discriminate. apply lookup_insert_eq.
    + apply lookup_insert_eq.
    + intros key H1 H2. rewrite !lookup_insert_ne by congruence. reflexivity.
Qed.

Lemma chunk_documents_loop_no_content (fuel : nat) (self : Chunker.DocumentChunker)
    (documents : list (Chunker.SourceDocument C)) (all_chunks : list (Chunker.Chunk C)) :
  Forall (fun doc => default [] (Chunker.doc_content doc) = []) documents ->
  Chunker.chunk_documents_loop fuel self documents all_chunks = Some all_chunks.
Proof.
  intros Hall. revert all_chunks.
  induction Hall as [|doc rest Hdoc _ IH]; intros all_chunks;
    cbn [Chunker.chunk_documents_loop]; [reflexivity|].
  rewrite Hdoc.
  assert (Hnone : forall metadata,
            Chunker.chunk_text fuel self (@nil C) metadata = Some [])
    by (intros metadata; destruct fuel; reflexivity).
  rewrite Hnone, app_nil_r. apply IH.
Qed.

Lemma add_knowledge_documents_no_content (fuel : nat) (self : Chunker.DocumentChunker)
    (documents : list (Chunker.SourceDocument C)) (rng : Rng) (coll : Coll) :
  Forall (fun doc => default [] (Chunker.doc_content doc) = []) documents ->
  add_knowledge_documents fuel self documents rng coll = Some (Returns [], rng, coll).
Proof.
  intros Hall. unfold Ingest.add_knowledge_documents, Chunker.chunk_documents.
  rewrite chunk_documents_loop_no_content by exact Hall. reflexivity.
Qed.

(** X21.  A knowledge document is read under ["content"] only.
    [add_knowledge_documents] splits what each document holds under
    ["content"]; documents that have no such key, or an empty string
    there, give no chunk, whatever they hold under ["text"] and whatever
    the chunker's sizes are.  When no document of the list has content,
    the call returns the empty list of ids without drawing a UUID or
    touching the collection, and raises nothing. *)
Theorem knowledge_documents_need_content (fuel : nat) (self : Chunker.DocumentChunker)
    (documents : list (Chunker.SourceDocument C)) (rng : Rng) (coll : Coll) :
  Forall (fun doc => Chunker.doc_content doc = None \/ Chunker.doc_content doc = Some [])
    documents ->
  Chunker.chunk_documents fuel self documents = Some []
  /\ add_knowledge_documents fuel self documents rng coll = Some (Returns [], rng, coll).
Proof.
  intros Hall.
  assert (Hempty : Forall (fun doc => default [] (Chunker.doc_content doc) = [])
                     documents).
  { eapply Forall_impl; [exact Hall|]. intros doc [-> | ->]; reflexivity. }
  split.
  - apply chunk_documents_loop_no_content. exact Hempty.
  - apply add_knowledge_documents_no_content. exact Hempty.
Qed.

End IngestFacts.

(** ** The Confluence synchronisation *)

Section ConfluenceFacts.

Context {F C : Type}.

Variable Coll : Type.
Variable Rng : Type.
Variable uuid4 : Rng -> string * Rng.
Variable encode_text : list C -> outcome (list F).
Variable collection_add :
  list string -> list (list C) -> list (gmap string Chunker.MetaVal)
  -> list (list F) -> Coll -> outcome unit * Coll.
Variable Net : Type.
Variable _get_space_pages : string -> Net -> outcome (list Confluence.Page) * Net.
Variable _get_page_content : string -> Net -> outcome (option (list C)) * Net.

Local Abbreviation no_content :=
  (fun doc : Chunker.SourceDocument C => default [] (Chunker.doc_content doc) = []).

Lemma sync_pages_no_content (self : Confluence.ConfluenceSync) (space_key : string)
    (pages : list Confluence.Page) (documents : list (Chunker.SourceDocument C))
    (net : Net) :
  Forall no_content documents ->
  match (Confluence.sync_pages Net _get_page_content self space_key pages documents
           net).1 with
  | Returns documents' => Forall no_content documents'
  | Raises _ => True
  end.
Proof.
  revert documents net. induction pages as [|page rest IH]; intros documents net Hdocs.
  - exact Hdocs.
  - cbn [Confluence.sync_pages].
    destruct (Confluence.page_id page) as [page_id_|e]; [|exact I].
    destruct (_get_page_content page_id_ net) as [[content|e] net1].
    + destruct (Confluence.content_truthy content).
      * apply IH. apply Forall_app. split; [exact Hdocs|].
        constructor; [reflexivity|constructor].
      * apply IH. exact Hdocs.
    + apply IH. exact Hdocs.
Qed.

Lemma sync_space_no_content (self : Confluence.ConfluenceSync) (space_key : string)
    (net : Net) :
  Forall no_content
    (Confluence._sync_space Net _get_space_pages _get_page_content self space_key net).1.
Proof.
  unfold Confluence._sync_space.
  destruct (_get_space_pages space_key net) as [[pages|e] net1]; [|constructor].
  pose proof (sync_pages_no_content self space_key pages [] net1
                (List.Forall_nil _)) as Hp.
  destruct (Confluence.sync_pages Net _get_page_content self space_key pages [] net1)
    as [[documents|e] net2]; [exact Hp | constructor].
Qed.

Lemma sync_spaces_no_content (self : Confluence.ConfluenceSync) (keys : list string)
    (all_documents : list (Chunker.SourceDocument C)) (net : Net) :
  Forall no_content all_documents ->
  Forall no_content
    (Confluence.sync_spaces Net _get_space_pages _get_page_content self keys
       all_documents net).1.
Proof.
  revert all_documents net. induction keys as [|space_key rest IH];
    intros all_documents net Hdocs; [exact Hdocs|].
  cbn [Confluence.sync_spaces].
  pose proof (sync_space_no_content self space_key net) as Hs.
  destruct (Confluence._sync_space Net _get_space_pages _get_page_content self
              space_key net) as [space_documents net1].
  apply IH. apply Forall_app. split; [exact Hdocs | exact Hs].
Qed.

(** X22.  The Confluence synchronisation stores nothing.
    [sync_all_spaces] always returns, and leaves the vector collection and
    the UUID generator exactly as they were: the documents it builds keep
    the page body under ["text"], which the ingestion path does not read,
    so no chunk is made and [collection.add] is never called.  With the
    three credentials set it nevertheless reports [success = True], with
    [documents_synced] the number of pages whose content it fetched and
    [spaces_synced] the number of configured spaces; without them it
    reports the missing credentials and makes no request. *)
Theorem confluence_sync_stores_nothing (fuel : nat)
    (document_chunker : Chunker.DocumentChunker) (self : Confluence.ConfluenceSync)
    (rng : Rng) (coll : Coll) (net : Net) :
  let fetched :=
    Confluence.sync_spaces Net _get_space_pages _get_page_content self
      (Confluence.space_keys self) [] net in
  Confluence.sync_all_spaces Coll Rng uuid4 encode_text collection_add Net
    _get_space_pages _get_page_content fuel document_chunker self rng coll net
  = Some
      (if Confluence.credentials_set self
       then ({| Confluence.success := true; Confluence.error := None;
                Confluence.documents_synced := Some (length fetched.1);
                Confluence.spaces_synced :=
                  Some (length (Confluence.space_keys self)) |},
             rng, coll, fetched.2)
       else ({| Confluence.success := false;
                Confluence.error := Some "Confluence credentials not configured";
                Confluence.documents_synced := None;
                Confluence.spaces_synced := None |},
             rng, coll, net)).
Proof.
  intros fetched. unfold Confluence.sync_all_spaces.
  destruct (Confluence.credentials_set self); cbn [negb]; [|reflexivity].
  pose proof (sync_spaces_no_content self (Confluence.space_keys self) [] net
                (List.Forall_nil _)) as Hdocs.
  fold fetched in Hdocs |- *. destruct fetched as [all_documents net1].
  cbn [fst snd] in *.
  destruct (list_truthy all_documents); [|reflexivity].
  rewrite (add_knowledge_documents_no_content Coll Rng uuid4 encode_text
             collection_add fuel document_chunker all_documents rng coll Hdocs).
  reflexivity.
Qed.

End ConfluenceFacts.

Lemma add_documents_batch_witness :
  [IngestFixtures.with_own_id; IngestFixtures.empty_dict] <> []
  /\ Forall2 (fun doc vector =>
                IngestFixtures.encode_text (IngestSpec.text_of doc) = Returns vector)
       [IngestFixtures.with_own_id; IngestFixtures.empty_dict]
       [[Binary64.zero]; [Binary64.zero]]
  /\ Ingest.add_documents (list (list string)) nat IngestFixtures.uuid4
       IngestFixtures.encode_text IngestFixtures.collection_add
       [IngestFixtures.with_own_id; IngestFixtures.empty_dict] 0 []
     = (Returns ["id-0"; "id-1"], 2, [["id-0"; "id-1"]]).
Proof.
  assert (H1 : [IngestFixtures.with_own_id; IngestFixtures.empty_dict] <> [])
    by discriminate.
  assert (H2 : Forall2 (fun doc vector =>
                          IngestFixtures.encode_text (IngestSpec.text_of doc)
                          = Returns vector)
                 [IngestFixtures.with_own_id; IngestFixtures.empty_dict]
                 [[Binary64.zero]; [Binary64.zero]])
    by (repeat constructor).
  split; [exact H1|]. split; [exact H2|].
  rewrite (proj1 (add_documents_batch (list (list string)) nat IngestFixtures.uuid4
                    IngestFixtures.encode_text IngestFixtures.collection_add
                    [IngestFixtures.with_own_id; IngestFixtures.empty_dict]
                    [[Binary64.zero]; [Binary64.zero]] 0 [] H1 H2)).
  vm_compute. reflexivity.
Defined.

Lemma knowledge_documents_need_content_witness :
  Forall (fun doc : Chunker.SourceDocument nat =>
            Chunker.doc_content doc = None \/ Chunker.doc_content doc = Some [])
    [IngestFixtures.with_own_id]
  /\ Ingest.add_knowledge_documents (F:=Binary64.float) (list (list string)) nat
       IngestFixtures.uuid4 IngestFixtures.encode_text IngestFixtures.collection_add
       0 ChunkerFixtures.ten_four [IngestFixtures.with_own_id] 0 []
     = Some (Returns [], 0, []).
Proof.
  assert (H1 : Forall (fun doc : Chunker.SourceDocument nat =>
                         Chunker.doc_content doc = None
                         \/ Chunker.doc_content doc = Some [])
                 [IngestFixtures.with_own_id])
    by (repeat constructor).
  split; [exact H1|].
  exact (proj2 (knowledge_documents_need_content (F:=Binary64.float)
                  (list (list string)) nat IngestFixtures.uuid4
                  IngestFixtures.encode_text IngestFixtures.collection_add
                  0 ChunkerFixtures.ten_four [IngestFixtures.with_own_id] 0 [] H1)).
Defined.

Example confluence_two_pages_fetched_none_stored :
  Confluence.sync_all_spaces (F:=Binary64.float) (list (list string)) nat
    IngestFixtures.uuid4 IngestFixtures.encode_text IngestFixtures.collection_add
    nat IngestFixtures._get_space_pages IngestFixtures._get_page_content
    100 ChunkerFixtures.ten_four IngestFixtures.configured 0 [] 0
  = Some ({| Confluence.success := true; Confluence.error := None;
             Confluence.documents_synced := Some 2;
             Confluence.spaces_synced := Some 2 |}, 0, [], 4).
Proof. vm_compute. reflexivity. Qed.

(** ** The connection manager *)

Section ConnectionFacts.

Context {F : Type} `{Arith F}.

Variable Socket : Type.
Variable World : Type.
Variable send_text : Socket -> string -> World -> outcome unit * World.
Variable json_dumps : WebSocket.Outgoing F -> outcome string.
Variable loop_time : World -> F.
Variable process_message :
  Z -> string -> option string -> option string -> World
  -> outcome (ChatService.ServiceResult F) * World.

Implicit Types (self manager : WebSocket.ConnectionManager Socket).
Implicit Types (d : list (string * Socket)) (users : list string).

Local Abbreviation send_personal_message :=
  (WebSocket.send_personal_message Socket World send_text json_dumps).
Local Abbreviation broadcast := (WebSocket.broadcast Socket World send_text json_dumps).
Local Abbreviation broadcast_loop :=
  (WebSocket.broadcast_loop Socket World send_text json_dumps).
Local Abbreviation handle_chat_message :=
  (WebSocket.handle_chat_message Socket World send_text json_dumps loop_time
     process_message).

Lemma dict_get_del_same d key : WebSocket.dict_get (WebSocket.dict_del d key) key = None.
Proof.
  induction d as [|[k v] rest IH]; [reflexivity|].
  unfold WebSocket.dict_del in *. cbn [List.filter fst].
  destruct (String.eqb k key) eqn:Hk; cbn [negb]; [exact IH|].
  cbn [WebSocket.dict_get]. rewrite Hk. exact IH.
Qed.

Lemma dict_del_absent d key :
  WebSocket.dict_get d key = None -> WebSocket.dict_del d key = d.
Proof.
  induction d as [|[k v] rest IH]; [reflexivity|].
  cbn [WebSocket.dict_get]. unfold WebSocket.dict_del in *. cbn [List.filter fst].
  destruct (String.eqb k key); [discriminate|].
  intros Hrest. cbn [negb]. rewrite IH by exact Hrest. reflexivity.
Qed.

Lemma disconnect_active self user_id :
  WebSocket.active_connections (WebSocket.disconnect self user_id)
  = WebSocket.dict_del (WebSocket.active_connections self) user_id.
Proof.
  unfold WebSocket.disconnect.
  destruct (WebSocket.dict_get (WebSocket.active_connections self) user_id)
    as [socket|] eqn:Hget.
  - rewrite (bool_decide_eq_true_2 (is_Some (Some socket)))
      by (eexists; reflexivity).
    cbn [WebSocket.user_sessions WebSocket.active_connections].
    destruct (bool_decide (is_Some (WebSocket.user_sessions self !! user_id)));
      reflexivity.
  - rewrite (bool_decide_eq_false_2 (is_Some (@None Socket)))
      by (intros [? [=]]).
    rewrite dict_del_absent by exact Hget.
    destruct (bool_decide (is_Some (WebSocket.user_sessions self !! user_id)));
      reflexivity.
Qed.

Lemma disconnect_sessions self user_id :
  WebSocket.user_sessions (WebSocket.disconnect self user_id)
  = delete user_id (WebSocket.user_sessions self).
Proof.
  unfold WebSocket.disconnect.
  set (self1 := if bool_decide
                      (is_Some (WebSocket.dict_get (WebSocket.active_connections self)
                                  user_id))
                then {| WebSocket.active_connections :=
                          WebSocket.dict_del (WebSocket.active_connections self) user_id;
                        WebSocket.user_sessions := WebSocket.user_sessions self |}
                else self).
  assert (Hsame : WebSocket.user_sessions self1 = WebSocket.user_sessions self)
    by (subst self1; destruct (bool_decide _); reflexivity).
  rewrite Hsame.
  destruct (WebSocket.user_sessions self !! user_id) as [s|] eqn:Hs.
  - rewrite bool_decide_eq_true_2 by (eexists; reflexivity). reflexivity.
  - rewrite bool_decide_eq_false_2 by (intros [? [=]]).
    rewrite Hsame. symmetry. apply delete_id. exact Hs.
Qed.

Lemma disconnect_all users self :
  WebSocket.active_connections (fold_left WebSocket.disconnect users self)
  = List.filter (fun entry => bool_decide (entry.1 ∉ users))
      (WebSocket.active_connections self)
  /\ forall user_id : string,
       WebSocket.user_sessions (fold_left WebSocket.disconnect users self) !! user_id
       = if bool_decide (user_id ∈ users) then None
         else WebSocket.user_sessions self !! user_id.
Proof.
  revert self. induction users as [|u users IH]; intros self.
  - split.
    + cbn [fold_left]. induction (WebSocket.active_connections self) as [|e l IHl];
        [reflexivity|].
      cbn [List.filter]. rewrite bool_decide_eq_true_2 by apply not_elem_of_nil.
      rewrite <- IHl. reflexivity.
    + intros user_id. rewrite bool_decide_eq_false_2 by apply not_elem_of_nil.
      reflexivity.
  - cbn [fold_left]. destruct (IH (WebSocket.disconnect self u)) as [Ha Hs]. split.
    + rewrite Ha, disconnect_active. unfold WebSocket.dict_del.
      induction (WebSocket.active_connections self) as [|[k v] l IHl]; [reflexivity|].
      cbn [List.filter fst]. destruct (String.eqb_spec k u) as [->|Hne]; cbn [negb].
      * rewrite IHl. rewrite (bool_decide_eq_false_2 (u ∉ u :: users))
          by (intros Hn; apply Hn; left). reflexivity.
      * cbn [List.filter fst]. rewrite IHl.
        destruct (decide (k ∈ users)) as [Hin|Hin].
        -- rewrite (bool_decide_eq_false_2 (k ∉ users)) by tauto.
           rewrite (bool_decide_eq_false_2 (k ∉ u :: users))
             by (intros Hn; apply Hn; right; exact Hin).
           reflexivity.
        -- rewrite (bool_decide_eq_true_2 (k ∉ users)) by exact Hin.
           rewrite (bool_decide_eq_true_2 (k ∉ u :: users))
             by (rewrite elem_of_cons; tauto).
           reflexivity.
    + intros user_id. rewrite Hs, disconnect_sessions.
      destruct (decide (user_id = u)) as [->|Hne].
      * rewrite (bool_decide_eq_true_2 (u ∈ u :: users)) by left.
        rewrite lookup_delete_eq. destruct (bool_decide _); reflexivity.
      * rewrite lookup_delete_ne by congruence.
        destruct (decide (user_id ∈ users)) as [Hin|Hin].
        -- rewrite !bool_decide_eq_true_2; [reflexivity|right; exact Hin|exact Hin].
        -- rewrite !bool_decide_eq_false_2;
             [reflexivity|rewrite elem_of_cons; tauto|exact Hin].
Qed.

Lemma filter_none {A : Type} (P : A -> bool) (l : list A) :
  (forall x, x ∈ l -> P x = false) -> List.filter P l = [].
Proof.
  induction l as [|a l IH]; intros Hall; [reflexivity|].
  cbn [List.filter]. rewrite Hall by left. apply IH.
  intros x Hx. apply Hall. right. exact Hx.
Qed.

Lemma broadcast_loop_log (items : list (string * Socket)) (message : WebSocket.Outgoing F)
    users (log : list (WebSocket.Sent (F:=F))) (w : World) :
  let '(users', log', w') := broadcast_loop items message users log w in
  match json_dumps message with
  | Returns _ =>
      exists attempts,
        log' = log ++ attempts
        /\ attempts.*1 = map (fun entry => (entry.1, message)) items
        /\ users' = users ++ WebSocketLog.failed_users attempts
  | Raises _ => log' = log /\ users' = users ++ items.*1
  end.
Proof.
  revert users log w. induction items as [|[user_id connection] rest IH];
    intros users log w.
  - cbn [WebSocket.broadcast_loop].
    destruct (json_dumps message) as [payload|e].
    + exists []. rewrite !app_nil_r. auto.
    + rewrite app_nil_r. auto.
  - cbn [WebSocket.broadcast_loop].
    destruct (json_dumps message) as [payload|e] eqn:Hjson.
    + destruct (send_text connection payload w) as [[u|e] w1].
      * specialize (IH users (log ++ [(user_id, message, Returns tt)]) w1).
        destruct (broadcast_loop rest message users _ w1) as [[users' log'] w'].
        destruct IH as (attempts & -> & Hnames & ->).
        exists ((user_id, message, Returns tt) :: attempts).
        rewrite <- app_assoc. split; [reflexivity|]. split.
        -- rewrite fmap_cons, Hnames. reflexivity.
        -- reflexivity.
      * specialize (IH (users ++ [user_id]) (log ++ [(user_id, message, Raises e)]) w1).
        destruct (broadcast_loop rest message _ _ w1) as [[users' log'] w'].
        destruct IH as (attempts & -> & Hnames & ->).
        exists ((user_id, message, Raises e) :: attempts).
        rewrite <- !app_assoc. split; [reflexivity|]. split.
        -- rewrite fmap_cons, Hnames. reflexivity.
        -- reflexivity.
    + specialize (IH (users ++ [user_id]) log w).
      destruct (broadcast_loop rest message _ log w) as [[users' log'] w'].
      destruct IH as (-> & ->).
      rewrite <- app_assoc. auto.
Qed.

(** X23.  A broadcast reaches every connection once and drops the ones
    that fail.  [broadcast] never raises.  When the message can be
    serialised, it calls [send_text] once on every active connection, in
    the order of connection; afterwards exactly the users whose send
    raised are gone from [active_connections] (the others keep their order)
    and from [user_sessions].  When [json.dumps] raises on the message,
    nothing is sent and every connected user is disconnected. *)
Theorem broadcast_drops_failed self (message : WebSocket.Outgoing F) (w : World) :
  let '(self', log, w') := broadcast self message w in
  let failed :=
    match json_dumps message with
    | Returns _ => WebSocketLog.failed_users log
    | Raises _ => (WebSocket.active_connections self).*1
    end in
  match json_dumps message with
  | Returns _ =>
      log.*1 = map (fun entry => (entry.1, message)) (WebSocket.active_connections self)
  | Raises _ => log = [] /\ WebSocket.active_connections self' = []
  end
  /\ WebSocket.active_connections self'
     = List.filter (fun entry => bool_decide (entry.1 ∉ failed))
         (WebSocket.active_connections self)
  /\ forall user_id : string,
       WebSocket.user_sessions self' !! user_id
       = if bool_decide (user_id ∈ failed) then None
         else WebSocket.user_sessions self !! user_id.
Proof.
  unfold WebSocket.broadcast.
  pose proof (broadcast_loop_log (WebSocket.active_connections self) message [] [] w)
    as Hloop.
  destruct (broadcast_loop (WebSocket.active_connections self) message [] [] w)
    as [[users log] w'].
  destruct (disconnect_all users self) as [Ha Hs].
  destruct (json_dumps message) as [payload|e].
  - destruct Hloop as (attempts & -> & Hnames & ->). cbn [app] in *.
    split; [exact Hnames|]. split; [exact Ha | exact Hs].
  - destruct Hloop as (-> & ->). cbn [app] in *.
    split; [|split; [exact Ha | exact Hs]].
    split; [reflexivity|]. rewrite Ha.
    apply filter_none. intros entry Hentry.
    apply bool_decide_eq_false_2. intros Hn. apply Hn.
    apply list_elem_of_fmap_2. exact Hentry.
Qed.

End ConnectionFacts.

(** ** The chat handler of the WebSocket endpoint *)

Section ChatHandlerFacts.

Context {F : Type} `{Arith F}.

Variable Socket : Type.
Variable World : Type.
Variable send_text : Socket -> string -> World -> outcome unit * World.
Variable json_dumps : WebSocket.Outgoing F -> outcome string.
Variable loop_time : World -> F.
Variable process_message :
  Z -> string -> option string -> option string -> World
  -> outcome (ChatService.ServiceResult F) * World.

Implicit Types (manager : WebSocket.ConnectionManager Socket).

Local Abbreviation send_personal_message :=
  (WebSocket.send_personal_message Socket World send_text json_dumps).
Local Abbreviation handle_chat_message :=
  (WebSocket.handle_chat_message Socket World send_text json_dumps loop_time
     process_message).

Lemma send_personal_message_delivered manager (socket : Socket)
    (message : WebSocket.Outgoing F) (user_id : string) (w : World) :
  WebSocket.dict_get (WebSocket.active_connections manager) user_id = Some socket ->
  (forall payload w0, (send_text socket payload w0).1 = Returns tt) ->
  (forall m, exists payload, json_dumps m = Returns payload) ->
  exists payload,
    json_dumps message = Returns payload
    /\ send_personal_message manager message user_id w
       = (manager, [(user_id, message, Returns tt)], (send_text socket payload w).2).
Proof.
  intros Hsock Hsend Hjson. destruct (Hjson message) as [payload Hpayload].
  exists payload. split; [exact Hpayload|].
  unfold WebSocket.send_personal_message. rewrite Hsock, Hpayload.
  pose proof (Hsend payload w) as Hs.
  destruct (send_text socket payload w) as [[u|e] w1]; cbn in Hs; [|discriminate].
  destruct u. reflexivity.
Qed.

(** X24.  A chat message on a working connection.  When the user's
    socket accepts every send and the messages can be serialised,
    [handle_chat_message] answers an empty (or missing) message with the
    single error "Пустое сообщение" and does not call the chat service; a
    non-empty message gets "typing start", then the service is called, and
    then "typing stop" followed by the chat response built from the
    service's dictionary, after which [user_sessions] holds the session id
    the service returned (if it is non-empty); when the service raises,
    the reply to "typing start" is the error "Ошибка обработки сообщения"
    and no "typing stop" is sent.  The connection stays registered. *)
Theorem chat_message_replies (user : Z) (message_data : WebSocket.MessageData)
    (user_id : string) manager (socket : Socket) (w : World) :
  WebSocket.dict_get (WebSocket.active_connections manager) user_id = Some socket ->
  (forall payload w0, (send_text socket payload w0).1 = Returns tt) ->
  (forall m, exists payload, json_dumps m = Returns payload) ->
  let message := default "" (WebSocket.md_message message_data) in
  let '(manager', log, w') := handle_chat_message user message_data user_id manager w in
  WebSocket.active_connections manager' = WebSocket.active_connections manager
  /\ if str_truthy message then
       exists payload w2 o,
         json_dumps (WebSocket.Typing "start" (loop_time w)) = Returns payload
         /\ process_message user message (WebSocket.md_session_id message_data)
              (WebSocket.md_preferred_model message_data)
              (send_text socket payload w).2 = (o, w2)
         /\ match o with
            | Returns response =>
                exists t1 t2,
                  log = [ (user_id, WebSocket.Typing "start" (loop_time w), Returns tt);
                          (user_id, WebSocket.Typing "stop" t1, Returns tt);
                          (user_id, WebSocket.chat_response response t2, Returns tt) ]
                  /\ WebSocket.user_sessions manager'
                     = if WebSocket.session_truthy
                            (ChatService.result_session_id response)
                       then <[user_id :=
                                default "" (ChatService.result_session_id response)]>
                              (WebSocket.user_sessions manager)
                       else WebSocket.user_sessions manager
            | Raises e =>
                exists t1,
                  log = [ (user_id, WebSocket.Typing "start" (loop_time w), Returns tt);
                          (user_id, WebSocket.Error "Ошибка обработки сообщения" t1,
                           Returns tt) ]
                  /\ manager' = manager
            end
     else
       exists payload,
         json_dumps (WebSocket.Error "Пустое сообщение" (loop_time w)) = Returns payload
         /\ log = [ (user_id, WebSocket.Error "Пустое сообщение" (loop_time w),
                     Returns tt) ]
         /\ manager' = manager
         /\ w' = (send_text socket payload w).2.
Proof.
  intros Hsock Hsend Hjson message. unfold WebSocket.handle_chat_message.
  fold message. destruct (str_truthy message); cbn [negb].
  - destruct (send_personal_message_delivered manager socket
                (WebSocket.Typing "start" (loop_time w)) user_id w Hsock Hsend Hjson)
      as (payload & Hpayload & ->).
    set (w1 := (send_text socket payload w).2).
    destruct (process_message user message (WebSocket.md_session_id message_data)
                (WebSocket.md_preferred_model message_data) w1)
      as [[response|e] w2] eqn:Hservice.
    + destruct (send_personal_message_delivered manager socket
                  (WebSocket.Typing "stop" (loop_time w2)) user_id w2 Hsock Hsend Hjson)
        as (payload2 & _ & ->).
      set (w3 := (send_text socket payload2 w2).2).
      destruct (send_personal_message_delivered manager socket
                  (WebSocket.chat_response response (loop_time w3)) user_id w3
                  Hsock Hsend Hjson) as (payload3 & _ & ->).
      split.
      * destruct (WebSocket.session_truthy _); reflexivity.
      * exists payload, w2, (Returns response).
        split; [exact Hpayload|]. split; [exact Hservice|].
        exists (loop_time w2), (loop_time w3). split; [reflexivity|].
        destruct (WebSocket.session_truthy _); reflexivity.
    + destruct (send_personal_message_delivered manager socket
                  (WebSocket.Error "Ошибка обработки сообщения" (loop_time w2))
                  user_id w2 Hsock Hsend Hjson) as (payload2 & _ & ->).
      split; [reflexivity|].
      exists payload, w2, (Raises e).
      split; [exact Hpayload|]. split; [exact Hservice|].
      exists (loop_time w2). split; reflexivity.
  - destruct (send_personal_message_delivered manager socket
                (WebSocket.Error "Пустое сообщение" (loop_time w)) user_id w
                Hsock Hsend Hjson) as (payload & Hpayload & ->).
    split; [reflexivity|]. exists payload. auto.
Qed.

Lemma send_personal_message_absent manager (message : WebSocket.Outgoing F)
    (user_id : string) (w : World) :
  WebSocket.dict_get (WebSocket.active_connections manager) user_id = None ->
  send_personal_message manager message user_id w = (manager, [], w).
Proof.
  intros Hnone. unfold WebSocket.send_personal_message. rewrite Hnone. reflexivity.
Qed.

Lemma disconnect_removes manager (user_id : string) (socket : Socket) :
  WebSocket.dict_get (WebSocket.active_connections manager) user_id = Some socket ->
  WebSocket.dict_get
    (WebSocket.active_connections (WebSocket.disconnect manager user_id)) user_id = None
  /\ WebSocket.user_sessions (WebSocket.disconnect manager user_id) !! user_id = None.
Proof.
  intros Hsock. unfold WebSocket.disconnect.
  rewrite Hsock.
  rewrite (bool_decide_eq_true_2 (is_Some (Some socket))) by (eexists; reflexivity).
  cbn [WebSocket.user_sessions WebSocket.active_connections].
  destruct (WebSocket.user_sessions manager !! user_id) as [s|] eqn:Hs.
  - rewrite bool_decide_eq_true_2 by (eexists; reflexivity).
    cbn [WebSocket.user_sessions WebSocket.active_connections].
    split; [apply dict_get_del_same | apply lookup_delete_eq].
  - rewrite bool_decide_eq_false_2 by (intros [? [=]]).
    cbn [WebSocket.user_sessions WebSocket.active_connections].
    split; [apply dict_get_del_same | exact Hs].
Qed.

(** X25.  A chat message on a dead connection leaves a session behind.
    When the user's socket raises on every send, [handle_chat_message]
    with a non-empty message tries one send ("typing start"), which
    disconnects the user; the chat service is called all the same; no
    further send is tried; and when the service returns a non-empty session
    id, [user_sessions] ends up holding that id for a user who has no
    active connection. *)
Theorem chat_message_on_dead_socket (user : Z) (message_data : WebSocket.MessageData)
    (user_id : string) manager (socket : Socket) (w : World) :
  WebSocket.dict_get (WebSocket.active_connections manager) user_id = Some socket ->
  (forall payload w0, exists e, (send_text socket payload w0).1 = Raises e) ->
  (forall m, exists payload, json_dumps m = Returns payload) ->
  str_truthy (default "" (WebSocket.md_message message_data)) = true ->
  let '(manager', log, w') := handle_chat_message user message_data user_id manager w in
  exists payload e,
    json_dumps (WebSocket.Typing "start" (loop_time w)) = Returns payload
    /\ log = [ (user_id, WebSocket.Typing "start" (loop_time w), Raises e) ]
    /\ WebSocket.dict_get (WebSocket.active_connections manager') user_id = None
    /\ let called :=
         process_message user (default "" (WebSocket.md_message message_data))
           (WebSocket.md_session_id message_data)
           (WebSocket.md_preferred_model message_data)
           (send_text socket payload w).2 in
       w' = called.2
       /\ match called.1 with
          | Returns response =>
              WebSocket.user_sessions manager' !! user_id
              = if WebSocket.session_truthy (ChatService.result_session_id response)
                then ChatService.result_session_id response
                else None
          | Raises _ => WebSocket.user_sessions manager' !! user_id = None
          end.
Proof.
  intros Hsock Hsend Hjson Hmessage. unfold WebSocket.handle_chat_message.
  rewrite Hmessage. cbn [negb].
  destruct (Hjson (WebSocket.Typing "start" (loop_time w))) as [payload Hpayload].
  destruct (Hsend payload w) as [e He].
  unfold WebSocket.send_personal_message at 1. rewrite Hsock, Hpayload.
  destruct (send_text socket payload w) as [[u|e'] w1] eqn:Hfirst;
    cbn in He; [discriminate|]. injection He as ->.
  destruct (disconnect_removes manager user_id socket Hsock) as [Hgone Hsess].
  set (manager1 := WebSocket.disconnect manager user_id) in *.
  destruct (process_message user (default "" (WebSocket.md_message message_data))
              (WebSocket.md_session_id message_data)
              (WebSocket.md_preferred_model message_data) w1)
    as [[response|e'] w2] eqn:Hservice.
  - rewrite !(send_personal_message_absent manager1) by exact Hgone.
    exists payload, e. split; [reflexivity|]. split; [reflexivity|].
    cbv zeta. rewrite Hfirst. cbn [fst snd]. rewrite Hservice. cbn [fst snd].
    destruct (WebSocket.session_truthy (ChatService.result_session_id response))
      eqn:Htruthy; cbn [WebSocket.active_connections WebSocket.user_sessions].
    + split; [exact Hgone|]. split; [reflexivity|].
      rewrite lookup_insert_eq.
      destruct (ChatService.result_session_id response); [reflexivity|discriminate].
    + split; [exact Hgone|]. split; [reflexivity | exact Hsess].
  - rewrite (send_personal_message_absent manager1) by exact Hgone.
    exists payload, e. split; [reflexivity|]. split; [reflexivity|].
    cbv zeta. rewrite Hfirst. cbn [fst snd]. rewrite Hservice. cbn [fst snd].
    split; [exact Hgone|]. split; [reflexivity | exact Hsess].
Qed.

End ChatHandlerFacts.

Example broadcast_drops_bob :
  let '(manager, log, w) :=
    WebSocket.broadcast bool nat WebSocketFixtures.send_text
      WebSocketFixtures.json_dumps WebSocketFixtures.two_users
      (WebSocket.Error "maintenance" Binary64.zero) 0 in
  WebSocket.active_connections manager = [("alice", true)]
  /\ WebSocket.user_sessions manager !! "bob" = None
  /\ log.*1.*1 = ["alice"; "bob"].
Proof. vm_compute. auto. Qed.

Lemma chat_message_replies_witness :
  WebSocket.dict_get (WebSocket.active_connections WebSocketFixtures.two_users) "alice"
  = Some true
  /\ (forall payload w0, (WebSocketFixtures.send_text true payload w0).1 = Returns tt)
  /\ (forall m, exists payload, WebSocketFixtures.json_dumps m = Returns payload)
  /\ WebSocket.active_connections
       (WebSocket.handle_chat_message bool nat WebSocketFixtures.send_text
          WebSocketFixtures.json_dumps WebSocketFixtures.loop_time
          WebSocketFixtures.process_message 1 WebSocketFixtures.question "alice"
          WebSocketFixtures.two_users 0).1.1
     = WebSocket.active_connections WebSocketFixtures.two_users.
Proof.
  assert (H1 : WebSocket.dict_get
                 (WebSocket.active_connections WebSocketFixtures.two_users) "alice"
               = Some true) by reflexivity.
  assert (H2 : forall payload w0,
            (WebSocketFixtures.send_text true payload w0).1 = Returns tt)
    by (intros payload w0; reflexivity).
  assert (H3 : forall m, exists payload, WebSocketFixtures.json_dumps m = Returns payload)
    by (intros m; eexists; reflexivity).
  split; [exact H1|]. split; [exact H2|]. split; [exact H3|].
  pose proof (chat_message_replies bool nat WebSocketFixtures.send_text
                WebSocketFixtures.json_dumps WebSocketFixtures.loop_time
                WebSocketFixtures.process_message 1 WebSocketFixtures.question "alice"
                WebSocketFixtures.two_users true 0 H1 H2 H3) as Hreplies.
  cbv zeta in Hreplies. revert Hreplies.
  generalize (WebSocket.handle_chat_message bool nat WebSocketFixtures.send_text
                WebSocketFixtures.json_dumps WebSocketFixtures.loop_time
                WebSocketFixtures.process_message 1 WebSocketFixtures.question "alice"
                WebSocketFixtures.two_users 0).
  intros [[manager' log] w'] [Hactive _]. exact Hactive.
Defined.

Lemma chat_message_on_dead_socket_witness :
  WebSocket.dict_get (WebSocket.active_connections WebSocketFixtures.two_users) "bob"
  = Some false
  /\ (forall payload w0,
        exists e, (WebSocketFixtures.send_text false payload w0).1 = Raises e)
  /\ (forall m, exists payload, WebSocketFixtures.json_dumps m = Returns payload)
  /\ str_truthy (default "" (WebSocket.md_message WebSocketFixtures.question)) = true
  /\ WebSocket.dict_get
       (WebSocket.active_connections
          (WebSocket.handle_chat_message bool nat WebSocketFixtures.send_text
             WebSocketFixtures.json_dumps WebSocketFixtures.loop_time
             WebSocketFixtures.process_message 1 WebSocketFixtures.question "bob"
             WebSocketFixtures.two_users 0).1.1) "bob"
     = None.
Proof.
  assert (H1 : WebSocket.dict_get
                 (WebSocket.active_connections WebSocketFixtures.two_users) "bob"
               = Some false) by reflexivity.
  assert (H2 : forall payload w0,
            exists e, (WebSocketFixtures.send_text false payload w0).1 = Raises e)
    by (intros payload w0; eexists; reflexivity).
  assert (H3 : forall m, exists payload, WebSocketFixtures.json_dumps m = Returns payload)
    by (intros m; eexists; reflexivity).
  assert (H4 : str_truthy (default "" (WebSocket.md_message WebSocketFixtures.question))
               = true) by reflexivity.
  split; [exact H1|]. split; [exact H2|]. split; [exact H3|]. split; [exact H4|].
  pose proof (chat_message_on_dead_socket bool nat WebSocketFixtures.send_text
                WebSocketFixtures.json_dumps WebSocketFixtures.loop_time
                WebSocketFixtures.process_message 1 WebSocketFixtures.question "bob"
                WebSocketFixtures.two_users false 0 H1 H2 H3 H4) as Hdead.
  revert Hdead.
  generalize (WebSocket.handle_chat_message bool nat WebSocketFixtures.send_text
                WebSocketFixtures.json_dumps WebSocketFixtures.loop_time
                WebSocketFixtures.process_message 1 WebSocketFixtures.question "bob"
                WebSocketFixtures.two_users 0).
  intros [[manager' log] w'] (payload & e & _ & _ & Hgone & _). exact Hgone.
Defined.

Example dead_socket_leaves_session :
  let '(manager, log, w) :=
    WebSocket.handle_chat_message bool nat WebSocketFixtures.send_text
      WebSocketFixtures.json_dumps WebSocketFixtures.loop_time
      WebSocketFixtures.process_message 1 WebSocketFixtures.question "bob"
      WebSocketFixtures.two_users 0 in
  WebSocket.active_connections manager = [("alice", true)]
  /\ WebSocket.user_sessions manager !! "bob" = Some "s-1"
  /\ length log = 1.
Proof. vm_compute. auto. Qed.

(** ** The chat service and the REST endpoint *)

Section ServiceFacts.

Context {F : Type} `{Arith F}.

Variable DB : Type.
Variable _get_or_create_session :
  Z -> option string -> DB -> outcome ChatService.ChatSession * DB.
Variable _get_conversation_history :
  Z -> DB -> outcome (list (Conversation.Turn F)) * DB.
Variable _save_messages :
  Z -> string -> Pipeline.ConversationResponse F -> DB -> outcome unit * DB.
Variable _update_session : Z -> option string -> DB -> outcome unit * DB.
Variable process_user_query :
  string -> string -> string -> option (list (Conversation.Turn F)) -> option string
  -> outcome (Pipeline.ConversationResponse F).

Local Abbreviation process_message :=
  (ChatService.process_message DB _get_or_create_session _get_conversation_history
     _save_messages _update_session process_user_query).

(** X26.  What [process_message] reports.  [process_message] never
    raises, and its result is fixed by the calls it makes, in this order on
    the database: the session lookup, the history query of that session,
    the pipeline (with the session's id, the role "developer" and that
    history), the saving of the two messages and the session update.  If
    all five returned, the result is the answer built from the session row
    and the pipeline's result, whose [success] is the pipeline's.  If one
    of them raised, the later ones are not made, the database is as that
    call left it, and the result is the fixed error dictionary, which has
    no session id and no response, also when the messages had already been
    saved.  Hence [success = True] only if all five calls returned and the
    pipeline's own result had [success = True]; the result then carries the
    session id of the session row and the pipeline's content. *)
Theorem process_message_reports (user_id : Z) (message : string)
    (session_id preferred_model : option string) (db : DB) :
  exists result db',
    process_message user_id message session_id preferred_model db
    = (Returns result, db')
    /\ match _get_or_create_session user_id session_id db with
       | (Raises _, db1) => result = ChatService.failed /\ db' = db1
       | (Returns session, db1) =>
           match _get_conversation_history (ChatService.id session) db1 with
           | (Raises _, db2) => result = ChatService.failed /\ db' = db2
           | (Returns history, db2) =>
               match process_user_query message (ChatService.session_id session)
                       "developer" (Some history) preferred_model with
               | Raises _ => result = ChatService.failed /\ db' = db2
               | Returns r =>
                   match _save_messages (ChatService.id session) message r db2 with
                   | (Raises _, db3) => result = ChatService.failed /\ db' = db3
                   | (Returns _, db3) =>
                       match _update_session (ChatService.id session)
                               (Pipeline.model_used r) db3 with
                       | (Raises _, db4) => result = ChatService.failed /\ db' = db4
                       | (Returns _, db4) =>
                           result = ChatService.answer session r /\ db' = db4
                           /\ ChatService.success result = Pipeline.success r
                           /\ ChatService.result_session_id result
                              = Some (ChatService.session_id session)
                           /\ ChatService.response result = Pipeline.content r
                       end
                   end
               end
           end
       end
    /\ (result = ChatService.failed ->
        ChatService.success result = false
        /\ ChatService.result_session_id result = None
        /\ ChatService.response result = None
        /\ ChatService.error result = Some "Произошла ошибка при обработке сообщения")
    /\ (ChatService.success result = true ->
        exists session history r db1 db2 db3 u1 u2,
          _get_or_create_session user_id session_id db = (Returns session, db1)
          /\ _get_conversation_history (ChatService.id session) db1
             = (Returns history, db2)
          /\ process_user_query message (ChatService.session_id session) "developer"
               (Some history) preferred_model = Returns r
          /\ Pipeline.success r = true
          /\ _save_messages (ChatService.id session) message r db2 = (Returns u1, db3)
          /\ _update_session (ChatService.id session) (Pipeline.model_used r) db3
             = (Returns u2, db')
          /\ ChatService.result_session_id result
             = Some (ChatService.session_id session)
          /\ ChatService.response result = Pipeline.content r)
    /\ (ChatService.success result = false ->
        (result = ChatService.failed
         /\ ChatService.result_session_id result = None
         /\ ChatService.response result = None
         /\ ChatService.error result = Some "Произошла ошибка при обработке сообщения")
        \/ exists session r,
             result = ChatService.answer session r /\ Pipeline.success r = false).
Proof.
  assert (Hfailed : forall result : ChatService.ServiceResult F,
            result = ChatService.failed ->
            ChatService.success result = false
            /\ ChatService.result_session_id result = None
            /\ ChatService.response result = None
            /\ ChatService.error result
               = Some "Произошла ошибка при обработке сообщения")
    by (intros result ->; repeat split; reflexivity).
  unfold ChatService.process_message, ChatService.process_message_body,
    ChatService.and_then.
  destruct (_get_or_create_session user_id session_id db) as [[session|e] db1] eqn:H1.
  2:{ eexists _, _. split; [reflexivity|]. split; [auto|]. split; [apply Hfailed|].
      split; [discriminate|]. intros _. left. auto. }
  destruct (_get_conversation_history (ChatService.id session) db1)
    as [[history|e] db2] eqn:H2.
  2:{ eexists _, _. split; [reflexivity|]. split; [auto|]. split; [apply Hfailed|].
      split; [discriminate|]. intros _. left. auto. }
  destruct (process_user_query message (ChatService.session_id session) "developer"
              (Some history) preferred_model) as [r|e] eqn:H3.
  2:{ eexists _, _. split; [reflexivity|]. split; [auto|]. split; [apply Hfailed|].
      split; [discriminate|]. intros _. left. auto. }
  destruct (_save_messages (ChatService.id session) message r db2)
    as [[u1|e] db3] eqn:H4.
  2:{ eexists _, _. split; [reflexivity|]. split; [auto|]. split; [apply Hfailed|].
      split; [discriminate|]. intros _. left. auto. }
  destruct (_update_session (ChatService.id session) (Pipeline.model_used r) db3)
    as [[u2|e] db4] eqn:H5.
  2:{ eexists _, _. split; [reflexivity|]. split; [auto|]. split; [apply Hfailed|].
      split; [discriminate|]. intros _. left. auto. }
  eexists _, _. split; [reflexivity|].
  split; [auto 10|]. split; [apply Hfailed|].
  cbn [ChatService.success ChatService.answer].
  split.
  - intros Hs. exists session, history, r, db1, db2, db3, u1, u2. auto 10.
  - intros Hs. right. exists session, r. auto.
Qed.

End ServiceFacts.

Section RestFacts.

Context {F : Type} `{Arith F}.

Variable World : Type.
Variable process_message :
  Z -> string -> option string -> option string -> World
  -> outcome (ChatService.ServiceResult F) * World.
Variable rejected : ChatService.ServiceResult F -> exn.

(** X27.  The REST endpoint hides every failure behind one message.
    [send_message] returns a body only when the chat service returned a
    dictionary with [success = True] in which the session id, the
    response and the model are set; the body then repeats them.  In every
    other case (the service raised, it reported [success = False] with or
    without an error text, or a field is missing) the handler raises an
    [HTTPException] with status 500 and the detail "Внутренняя ошибка
    сервера": the error text of the service is never the detail. *)
Theorem send_message_hides_errors (request : Rest.ChatMessageRequest)
    (current_user : Z) (w : World) :
  let called :=
    process_message current_user (Rest.message request) (Rest.session_id request)
      (Rest.preferred_model request) w in
  let '(reply, w') := Rest.send_message World process_message rejected request
                        current_user w in
  w' = called.2
  /\ match reply with
     | Rest.Ok body =>
         exists r,
           called.1 = Returns r
           /\ ChatService.success r = true
           /\ Rest.success body = true
           /\ ChatService.result_session_id r = Some (Rest.response_session_id body)
           /\ ChatService.response r = Some (Rest.response body)
           /\ ChatService.model_used r = Some (Rest.model_used body)
     | Rest.HTTPException status_code detail =>
         status_code = 500%Z /\ detail = "Внутренняя ошибка сервера"
         /\ (forall r, called.1 = Returns r ->
             ChatService.success r = false
             \/ ChatService.result_session_id r = None
             \/ ChatService.response r = None
             \/ ChatService.model_used r = None
             \/ ChatService.context_sources r = None
             \/ ChatService.similarity_scores r = None
             \/ ChatService.response_time r = None)
     end.
Proof.
  intros called. unfold Rest.send_message, Rest.send_message_body. fold called.
  destruct called as [[r|e] w1]; cbn [fst snd].
  - destruct (ChatService.success r) eqn:Hs; cbn [negb].
    + unfold Rest.build_response.
      destruct (ChatService.result_session_id r) as [sid|] eqn:H1;
        [|split; [reflexivity|]; split; [reflexivity|]; split; [reflexivity|];
          intros r' [= <-]; auto 10].
      destruct (ChatService.response r) as [resp|] eqn:H2;
        [|split; [reflexivity|]; split; [reflexivity|]; split; [reflexivity|];
          intros r' [= <-]; auto 10].
      destruct (ChatService.model_used r) as [m|] eqn:H3;
        [|split; [reflexivity|]; split; [reflexivity|]; split; [reflexivity|];
          intros r' [= <-]; auto 10].
      destruct (ChatService.context_sources r) as [cs|] eqn:H4;
        [|split; [reflexivity|]; split; [reflexivity|]; split; [reflexivity|];
          intros r' [= <-]; auto 10].
      destruct (ChatService.similarity_scores r) as [ss|] eqn:H5;
        [|split; [reflexivity|]; split; [reflexivity|]; split; [reflexivity|];
          intros r' [= <-]; auto 10].
      destruct (ChatService.response_time r) as [rt|] eqn:H6;
        [|split; [reflexivity|]; split; [reflexivity|]; split; [reflexivity|];
          intros r' [= <-]; auto 10].
      split; [reflexivity|]. exists r. cbn. auto 10.
    + split; [reflexivity|]. split; [reflexivity|]. split; [reflexivity|].
      intros r' [= <-]. auto.
  - split; [reflexivity|]. split; [reflexivity|]. split; [reflexivity|].
    intros r' [=].
Qed.

End RestFacts.

(** ** Updating a document *)

Section UpdateFacts.

Context {F C : Type}.

Variable Coll : Type.
Variable Rng : Type.
Variable uuid4 : Rng -> string * Rng.
Variable encode_text : list C -> outcome (list F).
Variable collection_update :
  list string -> list (list C) -> list (gmap string Chunker.MetaVal)
  -> list (list F) -> Coll -> outcome unit * Coll.

Lemma dict_new_fresh (heap : Update.Heap) : heap !! (Update.dict_new heap).1 = None.
Proof.
  unfold Update.dict_new. cbn [fst]. apply not_elem_of_dom. apply is_fresh.
Qed.

(** X28.  [update_document] writes into the caller's dictionary.  When
    the caller passes a non-empty metadata dictionary and the new text can
    be encoded, the call sets ["updated_at"] in that very dictionary (to a
    fresh UUID string) and leaves its other keys alone, and it does so
    whether [collection.update] then succeeds or raises (in which case the
    call returns [False]).  When the caller passes an empty dictionary,
    or none, a new dictionary is stamped instead and the caller's is left
    as it was; when the text cannot be encoded, nothing is written and the
    call returns [False]. *)
Theorem update_document_stamps_argument (doc_id : string) (new_text : list C)
    (r : Update.ref) (metadata : gmap string Chunker.MetaVal)
    (rng : Rng) (coll : Coll) (heap : Update.Heap) :
  heap !! r = Some metadata ->
  let '(ok, rng', coll', heap') :=
    Update.update_document Coll Rng uuid4 encode_text collection_update doc_id new_text
      (Some r) rng coll heap in
  match encode_text new_text with
  | Returns new_embedding =>
      rng' = (uuid4 rng).2
      /\ (if bool_decide (metadata = ∅)
          then heap' !! r = Some metadata
          else
            let updated :=
              collection_update [doc_id] [new_text]
                [<["updated_at" := Chunker.MStr (uuid4 rng).1]> metadata]
                [new_embedding] coll in
            heap' !! r
            = Some (<["updated_at" := Chunker.MStr (uuid4 rng).1]> metadata)
            /\ ok = Update.returned updated.1 /\ coll' = updated.2)
      /\ (forall r' : Update.ref, r' <> r -> is_Some (heap !! r') ->
          heap' !! r' = heap !! r')
  | Raises _ => ok = false /\ rng' = rng /\ coll' = coll /\ heap' = heap
  end.
Proof.
  intros Hr. unfold Update.update_document.
  destruct (encode_text new_text) as [new_embedding|e]; [|auto].
  assert (Hat0 : Update.dict_at heap r = metadata)
    by (unfold Update.dict_at; rewrite Hr; reflexivity).
  unfold Update.metadata_or_new. rewrite Hat0.
  destruct (decide (metadata = ∅)) as [Hempty|Hfull].
  - rewrite !bool_decide_eq_true_2 by exact Hempty.
    pose proof (dict_new_fresh heap) as Hfresh.
    destruct (Update.dict_new heap) as [r0 heap0] eqn:Hnew. cbn [fst] in Hfresh.
    assert (Hheap0 : heap0 = <[r0 := ∅]> heap).
    { unfold Update.dict_new in Hnew. injection Hnew as <- <-. reflexivity. }
    assert (Hne : r0 <> r) by (intros ->; rewrite Hr in Hfresh; discriminate).
    destruct (uuid4 rng) as [stamp rng1]. cbn [fst snd].
    assert (Hkeep : forall r', r' <> r0 ->
              Update.dict_store heap0 r0 "updated_at" (Chunker.MStr stamp) !! r'
              = heap !! r').
    { intros r' Hr'. subst heap0. unfold Update.dict_store, Update.Heap, Update.ref.
      rewrite !lookup_insert_ne by congruence. reflexivity. }
    destruct (collection_update _ _ _ _ coll) as [[u|e] coll1].
    + split; [reflexivity|]. split; [rewrite Hkeep by congruence; exact Hr|].
      intros r' Hr' [m Hm]. apply Hkeep. intros ->. rewrite Hfresh in Hm. discriminate.
    + split; [reflexivity|]. split; [rewrite Hkeep by congruence; exact Hr|].
      intros r' Hr' [m Hm]. apply Hkeep. intros ->. rewrite Hfresh in Hm. discriminate.
  - rewrite !bool_decide_eq_false_2 by exact Hfull.
    destruct (uuid4 rng) as [stamp rng1]. cbn [fst snd].
    assert (Hat : Update.dict_at
                    (Update.dict_store heap r "updated_at" (Chunker.MStr stamp)) r
                  = <["updated_at" := Chunker.MStr stamp]> metadata).
    { unfold Update.dict_at at 1. unfold Update.dict_store, Update.Heap, Update.ref.
      rewrite lookup_insert_eq. cbn [default]. rewrite Hat0. reflexivity. }
    rewrite Hat.
    assert (Hself : Update.dict_store heap r "updated_at" (Chunker.MStr stamp) !! r
                    = Some (<["updated_at" := Chunker.MStr stamp]> metadata)).
    { unfold Update.dict_store, Update.Heap, Update.ref.
      rewrite lookup_insert_eq. rewrite Hat0. reflexivity. }
    assert (Hother : forall r', r' <> r ->
              Update.dict_store heap r "updated_at" (Chunker.MStr stamp) !! r'
              = heap !! r').
    { intros r' Hr'. unfold Update.dict_store, Update.Heap, Update.ref.
      rewrite lookup_insert_ne by congruence. reflexivity. }
    destruct (collection_update [doc_id] [new_text]
                [<["updated_at" := Chunker.MStr stamp]> metadata] [new_embedding] coll)
      as [[u|e] coll1] eqn:Hupdate.
    + split; [reflexivity|]. split; [split; [exact Hself|split; reflexivity]|].
      intros r' Hr' _. apply Hother. exact Hr'.
    + split; [reflexivity|]. split; [split; [exact Hself|split; reflexivity]|].
      intros r' Hr' _. apply Hother. exact Hr'.
Qed.

End UpdateFacts.

Lemma update_document_stamps_argument_witness :
  UpdateFixtures.heap !! 1%positive = Some UpdateFixtures.callers_metadata
  /\ (Update.update_document (list (list string)) nat IngestFixtures.uuid4
        IngestFixtures.encode_text UpdateFixtures.collection_update
        "doc-7" [1; 2; 3] (@Some Update.ref 1%positive) 0 [] UpdateFixtures.heap).2
     !! 1%positive
     = Some (<["updated_at" := Chunker.MStr (IngestFixtures.uuid4 0).1]>
               UpdateFixtures.callers_metadata).
Proof.
  assert (H1 : UpdateFixtures.heap !! 1%positive = Some UpdateFixtures.callers_metadata)
    by reflexivity.
  split; [exact H1|].
  pose proof (update_document_stamps_argument (list (list string)) nat
                IngestFixtures.uuid4 IngestFixtures.encode_text
                UpdateFixtures.collection_update "doc-7" [1; 2; 3] 1%positive
                UpdateFixtures.callers_metadata 0 [] UpdateFixtures.heap H1) as Hstamp.
  revert Hstamp.
  generalize (Update.update_document (list (list string)) nat IngestFixtures.uuid4
                IngestFixtures.encode_text UpdateFixtures.collection_update
                "doc-7" [1; 2; 3] (@Some Update.ref 1%positive) 0 []
                UpdateFixtures.heap).
  intros [[[ok rng'] coll'] heap'] Hstamp.
  cbv beta iota zeta delta [IngestFixtures.encode_text] in Hstamp.
  destruct Hstamp as (_ & Hheap & _).
  assert (Hne : UpdateFixtures.callers_metadata <> ∅)
    by (vm_compute; discriminate).
  rewrite bool_decide_eq_false_2 in Hheap by exact Hne.
  destruct Hheap as (Hheap & _). exact Hheap.
Defined.

Example update_document_fails_but_stamps :
  (Update.update_document (list (list string)) nat IngestFixtures.uuid4
     IngestFixtures.encode_text UpdateFixtures.collection_update
     "doc-7" [1; 2; 3] (Some 1%positive) 0 [] UpdateFixtures.heap).1.1.1
  = false.
Proof. vm_compute. reflexivity. Qed.

(** ** From knowledge documents to stored chunks *)

Section KnowledgeFacts.

Context {F C : Type}.

Variable Coll : Type.
Variable Rng : Type.
Variable uuid4 : Rng -> string * Rng.
Variable encode_text : list C -> outcome (list F).
Variable collection_add :
  list string -> list (list C) -> list (gmap string Chunker.MetaVal)
  -> list (list F) -> Coll -> outcome unit * Coll.

Implicit Types (self : Chunker.DocumentChunker).
Implicit Types (documents : list (Chunker.SourceDocument C)).

Lemma chunk_documents_loop_chunks fuel self documents (all_chunks : list (Chunker.Chunk C)) :
  (0 <= Chunker.chunk_overlap self < Chunker.chunk_size self)%Z ->
  Forall (fun doc => length (ChunkSpec.content_of doc) <= fuel) documents ->
  Chunker.chunk_documents_loop fuel self documents all_chunks
  = Some (all_chunks ++ concat (map (ChunkSpec.chunks_of self) documents)).
Proof.
  intros Hcfg Hfuel. revert all_chunks.
  induction Hfuel as [|doc rest Hdoc _ IH]; intros all_chunks.
  - cbn. rewrite app_nil_r. reflexivity.
  - cbn [Chunker.chunk_documents_loop map concat].
    fold (ChunkSpec.content_of doc).
    pose proof (chunk_text_spec fuel self (ChunkSpec.content_of doc)
                  (Some (default ∅ (Chunker.doc_metadata doc)))) as Hspec.
    cbv zeta in Hspec. rewrite Hspec by assumption.
    rewrite IH, <- app_assoc. reflexivity.
Qed.

Lemma length_concat_chunks self documents :
  length (concat (map (ChunkSpec.chunks_of self) documents))
  = sum_list (map (fun doc => ChunkSpec.count_of self (length (ChunkSpec.content_of doc)))
                documents).
Proof.
  induction documents as [|doc rest IH]; [reflexivity|].
  cbn [map concat sum_list sum_list_with]. rewrite length_app, IH.
  unfold ChunkSpec.chunks_of. rewrite length_map, length_seq. reflexivity.
Qed.

Lemma encode_all (documents : list (Chunker.SourceDocument C)) :
  (forall text, exists vector, encode_text text = Returns vector) ->
  exists vectors,
    Forall2 (fun doc vector => encode_text (IngestSpec.text_of doc) = Returns vector)
      documents vectors.
Proof.
  intros Htotal. induction documents as [|doc rest [vectors IH]].
  - exists []. constructor.
  - destruct (Htotal (IngestSpec.text_of doc)) as [vector Hvector].
    exists (vector :: vectors). constructor; assumption.
Qed.

Lemma make_chunk_keeps_metadata self (text : list C)
    (metadata : gmap string Chunker.MetaVal) (start : Z) (key : string)
    (value : Chunker.MetaVal) :
  metadata !! key = Some value ->
  Chunker.metadata (Chunker.make_chunk self text (Some metadata) start) !! key
  = Some value.
Proof.
  intros Hkey. unfold Chunker.make_chunk, Chunker.metadata_truthy.
  cbn [Chunker.metadata default].
  destruct (decide (metadata = ∅)) as [->|Hne].
  - rewrite lookup_empty in Hkey. discriminate.
  - rewrite bool_decide_eq_false_2 by exact Hne. cbn [negb].
    apply lookup_union_Some_l. exact Hkey.
Qed.

(** X29.  One stored id per chunk.  With [0 <= chunk_overlap <
    chunk_size] and an embedding model that encodes every text,
    [add_knowledge_documents] returns (a number of loop turns equal to the
    longest content is enough).  It makes, for each document in order,
    [ceil(len(content) / (chunk_size - chunk_overlap))] chunks; when the
    collection accepts them it returns exactly one id per chunk, and it
    raises only if there is at least one chunk.  Every chunk is a window of
    [chunk_size] characters of the content of one of the documents and
    carries every entry of that document's metadata, which takes precedence
    over the chunk's own [start_pos], [end_pos] and [chunk_size]. *)
Theorem knowledge_documents_one_id_per_chunk fuel self documents
    (rng : Rng) (coll : Coll) :
  (0 <= Chunker.chunk_overlap self < Chunker.chunk_size self)%Z ->
  Forall (fun doc => length (ChunkSpec.content_of doc) <= fuel) documents ->
  (forall text, exists vector, encode_text text = Returns vector) ->
  exists chunks o rng' coll',
    Chunker.chunk_documents fuel self documents = Some chunks
    /\ length chunks
       = sum_list (map (fun doc =>
                          ChunkSpec.count_of self (length (ChunkSpec.content_of doc)))
                     documents)
    /\ Ingest.add_knowledge_documents Coll Rng uuid4 encode_text collection_add
         fuel self documents rng coll = Some (o, rng', coll')
    /\ match o with
       | Returns doc_ids => length doc_ids = length chunks
       | Raises _ => chunks <> []
       end
    /\ Forall (fun chunk =>
                 exists doc (k : nat),
                   doc ∈ documents
                   /\ Chunker.text chunk
                      = take (Z.to_nat (Chunker.chunk_size self))
                          (drop (k * ChunkSpec.step_of self) (ChunkSpec.content_of doc))
                   /\ forall key value,
                        default ∅ (Chunker.doc_metadata doc) !! key = Some value ->
                        Chunker.metadata chunk !! key = Some value)
         chunks.
Proof.
  intros Hcfg Hfuel Htotal.
  set (chunks := concat (map (ChunkSpec.chunks_of self) documents)).
  assert (Hchunks : Chunker.chunk_documents fuel self documents = Some chunks).
  { unfold Chunker.chunk_documents.
    rewrite chunk_documents_loop_chunks by assumption. reflexivity. }
  assert (Hwindows : Forall (fun chunk =>
                 exists doc (k : nat),
                   doc ∈ documents
                   /\ Chunker.text chunk
                      = take (Z.to_nat (Chunker.chunk_size self))
                          (drop (k * ChunkSpec.step_of self) (ChunkSpec.content_of doc))
                   /\ forall key value,
                        default ∅ (Chunker.doc_metadata doc) !! key = Some value ->
                        Chunker.metadata chunk !! key = Some value) chunks).
  { apply Forall_forall. intros chunk Hin. subst chunks.
    apply list_elem_of_In in Hin. apply in_concat in Hin.
    destruct Hin as (group & Hgroup & Hchunk).
    apply in_map_iff in Hgroup. destruct Hgroup as (doc & <- & Hdoc).
    unfold ChunkSpec.chunks_of in Hchunk. apply in_map_iff in Hchunk.
    destruct Hchunk as (k & <- & _).
    exists doc, k. split; [apply list_elem_of_In; exact Hdoc|]. split.
    - unfold Chunker.make_chunk. cbn [Chunker.text].
      rewrite py_slice_window by lia. rewrite Nat2Z.id. reflexivity.
    - intros key value Hkey. apply make_chunk_keeps_metadata. exact Hkey. }
  unfold Ingest.add_knowledge_documents. rewrite Hchunks.
  destruct chunks as [|chunk more] eqn:Hshape.
  - exists [], (Returns []), rng, coll.
    split; [reflexivity|]. split; [rewrite <- length_concat_chunks; fold chunks;
                                   rewrite Hshape; reflexivity|].
    split; [reflexivity|]. split; [reflexivity | constructor].
  - rewrite <- Hshape in *.
    destruct (encode_all (map (Ingest.chunk_document (C:=C)) chunks) Htotal)
      as [vectors Hvectors].
    unfold Ingest.add_documents.
    assert (Htruthy : list_truthy (map (Ingest.chunk_document (C:=C)) chunks) = true)
      by (rewrite Hshape; reflexivity).
    rewrite Htruthy. cbn [negb].
    rewrite (add_documents_loop_maps Rng uuid4 encode_text _ vectors) by exact Hvectors.
    cbn [Ingest.ids Ingest.texts Ingest.metadatas Ingest.embeddings app].
    destruct (collection_add _ _ _ _ coll) as [[u|e] coll1].
    + eexists chunks, _, _, _. split; [reflexivity|].
      split; [rewrite <- length_concat_chunks; fold chunks; rewrite Hshape;
              reflexivity|].
      split; [reflexivity|]. split; [|exact Hwindows].
      rewrite (draw_length Rng uuid4), length_map. reflexivity.
    + eexists chunks, _, _, _. split; [reflexivity|].
      split; [rewrite <- length_concat_chunks; fold chunks; rewrite Hshape;
              reflexivity|].
      split; [reflexivity|]. split; [|exact Hwindows].
      rewrite Hshape. discriminate.
Qed.

End KnowledgeFacts.

Lemma knowledge_documents_one_id_per_chunk_witness :
  (0 <= Chunker.chunk_overlap ChunkerFixtures.ten_four
   < Chunker.chunk_size ChunkerFixtures.ten_four)%Z
  /\ Forall (fun doc : Chunker.SourceDocument nat =>
               length (ChunkSpec.content_of doc) <= 24)
       [KnowledgeFixtures.article]
  /\ (forall text, exists vector, IngestFixtures.encode_text text = Returns vector)
  /\ exists chunks,
       Chunker.chunk_documents 24 ChunkerFixtures.ten_four [KnowledgeFixtures.article]
       = Some chunks
       /\ length chunks = 4.
Proof.
  assert (H1 : (0 <= Chunker.chunk_overlap ChunkerFixtures.ten_four
                < Chunker.chunk_size ChunkerFixtures.ten_four)%Z)
    by (simpl; lia).
  assert (H2 : Forall (fun doc : Chunker.SourceDocument nat =>
                         length (ChunkSpec.content_of doc) <= 24)
                 [KnowledgeFixtures.article])
    by (repeat constructor).
  assert (H3 : forall text,
            exists vector, IngestFixtures.encode_text text = Returns vector)
    by (intros text; eexists; reflexivity).
  split; [exact H1|]. split; [exact H2|]. split; [exact H3|].
  destruct (knowledge_documents_one_id_per_chunk (list (list string)) nat
              IngestFixtures.uuid4 IngestFixtures.encode_text
              IngestFixtures.collection_add 24 ChunkerFixtures.ten_four
              [KnowledgeFixtures.article] 0 [] H1 H2 H3)
    as (chunks & o & rng' & coll' & Hchunks & Hlength & _).
  exists chunks. split; [exact Hchunks|]. rewrite Hlength. reflexivity.
Defined.

(** ** A page without an id *)

Section PageFacts.

Context {C : Type}.

Variable Net : Type.
Variable _get_space_pages : string -> Net -> outcome (list Confluence.Page) * Net.
Variable _get_page_content : string -> Net -> outcome (option (list C)) * Net.

Local Abbreviation sync_pages := (Confluence.sync_pages Net _get_page_content).

Lemma sync_pages_with_ids (self : Confluence.ConfluenceSync) (space_key : string)
    (pages : list Confluence.Page) (documents : list (Chunker.SourceDocument C))
    (net : Net) :
  Forall (fun page => is_Some (Confluence.id page)) pages ->
  exists documents' net',
    sync_pages self space_key pages documents net = (Returns documents', net')
    /\ forall rest,
         sync_pages self space_key (pages ++ rest) documents net
         = sync_pages self space_key rest documents' net'.
Proof.
  intros Hids. revert documents net.
  induction Hids as [|page pages [page_id_ Hid] _ IH]; intros documents net.
  - exists documents, net. split; reflexivity.
  - cbn [Confluence.sync_pages app]. unfold Confluence.page_id. rewrite Hid.
    destruct (_get_page_content page_id_ net) as [[content|e] net1].
    + destruct (Confluence.content_truthy content); apply IH.
    + apply IH.
Qed.

(** X30.  One page without an id empties its space.  When the listing
    of a space contains a page that has no ['id'], [_sync_space] returns
    no document at all for that space: the documents already built from
    the pages before it are dropped and the pages after it are not
    fetched, because the handler of the inner [try] reads [page['id']] for
    its log line and raises in its turn. *)
Theorem sync_space_page_without_id (self : Confluence.ConfluenceSync)
    (space_key : string) (net net1 : Net)
    (pages_before pages_after : list Confluence.Page) (page : Confluence.Page) :
  _get_space_pages space_key net
  = (Returns (pages_before ++ page :: pages_after), net1) ->
  Forall (fun p => is_Some (Confluence.id p)) pages_before ->
  Confluence.id page = None ->
  exists documents,
    sync_pages self space_key pages_before [] net1
    = (Returns documents, (sync_pages self space_key pages_before [] net1).2)
    /\ Confluence._sync_space Net _get_space_pages _get_page_content self space_key net
       = ([], (sync_pages self space_key pages_before [] net1).2).
Proof.
  intros Hlisting Hbefore Hpage. unfold Confluence._sync_space. rewrite Hlisting.
  destruct (sync_pages_with_ids self space_key pages_before [] net1 Hbefore)
    as (documents & net2 & Hrun & Hrest).
  exists documents. rewrite Hrun. cbn [snd]. split; [reflexivity|].
  rewrite Hrest. cbn [Confluence.sync_pages]. unfold Confluence.page_id.
  rewrite Hpage. reflexivity.
Qed.

End PageFacts.

Lemma sync_space_page_without_id_witness :
  KnowledgeFixtures.listing_with_gap "DEV" 0
  = (Returns ([IngestFixtures.one_page]
              ++ KnowledgeFixtures.page_without_id :: [IngestFixtures.one_page]), 1)
  /\ Forall (fun p => is_Some (Confluence.id p)) [IngestFixtures.one_page]
  /\ Confluence.id KnowledgeFixtures.page_without_id = None
  /\ Confluence._sync_space nat KnowledgeFixtures.listing_with_gap
       IngestFixtures._get_page_content IngestFixtures.configured "DEV" 0
     = ([], 2).
Proof.
  assert (H1 : KnowledgeFixtures.listing_with_gap "DEV" 0
               = (Returns ([IngestFixtures.one_page]
                           ++ KnowledgeFixtures.page_without_id
                              :: [IngestFixtures.one_page]), 1)) by reflexivity.
  assert (H2 : Forall (fun p => is_Some (Confluence.id p)) [IngestFixtures.one_page])
    by (repeat constructor; eexists; reflexivity).
  assert (H3 : Confluence.id KnowledgeFixtures.page_without_id = None) by reflexivity.
  split; [exact H1|]. split; [exact H2|]. split; [exact H3|].
  destruct (sync_space_page_without_id nat KnowledgeFixtures.listing_with_gap
              IngestFixtures._get_page_content IngestFixtures.configured "DEV" 0 1
              [IngestFixtures.one_page] [IngestFixtures.one_page]
              KnowledgeFixtures.page_without_id H1 H2 H3) as (documents & _ & Hsync).
  rewrite Hsync. reflexivity.
Defined.
